(** * Statistical-test visualizers: a shallow embedding

    The repository holds five stand-alone pygame programs.  Each module below
    embeds the part of one program that its event loop and its statistic
    functions are made of:

    - [Chi2GoodnessFit]  : [Chi_2_Goodness_Fit.py]
    - [TTest]            : [Week1_Simple_Effect/t_test.py]
    - [ChiSquare]        : [Week1_Simple_Effect/chi_square.py]
    - [OneSampleTTest]   : [Week1_Simple_Effect/one_sample_ttest.py]
    - [PairedTTest]      : [Week1_Simple_Effect/paired_ttest.py]

    Conventions.  Python [int] is [Z].  A Python [float] is read as the exact
    number it stands for: a rational [Q] in the programs that only add,
    multiply and divide, a real [R] where the code takes square roots or the
    value comes out of a distribution function.  Rounding is therefore not
    part of the model.  SciPy is not part of the repository: its entry points
    are parameters of the functions that call them. *)

From Stdlib Require Import ZArith QArith Qround Qreals Qabs Reals Lra Lqa Lia List Bool.
Import ListNotations.

Set Implicit Arguments.

(** ** The Python and pygame primitives the programs use *)

Module Py.

(** Exceptions the embedded code can raise. *)
Inductive PyExc : Type :=
| ZeroDivisionError
| ValueError
| IndexError
| AxisError.

Definition exc (A : Type) : Type := (PyExc + A)%type.

Definition ok {A : Type} (a : A) : exc A := inr a.
Definition raise {A : Type} (e : PyExc) : exc A := inl e.

Definition bind {A B : Type} (c : exc A) (k : A -> exc B) : exc B :=
  match c with
  | inl e => inl e
  | inr a => k a
  end.

Declare Scope py_scope.
Delimit Scope py_scope with py.
Notation "x <- c ;; k" := (bind c (fun x => k))
  (at level 61, c at next level, right associativity) : py_scope.

(** [for x in xs: ...] where the body may raise: left to right, stopping at
    the first exception. *)
Fixpoint mapM {A B : Type} (f : A -> exc B) (xs : list A) : exc (list B) :=
  match xs with
  | [] => ok []
  | x :: xs' =>
      bind (f x) (fun y => bind (mapM f xs') (fun ys => ok (y :: ys)))
  end.

(** [a < b] on floats. *)
Definition Qltb (a b : Q) : bool := negb (Qle_bool b a).

(** [max(a, b)] and [min(a, b)]: Python returns the first argument unless
    the second is strictly larger (smaller). *)
Definition py_max (a b : Q) : Q := if Qltb a b then b else a.
Definition py_min (a b : Q) : Q := if Qltb b a then b else a.

(** [int(x)]: truncation toward zero. *)
Definition py_int (x : Q) : Z := Z.quot (Qnum x) (Z.pos (Qden x)).

(** [x // 1]-style flooring of a float, kept as a float. *)
Definition py_floor (x : Q) : Q := inject_Z (Qfloor x).

(** [x / y]: true division raises on a zero divisor. *)
Definition py_truediv (x y : Q) : exc Q :=
  if Qeq_bool y 0 then raise ZeroDivisionError else ok (x / y).

(** [sum(xs)] on ints and on floats. *)
Definition zsum (xs : list Z) : Z := fold_left Z.add xs 0%Z.
Definition qsum (xs : list Q) : Q := fold_left Qplus xs 0.

(** [pygame.Rect(x, y, w, h)]: integer fields. *)
Record Rect : Type := mkRect { rx : Z; ry : Z; rw : Z; rh : Z }.

(** [pygame.Rect] built from floats keeps their integer part. *)
Definition rect_of (x y w h : Q) : Rect :=
  mkRect (py_int x) (py_int y) (py_int w) (py_int h).

(** [rect.collidepoint(pos)]: left and top edges are inside, right and
    bottom edges are not. *)
Definition collidepoint (r : Rect) (p : Z * Z) : bool :=
  ((rx r <=? fst p) && (fst p <? rx r + rw r) &&
   (ry r <=? snd p) && (snd p <? ry r + rh r))%Z.

(** The slider dictionaries
    [{"pos": (x, y), "width": w, "value": v, "min": lo, "max": hi,
      "dragging": flag}]. *)
Record Slider : Type := mkSlider {
  pos : Q * Q;
  width : Q;
  value : Q;
  smin : Q;
  smax : Q;
  dragging : bool
}.

Definition set_value (s : Slider) (v : Q) : Slider :=
  mkSlider (pos s) (width s) v (smin s) (smax s) (dragging s).

Definition set_dragging (s : Slider) (b : bool) : Slider :=
  mkSlider (pos s) (width s) (value s) (smin s) (smax s) b.

Definition set_geometry (s : Slider) (p : Q * Q) (w : Q) : Slider :=
  mkSlider p w (value s) (smin s) (smax s) (dragging s).

(** The hit area of a slider:
    [pygame.Rect(pos[0] - 5, pos[1] - 10, width + 10, 20)]. *)
Definition slider_rect (s : Slider) : Rect :=
  rect_of (fst (pos s) - 5) (snd (pos s) - 10) (width s + 10) 20.

(** Where a slider sits: its position and the width of its track. *)
Definition geometry (s : Slider) : Q * Q * Q := (pos s, width s).

(** No point lies in the hit areas of two sliders of the list. *)
Definition hit_areas_disjoint (ss : list Slider) : Prop :=
  forall (p : Z * Z) (i j : nat) (si sj : Slider),
    i <> j -> nth_error ss i = Some si -> nth_error ss j = Some sj ->
    collidepoint (slider_rect si) p = true ->
    collidepoint (slider_rect sj) p = false.

(** At most one slider of the list is being dragged. *)
Definition one_drag (ss : list Slider) : Prop :=
  forall (i j : nat) (si sj : Slider),
    i <> j -> nth_error ss i = Some si -> nth_error ss j = Some sj ->
    dragging si = true -> dragging sj = false.

(** [(mouse_x - pos[0]) / width * (max - min) + min]. *)
Definition slider_new_val (mouse_x : Z) (s : Slider) : exc Q :=
  (r <- py_truediv (inject_Z mouse_x - fst (pos s)) (width s) ;;
   ok (r * (smax s - smin s) + smin s))%py.

(** [max(slider["min"], min(slider["max"], new_val))]. *)
Definition clamp (s : Slider) (new_val : Q) : Q :=
  py_max (smin s) (py_min (smax s) new_val).

(** The body shared by every drag update:
    [new_val = ...; slider["value"] = max(min_, min(max_, new_val))]. *)
Definition drag_to (mouse_x : Z) (s : Slider) : exc Slider :=
  (v <- slider_new_val mouse_x s ;; ok (set_value s (clamp s v)))%py.

(** A slider is usable when its track has a positive width and its range
    is not empty, and in range when its value lies between its bounds. *)
Definition slider_ok (s : Slider) : Prop :=
  0 < width s /\ smin s <= smax s.

Definition slider_in_range (s : Slider) : Prop :=
  smin s <= value s /\ value s <= smax s.

(** A slider with the bounds [lo] and [hi], a track of positive width and
    a value within the bounds. *)
Definition bounded (lo hi : Q) (s : Slider) : Prop :=
  smin s = lo /\ smax s = hi /\ 0 < width s /\
  lo <= value s /\ value s <= hi.

(** What a drag to the pointer abscissa [mouse_x] makes of a slider whose
    track has a non-zero width. *)
Definition dragged (mouse_x : Z) (s : Slider) : Slider :=
  set_value s
    (clamp s ((inject_Z mouse_x - fst (pos s)) / width s
              * (smax s - smin s) + smin s)).

(** What the two slider loops make of a slider whose track has a non-zero
    width: a press inside the hit area grabs the slider and drags it to the
    pointer, a move drags a grabbed slider. *)
Definition pressed (mouse_pos : Z * Z) (s : Slider) : Slider :=
  if collidepoint (slider_rect s) mouse_pos
  then dragged (fst mouse_pos) (set_dragging s true) else s.

Definition moved (mouse_pos : Z * Z) (s : Slider) : Slider :=
  if dragging s then dragged (fst mouse_pos) s else s.

(** pygame key codes. *)
Definition K_BACKSPACE : Z := 8.
Definition K_ESCAPE : Z := 27.
Definition K_0 : Z := 48.
Definition K_9 : Z := 57.

(** [str(n)] for a non-negative int, as its decimal digits, most
    significant first; [fuel] bounds the number of digits. *)
Fixpoint digits_fuel (fuel : nat) (n : Z) : list Z :=
  match fuel with
  | O => [n mod 10]%Z
  | S fuel' =>
      if (n <? 10)%Z then [n]
      else digits_fuel fuel' (n / 10) ++ [n mod 10]%Z
  end.

Definition digits (n : Z) : list Z := digits_fuel (Z.to_nat n) n.

(** [int(s)] on a string of decimal digits. *)
Definition int_of_digits (ds : list Z) : Z :=
  fold_left (fun acc d => acc * 10 + d)%Z ds 0%Z.

(** [for i, x in enumerate(xs)]. *)
Definition enumerate {A : Type} (xs : list A) : list (nat * A) :=
  combine (seq 0 (length xs)) xs.

(** [seq[i]] with Python's [IndexError]. *)
Definition py_index {A : Type} (xs : list A) (i : nat) : exc A :=
  match nth_error xs i with
  | Some x => ok x
  | None => raise IndexError
  end.

(** [xs[n] = f(xs[n])] on a list that holds position [n]. *)
Fixpoint update_nth {A : Type} (n : nat) (f : A -> A) (xs : list A)
    : list A :=
  match n, xs with
  | _, [] => []
  | O, x :: xs' => f x :: xs'
  | S n', x :: xs' => x :: update_nth n' f xs'
  end.

(** The pygame events the loops dispatch on; [VIDEORESIZE] carries
    [event.w] and [event.h], [KEYDOWN] carries [event.key],
    [MOUSEBUTTONDOWN] carries [event.button], [MOUSEMOTION] carries the
    vertical component of [event.rel]. *)
Inductive Event : Type :=
| QUIT
| VIDEORESIZE (w h : Z)
| KEYDOWN (key : Z)
| MOUSEBUTTONDOWN (button : Z)
| MOUSEBUTTONUP
| MOUSEMOTION (rel_y : Z)
| OTHER.

End Py.

Import Py.
Local Open Scope py_scope.

(** ** [Chi_2_Goodness_Fit.py] *)

Module Chi2GoodnessFit.

(** Layout constants. *)
Definition HEADER_HEIGHT : Z := 60.
Definition RESULT_MARGIN : Z := 20.
Definition PANEL_MARGIN : Z := 15.
Definition H_MARGIN : Z := 20.
Definition CELL_WIDTH : Z := 100.
Definition CELL_HEIGHT : Z := 50.
Definition LABEL_COLUMN_WIDTH : Z := 140.
Definition VALUE_COLUMN_WIDTH : Z := 70.
Definition SLIDER_MIN_WIDTH : Z := 200.
Definition LABEL_SLIDER_GAP : Z := 20.
Definition SLIDER_VALUE_GAP : Z := 16.
Definition MIN_WIDTH : Z := 1000.
Definition MIN_HEIGHT : Z := 700.
Definition initial_width : Z := 1200.
Definition initial_height : Z := 800.

(** Game states. *)
Inductive Page : Type := MENU | GOODNESS_OF_FIT | INDEPENDENCE | TUTORIAL.

Definition Page_eqb (a b : Page) : bool :=
  match a, b with
  | MENU, MENU | GOODNESS_OF_FIT, GOODNESS_OF_FIT
  | INDEPENDENCE, INDEPENDENCE | TUTORIAL, TUTORIAL => true
  | _, _ => false
  end.

(** Default data. *)
Definition gof_categories_len : nat := 3.
Definition gof_observed : list Z := [74; 50; 20]%Z.
Definition gof_expected : list Q := [25; 427 # 10; 335 # 10].
Definition independence_colnames_len : Z := 3.
Definition independence_data : list (list Z) :=
  [[15; 20; 25]; [25; 20; 15]]%Z.

(** The editable cells [{"rect": ..., "value": ..., "active": ...}]. *)
Record Cell : Type := mkCell {
  rect : Rect;
  cvalue : Z;
  active : bool
}.

(** The part of the dictionary returned by [calculate_layout] that event
    handling reads back (through the draw functions) together with the
    panel geometry it is derived from. *)
Record Layout : Type := mkLayout {
  chart_left : Q; chart_top : Q; chart_width : Q; chart_height : Q;
  instructions_top : Q;
  panel_left : Q; panel_top : Q; panel_width : Q; panel_height : Q;
  toggle_rect : Rect;
  button_top : Q
}.

(** Calls into [scipy.stats], in the order they were made. *)
Inductive LibCall : Type :=
| CallChisquare (f_obs : list Z) (f_exp : list Q)
| CallChi2Contingency (observed : list (list Z)).

(** The module-level variables.  [active_cell] is a reference to one of the
    dictionaries of [independence_cells]: it is kept as the position of
    that dictionary.  [lib_calls] is not a variable of the program: it
    records the calls made to the statistics library. *)
Record Globals : Type := mkGlobals {
  WIDTH : Z;
  HEIGHT : Z;
  state : Page;
  sliders_gof_observed : list Slider;
  sliders_gof_expected : list Slider;
  independence_cells : list (list Cell);
  chi2_stat : Q;
  p_value : R;
  df : Z;
  has_calculated : bool;
  tutorial_page : Z;
  show_instructions : bool;
  calc_button : Rect;
  reset_button : Rect;
  active_cell : option (nat * nat);
  layout : Layout;
  running : bool;
  lib_calls : list LibCall
}.

Definition set_window (g : Globals) (w h : Z) : Globals :=
  mkGlobals w h (state g) (sliders_gof_observed g) (sliders_gof_expected g)
    (independence_cells g) (chi2_stat g) (p_value g) (df g)
    (has_calculated g) (tutorial_page g) (show_instructions g)
    (calc_button g) (reset_button g) (active_cell g) (layout g) (running g)
    (lib_calls g).

Definition set_state (g : Globals) (s : Page) : Globals :=
  mkGlobals (WIDTH g) (HEIGHT g) s (sliders_gof_observed g)
    (sliders_gof_expected g) (independence_cells g) (chi2_stat g)
    (p_value g) (df g) (has_calculated g) (tutorial_page g)
    (show_instructions g) (calc_button g) (reset_button g) (active_cell g)
    (layout g) (running g) (lib_calls g).

Definition set_sliders (g : Globals) (obs exp : list Slider) : Globals :=
  mkGlobals (WIDTH g) (HEIGHT g) (state g) obs exp (independence_cells g)
    (chi2_stat g) (p_value g) (df g) (has_calculated g) (tutorial_page g)
    (show_instructions g) (calc_button g) (reset_button g) (active_cell g)
    (layout g) (running g) (lib_calls g).

Definition set_cells (g : Globals) (cells : list (list Cell))
    (ac : option (nat * nat)) : Globals :=
  mkGlobals (WIDTH g) (HEIGHT g) (state g) (sliders_gof_observed g)
    (sliders_gof_expected g) cells (chi2_stat g) (p_value g) (df g)
    (has_calculated g) (tutorial_page g) (show_instructions g)
    (calc_button g) (reset_button g) ac (layout g) (running g)
    (lib_calls g).

Definition set_results (g : Globals) (stat : Q) (p : R) (d : Z) : Globals :=
  mkGlobals (WIDTH g) (HEIGHT g) (state g) (sliders_gof_observed g)
    (sliders_gof_expected g) (independence_cells g) stat p d
    (has_calculated g) (tutorial_page g) (show_instructions g)
    (calc_button g) (reset_button g) (active_cell g) (layout g) (running g)
    (lib_calls g).

Definition set_has_calculated (g : Globals) (b : bool) : Globals :=
  mkGlobals (WIDTH g) (HEIGHT g) (state g) (sliders_gof_observed g)
    (sliders_gof_expected g) (independence_cells g) (chi2_stat g)
    (p_value g) (df g) b (tutorial_page g) (show_instructions g)
    (calc_button g) (reset_button g) (active_cell g) (layout g) (running g)
    (lib_calls g).

Definition set_tutorial_page (g : Globals) (n : Z) : Globals :=
  mkGlobals (WIDTH g) (HEIGHT g) (state g) (sliders_gof_observed g)
    (sliders_gof_expected g) (independence_cells g) (chi2_stat g)
    (p_value g) (df g) (has_calculated g) n (show_instructions g)
    (calc_button g) (reset_button g) (active_cell g) (layout g) (running g)
    (lib_calls g).

Definition set_show_instructions (g : Globals) (b : bool) : Globals :=
  mkGlobals (WIDTH g) (HEIGHT g) (state g) (sliders_gof_observed g)
    (sliders_gof_expected g) (independence_cells g) (chi2_stat g)
    (p_value g) (df g) (has_calculated g) (tutorial_page g) b
    (calc_button g) (reset_button g) (active_cell g) (layout g) (running g)
    (lib_calls g).

Definition set_layout (g : Globals) (calc reset : Rect) (l : Layout)
    : Globals :=
  mkGlobals (WIDTH g) (HEIGHT g) (state g) (sliders_gof_observed g)
    (sliders_gof_expected g) (independence_cells g) (chi2_stat g)
    (p_value g) (df g) (has_calculated g) (tutorial_page g)
    (show_instructions g) calc reset (active_cell g) l (running g)
    (lib_calls g).

Definition set_running (g : Globals) (b : bool) : Globals :=
  mkGlobals (WIDTH g) (HEIGHT g) (state g) (sliders_gof_observed g)
    (sliders_gof_expected g) (independence_cells g) (chi2_stat g)
    (p_value g) (df g) (has_calculated g) (tutorial_page g)
    (show_instructions g) (calc_button g) (reset_button g) (active_cell g)
    (layout g) b (lib_calls g).

Definition log_call (g : Globals) (c : LibCall) : Globals :=
  mkGlobals (WIDTH g) (HEIGHT g) (state g) (sliders_gof_observed g)
    (sliders_gof_expected g) (independence_cells g) (chi2_stat g)
    (p_value g) (df g) (has_calculated g) (tutorial_page g)
    (show_instructions g) (calc_button g) (reset_button g) (active_cell g)
    (layout g) (running g) (lib_calls g ++ [c]).

(** *** The statistic engine *)

Section Engine.

(** [stats.chisquare(f_obs, f_exp)]: the statistic and the p-value, or an
    exception. *)
Variable stats_chisquare : list Z -> list Q -> exc (Q * R).

(** [stats.chi2_contingency(observed)]: statistic, p-value and degrees of
    freedom (the table of expected counts is dropped by the caller). *)
Variable stats_chi2_contingency : list (list Z) -> exc (Q * R * Z).

(** [observed = [int(slider["value"]) for slider in sliders_gof_observed]]. *)
Definition gof_observed_counts (g : Globals) : list Z :=
  map (fun slider => py_int (value slider)) (sliders_gof_observed g).

(** Lines 180-190 of [calculate_goodness_of_fit]: the expected counts
    handed to the library, from the proportion sliders and the observed
    total. *)
Definition gof_expected_counts (g : Globals) (total_observed : Z)
    : exc (list Q) :=
  let expected_props :=
    map (fun slider => value slider / 100) (sliders_gof_expected g) in
  let sum_props := qsum expected_props in
  expected_props' <-
    (if Qltb 0 sum_props then
       mapM (fun prop => py_truediv prop sum_props) expected_props
     else
       u <- py_truediv 1 (inject_Z (Z.of_nat (length expected_props))) ;;
       ok (repeat u (length expected_props))) ;;
  ok (map (fun prop => prop * inject_Z total_observed) expected_props').

(** The [try] block of [calculate_goodness_of_fit].  The globals are
    assigned only after the library has returned, so an exception leaves
    them as they were, apart from the record of the call. *)
Definition gof_try (g : Globals) : Globals * exc unit :=
  let observed := gof_observed_counts g in
  let total_observed := zsum observed in
  if (total_observed =? 0)%Z then
    (set_has_calculated
       (set_results g 0 1%R (Z.of_nat (length observed) - 1)) true,
     ok tt)
  else
    match gof_expected_counts g total_observed with
    | inl e => (g, raise e)
    | inr expected =>
        let g1 := log_call g (CallChisquare observed expected) in
        match stats_chisquare observed expected with
        | inl e => (g1, raise e)
        | inr (stat, p) =>
            (set_has_calculated
               (set_results g1 stat p (Z.of_nat (length observed) - 1))
               true,
             ok tt)
        end
    end.

(** [calculate_goodness_of_fit]: the [except Exception] handler replaces
    the result by the neutral one, with [df = len(gof_observed) - 1]. *)
Definition calculate_goodness_of_fit (g : Globals) : Globals :=
  match gof_try g with
  | (g', inr _) => g'
  | (g', inl _) =>
      set_has_calculated
        (set_results g' 0 1%R (Z.of_nat (length gof_observed) - 1)) true
  end.

(** [np.array(rows).shape] for a list of rows, as far as the two sums
    along the axes need it: an empty list is one-dimensional (summing
    along axis 1 raises), rows of unequal length do not make an array. *)
Definition np_shape2 (rows : list (list Z)) : exc (nat * nat) :=
  match rows with
  | [] => raise AxisError
  | r0 :: _ =>
      if forallb (fun r => Nat.eqb (length r) (length r0)) rows
      then ok (length rows, length r0)
      else raise ValueError
  end.

(** [observed.sum(axis=1)] and [observed.sum(axis=0)]. *)
Definition row_sums (rows : list (list Z)) : list Z := map zsum rows.

Definition col_sums (rows : list (list Z)) (ncols : nat) : list Z :=
  map (fun j => zsum (map (fun r => nth j r 0%Z) rows)) (seq 0 ncols).

(** [any(sums == 0)]. *)
Definition any_zero (sums : list Z) : bool :=
  existsb (fun s => (s =? 0)%Z) sums.

Definition independence_observed (g : Globals) : list (list Z) :=
  map (fun row => map cvalue row) (independence_cells g).

(** The [try] block of [calculate_independence]. *)
Definition independence_try (g : Globals) : Globals * exc unit :=
  let observed := independence_observed g in
  match np_shape2 observed with
  | inl e => (g, raise e)
  | inr (nrows, ncols) =>
      if any_zero (row_sums observed) || any_zero (col_sums observed ncols)
      then
        (set_has_calculated
           (set_results g 0 1%R
              ((Z.of_nat nrows - 1) * (Z.of_nat ncols - 1))) true,
         ok tt)
      else
        let g1 := log_call g (CallChi2Contingency observed) in
        match stats_chi2_contingency observed with
        | inl e => (g1, raise e)
        | inr (stat, p, d) =>
            (set_has_calculated (set_results g1 stat p d) true, ok tt)
        end
  end.

(** [calculate_independence]: the handler takes [df] from the shape of
    [independence_data]. *)
Definition calculate_independence (g : Globals) : Globals :=
  match independence_try g with
  | (g', inr _) => g'
  | (g', inl _) =>
      set_has_calculated
        (set_results g' 0 1%R
           ((Z.of_nat (length independence_data) - 1) *
            (Z.of_nat (length (hd [] independence_data)) - 1))) true
  end.

End Engine.

(** *** SciPy on the shapes the program ships with

    The goodness-of-fit page has three categories and the independence
    page a 2 x 3 table, so both tests have two degrees of freedom, and the
    chi-square law with two degrees of freedom has the survival function
    [exp (- x / 2)].  The definitions below give what SciPy computes on
    those shapes when every expected count is non-zero; they say nothing
    about SciPy elsewhere. *)

(** Pearson's statistic: the sum of [(obs - exp)^2 / exp]. *)
Definition pearson_statistic (f_obs : list Z) (f_exp : list Q) : Q :=
  qsum (map (fun oe =>
               (inject_Z (fst oe) - snd oe) * (inject_Z (fst oe) - snd oe)
               / snd oe)
            (combine f_obs f_exp)).

(** [stats.chi2.sf(x, 2)]. *)
Definition chi2_sf_2 (x : Q) : R := exp (- Q2R x / 2).

(** [stats.chisquare] on three categories. *)
Definition chisquare_3 (f_obs : list Z) (f_exp : list Q) : exc (Q * R) :=
  let stat := pearson_statistic f_obs f_exp in
  ok (stat, chi2_sf_2 stat).

(** [stats.chi2_contingency] on a 2 x 3 table: the expected count of a
    cell is its row total times its column total over the grand total. *)
Definition chi2_contingency_2x3 (observed : list (list Z))
    : exc (Q * R * Z) :=
  let total := inject_Z (zsum (map zsum observed)) in
  let expected :=
    map (fun row =>
           map (fun j =>
                  inject_Z (zsum row)
                  * inject_Z (zsum (map (fun r => nth j r 0%Z) observed))
                  / total)
               (seq 0 3))
        observed in
  let stat := pearson_statistic (concat observed) (concat expected) in
  ok (stat, chi2_sf_2 stat, 2%Z).

(** *** Layout *)

(** [calculate_min_height()]. *)
Definition calculate_min_height : Z :=
  (let header_height := HEADER_HEIGHT in
   let results_height := 40 in
   let chart_min_height := 300 in
   let instructions_height := 40 in
   let panel_min_height := 250 in
   let button_min_height := 40 in
   let min_required_height :=
     header_height + RESULT_MARGIN +
     results_height + PANEL_MARGIN +
     chart_min_height + PANEL_MARGIN +
     instructions_height + PANEL_MARGIN +
     panel_min_height + PANEL_MARGIN * 3 +
     button_min_height + PANEL_MARGIN in
   Z.max min_required_height 700)%Z.

Definition set_rect (c : Cell) (r : Rect) : Cell :=
  mkCell r (cvalue c) (active c).
Definition set_cvalue (c : Cell) (v : Z) : Cell :=
  mkCell (rect c) v (active c).
Definition set_active (c : Cell) (b : bool) : Cell :=
  mkCell (rect c) (cvalue c) b.

(** [calculate_layout()]: sets [calc_button] and [reset_button], moves the
    sliders (goodness-of-fit page) or the cells (independence page), and
    returns the layout dictionary. *)
Definition calculate_layout (g : Globals) : Globals :=
  let W := inject_Z (WIDTH g) in
  let H := inject_Z (HEIGHT g) in
  let header_height := inject_Z HEADER_HEIGHT in
  let margin := inject_Z PANEL_MARGIN in
  let results_panel_height := 40 in
  let chart_ratio := 4 # 10 in
  let instructions_height := 40 in
  let panel_height :=
    if Page_eqb (state g) GOODNESS_OF_FIT then 250 else 300 in
  let available_height := H - header_height - margin in
  let results_panel_top := header_height + inject_Z RESULT_MARGIN in
  let remaining_height :=
    available_height - results_panel_height - inject_Z RESULT_MARGIN in
  let chart_height := py_min (remaining_height * chart_ratio) 450 in
  let chart_width := py_min (W * (8 # 10)) 700 in
  let chart_left := py_floor ((W - chart_width) / 2) in
  let chart_top := results_panel_top + results_panel_height + margin in
  let instructions_top := chart_top + chart_height + margin in
  let min_panel_width :=
    inject_Z (LABEL_COLUMN_WIDTH + SLIDER_MIN_WIDTH + VALUE_COLUMN_WIDTH +
              LABEL_SLIDER_GAP + SLIDER_VALUE_GAP + H_MARGIN * 2) in
  let panel_width := py_max (py_min (W * (8 # 10)) 800) min_panel_width in
  let panel_left := py_floor ((W - panel_width) / 2) in
  let panel_top := instructions_top + instructions_height + margin in
  let button_width := 200%Z in
  let button_height := 40%Z in
  let button_spacing := 20%Z in
  let button_top := panel_top + panel_height + margin * 2 in
  let left_button_left :=
    ((WIDTH g - 2 * button_width - button_spacing) / 2)%Z in
  let right_button_left :=
    (left_button_left + button_width + button_spacing)%Z in
  let calc :=
    rect_of (inject_Z left_button_left) button_top
            (inject_Z button_width) (inject_Z button_height) in
  let reset :=
    rect_of (inject_Z right_button_left) button_top
            (inject_Z button_width) (inject_Z button_height) in
  let lay :=
    mkLayout chart_left chart_top chart_width chart_height
      instructions_top panel_left panel_top panel_width panel_height
      (rect_of panel_left instructions_top 30 30) button_top in
  let g1 := set_layout g calc reset lay in
  match state g with
  | GOODNESS_OF_FIT =>
      let left_column := panel_left + 100 in
      let right_column := panel_left + py_floor (panel_width / 2) + 100 in
      let place column (ix : nat * Slider) :=
        let y_pos := panel_top + 100 + inject_Z (Z.of_nat (fst ix)) * 40 in
        set_geometry (snd ix) (column + 80, y_pos)
                     (inject_Z SLIDER_MIN_WIDTH) in
      set_sliders g1
        (map (place left_column) (enumerate (sliders_gof_observed g)))
        (map (place right_column) (enumerate (sliders_gof_expected g)))
  | INDEPENDENCE =>
      let table_width :=
        inject_Z (CELL_WIDTH * (independence_colnames_len + 1)) in
      let table_left := panel_left + py_floor ((panel_width - table_width) / 2) in
      let table_top := panel_top + 80 in
      let place_cell (i : nat) (jc : nat * Cell) :=
        set_rect (snd jc)
          (rect_of
             (table_left + inject_Z ((Z.of_nat (fst jc) + 1) * CELL_WIDTH))
             (table_top + inject_Z ((Z.of_nat i + 1) * CELL_HEIGHT))
             (inject_Z CELL_WIDTH) (inject_Z CELL_HEIGHT)) in
      set_cells g1
        (map (fun ir => map (place_cell (fst ir)) (enumerate (snd ir)))
             (enumerate (independence_cells g)))
        (active_cell g)
  | _ => g1
  end.

(** The rectangles the draw functions hand back to the click handlers. *)
Definition draw_menu (g : Globals) : Rect * Rect * Rect :=
  (mkRect (WIDTH g / 2 - 200) (HEIGHT g / 2 + 100) 400 60,
   mkRect (WIDTH g / 2 - 200) (HEIGHT g / 2 + 180) 400 60,
   mkRect (WIDTH g / 2 - 150) (HEIGHT g / 2 + 260) 300 60)%Z.

(** [menu_button, back_button, next_button]. *)
Definition draw_tutorial (g : Globals) : Rect * Rect * Rect :=
  (mkRect 30 10 100 40,
   mkRect 50 (HEIGHT g - 100) 200 50,
   mkRect (WIDTH g - 250) (HEIGHT g - 100) 200 50)%Z.

(** [back_button, toggle_rect], the same on both test pages. *)
Definition draw_test_page (g : Globals) : Rect * Rect :=
  (mkRect 30 10 100 40, toggle_rect (layout g)).

Definition num_tutorial_pages : Z := 4.

(** *** Resets *)

(** [reset_goodness_of_fit()]. *)
Definition reset_goodness_of_fit (g : Globals) : exc Globals :=
  obs <- mapM (fun ix => v <- py_index gof_observed (fst ix) ;;
                         ok (set_value (snd ix) (inject_Z v)))
              (enumerate (sliders_gof_observed g)) ;;
  exp <- mapM (fun ix => v <- py_index gof_expected (fst ix) ;;
                         ok (set_value (snd ix) v))
              (enumerate (sliders_gof_expected g)) ;;
  ok (set_has_calculated (set_sliders g obs exp) false).

(** [reset_independence()]. *)
Definition reset_independence (g : Globals) : exc Globals :=
  cells <- mapM (fun ir =>
                   mapM (fun jc =>
                           row <- py_index independence_data (fst ir) ;;
                           v <- py_index row (fst jc) ;;
                           ok (set_active (set_cvalue (snd jc) v) false))
                        (enumerate (snd ir)))
                (enumerate (independence_cells g)) ;;
  ok (set_has_calculated (set_cells g cells None) false).


(** *** The event loop *)

(** The dictionary [active_cell] refers to, and an assignment through that
    reference. *)
Definition lookup_cell (cells : list (list Cell)) (ij : nat * nat)
    : option Cell :=
  match nth_error cells (fst ij) with
  | Some row => nth_error row (snd ij)
  | None => None
  end.

Definition update_cell (cells : list (list Cell)) (ij : nat * nat)
    (f : Cell -> Cell) : list (list Cell) :=
  update_nth (fst ij) (update_nth (snd ij) f) cells.

(** [value_str = str(int(v)); int(value_str[:-1]) if len(value_str) > 1
    else 0].  A negative value prints with a leading minus sign, so its
    string is always longer than one character and [int("-")] raises. *)
Definition backspace_value (v : Z) : exc Z :=
  if (0 <=? v)%Z then
    let value_str := digits v in
    if (1 <? length value_str)%nat
    then ok (int_of_digits (removelast value_str))
    else ok 0%Z
  else
    match removelast (digits (- v)) with
    | [] => raise ValueError
    | ds => ok (- int_of_digits ds)%Z
    end.

(** The digit branch: replace a zero, append below three digits, ignore
    otherwise. *)
Definition digit_value (current_val digit : Z) : Z :=
  if (current_val =? 0)%Z then digit
  else if (current_val <? 100)%Z then (current_val * 10 + digit)%Z
  else current_val.

Definition clear_dragging (g : Globals) : Globals :=
  set_sliders g
    (map (fun s => set_dragging s false) (sliders_gof_observed g))
    (map (fun s => set_dragging s false) (sliders_gof_expected g)).

Definition clear_active (g : Globals) : Globals :=
  set_cells g
    (map (map (fun c => set_active c false)) (independence_cells g)) None.

(** [elif event.type == pygame.VIDEORESIZE]. *)
Definition on_videoresize (g : Globals) (w h : Z) : Globals :=
  let calculated_min_width := 800%Z in
  let calculated_min_height := calculate_min_height in
  let g1 :=
    set_window g (Z.max (Z.max w calculated_min_width) MIN_WIDTH)
                 (Z.max h calculated_min_height) in
  clear_active (clear_dragging (calculate_layout g1)).

(** [elif event.type == pygame.KEYDOWN]. *)
Definition on_keydown (g : Globals) (key : Z) : exc Globals :=
  let g1 :=
    if (key =? K_ESCAPE)%Z then
      if Page_eqb (state g) MENU then g
      else set_has_calculated (set_state g MENU) false
    else g in
  match active_cell g1 with
  | Some ij =>
      if Page_eqb (state g1) INDEPENDENCE then
        match lookup_cell (independence_cells g1) ij with
        | Some cell =>
            if (key =? K_BACKSPACE)%Z then
              v <- backspace_value (cvalue cell) ;;
              ok (set_has_calculated
                    (set_cells g1
                       (update_cell (independence_cells g1) ij
                                    (fun c => set_cvalue c v))
                       (active_cell g1)) false)
            else if ((K_0 <=? key) && (key <=? K_9))%Z then
              let digit := (key - K_0)%Z in
              ok (set_has_calculated
                    (set_cells g1
                       (update_cell (independence_cells g1) ij
                          (fun c => set_cvalue c
                                      (digit_value (cvalue cell) digit)))
                       (active_cell g1)) false)
            else ok g1
        | None => ok g1
        end
      else ok g1
  | None => ok g1
  end.

(** One pass of [for slider in sliders_gof_observed + sliders_gof_expected]
    with a body [f] that may update the slider and reports whether it
    did. *)
Definition for_sliders (f : Slider -> exc (Slider * bool)) (g : Globals)
    : exc (Globals * bool) :=
  obs <- mapM f (sliders_gof_observed g) ;;
  exp <- mapM f (sliders_gof_expected g) ;;
  ok (set_sliders g (map fst obs) (map fst exp),
      existsb snd obs || existsb snd exp).

(** The body of the slider loop of [MOUSEBUTTONDOWN]. *)
Definition press_slider (mouse_pos : Z * Z) (s : Slider)
    : exc (Slider * bool) :=
  if collidepoint (slider_rect s) mouse_pos then
    s' <- drag_to (fst mouse_pos) (set_dragging s true) ;;
    ok (s', true)
  else ok (s, false).

(** The body of the slider loop of [MOUSEMOTION]. *)
Definition move_slider (mouse_pos : Z * Z) (s : Slider)
    : exc (Slider * bool) :=
  if dragging s then
    s' <- drag_to (fst mouse_pos) s ;;
    ok (s', true)
  else ok (s, false).

(** The cell loop of [MOUSEBUTTONDOWN]: every cell under the pointer
    becomes active, and [active_cell] ends as the last of them in row-major
    order. *)
Definition hit_cells (mouse_pos : Z * Z) (cells : list (list Cell))
    : list (nat * nat) :=
  flat_map
    (fun ir =>
       flat_map
         (fun jc =>
            if collidepoint (rect (snd jc)) mouse_pos
            then [(fst ir, fst jc)] else [])
         (enumerate (snd ir)))
    (enumerate cells).

Definition click_cells (mouse_pos : Z * Z) (g : Globals) : Globals :=
  let cells :=
    map (map (fun c =>
                if collidepoint (rect c) mouse_pos
                then set_active c true else c))
        (independence_cells g) in
  match hit_cells mouse_pos (independence_cells g) with
  | [] => set_cells g cells (active_cell g)
  | hits =>
      set_has_calculated
        (set_cells g cells (Some (last hits (O, O)))) false
  end.

(** A run of key presses, one [KEYDOWN] event each. *)
Fixpoint type_keys (g : Globals) (keys : list Z) : exc Globals :=
  match keys with
  | [] => ok g
  | key :: keys' => g' <- on_keydown g key ;; type_keys g' keys'
  end.

(** The value shown in the cell at a given position. *)
Definition cell_value_at (g : Globals) (ij : nat * nat) : option Z :=
  option_map cvalue (lookup_cell (independence_cells g) ij).

(** Every cell holds a non-negative value of at most three digits. *)
Definition cells_in_range (g : Globals) : Prop :=
  Forall (Forall (fun c => (0 <= cvalue c < 1000)%Z))
         (independence_cells g).

(** The inputs of the two statistics: the slider values and the cell
    values. *)
Definition inputs (g : Globals) : list Q * list Q * list (list Z) :=
  (map value (sliders_gof_observed g),
   map value (sliders_gof_expected g),
   map (map cvalue) (independence_cells g)).

(** What a step does to the result flag and to the inputs: it clears the
    flag, or leaves every input as it was. *)
Definition flag_tracks (g g' : Globals) : Prop :=
  has_calculated g' = false \/ inputs g' = inputs g.

(** All sliders, in loop order. *)
Definition sliders (g : Globals) : list Slider :=
  sliders_gof_observed g ++ sliders_gof_expected g.

Section Loop.

Variable stats_chisquare : list Z -> list Q -> exc (Q * R).
Variable stats_chi2_contingency : list (list Z) -> exc (Q * R * Z).

(** [elif event.type == pygame.MOUSEBUTTONDOWN: if event.button == 1]. *)
Definition on_mousebuttondown (mouse_pos : Z * Z) (g : Globals)
    : exc Globals :=
  match state g with
  | MENU =>
      let '(gof_button, ind_button, tutorial_button) := draw_menu g in
      if collidepoint gof_button mouse_pos then
        reset_goodness_of_fit (set_state g GOODNESS_OF_FIT)
      else if collidepoint ind_button mouse_pos then
        reset_independence (set_state g INDEPENDENCE)
      else if collidepoint tutorial_button mouse_pos then
        ok (set_tutorial_page (set_state g TUTORIAL) 0)
      else ok g
  | TUTORIAL =>
      let '(menu_button, back_button, next_button) := draw_tutorial g in
      if collidepoint menu_button mouse_pos then ok (set_state g MENU)
      else if collidepoint back_button mouse_pos
              && (0 <? tutorial_page g)%Z then
        ok (set_tutorial_page g (tutorial_page g - 1))
      else if collidepoint next_button mouse_pos then
        if (tutorial_page g <? num_tutorial_pages - 1)%Z
        then ok (set_tutorial_page g (tutorial_page g + 1))
        else ok (set_state g MENU)
      else ok g
  | GOODNESS_OF_FIT =>
      let '(back_button, toggle) := draw_test_page g in
      let g1 :=
        if collidepoint toggle mouse_pos
        then set_show_instructions g (negb (show_instructions g))
        else g in
      g2 <-
        (if collidepoint back_button mouse_pos then ok (set_state g1 MENU)
         else if collidepoint (calc_button g1) mouse_pos
                 && negb (has_calculated g1) then
           ok (calculate_goodness_of_fit stats_chisquare g1)
         else if collidepoint (reset_button g1) mouse_pos then
           reset_goodness_of_fit g1
         else ok g1) ;;
      r <- for_sliders (press_slider mouse_pos) g2 ;;
      ok (if snd r then set_has_calculated (fst r) false else fst r)
  | INDEPENDENCE =>
      let '(back_button, toggle) := draw_test_page g in
      let g1 :=
        if collidepoint toggle mouse_pos
        then set_show_instructions g (negb (show_instructions g))
        else g in
      g2 <-
        (if collidepoint back_button mouse_pos then ok (set_state g1 MENU)
         else if collidepoint (calc_button g1) mouse_pos
                 && negb (has_calculated g1) then
           ok (calculate_independence stats_chi2_contingency g1)
         else if collidepoint (reset_button g1) mouse_pos then
           reset_independence g1
         else ok g1) ;;
      ok (click_cells mouse_pos (clear_active g2))
  end.

(** [elif event.type == pygame.MOUSEMOTION]. *)
Definition on_mousemotion (mouse_pos : Z * Z) (g : Globals)
    : exc Globals :=
  r <- for_sliders (move_slider mouse_pos) g ;;
  ok (if snd r then set_has_calculated (fst r) false else fst r).

(** The body of [for event in pygame.event.get()], with the pointer
    position read once per frame.  An exception that leaves the body
    ends the program. *)
Definition handle_event (mouse_pos : Z * Z) (g : Globals) (ev : Event)
    : exc Globals :=
  match ev with
  | QUIT => ok (set_running g false)
  | VIDEORESIZE w h => ok (on_videoresize g w h)
  | KEYDOWN key => on_keydown g key
  | MOUSEBUTTONDOWN button =>
      if (button =? 1)%Z then on_mousebuttondown mouse_pos g else ok g
  | MOUSEBUTTONUP => ok (clear_dragging g)
  | MOUSEMOTION _ => on_mousemotion mouse_pos g
  | OTHER => ok g
  end.

End Loop.

(** The module-level initialisation, up to the first frame. *)
Definition initial_slider (v lo hi : Q) : Slider :=
  mkSlider (0, 0) (inject_Z SLIDER_MIN_WIDTH) v lo hi false.

Definition initial_globals : Globals :=
  calculate_layout
    (mkGlobals initial_width initial_height MENU
       (map (fun v => initial_slider (inject_Z v) 0 150) gof_observed)
       (map (fun v => initial_slider v 0 100) gof_expected)
       (map (map (fun v => mkCell (mkRect 0 0 CELL_WIDTH CELL_HEIGHT) v false))
            independence_data)
       (5782 # 100) 0%R 2%Z true 0%Z true
       (mkRect 0 0 0 0) (mkRect 0 0 0 0) None
       (mkLayout 0 0 0 0 0 0 0 0 0 (mkRect 0 0 0 0) 0)
       true []).

(** The shape the program keeps its controls in: three observed-count
    sliders on 0..150, three proportion sliders on 0..100, all on tracks of
    positive width, and a 2 x 3 table of values of at most three digits. *)
Definition Inv (g : Globals) : Prop :=
  Forall (bounded 0 150) (sliders_gof_observed g) /\
  Forall (bounded 0 100) (sliders_gof_expected g) /\
  length (sliders_gof_observed g) = length gof_observed /\
  length (sliders_gof_expected g) = length gof_expected /\
  map (@length Cell) (independence_cells g)
  = map (@length Z) independence_data /\
  cells_in_range g.

(** Every slider is still where the module-level initialisation put it:
    at the origin, with the default width. *)
Definition stacked (g : Globals) : Prop :=
  Forall (fun s => geometry s = ((0, 0), inject_Z SLIDER_MIN_WIDTH))
         (sliders g).

(** No point lies in the rectangles of two cells of the table. *)
Definition cells_apart (g : Globals) : Prop :=
  forall (p : Z * Z) (ij ij' : nat * nat) (c c' : Cell),
    ij <> ij' ->
    lookup_cell (independence_cells g) ij = Some c ->
    lookup_cell (independence_cells g) ij' = Some c' ->
    collidepoint (rect c) p = true -> collidepoint (rect c') p = false.

(** *** States used as examples *)

(** The goodness-of-fit page with the given slider values. *)
Definition gof_state (observed proportions : list Q) : Globals :=
  set_state
    (set_sliders initial_globals
       (map (fun v => initial_slider v 0 150) observed)
       (map (fun v => initial_slider v 0 100) proportions))
    GOODNESS_OF_FIT.

(** The independence page with the given table. *)
Definition independence_state (table : list (list Z)) : Globals :=
  set_state
    (set_cells initial_globals
       (map (map (fun v => mkCell (mkRect 0 0 CELL_WIDTH CELL_HEIGHT) v false))
            table)
       None)
    INDEPENDENCE.

(** The independence page with the top-left cell, showing 0, active. *)
Definition editing_state : Globals :=
  let g := independence_state [[0; 20; 25]; [25; 20; 15]]%Z in
  set_cells g
    (update_cell (independence_cells g) (O, O) (fun c => set_active c true))
    (Some (O, O)).

(** [active_cell] and the [active] marks agree: the cell [active_cell]
    refers to is marked, and without an active cell no cell is marked. *)
Definition active_cell_ok (g : Globals) : Prop :=
  match active_cell g with
  | Some ij =>
      exists c,
        lookup_cell (independence_cells g) ij = Some c /\ active c = true
  | None =>
      Forall (Forall (fun c => active c = false)) (independence_cells g)
  end.

End Chi2GoodnessFit.

(** ** [Week1_Simple_Effect/t_test.py] *)

Module TTest.

Definition HEADER_HEIGHT : Z := 60.
Definition RESULT_MARGIN : Z := 20.
Definition PANEL_MARGIN : Z := 15.
Definition H_MARGIN : Z := 20.
Definition LABEL_COLUMN_WIDTH : Z := 140.
Definition VALUE_COLUMN_WIDTH : Z := 50.
Definition SLIDER_MIN_WIDTH : Z := 150.
Definition LABEL_SLIDER_GAP : Z := 20.
Definition SLIDER_VALUE_GAP : Z := 16.
Definition SAMPLE_LABEL_WIDTH : Z := 180.
Definition MIN_WIDTH : Z := 1000.
Definition MIN_HEIGHT : Z := 700.
Definition initial_width : Z := 1200.
Definition initial_height : Z := 800.

Inductive Page : Type := MENU | GAME | TUTORIAL | RESULTS.

Definition Page_eqb (a b : Page) : bool :=
  match a, b with
  | MENU, MENU | GAME, GAME | TUTORIAL, TUTORIAL | RESULTS, RESULTS => true
  | _, _ => false
  end.

Definition num_tutorial_pages : Z := 5.

(** What event handling reads back from the layout dictionary, with the
    geometry of the three panels. *)
Record Layout : Type := mkLayout {
  chart_left : Q; chart_top : Q; chart_width : Q; chart_height : Q;
  instructions_top : Q;
  left_panel_left : Q; right_panel_left : Q;
  panel_top : Q; panel_width : Q; panel_height : Q;
  sample_panel_left : Q; sample_panel_top : Q;
  sample_panel_width : Q; sample_panel_height : Q;
  toggle_rect : Rect;
  button_top : Q; button_height : Q
}.

(** The module-level variables.  [draws] is not a variable of the program:
    it counts the samples taken from numpy's generator, which is how the
    parameter [np_random_normal] below tells one draw from the next. *)
Record Globals : Type := mkGlobals {
  WIDTH : Z;
  HEIGHT : Z;
  state : Page;
  slider_mean1 : Slider;
  slider_std1 : Slider;
  slider_mean2 : Slider;
  slider_std2 : Slider;
  slider_sample : Slider;
  calc_button : Rect;
  reset_button : Rect;
  group1 : list Q;
  group2 : list Q;
  t_stat : R;
  p_value : R;
  has_calculated : bool;
  tutorial_page : Z;
  show_instructions : bool;
  layout : Layout;
  running : bool;
  draws : nat
}.

Definition set_window (g : Globals) (w h : Z) : Globals :=
  mkGlobals w h (state g) (slider_mean1 g) (slider_std1 g) (slider_mean2 g)
    (slider_std2 g) (slider_sample g) (calc_button g) (reset_button g)
    (group1 g) (group2 g) (t_stat g) (p_value g) (has_calculated g)
    (tutorial_page g) (show_instructions g) (layout g) (running g)
    (draws g).

Definition set_state (g : Globals) (s : Page) : Globals :=
  mkGlobals (WIDTH g) (HEIGHT g) s (slider_mean1 g) (slider_std1 g)
    (slider_mean2 g) (slider_std2 g) (slider_sample g) (calc_button g)
    (reset_button g) (group1 g) (group2 g) (t_stat g) (p_value g)
    (has_calculated g) (tutorial_page g) (show_instructions g) (layout g)
    (running g) (draws g).

(** The five sliders in the order the event loops walk them:
    [[slider_mean1, slider_mean2, slider_std1, slider_std2, slider_sample]]. *)
Definition sliders (g : Globals) : list Slider :=
  [slider_mean1 g; slider_mean2 g; slider_std1 g; slider_std2 g;
   slider_sample g].

Definition set_sliders (g : Globals) (m1 m2 s1 s2 n : Slider) : Globals :=
  mkGlobals (WIDTH g) (HEIGHT g) (state g) m1 s1 m2 s2 n (calc_button g)
    (reset_button g) (group1 g) (group2 g) (t_stat g) (p_value g)
    (has_calculated g) (tutorial_page g) (show_instructions g) (layout g)
    (running g) (draws g).

Definition set_layout (g : Globals) (calc reset : Rect) (l : Layout)
    : Globals :=
  mkGlobals (WIDTH g) (HEIGHT g) (state g) (slider_mean1 g) (slider_std1 g)
    (slider_mean2 g) (slider_std2 g) (slider_sample g) calc reset
    (group1 g) (group2 g) (t_stat g) (p_value g) (has_calculated g)
    (tutorial_page g) (show_instructions g) l (running g) (draws g).

Definition set_groups (g : Globals) (g1 g2 : list Q) (n : nat) : Globals :=
  mkGlobals (WIDTH g) (HEIGHT g) (state g) (slider_mean1 g) (slider_std1 g)
    (slider_mean2 g) (slider_std2 g) (slider_sample g) (calc_button g)
    (reset_button g) g1 g2 (t_stat g) (p_value g) (has_calculated g)
    (tutorial_page g) (show_instructions g) (layout g) (running g) n.

Definition set_results (g : Globals) (t p : R) : Globals :=
  mkGlobals (WIDTH g) (HEIGHT g) (state g) (slider_mean1 g) (slider_std1 g)
    (slider_mean2 g) (slider_std2 g) (slider_sample g) (calc_button g)
    (reset_button g) (group1 g) (group2 g) t p (has_calculated g)
    (tutorial_page g) (show_instructions g) (layout g) (running g)
    (draws g).

Definition set_has_calculated (g : Globals) (b : bool) : Globals :=
  mkGlobals (WIDTH g) (HEIGHT g) (state g) (slider_mean1 g) (slider_std1 g)
    (slider_mean2 g) (slider_std2 g) (slider_sample g) (calc_button g)
    (reset_button g) (group1 g) (group2 g) (t_stat g) (p_value g) b
    (tutorial_page g) (show_instructions g) (layout g) (running g)
    (draws g).

Definition set_tutorial_page (g : Globals) (n : Z) : Globals :=
  mkGlobals (WIDTH g) (HEIGHT g) (state g) (slider_mean1 g) (slider_std1 g)
    (slider_mean2 g) (slider_std2 g) (slider_sample g) (calc_button g)
    (reset_button g) (group1 g) (group2 g) (t_stat g) (p_value g)
    (has_calculated g) n (show_instructions g) (layout g) (running g)
    (draws g).

Definition set_show_instructions (g : Globals) (b : bool) : Globals :=
  mkGlobals (WIDTH g) (HEIGHT g) (state g) (slider_mean1 g) (slider_std1 g)
    (slider_mean2 g) (slider_std2 g) (slider_sample g) (calc_button g)
    (reset_button g) (group1 g) (group2 g) (t_stat g) (p_value g)
    (has_calculated g) (tutorial_page g) b (layout g) (running g)
    (draws g).

Definition set_running (g : Globals) (b : bool) : Globals :=
  mkGlobals (WIDTH g) (HEIGHT g) (state g) (slider_mean1 g) (slider_std1 g)
    (slider_mean2 g) (slider_std2 g) (slider_sample g) (calc_button g)
    (reset_button g) (group1 g) (group2 g) (t_stat g) (p_value g)
    (has_calculated g) (tutorial_page g) (show_instructions g) (layout g)
    b (draws g).

(** [calculate_min_height()], up to its first [return]. *)
Definition calculate_min_height : Z :=
  (let header_height := HEADER_HEIGHT in
   let results_height := 40 in
   let chart_min_height := 300 in
   let instructions_height := 40 in
   let panel_min_height := 80 in
   let sample_panel_min_height := 40 in
   let button_min_height := 40 in
   let min_required_height :=
     header_height + RESULT_MARGIN +
     results_height + PANEL_MARGIN +
     chart_min_height + PANEL_MARGIN +
     instructions_height + PANEL_MARGIN +
     panel_min_height + PANEL_MARGIN +
     sample_panel_min_height + PANEL_MARGIN * 3 +
     button_min_height + PANEL_MARGIN in
   Z.max min_required_height 700)%Z.

(** [calculate_layout()]: rebuilds the five slider dictionaries (position
    and width from the grid, value and drag flag carried over), sets the
    two buttons and returns the layout dictionary. *)
Definition calculate_layout (g : Globals) : Globals :=
  let W := inject_Z (WIDTH g) in
  let H := inject_Z (HEIGHT g) in
  let margin := inject_Z PANEL_MARGIN in
  let h_margin := inject_Z H_MARGIN in
  let header_height := inject_Z HEADER_HEIGHT in
  let results_panel_height := 40 in
  let chart_ratio := 4 # 10 in
  let instructions_height := 40 in
  let panel_height0 := 120 in
  let sample_panel_height0 := 50 in
  let button_height0 := 40 in
  let available_height := H - header_height - margin in
  let results_panel_top := header_height + inject_Z RESULT_MARGIN in
  let remaining_height :=
    available_height - results_panel_height - inject_Z RESULT_MARGIN in
  let chart_height := py_min (remaining_height * chart_ratio) 450 in
  let chart_width := py_min (W * (6 # 10)) 700 in
  let chart_left := py_floor ((W - chart_width) / 2) in
  let chart_top := results_panel_top + results_panel_height + margin in
  let instructions_top := chart_top + chart_height + margin in
  let remaining_height_after_chart :=
    H - instructions_top - instructions_height - margin in
  let total_needed_height :=
    panel_height0 + margin + sample_panel_height0 + margin * 3
    + button_height0 in
  let scale_factor := remaining_height_after_chart / total_needed_height in
  let shrink := Qltb remaining_height_after_chart total_needed_height in
  let panel_height :=
    if shrink
    then py_max 80 (inject_Z (py_int (panel_height0 * scale_factor)))
    else panel_height0 in
  let sample_panel_height :=
    if shrink
    then py_max 40 (inject_Z (py_int (sample_panel_height0 * scale_factor)))
    else sample_panel_height0 in
  let min_panel_width :=
    inject_Z (LABEL_COLUMN_WIDTH + SLIDER_MIN_WIDTH + VALUE_COLUMN_WIDTH +
              LABEL_SLIDER_GAP + SLIDER_VALUE_GAP + H_MARGIN * 2) in
  let panel_width := py_max (py_min (W * (4 # 10)) 450) min_panel_width in
  let left_panel_left :=
    py_max (py_floor ((W - 2 * panel_width - margin) / 2)) h_margin in
  let right_panel_left := left_panel_left + panel_width + margin in
  let panel_top := instructions_top + instructions_height + margin in
  let title_height := 40 in
  let available_slider_space := panel_height - title_height in
  let grid_slider_width :=
    panel_width - inject_Z LABEL_COLUMN_WIDTH - inject_Z VALUE_COLUMN_WIDTH
    - h_margin * 2 - inject_Z LABEL_SLIDER_GAP - inject_Z SLIDER_VALUE_GAP in
  let control_slider_col :=
    left_panel_left + h_margin + inject_Z LABEL_COLUMN_WIDTH
    + inject_Z LABEL_SLIDER_GAP in
  let exp_slider_col :=
    right_panel_left + h_margin + inject_Z LABEL_COLUMN_WIDTH
    + inject_Z LABEL_SLIDER_GAP in
  let row1 := panel_top + title_height + available_slider_space * (25 # 100) in
  let row2 := panel_top + title_height + available_slider_space * (75 # 100) in
  let sample_panel_width := py_min (W * (6 # 10)) 550 in
  let sample_panel_left := py_floor ((W - sample_panel_width) / 2) in
  let sample_panel_top := panel_top + panel_height + margin in
  let available_button_space :=
    H - (sample_panel_top + sample_panel_height) - margin * 3 in
  let sample_slider_col :=
    sample_panel_left + h_margin + inject_Z SAMPLE_LABEL_WIDTH
    + inject_Z LABEL_SLIDER_GAP in
  let sample_slider_width :=
    sample_panel_width - inject_Z SAMPLE_LABEL_WIDTH
    - inject_Z VALUE_COLUMN_WIDTH - h_margin * 2
    - inject_Z LABEL_SLIDER_GAP - inject_Z SLIDER_VALUE_GAP in
  let sample_row := sample_panel_top + py_floor (sample_panel_height / 2) in
  let button_width := 200%Z in
  let button_height := py_min 40 available_button_space in
  let button_spacing := 20%Z in
  let button_top0 := sample_panel_top + sample_panel_height + margin * 3 in
  let button_top :=
    if Qltb H (button_top0 + button_height + margin)
    then H - button_height - margin else button_top0 in
  let left_button_left :=
    ((WIDTH g - 2 * button_width - button_spacing) / 2)%Z in
  let right_button_left :=
    (left_button_left + button_width + button_spacing)%Z in
  let rebuild (s : Slider) (p : Q * Q) (w lo hi : Q) : Slider :=
    mkSlider p w (value s) lo hi (dragging s) in
  let g1 :=
    set_sliders g
      (rebuild (slider_mean1 g) (control_slider_col, row1)
               grid_slider_width 70 130)
      (rebuild (slider_mean2 g) (exp_slider_col, row1)
               grid_slider_width 70 130)
      (rebuild (slider_std1 g) (control_slider_col, row2)
               grid_slider_width 5 25)
      (rebuild (slider_std2 g) (exp_slider_col, row2)
               grid_slider_width 5 25)
      (rebuild (slider_sample g) (sample_slider_col, sample_row)
               sample_slider_width 5 20000) in
  set_layout g1
    (rect_of (inject_Z left_button_left) button_top
             (inject_Z button_width) button_height)
    (rect_of (inject_Z right_button_left) button_top
             (inject_Z button_width) button_height)
    (mkLayout chart_left chart_top chart_width chart_height
       instructions_top left_panel_left right_panel_left panel_top
       panel_width panel_height sample_panel_left sample_panel_top
       sample_panel_width sample_panel_height
       (rect_of left_panel_left instructions_top 30 30)
       button_top button_height).

(** The rectangles the click handlers test. *)
Definition draw_menu (g : Globals) : Rect * Rect :=
  (mkRect (WIDTH g / 2 - 150) (HEIGHT g / 2 + 100) 300 60,
   mkRect (WIDTH g / 2 - 150) (HEIGHT g / 2 + 200) 300 60)%Z.

(** [back_button, next_button, menu_button] of the tutorial branch. *)
Definition tutorial_buttons (g : Globals) : Rect * Rect * Rect :=
  (mkRect 50 (HEIGHT g - 100) 200 50,
   mkRect (WIDTH g - 250) (HEIGHT g - 100) 200 50,
   mkRect 30 10 100 40)%Z.

(** [back_button, toggle_rect]. *)
Definition draw_game (g : Globals) : Rect * Rect :=
  (mkRect 30 10 100 40, toggle_rect (layout g)).


(** The body of the slider loop of [MOUSEBUTTONDOWN]. *)
Definition press_slider (mouse_pos : Z * Z) (s : Slider) : exc Slider :=
  if collidepoint (slider_rect s) mouse_pos
  then drag_to (fst mouse_pos) (set_dragging s true)
  else ok s.

(** The body of the slider loop of [MOUSEMOTION]. *)
Definition move_slider (mouse_pos : Z * Z) (s : Slider) : exc Slider :=
  if dragging s then drag_to (fst mouse_pos) s else ok s.

(** [for slider in [slider_mean1, slider_mean2, slider_std1, slider_std2,
    slider_sample]: ...] with a body that updates the slider. *)
Definition for_sliders (f : Slider -> exc Slider) (g : Globals)
    : exc Globals :=
  m1 <- f (slider_mean1 g) ;;
  m2 <- f (slider_mean2 g) ;;
  s1 <- f (slider_std1 g) ;;
  s2 <- f (slider_std2 g) ;;
  n <- f (slider_sample g) ;;
  ok (set_sliders g m1 m2 s1 s2 n).

Definition clear_dragging (g : Globals) : Globals :=
  set_sliders g
    (set_dragging (slider_mean1 g) false)
    (set_dragging (slider_mean2 g) false)
    (set_dragging (slider_std1 g) false)
    (set_dragging (slider_std2 g) false)
    (set_dragging (slider_sample g) false).

(** [elif event.type == pygame.VIDEORESIZE]. *)
Definition on_videoresize (g : Globals) (w h : Z) : Globals :=
  let calculated_min_width :=
    (2 * (LABEL_COLUMN_WIDTH + SLIDER_MIN_WIDTH + VALUE_COLUMN_WIDTH)
     + PANEL_MARGIN * 3 + H_MARGIN * 4)%Z in
  let calculated_min_height := calculate_min_height in
  let g1 :=
    set_window g (Z.max (Z.max w calculated_min_width) MIN_WIDTH)
                 (Z.max h calculated_min_height) in
  clear_dragging (calculate_layout g1).

(** [elif event.type == pygame.KEYDOWN]. *)
Definition on_keydown (g : Globals) (key : Z) : Globals :=
  if (key =? K_ESCAPE)%Z then
    if Page_eqb (state g) MENU then g else set_state g MENU
  else g.

(** [elif event.type == pygame.MOUSEMOTION]. *)
Definition on_mousemotion (mouse_pos : Z * Z) (g : Globals) : exc Globals :=
  for_sliders (move_slider mouse_pos) g.

(** The ranges the five sliders are kept in. *)
Definition Inv (g : Globals) : Prop :=
  bounded 70 130 (slider_mean1 g) /\ bounded 70 130 (slider_mean2 g) /\
  bounded 5 25 (slider_std1 g) /\ bounded 5 25 (slider_std2 g) /\
  bounded 5 20000 (slider_sample g).

(** The window is at least [MIN_HEIGHT] high and the sliders sit where
    [calculate_layout] puts them for this window. *)
Definition laid_out (g : Globals) : Prop :=
  (MIN_HEIGHT <= HEIGHT g)%Z /\
  map geometry (sliders g) = map geometry (sliders (calculate_layout g)).

Section Loop.

(** [np.random.normal(loc, scale, size)]: the sample returned by the
    [n]-th call made to the generator.  With a scale of at least 0.1 and
    a size of at least 5 the call does not raise, so the [except] branch
    of [reset_data] is not entered. *)
Variable np_random_normal : nat -> Q -> Q -> Z -> list Q.

(** [stats.ttest_ind(group1, group2, equal_var=True)]: statistic and
    p-value, each possibly NaN ([None]), or an exception. *)
Variable stats_ttest_ind :
  list Q -> list Q -> exc (option R * option R).

(** [reset_data()]. *)
Definition reset_data (g : Globals) : Globals :=
  let sample_size := Z.max 5 (py_int (value (slider_sample g))) in
  let std1 := py_max (1 # 10) (value (slider_std1 g)) in
  let std2 := py_max (1 # 10) (value (slider_std2 g)) in
  let g1 :=
    np_random_normal (draws g) (value (slider_mean1 g)) std1 sample_size in
  let g2 :=
    np_random_normal (S (draws g)) (value (slider_mean2 g)) std2
                     sample_size in
  set_has_calculated (set_groups g g1 g2 (S (S (draws g)))) false.

(** [calculate_ttest()]. *)
Definition calculate_ttest (g : Globals) : Globals :=
  if (length (group1 g) <? 2)%nat || (length (group2 g) <? 2)%nat then
    set_has_calculated (set_results g 0%R 1%R) true
  else
    match stats_ttest_ind (group1 g) (group2 g) with
    | inr (Some t, Some p) =>
        set_has_calculated (set_results g (Rabs t) p) true
    | inr _ => set_has_calculated (set_results g 0%R 1%R) true
    | inl _ => set_has_calculated (set_results g 0%R 1%R) true
    end.

(** [elif event.type == pygame.MOUSEBUTTONDOWN: if event.button == 1]. *)
Definition on_mousebuttondown (mouse_pos : Z * Z) (g : Globals)
    : exc Globals :=
  match state g with
  | MENU =>
      let '(start_button, tutorial_button) := draw_menu g in
      if collidepoint start_button mouse_pos then
        ok (reset_data (set_state g GAME))
      else if collidepoint tutorial_button mouse_pos then
        ok (set_tutorial_page (set_state g TUTORIAL) 0)
      else ok g
  | TUTORIAL =>
      let '(back_button, next_button, menu_button) :=
        tutorial_buttons g in
      if collidepoint menu_button mouse_pos then ok (set_state g MENU)
      else if collidepoint back_button mouse_pos
              && (0 <? tutorial_page g)%Z then
        ok (set_tutorial_page g (tutorial_page g - 1))
      else if collidepoint next_button mouse_pos then
        if (tutorial_page g <? num_tutorial_pages - 1)%Z
        then ok (set_tutorial_page g (tutorial_page g + 1))
        else ok (reset_data (set_state g GAME))
      else ok g
  | GAME =>
      let '(back_button, toggle) := draw_game g in
      let g1 :=
        if collidepoint toggle mouse_pos
        then set_show_instructions g (negb (show_instructions g))
        else g in
      let g2 :=
        if collidepoint back_button mouse_pos then set_state g1 MENU
        else if collidepoint (calc_button g1) mouse_pos
        then calculate_ttest g1
        else if collidepoint (reset_button g1) mouse_pos
        then reset_data g1
        else g1 in
      for_sliders (press_slider mouse_pos) g2
  | RESULTS => ok g
  end.

(** One turn of the loop of [MOUSEBUTTONUP]: a slider that was being
    dragged is released and new samples are drawn. *)
Definition release (get : Globals -> Slider)
    (put : Globals -> Slider -> Globals) (g : Globals) : Globals :=
  if dragging (get g)
  then reset_data (put g (set_dragging (get g) false))
  else g.

(** [elif event.type == pygame.MOUSEBUTTONUP]. *)
Definition on_mousebuttonup (g : Globals) : Globals :=
  let g1 :=
    release slider_mean1
      (fun g s => set_sliders g s (slider_mean2 g) (slider_std1 g)
                              (slider_std2 g) (slider_sample g)) g in
  let g2 :=
    release slider_mean2
      (fun g s => set_sliders g (slider_mean1 g) s (slider_std1 g)
                              (slider_std2 g) (slider_sample g)) g1 in
  let g3 :=
    release slider_std1
      (fun g s => set_sliders g (slider_mean1 g) (slider_mean2 g) s
                              (slider_std2 g) (slider_sample g)) g2 in
  let g4 :=
    release slider_std2
      (fun g s => set_sliders g (slider_mean1 g) (slider_mean2 g)
                              (slider_std1 g) s (slider_sample g)) g3 in
  release slider_sample
    (fun g s => set_sliders g (slider_mean1 g) (slider_mean2 g)
                            (slider_std1 g) (slider_std2 g) s) g4.

(** The body of [for event in pygame.event.get()]. *)
Definition handle_event (mouse_pos : Z * Z) (g : Globals) (ev : Event)
    : exc Globals :=
  match ev with
  | QUIT => ok (set_running g false)
  | VIDEORESIZE w h => ok (on_videoresize g w h)
  | KEYDOWN key => ok (on_keydown g key)
  | MOUSEBUTTONDOWN button =>
      if (button =? 1)%Z then on_mousebuttondown mouse_pos g else ok g
  | MOUSEBUTTONUP => ok (on_mousebuttonup g)
  | MOUSEMOTION _ => on_mousemotion mouse_pos g
  | OTHER => ok g
  end.

(** The module-level initialisation: default sliders, two samples drawn
    after seeding, no result yet, and the first layout. *)
Definition initial_globals : Globals :=
  let sample_size := 20%Z in
  let slider v lo hi w := mkSlider (0, 0) w v lo hi false in
  calculate_layout
    (mkGlobals initial_width initial_height MENU
       (slider 100 70 130 200) (slider 15 5 25 200)
       (slider 115 70 130 200) (slider 15 5 25 200)
       (slider (inject_Z sample_size) 5 20000 250)
       (mkRect 0 0 0 0) (mkRect 0 0 0 0)
       (np_random_normal 0 100 15 sample_size)
       (np_random_normal 1 115 15 sample_size)
       0%R 0%R false 0%Z true
       (mkLayout 0 0 0 0 0 0 0 0 0 0 0 0 0 0 (mkRect 0 0 0 0) 0 0)
       true 2).

End Loop.

(** The two samples are large enough for a test: at least five values in
    the first, and as many in the second. *)
Definition samples_ok (g : Globals) : Prop :=
  (5 <= length (group1 g))%nat /\ length (group2 g) = length (group1 g).

(** *** A state used as an example *)

(** A generator that returns its mean [size] times; on two such constant
    samples SciPy's statistic and p-value are NaN. *)
Definition constant_samples (n : nat) (loc scale : Q) (size : Z) : list Q :=
  repeat loc (Z.to_nat size).

Definition ttest_ind_nan (a b : list Q) : exc (option R * option R) :=
  ok (None, None).

(** The simulation is started, the test is computed, and the first slider
    is grabbed. *)
Definition grabbed_after_calculation : Globals :=
  let g :=
    calculate_ttest ttest_ind_nan
      (reset_data constant_samples
         (set_state (initial_globals constant_samples) GAME)) in
  set_sliders g (set_dragging (slider_mean1 g) true) (slider_mean2 g)
    (slider_std1 g) (slider_std2 g) (slider_sample g).

End TTest.

(** ** [Week1_Simple_Effect/chi_square.py] *)

Module ChiSquare.

Definition HEADER_HEIGHT : Z := 60.
Definition RESULT_MARGIN : Z := 20.
Definition PANEL_MARGIN : Z := 15.
Definition H_MARGIN : Z := 20.
Definition LABEL_COLUMN_WIDTH : Z := 160.
Definition VALUE_COLUMN_WIDTH : Z := 50.
Definition SLIDER_MIN_WIDTH : Z := 150.
Definition LABEL_SLIDER_GAP : Z := 20.
Definition SLIDER_VALUE_GAP : Z := 16.
Definition MIN_WIDTH : Z := 1000.
Definition MIN_HEIGHT : Z := 700.
Definition initial_width : Z := 1200.
Definition initial_height : Z := 800.

Inductive Page : Type := MENU | GAME | TUTORIAL.

Definition Page_eqb (a b : Page) : bool :=
  match a, b with
  | MENU, MENU | GAME, GAME | TUTORIAL, TUTORIAL => true
  | _, _ => false
  end.

Definition num_tutorial_pages : Z := 5.

Record Layout : Type := mkLayout {
  chart_left : Q; chart_top : Q; chart_width : Q; chart_height : Q;
  instructions_top : Q;
  panel_left : Q; panel_top : Q; panel_width : Q; panel_height : Q;
  toggle_rect : Rect;
  button_top : Q
}.

(** The module-level variables. *)
Record Globals : Type := mkGlobals {
  WIDTH : Z;
  HEIGHT : Z;
  state : Page;
  slider_df : Slider;
  slider_alpha : Slider;
  slider_max_x : Slider;
  slider_num_dist : Slider;
  update_button : Rect;
  toggle_critical_button : Rect;
  degrees_of_freedom : Z;
  alpha_level : Q;
  show_critical : bool;
  max_x_value : Q;
  num_distributions : Z;
  critical_value : R;
  has_updated : bool;
  tutorial_page : Z;
  show_instructions : bool;
  layout : Layout;
  running : bool
}.

Definition set_window (g : Globals) (w h : Z) : Globals :=
  mkGlobals w h (state g) (slider_df g) (slider_alpha g) (slider_max_x g)
    (slider_num_dist g) (update_button g) (toggle_critical_button g)
    (degrees_of_freedom g) (alpha_level g) (show_critical g)
    (max_x_value g) (num_distributions g) (critical_value g)
    (has_updated g) (tutorial_page g) (show_instructions g) (layout g)
    (running g).

Definition set_state (g : Globals) (s : Page) : Globals :=
  mkGlobals (WIDTH g) (HEIGHT g) s (slider_df g) (slider_alpha g)
    (slider_max_x g) (slider_num_dist g) (update_button g)
    (toggle_critical_button g) (degrees_of_freedom g) (alpha_level g)
    (show_critical g) (max_x_value g) (num_distributions g)
    (critical_value g) (has_updated g) (tutorial_page g)
    (show_instructions g) (layout g) (running g).

(** The four sliders in loop order:
    [[slider_df, slider_alpha, slider_max_x, slider_num_dist]]. *)
Definition sliders (g : Globals) : list Slider :=
  [slider_df g; slider_alpha g; slider_max_x g; slider_num_dist g].

Definition set_sliders (g : Globals) (d a x n : Slider) : Globals :=
  mkGlobals (WIDTH g) (HEIGHT g) (state g) d a x n (update_button g)
    (toggle_critical_button g) (degrees_of_freedom g) (alpha_level g)
    (show_critical g) (max_x_value g) (num_distributions g)
    (critical_value g) (has_updated g) (tutorial_page g)
    (show_instructions g) (layout g) (running g).

Definition set_layout (g : Globals) (upd tog : Rect) (l : Layout)
    : Globals :=
  mkGlobals (WIDTH g) (HEIGHT g) (state g) (slider_df g) (slider_alpha g)
    (slider_max_x g) (slider_num_dist g) upd tog (degrees_of_freedom g)
    (alpha_level g) (show_critical g) (max_x_value g)
    (num_distributions g) (critical_value g) (has_updated g)
    (tutorial_page g) (show_instructions g) l (running g).

Definition set_parameters (g : Globals) (d : Z) (a x : Q) (n : Z) (c : R)
    : Globals :=
  mkGlobals (WIDTH g) (HEIGHT g) (state g) (slider_df g) (slider_alpha g)
    (slider_max_x g) (slider_num_dist g) (update_button g)
    (toggle_critical_button g) d a (show_critical g) x n c true
    (tutorial_page g) (show_instructions g) (layout g) (running g).

Definition set_show_critical (g : Globals) (b : bool) : Globals :=
  mkGlobals (WIDTH g) (HEIGHT g) (state g) (slider_df g) (slider_alpha g)
    (slider_max_x g) (slider_num_dist g) (update_button g)
    (toggle_critical_button g) (degrees_of_freedom g) (alpha_level g) b
    (max_x_value g) (num_distributions g) (critical_value g)
    (has_updated g) (tutorial_page g) (show_instructions g) (layout g)
    (running g).

Definition set_tutorial_page (g : Globals) (n : Z) : Globals :=
  mkGlobals (WIDTH g) (HEIGHT g) (state g) (slider_df g) (slider_alpha g)
    (slider_max_x g) (slider_num_dist g) (update_button g)
    (toggle_critical_button g) (degrees_of_freedom g) (alpha_level g)
    (show_critical g) (max_x_value g) (num_distributions g)
    (critical_value g) (has_updated g) n (show_instructions g) (layout g)
    (running g).

Definition set_show_instructions (g : Globals) (b : bool) : Globals :=
  mkGlobals (WIDTH g) (HEIGHT g) (state g) (slider_df g) (slider_alpha g)
    (slider_max_x g) (slider_num_dist g) (update_button g)
    (toggle_critical_button g) (degrees_of_freedom g) (alpha_level g)
    (show_critical g) (max_x_value g) (num_distributions g)
    (critical_value g) (has_updated g) (tutorial_page g) b (layout g)
    (running g).

Definition set_running (g : Globals) (b : bool) : Globals :=
  mkGlobals (WIDTH g) (HEIGHT g) (state g) (slider_df g) (slider_alpha g)
    (slider_max_x g) (slider_num_dist g) (update_button g)
    (toggle_critical_button g) (degrees_of_freedom g) (alpha_level g)
    (show_critical g) (max_x_value g) (num_distributions g)
    (critical_value g) (has_updated g) (tutorial_page g)
    (show_instructions g) (layout g) b.

(** [calculate_min_height()]. *)
Definition calculate_min_height : Z :=
  (let header_height := HEADER_HEIGHT in
   let results_height := 40 in
   let chart_min_height := 300 in
   let instructions_height := 40 in
   let panel_min_height := 120 in
   let button_min_height := 40 in
   let min_required_height :=
     header_height + RESULT_MARGIN +
     results_height + PANEL_MARGIN +
     chart_min_height + PANEL_MARGIN +
     instructions_height + PANEL_MARGIN +
     panel_min_height + PANEL_MARGIN * 3 +
     button_min_height + PANEL_MARGIN in
   Z.max min_required_height 700)%Z.

(** [calculate_layout()]. *)
Definition calculate_layout (g : Globals) : Globals :=
  let W := inject_Z (WIDTH g) in
  let H := inject_Z (HEIGHT g) in
  let margin := inject_Z PANEL_MARGIN in
  let h_margin := inject_Z H_MARGIN in
  let header_height := inject_Z HEADER_HEIGHT in
  let results_panel_height := 40 in
  let chart_ratio := 5 # 10 in
  let instructions_height := 40 in
  let panel_height0 := 180 in
  let button_height := 40 in
  let available_height := H - header_height - margin in
  let results_panel_top := header_height + inject_Z RESULT_MARGIN in
  let remaining_height :=
    available_height - results_panel_height - inject_Z RESULT_MARGIN in
  let chart_height := py_min (remaining_height * chart_ratio) 450 in
  let chart_width := py_min (W * (7 # 10)) 800 in
  let chart_left := py_floor ((W - chart_width) / 2) in
  let chart_top := results_panel_top + results_panel_height + margin in
  let instructions_top := chart_top + chart_height + margin in
  let remaining_height_after_chart :=
    H - instructions_top - instructions_height - margin in
  let total_needed_height := panel_height0 + margin * 3 + button_height in
  let panel_height :=
    if Qltb remaining_height_after_chart total_needed_height then
      let scale_factor :=
        remaining_height_after_chart / total_needed_height in
      py_max 120 (inject_Z (py_int (panel_height0 * scale_factor)))
    else panel_height0 in
  let min_panel_width :=
    inject_Z (LABEL_COLUMN_WIDTH + SLIDER_MIN_WIDTH + VALUE_COLUMN_WIDTH +
              LABEL_SLIDER_GAP + SLIDER_VALUE_GAP + H_MARGIN * 2) in
  let panel_width := py_max (py_min (W * (8 # 10)) 600) min_panel_width in
  let panel_left := py_floor ((W - panel_width) / 2) in
  let panel_top := instructions_top + instructions_height + margin in
  let title_height := 40 in
  let available_slider_space := panel_height - title_height - 20 in
  let slider_rows := 4 in
  let row_height := available_slider_space / slider_rows in
  let slider_col :=
    panel_left + h_margin + inject_Z LABEL_COLUMN_WIDTH
    + inject_Z LABEL_SLIDER_GAP in
  let slider_width :=
    panel_width - inject_Z LABEL_COLUMN_WIDTH - inject_Z VALUE_COLUMN_WIDTH
    - h_margin * 2 - inject_Z LABEL_SLIDER_GAP - inject_Z SLIDER_VALUE_GAP in
  let row k := panel_top + title_height + row_height * k in
  let button_width := 200%Z in
  let button_top0 := panel_top + panel_height + margin in
  let button_top :=
    if Qltb H (button_top0 + button_height + margin)
    then H - button_height - margin else button_top0 in
  let left_button_left := ((WIDTH g - 2 * button_width - 20) / 2)%Z in
  let right_button_left := (left_button_left + button_width + 20)%Z in
  let rebuild (s : Slider) (y : Q) (lo hi : Q) : Slider :=
    mkSlider (slider_col, y) slider_width (value s) lo hi (dragging s) in
  let g1 :=
    set_sliders g
      (rebuild (slider_df g) (row (5 # 10)) 1 30)
      (rebuild (slider_alpha g) (row (15 # 10)) (1 # 100) (2 # 10))
      (rebuild (slider_max_x g) (row (25 # 10)) 5 40)
      (rebuild (slider_num_dist g) (row (35 # 10)) 1 5) in
  set_layout g1
    (rect_of (inject_Z left_button_left) button_top
             (inject_Z button_width) button_height)
    (rect_of (inject_Z right_button_left) button_top
             (inject_Z button_width) button_height)
    (mkLayout chart_left chart_top chart_width chart_height
       instructions_top panel_left panel_top panel_width panel_height
       (rect_of panel_left instructions_top 30 30) button_top).

Definition draw_menu (g : Globals) : Rect * Rect :=
  (mkRect (WIDTH g / 2 - 150) (HEIGHT g / 2 + 100) 300 60,
   mkRect (WIDTH g / 2 - 150) (HEIGHT g / 2 + 200) 300 60)%Z.

(** [back_button, next_button, menu_button] of the tutorial branch. *)
Definition tutorial_buttons (g : Globals) : Rect * Rect * Rect :=
  (mkRect 50 (HEIGHT g - 100) 200 50,
   mkRect (WIDTH g - 250) (HEIGHT g - 100) 200 50,
   mkRect 30 10 100 40)%Z.

(** [back_button, toggle_rect]. *)
Definition draw_game (g : Globals) : Rect * Rect :=
  (mkRect 30 10 100 40, toggle_rect (layout g)).

Definition press_slider (mouse_pos : Z * Z) (s : Slider) : exc Slider :=
  if collidepoint (slider_rect s) mouse_pos
  then drag_to (fst mouse_pos) (set_dragging s true)
  else ok s.

Definition move_slider (mouse_pos : Z * Z) (s : Slider) : exc Slider :=
  if dragging s then drag_to (fst mouse_pos) s else ok s.

Definition for_sliders (f : Slider -> exc Slider) (g : Globals)
    : exc Globals :=
  d <- f (slider_df g) ;;
  a <- f (slider_alpha g) ;;
  x <- f (slider_max_x g) ;;
  n <- f (slider_num_dist g) ;;
  ok (set_sliders g d a x n).

Definition clear_dragging (g : Globals) : Globals :=
  set_sliders g
    (set_dragging (slider_df g) false)
    (set_dragging (slider_alpha g) false)
    (set_dragging (slider_max_x g) false)
    (set_dragging (slider_num_dist g) false).

(** [elif event.type == pygame.VIDEORESIZE]. *)
Definition on_videoresize (g : Globals) (w h : Z) : Globals :=
  let calculated_min_width :=
    (2 * (LABEL_COLUMN_WIDTH + SLIDER_MIN_WIDTH + VALUE_COLUMN_WIDTH)
     + PANEL_MARGIN * 3 + H_MARGIN * 4)%Z in
  let calculated_min_height := calculate_min_height in
  let g1 :=
    set_window g (Z.max (Z.max w calculated_min_width) MIN_WIDTH)
                 (Z.max h calculated_min_height) in
  clear_dragging (calculate_layout g1).

Definition on_keydown (g : Globals) (key : Z) : Globals :=
  if (key =? K_ESCAPE)%Z then
    if Page_eqb (state g) MENU then g else set_state g MENU
  else g.

(** The ranges the four sliders are kept in. *)
Definition Inv (g : Globals) : Prop :=
  bounded 1 30 (slider_df g) /\
  bounded (1 # 100) (2 # 10) (slider_alpha g) /\
  bounded 5 40 (slider_max_x g) /\ bounded 1 5 (slider_num_dist g).

(** The window is at least [calculate_min_height()] high and the sliders
    sit where [calculate_layout] puts them for this window. *)
Definition laid_out (g : Globals) : Prop :=
  (calculate_min_height <= HEIGHT g)%Z /\
  map geometry (sliders g) = map geometry (sliders (calculate_layout g)).

Section Loop.

(** [stats.chi2.ppf(q, df)]. *)
Variable stats_chi2_ppf : Q -> Z -> R.

(** [update_parameters()]. *)
Definition update_parameters (g : Globals) : Globals :=
  let d := Z.max 1 (py_int (value (slider_df g))) in
  let a := py_max (1 # 100) (py_min (2 # 10) (value (slider_alpha g))) in
  set_parameters g d a (value (slider_max_x g))
    (py_int (value (slider_num_dist g))) (stats_chi2_ppf (1 - a) d).

Definition on_mousebuttondown (mouse_pos : Z * Z) (g : Globals)
    : exc Globals :=
  match state g with
  | MENU =>
      let '(start_button, tutorial_button) := draw_menu g in
      if collidepoint start_button mouse_pos then
        ok (update_parameters (set_state g GAME))
      else if collidepoint tutorial_button mouse_pos then
        ok (set_tutorial_page (set_state g TUTORIAL) 0)
      else ok g
  | TUTORIAL =>
      let '(back_button, next_button, menu_button) :=
        tutorial_buttons g in
      if collidepoint menu_button mouse_pos then ok (set_state g MENU)
      else if collidepoint back_button mouse_pos
              && (0 <? tutorial_page g)%Z then
        ok (set_tutorial_page g (tutorial_page g - 1))
      else if collidepoint next_button mouse_pos then
        if (tutorial_page g <? num_tutorial_pages - 1)%Z
        then ok (set_tutorial_page g (tutorial_page g + 1))
        else ok (update_parameters (set_state g GAME))
      else ok g
  | GAME =>
      let '(back_button, toggle) := draw_game g in
      let g1 :=
        if collidepoint toggle mouse_pos
        then set_show_instructions g (negb (show_instructions g))
        else g in
      let g2 :=
        if collidepoint back_button mouse_pos then set_state g1 MENU
        else if collidepoint (update_button g1) mouse_pos
        then update_parameters g1
        else if collidepoint (toggle_critical_button g1) mouse_pos
        then update_parameters
               (set_show_critical g1 (negb (show_critical g1)))
        else g1 in
      for_sliders (press_slider mouse_pos) g2
  end.

(** The body of [for event in pygame.event.get()]. *)
Definition handle_event (mouse_pos : Z * Z) (g : Globals) (ev : Event)
    : exc Globals :=
  match ev with
  | QUIT => ok (set_running g false)
  | VIDEORESIZE w h => ok (on_videoresize g w h)
  | KEYDOWN key => ok (on_keydown g key)
  | MOUSEBUTTONDOWN button =>
      if (button =? 1)%Z then on_mousebuttondown mouse_pos g else ok g
  | MOUSEBUTTONUP => ok (clear_dragging g)
  | MOUSEMOTION _ => for_sliders (move_slider mouse_pos) g
  | OTHER => ok g
  end.

Definition initial_globals : Globals :=
  let slider v lo hi := mkSlider (0, 0) 200 v lo hi false in
  calculate_layout
    (mkGlobals initial_width initial_height MENU
       (slider 3 1 30) (slider (5 # 100) (1 # 100) (2 # 10))
       (slider 20 5 40) (slider 5 1 5)
       (mkRect 0 0 0 0) (mkRect 0 0 0 0)
       3%Z (5 # 100) true 20 5%Z (stats_chi2_ppf (1 - (5 # 100)) 3)
       false 0%Z true
       (mkLayout 0 0 0 0 0 0 0 0 0 (mkRect 0 0 0 0) 0)
       true).

End Loop.

(** The parameters on display are within the ranges of their sliders, and
    the critical value is the quantile for the [alpha] and the degrees of
    freedom on display. *)
Definition params_ok (stats_chi2_ppf : Q -> Z -> R) (g : Globals) : Prop :=
  (1 <= degrees_of_freedom g <= 30)%Z /\
  (1 # 100) <= alpha_level g /\ alpha_level g <= (2 # 10) /\
  5 <= max_x_value g /\ max_x_value g <= 40 /\
  (1 <= num_distributions g <= 5)%Z /\
  critical_value g
  = stats_chi2_ppf (1 - alpha_level g) (degrees_of_freedom g).

End ChiSquare.

(** ** numpy floats that may be NaN *)

Module Np.

Local Open Scope R_scope.

(** A float as numpy returns it: a number, or NaN ([None]). *)
Definition npfloat : Type := option R.

Definition lift2 (f : R -> R -> R) (a b : npfloat) : npfloat :=
  match a, b with
  | Some x, Some y => Some (f x y)
  | _, _ => None
  end.

Definition nf_add : npfloat -> npfloat -> npfloat := lift2 Rplus.
Definition nf_sub : npfloat -> npfloat -> npfloat := lift2 Rminus.
Definition nf_mul : npfloat -> npfloat -> npfloat := lift2 Rmult.

(** [a < b]: false as soon as one side is NaN. *)
Definition nf_ltb (a b : npfloat) : bool :=
  match a, b with
  | Some x, Some y => if Rlt_dec x y then true else false
  | _, _ => false
  end.

Definition rsum (xs : list R) : R := fold_right Rplus 0 xs.

(** [np.mean(xs)]: NaN on an empty array. *)
Definition np_mean (xs : list R) : npfloat :=
  match xs with
  | [] => None
  | _ => Some (rsum xs / INR (length xs))
  end.

(** [np.std(xs, ddof=1)]: NaN when there are fewer than two values. *)
Definition np_std_ddof1 (xs : list R) : npfloat :=
  match xs with
  | [] | [_] => None
  | _ =>
      let m := rsum xs / INR (length xs) in
      Some (sqrt (rsum (map (fun x => (x - m) * (x - m)) xs)
                  / (INR (length xs) - 1)))
  end.

(** [x / np.sqrt(n)] for the length [n] of the array [x] was computed
    from: NaN when [x] is NaN, which includes [n = 0]. *)
Definition nf_div_sqrt_len (x : npfloat) (n : nat) : npfloat :=
  match x, n with
  | Some v, S _ => Some (v / sqrt (INR n))
  | _, _ => None
  end.

End Np.

(** ** [Week1_Simple_Effect/one_sample_ttest.py] *)

Module OneSampleTTest.

Import Np.

Definition MIN_WIDTH : Z := 1000.
Definition MIN_HEIGHT : Z := 700.

Definition original_data : list Z :=
  [86; 73; 50; 73; 24; 65; 84; 54; 16; 26]%Z.

Definition significance_level : R := (5 / 100)%R.

(** [test_value_slider = {"rect": ..., "pos": ..., "dragging": ...}]. *)
Record ValueSlider : Type := mkValueSlider {
  srect : Rect;
  spos : Q;
  sdragging : bool
}.

(** The [layout] dictionary. *)
Record Panel : Type := mkPanel {
  left : Q; top : Q; pwidth : Q; pheight : Q
}.

Record Layout : Type := mkLayout {
  header_height : Q;
  info_panel : Panel;
  data_panel : Panel;
  visualization : Panel;
  controls_top : Q
}.

(** The module-level variables. *)
Record Globals : Type := mkGlobals {
  WIDTH : Z;
  HEIGHT : Z;
  data : list Z;
  hypothesized_mean : Q;
  selected_point : option nat;
  dragging : bool;
  show_info : bool;
  reset_button : Rect;
  info_button : Rect;
  test_value_slider : ValueSlider;
  layout : Layout;
  running : bool
}.

Definition set_window (g : Globals) (w h : Z) : Globals :=
  mkGlobals w h (data g) (hypothesized_mean g) (selected_point g)
    (dragging g) (show_info g) (reset_button g) (info_button g)
    (test_value_slider g) (layout g) (running g).

Definition set_data (g : Globals) (d : list Z) : Globals :=
  mkGlobals (WIDTH g) (HEIGHT g) d (hypothesized_mean g) (selected_point g)
    (dragging g) (show_info g) (reset_button g) (info_button g)
    (test_value_slider g) (layout g) (running g).

Definition set_selection (g : Globals) (sp : option nat) (d : bool)
    : Globals :=
  mkGlobals (WIDTH g) (HEIGHT g) (data g) (hypothesized_mean g) sp d
    (show_info g) (reset_button g) (info_button g) (test_value_slider g)
    (layout g) (running g).

Definition set_show_info (g : Globals) (b : bool) : Globals :=
  mkGlobals (WIDTH g) (HEIGHT g) (data g) (hypothesized_mean g)
    (selected_point g) (dragging g) b (reset_button g) (info_button g)
    (test_value_slider g) (layout g) (running g).

Definition set_slider (g : Globals) (s : ValueSlider) (mu : Q) : Globals :=
  mkGlobals (WIDTH g) (HEIGHT g) (data g) mu (selected_point g)
    (dragging g) (show_info g) (reset_button g) (info_button g) s
    (layout g) (running g).

Definition set_layout (g : Globals) (reset info : Rect) (s : ValueSlider)
    (l : Layout) : Globals :=
  mkGlobals (WIDTH g) (HEIGHT g) (data g) (hypothesized_mean g)
    (selected_point g) (dragging g) (show_info g) reset info s l
    (running g).

Definition set_running (g : Globals) (b : bool) : Globals :=
  mkGlobals (WIDTH g) (HEIGHT g) (data g) (hypothesized_mean g)
    (selected_point g) (dragging g) (show_info g) (reset_button g)
    (info_button g) (test_value_slider g) (layout g) b.

(** [calculate_layout()]: the slider dictionary is rebuilt with the drag
    flag it had. *)
Definition calculate_layout (g : Globals) : Globals :=
  let W := inject_Z (WIDTH g) in
  let H := inject_Z (HEIGHT g) in
  let header_height := 60 in
  let sidebar_width0 := py_max 350 (W * (3 # 10)) in
  let content_width0 := W - 2 * sidebar_width0 - 40 in
  let narrow := Qltb content_width0 400 in
  let content_width := if narrow then 400 else content_width0 in
  let sidebar_width :=
    if narrow then (W - content_width - 40) / 2 else sidebar_width0 in
  let vis_left := sidebar_width + 20 in
  let vis_width := content_width in
  let vis_top := header_height + 20 in
  let vis_height := H - vis_top - 120 in
  let vis_plot_height := vis_height - 60 in
  let info_panel_left := 20 in
  let info_panel_top := header_height + 20 in
  let info_panel_width := sidebar_width - 20 in
  let info_panel_height := py_floor (vis_height / 2) in
  let data_panel_left := vis_left + vis_width + 20 in
  let data_panel_top := header_height + 20 in
  let data_panel_width := sidebar_width - 40 in
  let data_panel_height := vis_height in
  let controls_top := H - 100 in
  let info := rect_of (W - 150) 20 120 40 in
  let reset := rect_of (W - 150) controls_top 120 40 in
  let slider_left := vis_left + 50 in
  let slider_width := vis_width - 100 in
  let slider_top := controls_top + 15 in
  let slider :=
    mkValueSlider
      (rect_of slider_left slider_top slider_width 10)
      (slider_left + slider_width * (hypothesized_mean g - 0) / 100)
      (sdragging (test_value_slider g)) in
  set_layout g reset info slider
    (mkLayout header_height
       (mkPanel info_panel_left info_panel_top info_panel_width
                info_panel_height)
       (mkPanel data_panel_left data_panel_top data_panel_width
                data_panel_height)
       (mkPanel vis_left vis_top vis_width vis_plot_height)
       controls_top).

(** [//] on ints. *)
Definition py_floordiv (a b : Z) : exc Z :=
  if (b =? 0)%Z then raise ZeroDivisionError else ok (a / b)%Z.

(** [max(0, min(100, (pos - rect.left) / rect.width * 100))]. *)
Definition mean_of_pos (r : Rect) (p : Q) : exc Q :=
  q <- py_truediv (p - inject_Z (rx r)) (inject_Z (rw r)) ;;
  ok (py_max 0 (py_min 100 (q * 100))).

(** [elif event.type == pygame.VIDEORESIZE]. *)
Definition on_videoresize (g : Globals) (w h : Z) : Globals :=
  calculate_layout (set_window g (Z.max w MIN_WIDTH) (Z.max h MIN_HEIGHT)).

(** The table hit test of [MOUSEBUTTONDOWN]: the index of the data point
    under the pointer, if the pointer is inside the data panel. *)
Definition clicked_point (g : Globals) (mouse_pos : Z * Z)
    : exc (option Z) :=
  let p := data_panel (layout g) in
  let panel := rect_of (left p) (top p) (pwidth p) (pheight p) in
  if collidepoint panel mouse_pos then
    (let relative_y := snd mouse_pos - (ry panel + 60) in
     let relative_x := fst mouse_pos - (rx panel + 10) in
     let available_width := rw panel - 20 in
     let min_cell_width := 80 in
     let cols := Z.max 1 (Z.min 5 (available_width / min_cell_width)) in
     let cell_width := available_width / cols in
     let max_visible_rows := (rh panel - 80) / 30 in
     let len := Z.of_nat (length (data g)) in
     let rows := (len + cols - 1) / cols in
     cell_height <-
       (if max_visible_rows <? rows
        then py_floordiv (rh panel - 80) rows else ok 30) ;;
     col <- py_floordiv relative_x cell_width ;;
     row <- py_floordiv relative_y cell_height ;;
     ok (Some (row * cols + col)))%Z
  else ok None.

(** [draw_data_table()]: the number of columns of the grid, the width of
    a cell, and the point [(cell_x, cell_y)] the entry of data point [i]
    is drawn at. *)
Definition table_cols (g : Globals) : Z :=
  let p := data_panel (layout g) in
  let table_rect := rect_of (left p) (top p) (pwidth p) (pheight p) in
  let available_width := (rw table_rect - 20)%Z in
  let min_cell_width := 80%Z in
  Z.max 1 (Z.min 5 (available_width / min_cell_width)).

Definition table_cell_width (g : Globals) : exc Z :=
  let p := data_panel (layout g) in
  let table_rect := rect_of (left p) (top p) (pwidth p) (pheight p) in
  py_floordiv (rw table_rect - 20) (table_cols g).

Definition table_cell_height (g : Globals) : exc Z :=
  let p := data_panel (layout g) in
  let table_rect := rect_of (left p) (top p) (pwidth p) (pheight p) in
  let cols := table_cols g in
  let len := Z.of_nat (length (data g)) in
  let rows := ((len + cols - 1) / cols)%Z in
  let cell_height := 30%Z in
  let max_visible_rows := ((rh table_rect - 80) / cell_height)%Z in
  if (max_visible_rows <? rows)%Z
  then py_floordiv (rh table_rect - 80) rows else ok cell_height.

Definition cell_origin (g : Globals) (i : nat) : exc (Z * Z) :=
  let p := data_panel (layout g) in
  let table_rect := rect_of (left p) (top p) (pwidth p) (pheight p) in
  let cols := table_cols g in
  cell_width <- table_cell_width g ;;
  let start_y := (ry table_rect + 60)%Z in
  cell_height <- table_cell_height g ;;
  col <- (if (cols =? 0)%Z then raise ZeroDivisionError
          else ok (Z.of_nat i mod cols)%Z) ;;
  row <- py_floordiv (Z.of_nat i) cols ;;
  ok (rx table_rect + 10 + col * cell_width,
      start_y + row * cell_height)%Z.

(** [elif event.type == pygame.MOUSEBUTTONDOWN]. *)
Definition on_mousebuttondown (mouse_pos : Z * Z) (g : Globals)
    : exc Globals :=
  let g1 :=
    if collidepoint (reset_button g) mouse_pos then
      set_selection (set_data g original_data) None (dragging g)
    else if collidepoint (info_button g) mouse_pos then
      set_show_info g (negb (show_info g))
    else g in
  let r := srect (test_value_slider g1) in
  let slider_rect_expanded :=
    mkRect (rx r - 10) (ry r - 10) (rw r + 20) (rh r + 20) in
  g2 <-
    (if collidepoint slider_rect_expanded mouse_pos then
       let p := inject_Z (fst mouse_pos) in
       mu <- mean_of_pos r p ;;
       ok (set_slider g1 (mkValueSlider r p true) mu)
     else ok g1) ;;
  hit <- clicked_point g2 mouse_pos ;;
  match hit with
  | Some point_index =>
      if ((0 <=? point_index)
          && (point_index <? Z.of_nat (length (data g2))))%Z
      then ok (set_selection g2 (Some (Z.to_nat point_index)) true)
      else ok g2
  | None => ok g2
  end.

(** [elif event.type == pygame.MOUSEBUTTONUP]. *)
Definition on_mousebuttonup (g : Globals) : Globals :=
  let g1 := set_selection g (selected_point g) false in
  let s := test_value_slider g1 in
  set_slider g1 (mkValueSlider (srect s) (spos s) false)
             (hypothesized_mean g1).

(** [elif event.type == pygame.MOUSEMOTION]. *)
Definition on_mousemotion (mouse_pos : Z * Z) (rel_y : Z) (g : Globals)
    : exc Globals :=
  g1 <-
    (match dragging g, selected_point g with
     | true, Some i =>
         v <- py_index (data g) i ;;
         ok (set_data g
               (update_nth i (fun _ => Z.max 0 (v - rel_y)) (data g)))
     | _, _ => ok g
     end) ;;
  let s := test_value_slider g1 in
  if sdragging s then
    let r := srect s in
    let p :=
      py_max (inject_Z (rx r))
             (py_min (inject_Z (rx r + rw r)) (inject_Z (fst mouse_pos))) in
    mu <- mean_of_pos r p ;;
    ok (set_slider g1 (mkValueSlider r p true) mu)
  else ok g1.

(** The body of [for event in pygame.event.get()]; the pointer position is
    read inside the handlers. *)
Definition handle_event (mouse_pos : Z * Z) (g : Globals) (ev : Event)
    : exc Globals :=
  match ev with
  | QUIT => ok (set_running g false)
  | VIDEORESIZE w h => ok (on_videoresize g w h)
  | MOUSEBUTTONDOWN _ => on_mousebuttondown mouse_pos g
  | MOUSEBUTTONUP => ok (on_mousebuttonup g)
  | MOUSEMOTION rel_y => on_mousemotion mouse_pos rel_y g
  | KEYDOWN _ | OTHER => ok g
  end.

(** The state [main()] starts its loop in. *)
Definition initial_globals : Globals :=
  calculate_layout
    (mkGlobals 1200 800 original_data (434 # 10) None false true
       (mkRect 0 0 120 40) (mkRect 0 0 120 40)
       (mkValueSlider (mkRect 0 0 300 10) 0 false)
       (mkLayout 0 (mkPanel 0 0 0 0) (mkPanel 0 0 0 0) (mkPanel 0 0 0 0) 0)
       true).

(** What the loop keeps true: the slider track and the data panel are wide
    enough for the divisions of the handlers, the table holds its ten
    points and a selected point is one of them, and the test value lies
    between 0 and 100. *)
Definition Inv (g : Globals) : Prop :=
  let p := data_panel (layout g) in
  let panel := rect_of (left p) (top p) (pwidth p) (pheight p) in
  (0 < rw (srect (test_value_slider g)))%Z /\
  (21 <= rw panel)%Z /\ (380 <= rh panel)%Z /\
  length (data g) = 10%nat /\
  (forall i, selected_point g = Some i -> (i < 10)%nat) /\
  0 <= hypothesized_mean g /\ hypothesized_mean g <= 100.

(** *** [perform_ttest] *)

(** The dictionary [perform_ttest] returns. *)
Record TestResults : Type := mkTestResults {
  sample_mean : npfloat;
  sample_std : npfloat;
  standard_error : npfloat;
  t_stat : npfloat;
  p_two_sided : npfloat;
  p_greater : npfloat;
  p_less : npfloat;
  ci_lower : npfloat;
  ci_upper : npfloat;
  significant_two_sided : bool;
  significant_greater : bool;
  significant_less : bool
}.

Section Engine.

(** [stats.ttest_1samp(data, mu)]. *)
Variable stats_ttest_1samp : list R -> R -> npfloat * npfloat.

(** [stats.t.ppf(q, df=df)]. *)
Variable stats_t_ppf : R -> Z -> npfloat.

Definition perform_ttest (xs : list R) (mu : R) : TestResults :=
  let sample_mean := np_mean xs in
  let sample_std := np_std_ddof1 xs in
  let sample_size := length xs in
  let standard_error := nf_div_sqrt_len sample_std sample_size in
  let '(t_stat, p_two_sided) := stats_ttest_1samp xs mu in
  let half := nf_mul p_two_sided (Some (1 / 2)%R) in
  let p_greater :=
    if nf_ltb (Some 0%R) t_stat then half else nf_sub (Some 1%R) half in
  let p_less :=
    if nf_ltb t_stat (Some 0%R) then half else nf_sub (Some 1%R) half in
  let q := stats_t_ppf (975 / 1000)%R (Z.of_nat sample_size - 1) in
  let ci_lower := nf_sub sample_mean (nf_mul q standard_error) in
  let ci_upper := nf_add sample_mean (nf_mul q standard_error) in
  mkTestResults sample_mean sample_std standard_error t_stat
    p_two_sided p_greater p_less ci_lower ci_upper
    (nf_ltb p_two_sided (Some significance_level))
    (nf_ltb p_greater (Some significance_level))
    (nf_ltb p_less (Some significance_level)).

End Engine.

(** *** Examples *)

(** The start state with the test-value slider grabbed. *)
Definition grabbed : Globals :=
  let s := test_value_slider initial_globals in
  set_slider initial_globals (mkValueSlider (srect s) (spos s) true)
             (hypothesized_mean initial_globals).

(** SciPy on a sample of three points, which has two degrees of freedom:
    Student's law then has the quantile function
    [(2 p - 1) / sqrt (2 p (1 - p))] and the two-sided tail
    [1 - |t| / sqrt (2 + t^2)]. *)
Definition t_ppf_2 (p : R) (df : Z) : npfloat :=
  Some ((2 * p - 1) / sqrt (2 * p * (1 - p)))%R.

Definition ttest_1samp_3 (xs : list R) (mu : R) : npfloat * npfloat :=
  match np_mean xs, nf_div_sqrt_len (np_std_ddof1 xs) (length xs) with
  | Some m, Some se =>
      if Req_dec_T se 0 then (None, None)
      else
        let t := ((m - mu) / se)%R in
        (Some t, Some (1 - Rabs t / sqrt (2 + t * t))%R)
  | _, _ => (None, None)
  end.

End OneSampleTTest.

(** ** [Week1_Simple_Effect/paired_ttest.py] *)

Module PairedTTest.

Import Np.
Local Open Scope R_scope.

Definition significance_level : R := 5 / 100.

(** The dictionary [perform_paired_ttest] returns. *)
Record TestResults : Type := mkTestResults {
  t_stat : npfloat;
  p_value : npfloat;
  mean_before : npfloat;
  mean_after : npfloat;
  std_before : npfloat;
  std_after : npfloat;
  mean_diff : npfloat;
  std_diff : npfloat;
  se_diff : npfloat;
  ci_95 : npfloat * npfloat;
  differences : list R;
  significant : bool
}.

(** [before - after] on two one-dimensional arrays: elementwise on equal
    lengths, an array of length one is broadcast, any other pair of
    lengths raises. *)
Definition np_subtract (before after : list R) : exc (list R) :=
  if Nat.eqb (length before) (length after) then
    ok (map (fun ba => fst ba - snd ba) (combine before after))
  else
    match before, after with
    | [b], _ => ok (map (fun a => b - a) after)
    | _, [a] => ok (map (fun b => b - a) before)
    | _, _ => raise ValueError
    end.

Section Engine.

(** [stats.ttest_rel(before, after, alternative='two-sided')]. *)
Variable stats_ttest_rel :
  list R -> list R -> exc (npfloat * npfloat).

(** [stats.t.ppf(q, df)]. *)
Variable stats_t_ppf : R -> Z -> npfloat.

Definition perform_paired_ttest (before after : list R)
    : exc TestResults :=
  (differences <- np_subtract before after ;;
   tp <- stats_ttest_rel before after ;;
   let mean_before := np_mean before in
   let mean_after := np_mean after in
   let std_before := np_std_ddof1 before in
   let std_after := np_std_ddof1 after in
   let mean_diff := np_mean differences in
   let std_diff := np_std_ddof1 differences in
   let se_diff := nf_div_sqrt_len std_diff (length differences) in
   let df := (Z.of_nat (length differences) - 1)%Z in
   let ci_95 :=
     (nf_add (nf_mul (stats_t_ppf (25 / 1000) df) se_diff) mean_diff,
      nf_add (nf_mul (stats_t_ppf (975 / 1000) df) se_diff) mean_diff) in
   ok (mkTestResults (fst tp) (snd tp) mean_before mean_after
         std_before std_after mean_diff std_diff se_diff ci_95
         differences
         (nf_ltb (snd tp) (Some significance_level))))%py.

End Engine.

(** *** Examples *)

(** SciPy on two pairs, which leave one degree of freedom: Student's law
    is then Cauchy's, with the quantile function [tan (pi (p - 1/2))] and
    the two-sided tail [1 - (2 / pi) atan |t|]. *)
Definition t_ppf_1 (p : R) (df : Z) : npfloat :=
  Some (tan (PI * (p - 1 / 2))).

Definition ttest_rel_2 (before after : list R)
    : exc (npfloat * npfloat) :=
  (d <- np_subtract before after ;;
   match np_mean d, nf_div_sqrt_len (np_std_ddof1 d) (length d) with
   | Some m, Some se =>
       if Req_dec_T se 0 then ok (None, None)
       else
         let t := m / se in
         ok (Some t, Some (1 - 2 / PI * atan (Rabs t)))
   | _, _ => ok (None, None)
   end)%py.

Local Close Scope R_scope.

(** *** The event loop of [main()] *)

Definition MIN_WIDTH : Z := 1000.
Definition MIN_HEIGHT : Z := 700.

Definition original_before : list Q :=
  [425 # 10; 387 # 10; 512 # 10; 458 # 10; 493 # 10;
   551 # 10; 412 # 10; 476 # 10; 523 # 10; 449 # 10].

Definition original_after : list Q :=
  [352 # 10; 321 # 10; 457 # 10; 423 # 10; 418 # 10;
   495 # 10; 386 # 10; 402 # 10; 481 # 10; 405 # 10].

(** [selected_column]: ["before"] or ["after"]. *)
Inductive Column : Type := Before | After.

(** The [layout] dictionary. *)
Record Panel : Type := mkPanel {
  left : Q; top : Q; pwidth : Q; pheight : Q
}.

Record Layout : Type := mkLayout {
  header_height : Q;
  info_panel : Panel;
  data_panel : Panel;
  visualization : Panel;
  controls_top : Q
}.

(** The module-level variables. *)
Record Globals : Type := mkGlobals {
  WIDTH : Z;
  HEIGHT : Z;
  before_data : list Q;
  after_data : list Q;
  selected_point : option nat;
  selected_column : option Column;
  dragging : bool;
  show_info : bool;
  reset_button : Rect;
  info_button : Rect;
  layout : Layout;
  running : bool
}.

Definition set_window (g : Globals) (w h : Z) : Globals :=
  mkGlobals w h (before_data g) (after_data g) (selected_point g)
    (selected_column g) (dragging g) (show_info g) (reset_button g)
    (info_button g) (layout g) (running g).

Definition set_data (g : Globals) (b a : list Q) : Globals :=
  mkGlobals (WIDTH g) (HEIGHT g) b a (selected_point g)
    (selected_column g) (dragging g) (show_info g) (reset_button g)
    (info_button g) (layout g) (running g).

Definition set_selection (g : Globals) (sp : option nat)
    (sc : option Column) (d : bool) : Globals :=
  mkGlobals (WIDTH g) (HEIGHT g) (before_data g) (after_data g) sp sc d
    (show_info g) (reset_button g) (info_button g) (layout g) (running g).

Definition set_show_info (g : Globals) (b : bool) : Globals :=
  mkGlobals (WIDTH g) (HEIGHT g) (before_data g) (after_data g)
    (selected_point g) (selected_column g) (dragging g) b (reset_button g)
    (info_button g) (layout g) (running g).

Definition set_layout (g : Globals) (reset info : Rect) (l : Layout)
    : Globals :=
  mkGlobals (WIDTH g) (HEIGHT g) (before_data g) (after_data g)
    (selected_point g) (selected_column g) (dragging g) (show_info g)
    reset info l (running g).

Definition set_running (g : Globals) (b : bool) : Globals :=
  mkGlobals (WIDTH g) (HEIGHT g) (before_data g) (after_data g)
    (selected_point g) (selected_column g) (dragging g) (show_info g)
    (reset_button g) (info_button g) (layout g) b.

(** [calculate_layout()]. *)
Definition calculate_layout (g : Globals) : Globals :=
  let W := inject_Z (WIDTH g) in
  let H := inject_Z (HEIGHT g) in
  let header_height := 60 in
  let sidebar_width0 := py_max 350 (W * (3 # 10)) in
  let content_width0 := W - 2 * sidebar_width0 - 40 in
  let narrow := Qltb content_width0 400 in
  let content_width := if narrow then 400 else content_width0 in
  let sidebar_width :=
    if narrow then (W - content_width - 40) / 2 else sidebar_width0 in
  let vis_left := sidebar_width + 20 in
  let vis_width := content_width in
  let vis_top := header_height + 20 in
  let vis_height := H - vis_top - 120 in
  let info_panel_left := 20 in
  let info_panel_top := header_height + 20 in
  let info_panel_width := sidebar_width - 20 in
  let info_panel_height := py_floor (vis_height / 2) in
  let data_panel_left := vis_left + vis_width + 20 in
  let data_panel_top := header_height + 20 in
  let data_panel_width := sidebar_width - 40 in
  let data_panel_height := vis_height in
  let controls_top := H - 100 in
  let info := rect_of (W - 150) 20 120 40 in
  let reset := rect_of (W - 150) controls_top 120 40 in
  set_layout g reset info
    (mkLayout header_height
       (mkPanel info_panel_left info_panel_top info_panel_width
                info_panel_height)
       (mkPanel data_panel_left data_panel_top data_panel_width
                data_panel_height)
       (mkPanel vis_left vis_top vis_width vis_height)
       controls_top).

(** [elif event.type == pygame.VIDEORESIZE]. *)
Definition on_videoresize (g : Globals) (w h : Z) : Globals :=
  calculate_layout (set_window g (Z.max w MIN_WIDTH) (Z.max h MIN_HEIGHT)).

(** The table hit test of [MOUSEBUTTONDOWN]: the row and the column under
    the pointer, if the pointer is on a data row of the panel.  The row
    height is computed, with its division by the number of rows, before
    the pointer is looked at. *)
Definition clicked_cell (g : Globals) (mouse_pos : Z * Z)
    : exc (option (Z * Column)) :=
  let p := data_panel (layout g) in
  let panel := rect_of (left p) (top p) (pwidth p) (pheight p) in
  if collidepoint panel mouse_pos then
    let title_y := (ry panel + 60 + 10)%Z in
    let data_start_y := (title_y + 35)%Z in
    q <- py_truediv (inject_Z (rh panel - 100))
                    (inject_Z (Z.of_nat (length (before_data g)))) ;;
    let row_height := py_min 30 q in
    if (data_start_y <=? snd mouse_pos)%Z then
      r <- py_truediv (inject_Z (snd mouse_pos - data_start_y))
                      row_height ;;
      let row_index := py_int r in
      if ((0 <=? row_index)
          && (row_index <? Z.of_nat (length (before_data g))))%Z then
        let before_header_x :=
          inject_Z (rx panel) + inject_Z (rw panel) * (25 # 100) in
        let after_header_x :=
          inject_Z (rx panel) + inject_Z (rw panel) * (75 # 100) in
        let x := inject_Z (fst mouse_pos) in
        ok (Some (row_index,
                  if Qltb (Qabs (x - before_header_x))
                          (Qabs (x - after_header_x))
                  then Before else After))
      else ok None
    else ok None
  else ok None.

(** [elif event.type == pygame.MOUSEBUTTONDOWN]. *)
Definition on_mousebuttondown (mouse_pos : Z * Z) (g : Globals)
    : exc Globals :=
  let g1 :=
    if collidepoint (reset_button g) mouse_pos then
      set_selection (set_data g original_before original_after)
                    None None (dragging g)
    else if collidepoint (info_button g) mouse_pos then
      set_show_info g (negb (show_info g))
    else g in
  hit <- clicked_cell g1 mouse_pos ;;
  match hit with
  | Some (row_index, column) =>
      ok (set_selection g1 (Some (Z.to_nat row_index)) (Some column) true)
  | None => ok g1
  end.

(** [elif event.type == pygame.MOUSEBUTTONUP]. *)
Definition on_mousebuttonup (g : Globals) : Globals :=
  set_selection g (selected_point g) (selected_column g) false.

(** [elif event.type == pygame.MOUSEMOTION]: half the vertical motion,
    inverted, is added to the selected cell, which is kept at 0 or
    above. *)
Definition on_mousemotion (rel_y : Z) (g : Globals) : exc Globals :=
  match dragging g, selected_point g, selected_column g with
  | true, Some i, Some column =>
      let change := - inject_Z rel_y * (5 # 10) in
      match column with
      | Before =>
          v <- py_index (before_data g) i ;;
          ok (set_data g
                (update_nth i (fun _ => py_max 0 (v + change))
                            (before_data g))
                (after_data g))
      | After =>
          v <- py_index (after_data g) i ;;
          ok (set_data g (before_data g)
                (update_nth i (fun _ => py_max 0 (v + change))
                            (after_data g)))
      end
  | _, _, _ => ok g
  end.

(** The body of [for event in pygame.event.get()]; the pointer position
    is read inside the handler. *)
Definition handle_event (mouse_pos : Z * Z) (g : Globals) (ev : Event)
    : exc Globals :=
  match ev with
  | QUIT => ok (set_running g false)
  | VIDEORESIZE w h => ok (on_videoresize g w h)
  | MOUSEBUTTONDOWN _ => on_mousebuttondown mouse_pos g
  | MOUSEBUTTONUP => ok (on_mousebuttonup g)
  | MOUSEMOTION rel_y => on_mousemotion rel_y g
  | KEYDOWN _ | OTHER => ok g
  end.

(** The state [main()] starts its loop in. *)
Definition initial_globals : Globals :=
  calculate_layout
    (mkGlobals 1200 800 original_before original_after None None false
       true (mkRect 0 0 120 40) (mkRect 0 0 120 40)
       (mkLayout 0 (mkPanel 0 0 0 0) (mkPanel 0 0 0 0) (mkPanel 0 0 0 0) 0)
       true).

(** [draw_data_table()]: the height of a table row,
    [min(30, (table_rect.height - 100) / len(before_data))], and the
    ordinate [row_y] the row of subject [i] is drawn at. *)
Definition row_height (g : Globals) : exc Q :=
  let p := data_panel (layout g) in
  let table_rect := rect_of (left p) (top p) (pwidth p) (pheight p) in
  q <- py_truediv (inject_Z (rh table_rect - 100))
                  (inject_Z (Z.of_nat (length (before_data g)))) ;;
  ok (py_min 30 q).

Definition row_y (g : Globals) (i : nat) : exc Q :=
  let p := data_panel (layout g) in
  let table_rect := rect_of (left p) (top p) (pwidth p) (pheight p) in
  let start_y := (ry table_rect + 60)%Z in
  let title_y := (start_y + 10)%Z in
  let data_start_y := (title_y + 35)%Z in
  h <- row_height g ;;
  ok (inject_Z data_start_y + inject_Z (Z.of_nat i) * h).

(** What the loop keeps true: the data panel is high enough for ten rows
    of full height, both arrays hold their ten values, none of them
    negative, and a selected row is one of the ten. *)
Definition Inv (g : Globals) : Prop :=
  let p := data_panel (layout g) in
  let panel := rect_of (left p) (top p) (pwidth p) (pheight p) in
  (500 <= rh panel)%Z /\
  length (before_data g) = 10%nat /\
  length (after_data g) = 10%nat /\
  (forall i, selected_point g = Some i -> (i < 10)%nat) /\
  Forall (fun v => 0 <= v) (before_data g) /\
  Forall (fun v => 0 <= v) (after_data g).

Section Frame.

Variable stats_ttest_rel :
  list R -> list R -> exc (npfloat * npfloat).
Variable stats_t_ppf : R -> Z -> npfloat.

(** [test_results = perform_paired_ttest(before_data, after_data)], once
    per frame. *)
Definition frame_results (g : Globals) : exc TestResults :=
  perform_paired_ttest stats_ttest_rel stats_t_ppf
    (map Q2R (before_data g)) (map Q2R (after_data g)).

End Frame.

End PairedTTest.

(** * Properties *)

Unset Implicit Arguments.

(** ** The shared primitives *)

(** Case analysis on the first conditional of the goal, or of a hypothesis. *)
Ltac break_if :=
  match goal with
  | |- context [if ?c then _ else _] => destruct c eqn:?
  end.

Ltac break_if_in H :=
  match type of H with
  | context [if ?c then _ else _] => destruct c eqn:?
  end.

Module PyFacts.

Lemma Qltb_lt (a b : Q) : Qltb a b = true <-> a < b.
Proof.
  unfold Qltb. rewrite negb_true_iff.
  split; intros H.
  - apply Qnot_le_lt. intros Hle. apply Qle_bool_iff in Hle. congruence.
  - destruct (Qle_bool b a) eqn:E; [|reflexivity].
    apply Qle_bool_iff in E. exfalso. apply (Qlt_not_le _ _ H E).
Qed.

Lemma Qltb_ge (a b : Q) : Qltb a b = false <-> b <= a.
Proof.
  unfold Qltb. rewrite negb_false_iff. apply Qle_bool_iff.
Qed.

Lemma py_max_lower (a b : Q) : a <= py_max a b.
Proof.
  unfold py_max. destruct (Qltb a b) eqn:E.
  - apply Qltb_lt in E. apply Qlt_le_weak, E.
  - apply Qle_refl.
Qed.

Lemma py_max_upper (a b c : Q) : a <= c -> b <= c -> py_max a b <= c.
Proof. unfold py_max. destruct (Qltb a b); auto. Qed.

Lemma py_min_upper (a b : Q) : py_min a b <= a.
Proof.
  unfold py_min. destruct (Qltb b a) eqn:E.
  - apply Qltb_lt in E. apply Qlt_le_weak, E.
  - apply Qle_refl.
Qed.

(** The clamped value lies in the slider's range. *)
Lemma clamp_range (s : Slider) (v : Q) :
  smin s <= smax s -> smin s <= clamp s v /\ clamp s v <= smax s.
Proof.
  intros H. unfold clamp. split.
  - apply py_max_lower.
  - apply py_max_upper; [exact H | apply py_min_upper].
Qed.

(** At or below the minimum the clamp returns the minimum itself. *)
Lemma clamp_low (s : Slider) (v : Q) : v <= smin s -> clamp s v = smin s.
Proof.
  intros H. unfold clamp, py_max, py_min.
  destruct (Qltb v (smax s)) eqn:E1.
  - destruct (Qltb (smin s) v) eqn:E2; [|reflexivity].
    apply Qltb_lt in E2. exfalso. apply (Qlt_not_le _ _ E2 H).
  - destruct (Qltb (smin s) (smax s)) eqn:E2; [|reflexivity].
    apply Qltb_lt in E2. apply Qltb_ge in E1.
    exfalso. apply (Qlt_not_le _ _ E2). apply Qle_trans with v; assumption.
Qed.

(** At or above the maximum the clamp returns the maximum. *)
Lemma clamp_high (s : Slider) (v : Q) :
  smin s <= smax s -> smax s <= v -> clamp s v == smax s.
Proof.
  intros Hr H. unfold clamp, py_max, py_min.
  destruct (Qltb v (smax s)) eqn:E1.
  - apply Qltb_lt in E1. exfalso. apply (Qlt_not_le _ _ E1 H).
  - destruct (Qltb (smin s) (smax s)) eqn:E2; [reflexivity|].
    apply Qltb_ge in E2. apply Qle_antisym; assumption.
Qed.

Lemma py_truediv_ok (x y : Q) : ~ y == 0 -> py_truediv x y = ok (x / y).
Proof.
  intros H. unfold py_truediv.
  destruct (Qeq_bool y 0) eqn:E; [|reflexivity].
  apply Qeq_bool_iff in E. contradiction.
Qed.

Lemma slider_new_val_ok (mx : Z) (s : Slider) :
  0 < width s ->
  slider_new_val mx s =
    ok ((inject_Z mx - fst (pos s)) / width s * (smax s - smin s) + smin s).
Proof.
  intros H. unfold slider_new_val. rewrite py_truediv_ok; [reflexivity|].
  intros E. rewrite E in H. apply (Qlt_irrefl _ H).
Qed.

Lemma new_val_left (mx : Z) (s : Slider) :
  0 < width s -> smin s <= smax s -> inject_Z mx <= fst (pos s) ->
  (inject_Z mx - fst (pos s)) / width s * (smax s - smin s) + smin s
    <= smin s.
Proof.
  intros Hw Hr Hx.
  set (d := (inject_Z mx - fst (pos s)) / width s).
  assert (Hd : d <= 0).
  { unfold d. apply Qle_shift_div_r; [exact Hw|]. lra. }
  assert (Hm : 0 <= smax s - smin s) by lra.
  assert (d * (smax s - smin s) <= 0); [|lra].
  rewrite <- (Qmult_0_l (smax s - smin s)).
  apply Qmult_le_compat_r; assumption.
Qed.

Lemma new_val_right (mx : Z) (s : Slider) :
  0 < width s -> smin s <= smax s -> fst (pos s) + width s <= inject_Z mx ->
  smax s
    <= (inject_Z mx - fst (pos s)) / width s * (smax s - smin s) + smin s.
Proof.
  intros Hw Hr Hx.
  set (d := (inject_Z mx - fst (pos s)) / width s).
  assert (Hd : 1 <= d).
  { unfold d. apply Qle_shift_div_l; [exact Hw|]. lra. }
  assert (Hm : 0 <= smax s - smin s) by lra.
  assert (1 * (smax s - smin s) <= d * (smax s - smin s)); [|lra].
  apply Qmult_le_compat_r; assumption.
Qed.

Lemma py_max_ge_r (a b : Q) : b <= py_max a b.
Proof.
  unfold py_max. destruct (Qltb a b) eqn:E.
  - apply Qle_refl.
  - apply Qltb_ge in E. exact E.
Qed.

Lemma py_min_gt (a b c : Q) : c < a -> c < b -> c < py_min a b.
Proof. intros Ha Hb. unfold py_min. destruct (Qltb b a); assumption. Qed.

End PyFacts.

Module SumFacts.

Lemma fold_left_Zadd (xs : list Z) (a : Z) :
  fold_left Z.add xs a = (a + fold_left Z.add xs 0)%Z.
Proof.
  revert a. induction xs as [|x xs IH]; intros a; simpl.
  - lia.
  - rewrite IH, (IH x). lia.
Qed.

Lemma zsum_cons (x : Z) (xs : list Z) : zsum (x :: xs) = (x + zsum xs)%Z.
Proof. unfold zsum. simpl. apply fold_left_Zadd. Qed.

Lemma fold_left_Qplus_zero (xs : list Q) (a : Q) :
  Forall (fun x => x == 0) xs -> fold_left Qplus xs a == a.
Proof.
  intros H. revert a. induction H as [|x xs Hx _ IH]; intros a; simpl.
  - reflexivity.
  - rewrite IH, Hx. ring.
Qed.

Lemma qsum_zero (xs : list Q) : Forall (fun x => x == 0) xs -> qsum xs == 0.
Proof. apply fold_left_Qplus_zero. Qed.

Lemma qsum_acc (xs : list Q) (a : Q) :
  fold_left Qplus xs a == a + qsum xs.
Proof.
  unfold qsum. revert a. induction xs as [|x xs IH]; intros a; simpl.
  - ring.
  - rewrite IH, (IH (0 + x)). ring.
Qed.

Lemma qsum_head (x : Q) (xs : list Q) : qsum (x :: xs) == x + qsum xs.
Proof. unfold qsum at 1. simpl. rewrite qsum_acc. ring. Qed.

(** A sum of non-negative terms is non-negative, and zero only when every
    term is. *)
Lemma qsum_nonneg (xs : list Q) :
  Forall (fun x => 0 <= x) xs ->
  0 <= qsum xs /\ (qsum xs == 0 -> Forall (fun x => x == 0) xs).
Proof.
  intros H. induction H as [|x xs Hx _ [IH1 IH2]].
  - split; [apply Qle_refl | constructor].
  - rewrite qsum_head. split; [lra|].
    intros E. constructor; [lra|]. apply IH2. lra.
Qed.

End SumFacts.

Module RealFacts.
Local Open Scope R_scope.

Lemma exp_double (x : R) : exp (2 * x) = exp x * exp x.
Proof. replace (2 * x) with (x + x) by ring. apply exp_plus. Qed.

(** A crude lower bound, enough to see that [exp (-29)] prints as 0.0000. *)
Lemma exp_29_lower : 20000 < exp 29.
Proof.
  assert (Ha : 4 < exp (29 / 8)).
  { apply Rlt_trans with (1 + 29 / 8); [Lra.lra|]. apply exp_ineq1. Lra.lra. }
  assert (Hb : 16 < exp (29 / 4)).
  { replace (29 / 4) with (2 * (29 / 8)) by field. rewrite exp_double. Lra.nra. }
  assert (Hc : 256 < exp (29 / 2)).
  { replace (29 / 2) with (2 * (29 / 4)) by field. rewrite exp_double. Lra.nra. }
  replace 29 with (2 * (29 / 2)) by field. rewrite exp_double. Lra.nra.
Qed.

Lemma exp_neg_small (x : R) : 58 < x -> 0 < exp (- x / 2) < 5 / 100000.
Proof.
  intros H. split; [apply exp_pos|].
  apply Rlt_trans with (exp (Ropp 29)).
  - apply exp_increasing. Lra.lra.
  - rewrite exp_Ropp. pose proof exp_29_lower as H29.
    apply Rlt_le_trans with (/ 20000); [|Lra.lra].
    apply Rinv_lt_contravar; [|exact H29].
    apply Rmult_lt_0_compat; Lra.lra.
Qed.

Lemma exp_neg_lt_1 (x : R) : 0 < x -> exp (- x / 2) < 1.
Proof.
  intros H. rewrite <- exp_0. apply exp_increasing. Lra.lra.
Qed.

End RealFacts.

(** ** [Chi_2_Goodness_Fit.py]: the statistic engine *)

Module Chi2EngineFacts.

Import Chi2GoodnessFit PyFacts SumFacts.

Section Engine.

Variable stats_chisquare : list Z -> list Q -> exc (Q * R).
Variable stats_chi2_contingency : list (list Z) -> exc (Q * R * Z).

(** The short circuit on a zero observed total. *)
Lemma gof_try_zero_total (g : Globals) :
  zsum (gof_observed_counts g) = 0%Z ->
  gof_try stats_chisquare g =
    (set_has_calculated
       (set_results g 0 1%R
          (Z.of_nat (length (gof_observed_counts g)) - 1)) true,
     ok tt).
Proof.
  intros H. unfold gof_try. rewrite H. reflexivity.
Qed.

(** The regular path: one call to the library, whose answer is stored. *)
Lemma calculate_goodness_of_fit_regular (g : Globals)
    (expected : list Q) :
  zsum (gof_observed_counts g) <> 0%Z ->
  gof_expected_counts g (zsum (gof_observed_counts g)) = ok expected ->
  calculate_goodness_of_fit stats_chisquare g =
    let observed := gof_observed_counts g in
    let g1 := log_call g (CallChisquare observed expected) in
    match stats_chisquare observed expected with
    | inr (stat, p) =>
        set_has_calculated
          (set_results g1 stat p (Z.of_nat (length observed) - 1)) true
    | inl _ =>
        set_has_calculated
          (set_results g1 0 1%R (Z.of_nat (length gof_observed) - 1))
          true
    end.
Proof.
  intros Hz He. unfold calculate_goodness_of_fit, gof_try.
  apply Z.eqb_neq in Hz. rewrite Hz, He. unfold ok. cbv zeta iota beta.
  destruct (stats_chisquare (gof_observed_counts g) expected)
    as [e|[stat p]]; reflexivity.
Qed.

Lemma all_zero_props (sl : list Slider) :
  Forall (fun s => value s == 0) sl ->
  Forall (fun x => x == 0) (map (fun slider => value slider / 100) sl).
Proof.
  intros H. induction H as [|s sl Hs _ IH]; simpl; constructor.
  - rewrite Hs. reflexivity.
  - exact IH.
Qed.

(** With every proportion slider at zero the expected counts are the
    uniform ones. *)
Lemma gof_expected_counts_uniform (g : Globals) (total : Z) :
  sliders_gof_expected g <> [] ->
  Forall (fun s => value s == 0) (sliders_gof_expected g) ->
  let k := length (sliders_gof_expected g) in
  gof_expected_counts g total =
    ok (repeat (1 / inject_Z (Z.of_nat k) * inject_Z total) k).
Proof.
  intros Hne Hz k. unfold gof_expected_counts.
  assert (Hs : Qltb 0 (qsum (map (fun slider => value slider / 100)
                                 (sliders_gof_expected g))) = false).
  { apply Qltb_ge. rewrite qsum_zero; [apply Qle_refl|].
    apply all_zero_props, Hz. }
  rewrite Hs. rewrite length_map. fold k.
  rewrite py_truediv_ok.
  - simpl. rewrite map_repeat. reflexivity.
  - intros E. assert (Hk : (0 < Z.of_nat k)%Z).
    { unfold k. destruct (sliders_gof_expected g); [congruence|].
      simpl length. lia. }
    unfold Qeq in E. simpl in E. lia.
Qed.

End Engine.

End Chi2EngineFacts.

Module StatisticEngine.

Import Chi2GoodnessFit PyFacts SumFacts Chi2EngineFacts RealFacts.

(** C10: when the observed counts sum to zero, the goodness-of-fit
    computation stores statistic 0, p-value 1.0 and df = k - 1, marks the
    result as computed, and makes no call to the statistics library. *)
Theorem zero_observed_total_short_circuits :
  forall (stats_chisquare : list Z -> list Q -> exc (Q * R)) (g : Globals),
    zsum (gof_observed_counts g) = 0%Z ->
    let k := length (gof_observed_counts g) in
    let g' := calculate_goodness_of_fit stats_chisquare g in
    chi2_stat g' = 0 /\ p_value g' = 1%R /\
    df g' = (Z.of_nat k - 1)%Z /\
    has_calculated g' = true /\
    lib_calls g' = lib_calls g.
Proof.
  intros lib g H k g'. unfold g', calculate_goodness_of_fit.
  rewrite gof_try_zero_total by exact H.
  repeat split; reflexivity.
Qed.

Lemma zero_observed_total_short_circuits_witness :
  let g := gof_state [0; 0; 0] [25; 427 # 10; 335 # 10] in
  let g' := calculate_goodness_of_fit chisquare_3 g in
  chi2_stat g' = 0 /\ p_value g' = 1%R /\ df g' = 2%Z /\
  has_calculated g' = true /\ lib_calls g' = [].
Proof.
  exact (zero_observed_total_short_circuits chisquare_3
           (gof_state [0; 0; 0] [25; 427 # 10; 335 # 10]) eq_refl).
Defined.

(** What [calculate_goodness_of_fit] stores when the library is SciPy on
    three categories and the expected counts are [expected]. *)
Lemma calculate_goodness_of_fit_chisquare_3 (g : Globals)
    (expected : list Q) :
  zsum (gof_observed_counts g) <> 0%Z ->
  gof_expected_counts g (zsum (gof_observed_counts g)) = ok expected ->
  let stat := pearson_statistic (gof_observed_counts g) expected in
  let g' := calculate_goodness_of_fit chisquare_3 g in
  chi2_stat g' = stat /\ p_value g' = chi2_sf_2 stat /\
  df g' = (Z.of_nat (length (gof_observed_counts g)) - 1)%Z.
Proof.
  intros Hz He stat g'. unfold g'.
  rewrite (calculate_goodness_of_fit_regular chisquare_3 g expected Hz He).
  unfold chisquare_3, ok. cbv zeta iota beta.
  repeat split; reflexivity.
Qed.

(** Pearson's statistic against the same expected count in every
    category. *)
Lemma pearson_uniform (observed : list Z) (each : Q) :
  pearson_statistic observed (repeat each (length observed))
  = qsum (map (fun o => (inject_Z o - each) * (inject_Z o - each) / each)
              observed).
Proof.
  unfold pearson_statistic. f_equal.
  induction observed as [|o os IH]; [reflexivity|].
  cbn [length repeat combine map fst snd]. rewrite IH. reflexivity.
Qed.

(** It is never negative, and zero exactly when every observed count is
    the expected one. *)
Lemma pearson_uniform_zero (observed : list Z) (each : Q) :
  0 < each ->
  let stat := pearson_statistic observed (repeat each (length observed)) in
  0 <= stat /\
  (stat == 0 <-> Forall (fun o => inject_Z o == each) observed).
Proof.
  intros He. cbv zeta. rewrite pearson_uniform.
  set (term := fun o : Z => (inject_Z o - each) * (inject_Z o - each) / each).
  assert (Hsq : forall d : Q, 0 <= d * d).
  { intros d. destruct (Qlt_le_dec d 0) as [Hd|Hd].
    - setoid_replace (d * d) with ((- d) * (- d)) by ring.
      apply Qmult_le_0_compat; lra.
    - apply Qmult_le_0_compat; assumption. }
  assert (Hterm : forall o, 0 <= term o).
  { intros o. unfold term. apply Qle_shift_div_l; [exact He|].
    rewrite Qmult_0_l. apply Hsq. }
  assert (Hall : Forall (fun x => 0 <= x) (map term observed)).
  { apply Forall_map, Forall_forall. intros o _. apply Hterm. }
  destruct (qsum_nonneg _ Hall) as [H0 Hz].
  split; [exact H0|]. split.
  - intros E. specialize (Hz E). apply Forall_map in Hz.
    revert Hz. apply Forall_impl. intros o Ho. unfold term in Ho.
    assert (Hd : (inject_Z o - each) * (inject_Z o - each) == 0).
    { setoid_replace ((inject_Z o - each) * (inject_Z o - each))
        with ((inject_Z o - each) * (inject_Z o - each) / each * each)
        by (field; lra).
      rewrite Ho. ring. }
    apply Qmult_integral in Hd. destruct Hd; lra.
  - intros F. apply qsum_zero. apply Forall_map.
    revert F. apply Forall_impl. intros o Ho. unfold term.
    rewrite Ho. field. lra.
Qed.

(** [stats.chi2.sf(x, 2)] is 1.0 at 0 only. *)
Lemma chi2_sf_2_one (x : Q) :
  0 <= x -> (chi2_sf_2 x = 1%R <-> x == 0).
Proof.
  intros Hx. unfold chi2_sf_2. split.
  - intros E. destruct (Qlt_le_dec 0 x) as [Hp|Hn].
    + exfalso. apply Qlt_Rlt in Hp. rewrite RMicromega.Q2R_0 in Hp.
      pose proof (exp_neg_lt_1 _ Hp) as Hlt. rewrite E in Hlt.
      exact (Rlt_irrefl _ Hlt).
    + apply Qle_antisym; assumption.
  - intros E. apply Qeq_eqR in E. rewrite E, RMicromega.Q2R_0.
    replace (- 0 / 2)%R with 0%R by Lra.lra. apply exp_0.
Qed.

(** C1, as the code has it: with a positive observed total and every
    proportion slider at zero, no division by zero occurs; the uniform
    proportions 1/k give the expected counts total/k, all positive, which
    are handed to the library in a single call, and the library's statistic
    and p-value are stored with df = k - 1.  With SciPy's test on three
    categories the stored statistic is Pearson's, the stored p-value is
    [exp (- statistic / 2)], and it is 1.0 exactly when the statistic is
    0, which is exactly when every observed count equals total/3. *)
Theorem zero_proportions_fall_back_to_uniform :
  forall (stats_chisquare : list Z -> list Q -> exc (Q * R)) (g : Globals),
    length (sliders_gof_expected g) = length (sliders_gof_observed g) ->
    (0 < zsum (gof_observed_counts g))%Z ->
    Forall (fun s => value s == 0) (sliders_gof_expected g) ->
    let observed := gof_observed_counts g in
    let total := zsum observed in
    let k := length observed in
    let each := 1 / inject_Z (Z.of_nat k) * inject_Z total in
    let g' := calculate_goodness_of_fit stats_chisquare g in
    gof_expected_counts g total = ok (repeat each k) /\
    each == inject_Z total / inject_Z (Z.of_nat k) /\ 0 < each /\
    lib_calls g' = lib_calls g ++ [CallChisquare observed (repeat each k)] /\
    (forall stat p,
        stats_chisquare observed (repeat each k) = ok (stat, p) ->
        chi2_stat g' = stat /\ p_value g' = p /\
        df g' = (Z.of_nat k - 1)%Z /\ has_calculated g' = true) /\
    (k = 3%nat ->
     let g3 := calculate_goodness_of_fit chisquare_3 g in
     chi2_stat g3 = pearson_statistic observed (repeat each k) /\
     p_value g3 = chi2_sf_2 (chi2_stat g3) /\
     0 <= chi2_stat g3 /\
     (p_value g3 = 1%R <-> chi2_stat g3 == 0) /\
     (chi2_stat g3 == 0 <->
      Forall (fun o => inject_Z o == each) observed)).
Proof.
  intros lib g Hlen Hpos Hzero observed total k each g'.
  assert (Hk : k = length (sliders_gof_expected g)).
  { unfold k, observed, gof_observed_counts. rewrite length_map. auto. }
  assert (Hne : sliders_gof_expected g <> []).
  { intros E. rewrite E in Hlen. simpl in Hlen.
    symmetry in Hlen. apply length_zero_iff_nil in Hlen.
    unfold gof_observed_counts in Hpos. rewrite Hlen in Hpos.
    simpl in Hpos. unfold zsum in Hpos. simpl in Hpos. lia. }
  assert (Hkpos : (0 < Z.of_nat k)%Z).
  { rewrite Hk. destruct (sliders_gof_expected g); [congruence|].
    simpl length. lia. }
  assert (Hexp : gof_expected_counts g total = ok (repeat each k)).
  { unfold each. rewrite Hk.
    apply gof_expected_counts_uniform; assumption. }
  assert (Kq : 0 < inject_Z (Z.of_nat k)).
  { rewrite <- (Zlt_Qlt 0). exact Hkpos. }
  assert (Tq : 0 < inject_Z total).
  { rewrite <- (Zlt_Qlt 0). exact Hpos. }
  assert (Heach : each == inject_Z total / inject_Z (Z.of_nat k)).
  { unfold each. field. intros E. rewrite E in Kq.
    apply (Qlt_irrefl _ Kq). }
  assert (Hcalc := calculate_goodness_of_fit_regular lib g
                     (repeat each k)).
  cbv zeta in Hcalc. fold observed total k in Hcalc.
  specialize (Hcalc ltac:(unfold total, observed; lia) Hexp).
  fold g' in Hcalc.
  assert (Hep : 0 < each).
  { rewrite Heach. apply Qlt_shift_div_l; [exact Kq|].
    rewrite Qmult_0_l. exact Tq. }
  split; [exact Hexp|]. split; [exact Heach|]. split; [exact Hep|].
  split; [|split].
  - rewrite Hcalc. destruct (lib observed (repeat each k)) as [e|[s p]];
      reflexivity.
  - intros stat p Hlib. rewrite Hcalc, Hlib. repeat split; reflexivity.
  - intros _ g3.
    destruct (calculate_goodness_of_fit_chisquare_3 g (repeat each k)
                ltac:(unfold total, observed in Hpos; lia) Hexp)
      as (Hs & Hp & _).
    fold observed g3 in Hs, Hp.
    destruct (pearson_uniform_zero observed each Hep) as [H0 Hiff].
    fold k in H0, Hiff.
    split; [exact Hs|]. rewrite Hp, Hs.
    split; [reflexivity|]. split; [exact H0|].
    split; [apply chi2_sf_2_one, H0 | exact Hiff].
Qed.

Lemma zero_proportions_fall_back_to_uniform_witness :
  let g := gof_state [74; 50; 20] [0; 0; 0] in
  let observed := gof_observed_counts g in
  let total := zsum observed in
  let k := length observed in
  let each := 1 / inject_Z (Z.of_nat k) * inject_Z total in
  let g' := calculate_goodness_of_fit chisquare_3 g in
  gof_expected_counts g total = ok (repeat each k) /\
  each == inject_Z total / inject_Z (Z.of_nat k) /\ 0 < each /\
  lib_calls g' = lib_calls g ++ [CallChisquare observed (repeat each k)] /\
  (forall stat p,
      chisquare_3 observed (repeat each k) = ok (stat, p) ->
      chi2_stat g' = stat /\ p_value g' = p /\
      df g' = (Z.of_nat k - 1)%Z /\ has_calculated g' = true) /\
  (p_value g' = 1%R <-> chi2_stat g' == 0) /\
  (chi2_stat g' == 0 <-> Forall (fun o => inject_Z o == each) observed).
Proof.
  destruct (zero_proportions_fall_back_to_uniform chisquare_3
              (gof_state [74; 50; 20] [0; 0; 0])
              eq_refl eq_refl
              ltac:(repeat constructor; reflexivity))
    as (H1 & H2 & H3 & H4 & H5 & H6).
  destruct (H6 eq_refl) as (_ & _ & _ & H7 & H8).
  split; [exact H1|]. split; [exact H2|]. split; [exact H3|].
  split; [exact H4|]. split; [exact H5|]. split; [exact H7 | exact H8].
Defined.

(** C1 as stated fails: with observed counts 74, 50, 20 and every
    proportion slider at zero the stored p-value is exp (-30.5 / 2), not
    1.0. *)
Lemma zero_proportions_p_value_is_not_one :
  p_value (calculate_goodness_of_fit chisquare_3
             (gof_state [74; 50; 20] [0; 0; 0])) <> 1%R.
Proof.
  set (g := gof_state [74; 50; 20] [0; 0; 0]).
  assert (He : gof_expected_counts g (zsum (gof_observed_counts g))
               = ok (repeat (1 / 3 * 144) 3)).
  { apply (gof_expected_counts_uniform g 144).
    - discriminate.
    - repeat constructor; reflexivity. }
  assert (Hz : zsum (gof_observed_counts g) <> 0%Z)
    by (intro E; vm_compute in E; discriminate E).
  destruct (calculate_goodness_of_fit_chisquare_3 g _ Hz He) as (_ & Hp & _).
  rewrite Hp. unfold chi2_sf_2.
  assert (Hs : (0 < Q2R (pearson_statistic (gof_observed_counts g)
                                          (repeat (1 / 3 * 144)%Q 3)))%R).
  { rewrite <- RMicromega.Q2R_0. apply Qlt_Rlt. reflexivity. }
  pose proof (exp_neg_lt_1 _ Hs) as Hlt.
  intros E. rewrite E in Hlt. apply (Rlt_irrefl _ Hlt).
Qed.

(** C2, as the code has it: on the shipped defaults (observed 74, 50, 20;
    proportion sliders 25, 42.7, 33.5) the computation yields the
    statistic 3828360163/64370250, about 59.47, a p-value below 0.00005,
    which prints as 0.0000, and df = 2. *)
Theorem default_example_result :
  let g' := calculate_goodness_of_fit chisquare_3 initial_globals in
  gof_observed_counts initial_globals = [74; 50; 20]%Z /\
  map value (sliders_gof_expected initial_globals)
    = [25; 427 # 10; 335 # 10] /\
  chi2_stat g' == 3828360163 # 64370250 /\
  (5947 # 100) < chi2_stat g' /\ chi2_stat g' < (5948 # 100) /\
  (0 < p_value g' < 5 / 100000)%R /\
  df g' = 2%Z.
Proof.
  assert (He : gof_expected_counts initial_globals
                 (zsum (gof_observed_counts initial_globals))
               = ok [360000000000 # 10120000000;
                     6148800000000 # 101200000000;
                     4824000000000 # 101200000000]).
  { vm_compute. reflexivity. }
  assert (Hz : zsum (gof_observed_counts initial_globals) <> 0%Z)
    by (intro E; vm_compute in E; discriminate E).
  destruct (calculate_goodness_of_fit_chisquare_3 initial_globals _ Hz He)
    as (Hs & Hp & Hd).
  cbv zeta. rewrite Hs, Hp, Hd.
  split; [reflexivity|]. split; [reflexivity|].
  split; [reflexivity|]. split; [reflexivity|]. split; [reflexivity|].
  split; [|reflexivity].
  apply exp_neg_small.
  replace 58%R with (Q2R 58).
  - apply Qlt_Rlt. reflexivity.
  - unfold Q2R. simpl. Lra.lra.
Qed.

(** C2 as stated fails: the computed statistic is more than 1.5 away both
    from 57.8 and from the value 57.82 shown at startup. *)
Lemma default_example_is_not_57_8 :
  let g' := calculate_goodness_of_fit chisquare_3 initial_globals in
  ~ Qabs (chi2_stat g' - (578 # 10)) <= 3 # 2 /\
  ~ Qabs (chi2_stat g' - chi2_stat initial_globals) <= 3 # 2.
Proof.
  assert (He : gof_expected_counts initial_globals
                 (zsum (gof_observed_counts initial_globals))
               = ok [360000000000 # 10120000000;
                     6148800000000 # 101200000000;
                     4824000000000 # 101200000000]).
  { vm_compute. reflexivity. }
  assert (Hz : zsum (gof_observed_counts initial_globals) <> 0%Z)
    by (intro E; vm_compute in E; discriminate E).
  destruct (calculate_goodness_of_fit_chisquare_3 initial_globals _ Hz He)
    as (Hs & _ & _).
  cbv zeta. rewrite Hs.
  split; intros H; vm_compute in H; apply H; reflexivity.
Qed.


Lemma np_shape2_rectangular (rows : list (list Z)) (c : nat) :
  rows <> [] -> Forall (fun row => length row = c) rows ->
  np_shape2 rows = ok (length rows, c).
Proof.
  intros Hne Hall. destruct rows as [|r0 rest]; [congruence|].
  unfold np_shape2.
  assert (Hc : length r0 = c) by (inversion Hall; assumption).
  assert (Hb : forallb (fun r => Nat.eqb (length r) (length r0))
                       (r0 :: rest) = true).
  { apply forallb_forall. intros r Hr.
    rewrite Forall_forall in Hall. rewrite (Hall r Hr), Hc.
    apply Nat.eqb_refl. }
  rewrite Hb, Hc. reflexivity.
Qed.

Lemma any_zero_true (sums : list Z) : In 0%Z sums -> any_zero sums = true.
Proof.
  intros H. unfold any_zero. apply existsb_exists.
  exists 0%Z. split; [exact H | reflexivity].
Qed.

Lemma zero_row_detected (rows : list (list Z)) :
  Exists (fun row => zsum row = 0%Z) rows ->
  any_zero (row_sums rows) = true.
Proof.
  intros H. apply any_zero_true. apply Exists_exists in H.
  destruct H as (row & Hin & Hz). unfold row_sums.
  apply in_map_iff. exists row. split; assumption.
Qed.

Lemma zero_column_detected (rows : list (list Z)) (c j : nat) :
  (j < c)%nat -> zsum (map (fun row => nth j row 0%Z) rows) = 0%Z ->
  any_zero (col_sums rows c) = true.
Proof.
  intros Hj Hz. apply any_zero_true. unfold col_sums.
  apply in_map_iff. exists j. split; [exact Hz | apply in_seq; lia].
Qed.

(** C3: on an r-by-c table with a zero row sum or a zero column sum, the
    independence computation stores statistic 0, p-value 1.0 and
    df = (r - 1)(c - 1), marks the result as computed, and makes no call to
    the statistics library. *)
Theorem zero_margin_short_circuits :
  forall (stats_chi2_contingency : list (list Z) -> exc (Q * R * Z))
         (g : Globals) (r c : nat),
    (0 < r)%nat ->
    length (independence_observed g) = r ->
    Forall (fun row => length row = c) (independence_observed g) ->
    (Exists (fun row => zsum row = 0%Z) (independence_observed g) \/
     exists j, (j < c)%nat /\
               zsum (map (fun row => nth j row 0%Z)
                         (independence_observed g)) = 0%Z) ->
    let g' := calculate_independence stats_chi2_contingency g in
    chi2_stat g' = 0 /\ p_value g' = 1%R /\
    df g' = ((Z.of_nat r - 1) * (Z.of_nat c - 1))%Z /\
    has_calculated g' = true /\
    lib_calls g' = lib_calls g.
Proof.
  intros lib g r c Hr Hlen Hrect Hzero g'.
  unfold g', calculate_independence, independence_try.
  rewrite (np_shape2_rectangular (independence_observed g) c).
  - assert (Hany : any_zero (row_sums (independence_observed g))
                   || any_zero (col_sums (independence_observed g) c)
                   = true).
    { apply orb_true_iff. destruct Hzero as [Hrow | (j & Hj & Hcol)].
      - left. apply zero_row_detected, Hrow.
      - right. apply (zero_column_detected _ c j); assumption. }
    unfold ok. cbv iota beta. rewrite Hany, Hlen.
    repeat split; reflexivity.
  - intros E. rewrite E in Hlen. simpl in Hlen. lia.
  - exact Hrect.
Qed.

Lemma zero_margin_short_circuits_witness :
  let g := independence_state [[0; 20; 25]; [0; 20; 15]]%Z in
  let g' := calculate_independence chi2_contingency_2x3 g in
  chi2_stat g' = 0 /\ p_value g' = 1%R /\ df g' = 2%Z /\
  has_calculated g' = true /\ lib_calls g' = [].
Proof.
  apply (zero_margin_short_circuits chi2_contingency_2x3
           (independence_state [[0; 20; 25]; [0; 20; 15]]%Z) 2 3).
  - lia.
  - reflexivity.
  - repeat constructor.
  - right. exists 0%nat. split; [lia | reflexivity].
Defined.

End StatisticEngine.

(** ** [Chi_2_Goodness_Fit.py]: editing a cell from the keyboard *)

Module DigitFacts.

Local Open Scope Z_scope.

(** Any fuel that covers the number gives the same digits. *)
Lemma digits_fuel_enough (f1 : nat) :
  forall (f2 : nat) (x : Z),
    0 <= x <= Z.of_nat f1 -> x <= Z.of_nat f2 ->
    digits_fuel f1 x = digits_fuel f2 x.
Proof.
  induction f1 as [|f1 IH]; intros f2 x H1 H2.
  - assert (x = 0) by lia. subst x. destruct f2; reflexivity.
  - simpl. destruct (x <? 10) eqn:E.
    + destruct f2 as [|f2]; simpl.
      * assert (x = 0) by lia. subst x. reflexivity.
      * rewrite E. reflexivity.
    + apply Z.ltb_ge in E. destruct f2 as [|f2]; [lia|].
      simpl. apply Z.ltb_ge in E. rewrite E. apply Z.ltb_ge in E.
      assert (Hq : 0 <= x / 10 < x).
      { split; [apply Z.div_pos; lia | apply Z.div_lt; lia]. }
      rewrite (IH f2 (x / 10)); [reflexivity | lia | lia].
Qed.

Lemma digits_small (n : Z) : 0 <= n < 10 -> digits n = [n].
Proof.
  intros H. unfold digits. destruct (Z.to_nat n) eqn:E; simpl.
  - assert (n = 0) by lia. subst n. reflexivity.
  - destruct (n <? 10) eqn:E'; [reflexivity|]. apply Z.ltb_ge in E'. lia.
Qed.

(** The digits of a number of two or more digits: those of its tenth,
    then its last digit. *)
Lemma digits_step (n : Z) :
  10 <= n -> digits n = digits (n / 10) ++ [n mod 10].
Proof.
  intros H. unfold digits.
  destruct (Z.to_nat n) as [|m] eqn:E; [lia|].
  simpl. destruct (n <? 10) eqn:E'; [apply Z.ltb_lt in E'; lia|].
  assert (Hq : 0 <= n / 10 < n).
  { split; [apply Z.div_pos; lia | apply Z.div_lt; lia]. }
  rewrite (digits_fuel_enough m (Z.to_nat (n / 10)) (n / 10));
    [reflexivity | lia | lia].
Qed.

Lemma int_of_digits_snoc (ds : list Z) (d : Z) :
  int_of_digits (ds ++ [d]) = int_of_digits ds * 10 + d.
Proof. unfold int_of_digits. rewrite fold_left_app. reflexivity. Qed.

Lemma digits_fuel_nonempty (f : nat) (n : Z) : digits_fuel f n <> [].
Proof.
  destruct f; simpl; [discriminate|].
  destruct (n <? 10); [discriminate|].
  intros E. apply app_eq_nil in E. destruct E as [_ E]. discriminate.
Qed.

(** [int(str(n)) = n]. *)
Lemma int_of_digits_digits_fuel (f : nat) :
  forall n, 0 <= n <= Z.of_nat f -> int_of_digits (digits_fuel f n) = n.
Proof.
  induction f as [|f IH]; intros n H.
  - assert (n = 0) by lia. subst n. reflexivity.
  - simpl. destruct (n <? 10) eqn:E.
    + unfold int_of_digits. simpl. lia.
    + apply Z.ltb_ge in E. rewrite int_of_digits_snoc.
      assert (Hq : 0 <= n / 10 < n).
      { split; [apply Z.div_pos; lia | apply Z.div_lt; lia]. }
      rewrite IH by lia.
      pose proof (Z.div_mod n 10 ltac:(lia)). lia.
Qed.

Lemma int_of_digits_digits (n : Z) : 0 <= n -> int_of_digits (digits n) = n.
Proof. intros H. apply int_of_digits_digits_fuel. lia. Qed.

(** Backspace on a non-negative value drops its last decimal digit. *)
Lemma backspace_value_nonneg (v : Z) :
  0 <= v -> Chi2GoodnessFit.backspace_value v = ok (v / 10).
Proof.
  intros H. unfold Chi2GoodnessFit.backspace_value.
  destruct (0 <=? v) eqn:E; [|apply Z.leb_gt in E; lia].
  destruct (Z_lt_ge_dec v 10) as [Hs|Hb].
  - rewrite digits_small by lia. simpl.
    rewrite Z.div_small by lia. reflexivity.
  - rewrite digits_step by lia. rewrite removelast_last.
    rewrite length_app. simpl length.
    assert (Hl : (1 <? length (digits (v / 10)) + 1)%nat = true).
    { apply Nat.ltb_lt.
      destruct (digits (v / 10)) eqn:Ed; [|simpl; lia].
      exfalso. apply (digits_fuel_nonempty _ _ Ed). }
    rewrite Hl. rewrite int_of_digits_digits; [reflexivity|].
    apply Z.div_pos; lia.
Qed.

Lemma digit_value_spec (v d : Z) :
  0 <= v ->
  Chi2GoodnessFit.digit_value v d = if v <? 100 then v * 10 + d else v.
Proof.
  intros H. unfold Chi2GoodnessFit.digit_value.
  destruct (v =? 0) eqn:E.
  - apply Z.eqb_eq in E. subst v. reflexivity.
  - reflexivity.
Qed.

Lemma digit_value_range (v d : Z) :
  0 <= v < 1000 -> 0 <= d <= 9 ->
  0 <= Chi2GoodnessFit.digit_value v d < 1000.
Proof.
  intros Hv Hd. rewrite digit_value_spec by lia.
  destruct (v <? 100) eqn:E; [apply Z.ltb_lt in E|]; lia.
Qed.

End DigitFacts.

Module CellEditing.

Import Chi2GoodnessFit DigitFacts.

Lemma nth_error_update_nth {A : Type} (f : A -> A) (xs : list A) :
  forall n, nth_error (update_nth n f xs) n = option_map f (nth_error xs n).
Proof.
  induction xs as [|x xs IH]; intros [|n]; simpl; auto.
Qed.

Lemma lookup_update_cell (cells : list (list Cell)) (ij : nat * nat)
    (f : Cell -> Cell) :
  lookup_cell (update_cell cells ij f) ij
  = option_map f (lookup_cell cells ij).
Proof.
  unfold lookup_cell, update_cell. rewrite nth_error_update_nth.
  destruct (nth_error cells (fst ij)) as [row|]; simpl; [|reflexivity].
  apply nth_error_update_nth.
Qed.

Lemma Forall_update_nth {A : Type} (P : A -> Prop) (f : A -> A)
    (xs : list A) :
  Forall P xs -> (forall x, P x -> P (f x)) ->
  forall n, Forall P (update_nth n f xs).
Proof.
  intros H Hf. induction H as [|x xs Hx Hxs IH]; intros [|n]; simpl.
  - constructor.
  - constructor.
  - constructor; [apply Hf, Hx | exact Hxs].
  - constructor; [exact Hx | apply IH].
Qed.

Lemma lookup_cell_Forall (P : Cell -> Prop) (cells : list (list Cell))
    (ij : nat * nat) (c : Cell) :
  Forall (Forall P) cells -> lookup_cell cells ij = Some c -> P c.
Proof.
  intros H E. unfold lookup_cell in E.
  destruct (nth_error cells (fst ij)) as [row|] eqn:Er; [|discriminate].
  apply nth_error_In in Er, E.
  rewrite Forall_forall in H. specialize (H row Er).
  rewrite Forall_forall in H. apply H, E.
Qed.

(** Writing an in-range value through [active_cell] keeps the table in
    range. *)
Lemma cells_in_range_update (cells : list (list Cell)) (ij : nat * nat)
    (v : Z) :
  Forall (Forall (fun c => (0 <= cvalue c < 1000)%Z)) cells ->
  (0 <= v < 1000)%Z ->
  Forall (Forall (fun c => (0 <= cvalue c < 1000)%Z))
         (update_cell cells ij (fun c => set_cvalue c v)).
Proof.
  intros H Hv. unfold update_cell.
  apply Forall_update_nth; [exact H|].
  intros row Hrow. apply Forall_update_nth; [exact Hrow|].
  intros c _. exact Hv.
Qed.

(** A key press never fails on a table in range, and leaves it in range. *)
Lemma on_keydown_in_range (g : Globals) (key : Z) :
  cells_in_range g ->
  exists g', on_keydown g key = ok g' /\ cells_in_range g'.
Proof.
  intros H. unfold on_keydown.
  set (g1 := if (key =? K_ESCAPE)%Z
             then if Page_eqb (state g) MENU then g
                  else set_has_calculated (set_state g MENU) false
             else g).
  assert (H1 : cells_in_range g1).
  { unfold g1. destruct (key =? K_ESCAPE)%Z; [|exact H].
    destruct (Page_eqb (state g) MENU); exact H. }
  clearbody g1.
  destruct (active_cell g1) as [ij|]; [|eauto].
  destruct (Page_eqb (state g1) INDEPENDENCE); [|eauto].
  destruct (lookup_cell (independence_cells g1) ij) as [cell|] eqn:El;
    [|eauto].
  pose proof (lookup_cell_Forall _ _ _ _ H1 El) as Hc. simpl in Hc.
  destruct (key =? K_BACKSPACE)%Z.
  - rewrite backspace_value_nonneg by lia. simpl.
    eexists. split; [reflexivity|].
    unfold cells_in_range. simpl.
    apply cells_in_range_update; [exact H1|].
    split; [apply Z.div_pos; lia|].
    apply Z.div_lt_upper_bound; lia.
  - destruct ((K_0 <=? key) && (key <=? K_9))%Z eqn:Ek; [|eauto].
    apply andb_true_iff in Ek. destruct Ek as [Ek1 Ek2].
    apply Z.leb_le in Ek1, Ek2.
    eexists. split; [reflexivity|].
    unfold cells_in_range. simpl.
    apply cells_in_range_update; [exact H1|].
    apply digit_value_range; [lia|]. unfold K_0, K_9 in *. lia.
Qed.

Lemma type_keys_in_range (keys : list Z) :
  forall g, cells_in_range g ->
            exists g', type_keys g keys = ok g' /\ cells_in_range g'.
Proof.
  induction keys as [|key keys IH]; intros g H; simpl.
  - eauto.
  - destruct (on_keydown_in_range g key H) as (g1 & E1 & H1).
    rewrite E1. simpl. apply IH, H1.
Qed.

(** A digit key on the active cell of the independence page. *)
Lemma on_keydown_digit (g : Globals) (ij : nat * nat) (v d : Z) :
  state g = INDEPENDENCE -> active_cell g = Some ij ->
  cell_value_at g ij = Some v -> (0 <= v)%Z -> (0 <= d <= 9)%Z ->
  exists g',
    on_keydown g (K_0 + d) = ok g' /\
    cell_value_at g' ij = Some (if (v <? 100)%Z then v * 10 + d else v)%Z /\
    state g' = INDEPENDENCE /\ active_cell g' = Some ij /\
    has_calculated g' = false.
Proof.
  intros Hs Ha Hv Hv0 Hd. unfold on_keydown.
  assert (Hk : (K_0 + d =? K_ESCAPE)%Z = false)
    by (apply Z.eqb_neq; unfold K_0, K_ESCAPE; lia).
  rewrite Hk, Ha, Hs. simpl Page_eqb. cbv iota.
  unfold cell_value_at in Hv.
  destruct (lookup_cell (independence_cells g) ij) as [cell|] eqn:El;
    [|discriminate].
  simpl in Hv. injection Hv as Hv.
  assert (Hb : (K_0 + d =? K_BACKSPACE)%Z = false)
    by (apply Z.eqb_neq; unfold K_0, K_BACKSPACE; lia).
  assert (Hr : ((K_0 <=? K_0 + d) && (K_0 + d <=? K_9))%Z = true).
  { apply andb_true_iff. split; apply Z.leb_le; unfold K_0, K_9; lia. }
  rewrite Hb, Hr. eexists. split; [reflexivity|].
  unfold cell_value_at.
  cbn [independence_cells set_has_calculated set_cells state active_cell
       has_calculated].
  rewrite lookup_update_cell, El.
  cbn [option_map set_cvalue cvalue].
  replace (K_0 + d - K_0)%Z with d by lia.
  rewrite Hv, digit_value_spec by lia.
  repeat split; assumption.
Qed.

(** Backspace on the active cell of the independence page. *)
Lemma on_keydown_backspace (g : Globals) (ij : nat * nat) (v : Z) :
  state g = INDEPENDENCE -> active_cell g = Some ij ->
  cell_value_at g ij = Some v -> (0 <= v)%Z ->
  exists g',
    on_keydown g K_BACKSPACE = ok g' /\
    cell_value_at g' ij = Some (v / 10)%Z /\
    has_calculated g' = false.
Proof.
  intros Hs Ha Hv Hv0. unfold on_keydown.
  change (K_BACKSPACE =? K_ESCAPE)%Z with false. cbv iota.
  rewrite Ha, Hs. simpl Page_eqb. cbv iota.
  unfold cell_value_at in Hv.
  destruct (lookup_cell (independence_cells g) ij) as [cell|] eqn:El;
    [|discriminate].
  simpl in Hv. injection Hv as Hv.
  change (K_BACKSPACE =? K_BACKSPACE)%Z with true. cbv iota.
  rewrite Hv, backspace_value_nonneg by lia. simpl.
  eexists. split; [reflexivity|].
  unfold cell_value_at. simpl.
  rewrite lookup_update_cell, El. simpl. split; reflexivity.
Qed.

(** C9: on the active cell of the independence page, a digit key appends
    the digit in base 10 while the value has fewer than three digits and is
    ignored otherwise (so 5 then 3 on a cell showing 0 gives 53), no
    sequence of key presses takes any cell to 1000 or more, and Backspace
    removes the last decimal digit, leaving 0 when one digit was left. *)
Theorem cell_editing :
  forall (g : Globals) (ij : nat * nat) (v : Z),
    state g = INDEPENDENCE ->
    active_cell g = Some ij ->
    cell_value_at g ij = Some v ->
    cells_in_range g ->
    (forall d, (0 <= d <= 9)%Z ->
       exists g',
         on_keydown g (K_0 + d) = ok g' /\
         cell_value_at g' ij
         = Some (if (v <? 100)%Z then v * 10 + d else v)%Z) /\
    (v = 0%Z ->
       exists g',
         type_keys g [K_0 + 5; K_0 + 3]%Z = ok g' /\
         cell_value_at g' ij = Some 53%Z) /\
    (forall keys,
       exists g', type_keys g keys = ok g' /\ cells_in_range g') /\
    (exists g',
       on_keydown g K_BACKSPACE = ok g' /\
       cell_value_at g' ij = Some (v / 10)%Z /\
       (v < 10 -> cell_value_at g' ij = Some 0)%Z /\
       (10 <= v -> digits (v / 10) = removelast (digits v))%Z).
Proof.
  intros g ij v Hs Ha Hv Hr.
  assert (Hv0 : (0 <= v < 1000)%Z).
  { unfold cell_value_at in Hv.
    destruct (lookup_cell (independence_cells g) ij) as [cell|] eqn:El;
      [|discriminate].
    simpl in Hv. injection Hv as Hv. subst v.
    apply (lookup_cell_Forall _ _ _ _ Hr El). }
  split; [|split; [|split]].
  - intros d Hd.
    destruct (on_keydown_digit g ij v d Hs Ha Hv ltac:(lia) Hd)
      as (g' & E & Hc & _).
    exists g'. split; assumption.
  - intros ->.
    destruct (on_keydown_digit g ij 0 5 Hs Ha Hv ltac:(lia) ltac:(lia))
      as (g1 & E1 & Hc1 & Hs1 & Ha1 & _).
    destruct (on_keydown_digit g1 ij 5 3 Hs1 Ha1 Hc1 ltac:(lia) ltac:(lia))
      as (g2 & E2 & Hc2 & _).
    exists g2. cbn [type_keys]. rewrite E1. unfold bind at 1, ok at 1.
    rewrite E2. unfold bind at 1, ok at 1.
    split; [reflexivity | exact Hc2].
  - intros keys. apply type_keys_in_range, Hr.
  - destruct (on_keydown_backspace g ij v Hs Ha Hv ltac:(lia))
      as (g' & E & Hc & _).
    exists g'. split; [exact E|]. split; [exact Hc|]. split.
    + intros Hlt. rewrite Hc, Z.div_small by lia. reflexivity.
    + intros Hge. rewrite (digits_step v Hge), removelast_last.
      reflexivity.
Qed.

Lemma cell_editing_witness :
  let g :=
    set_cells (independence_state [[0; 20; 25]; [25; 20; 15]]%Z)
      (independence_cells
         (independence_state [[0; 20; 25]; [25; 20; 15]]%Z))
      (Some (0, 0)%nat) in
  exists g',
    type_keys g [K_0 + 5; K_0 + 3]%Z = ok g' /\
    cell_value_at g' (0, 0)%nat = Some 53%Z.
Proof.
  refine (proj1 (proj2 (cell_editing _ (0, 0)%nat 0%Z _ _ _ _)) eq_refl).
  - reflexivity.
  - reflexivity.
  - reflexivity.
  - repeat constructor; simpl; lia.
Defined.

End CellEditing.

(** ** Sliders *)

Module SliderFacts.

Import PyFacts.

Lemma drag_to_dragged (mx : Z) (s : Slider) :
  0 < width s -> drag_to mx s = ok (dragged mx s).
Proof.
  intros H. unfold drag_to, dragged.
  rewrite slider_new_val_ok by exact H. reflexivity.
Qed.

Lemma bounded_in_range (lo hi : Q) (s : Slider) :
  bounded lo hi s -> slider_in_range s.
Proof.
  intros (Hlo & Hhi & _ & H1 & H2). unfold slider_in_range.
  rewrite Hlo, Hhi. split; assumption.
Qed.

Lemma bounded_ordered (lo hi : Q) (s : Slider) : bounded lo hi s -> lo <= hi.
Proof.
  intros (_ & _ & _ & H1 & H2). apply Qle_trans with (value s); assumption.
Qed.

Lemma dragged_bounded (lo hi : Q) (mx : Z) (s : Slider) :
  bounded lo hi s -> bounded lo hi (dragged mx s).
Proof.
  intros H. pose proof (bounded_ordered _ _ _ H) as Ho.
  destruct H as (Hlo & Hhi & Hw & _ & _).
  unfold bounded, dragged. simpl.
  repeat split; try assumption.
  - rewrite <- Hlo. apply clamp_range. rewrite Hlo, Hhi. exact Ho.
  - rewrite <- Hhi. apply clamp_range. rewrite Hlo, Hhi. exact Ho.
Qed.

Lemma set_dragging_bounded (lo hi : Q) (b : bool) (s : Slider) :
  bounded lo hi s -> bounded lo hi (set_dragging s b).
Proof. intros H. exact H. Qed.

Lemma set_geometry_bounded (lo hi : Q) (p : Q * Q) (w : Q) (s : Slider) :
  0 < w -> bounded lo hi s -> bounded lo hi (set_geometry s p w).
Proof.
  intros Hw (Hlo & Hhi & _ & H1 & H2). repeat split; assumption.
Qed.

Lemma set_value_bounded (lo hi v : Q) (s : Slider) :
  lo <= v -> v <= hi -> bounded lo hi s -> bounded lo hi (set_value s v).
Proof.
  intros Hv1 Hv2 (Hlo & Hhi & Hw & _ & _). repeat split; assumption.
Qed.

(** A drag to the track start, or left of it, gives the minimum itself. *)
Lemma dragged_left (lo hi : Q) (mx : Z) (s : Slider) :
  bounded lo hi s -> inject_Z mx <= fst (pos s) ->
  value (dragged mx s) = lo.
Proof.
  intros H Hx. pose proof (bounded_ordered _ _ _ H) as Ho.
  destruct H as (Hlo & Hhi & Hw & _ & _).
  unfold dragged. simpl. rewrite <- Hlo. apply clamp_low.
  apply new_val_left; [exact Hw | rewrite Hlo, Hhi; exact Ho | exact Hx].
Qed.

(** A drag to the track end, or right of it, gives the maximum. *)
Lemma dragged_right (lo hi : Q) (mx : Z) (s : Slider) :
  bounded lo hi s -> fst (pos s) + width s <= inject_Z mx ->
  value (dragged mx s) == hi.
Proof.
  intros H Hx. pose proof (bounded_ordered _ _ _ H) as Ho.
  destruct H as (Hlo & Hhi & Hw & _ & _).
  assert (Hr : smin s <= smax s) by (rewrite Hlo, Hhi; exact Ho).
  unfold dragged. simpl. rewrite <- Hhi. apply clamp_high; [exact Hr|].
  apply new_val_right; assumption.
Qed.

Lemma pressed_bounded (mp : Z * Z) (lo hi : Q) (s : Slider) :
  bounded lo hi s -> bounded lo hi (pressed mp s).
Proof.
  intros H. unfold pressed.
  destruct (collidepoint (slider_rect s) mp); [|exact H].
  apply dragged_bounded. exact H.
Qed.

Lemma moved_bounded (mp : Z * Z) (lo hi : Q) (s : Slider) :
  bounded lo hi s -> bounded lo hi (moved mp s).
Proof.
  intros H. unfold moved. destruct (dragging s); [|exact H].
  apply dragged_bounded. exact H.
Qed.

(** [mapM] over a total body. *)
Lemma mapM_total {A B : Type} (f : A -> exc B) (g : A -> B)
    (P : A -> Prop) (xs : list A) :
  (forall x, P x -> f x = ok (g x)) -> Forall P xs ->
  mapM f xs = ok (map g xs).
Proof.
  intros Hf H. induction H as [|x xs Hx _ IH]; simpl.
  - reflexivity.
  - rewrite (Hf x Hx). simpl. rewrite IH. reflexivity.
Qed.

Lemma Forall_map_preserved {A : Type} (P : A -> Prop) (g : A -> A)
    (xs : list A) :
  (forall x, P x -> P (g x)) -> Forall P xs -> Forall P (map g xs).
Proof.
  intros Hg H. induction H; simpl; constructor; auto.
Qed.

End SliderFacts.

(** ** [Chi_2_Goodness_Fit.py]: the event loop *)

Module Chi2LoopFacts.

Import Chi2GoodnessFit PyFacts SliderFacts.

Lemma flag_tracks_refl (g : Globals) : flag_tracks g g.
Proof. right. reflexivity. Qed.

Lemma flag_tracks_trans (g1 g2 g3 : Globals) :
  flag_tracks g1 g2 ->
  inputs g3 = inputs g2 ->
  (has_calculated g2 = false -> has_calculated g3 = false) ->
  flag_tracks g1 g3.
Proof.
  intros [H|H] Hi Hf.
  - left. apply Hf, H.
  - right. rewrite Hi. exact H.
Qed.

Lemma map_enumerate {A B : Type} (F : nat * A -> B) (p : B -> A -> Prop)
    (xs : list A) :
  (forall ix, p (F ix) (snd ix)) ->
  Forall2 p (map F (enumerate xs)) xs.
Proof.
  intros Hh. unfold enumerate. generalize 0%nat.
  induction xs as [|x xs IH]; intros n; simpl; constructor.
  - apply (Hh (n, x)).
  - apply IH.
Qed.

Lemma Forall2_map_eq {A B C : Type} (f : A -> C) (g : B -> C)
    (xs : list A) (ys : list B) :
  Forall2 (fun x y => f x = g y) xs ys -> map f xs = map g ys.
Proof.
  intros H. induction H; simpl; congruence.
Qed.

Lemma Forall2_length_eq {A B : Type} (p : A -> B -> Prop)
    (xs : list A) (ys : list B) :
  Forall2 p xs ys -> length xs = length ys.
Proof. intros H. induction H; simpl; congruence. Qed.

Lemma Forall2_Forall {A B : Type} (p : A -> B -> Prop) (P : B -> Prop)
    (Q : A -> Prop) (xs : list A) (ys : list B) :
  (forall x y, p x y -> P y -> Q x) ->
  Forall2 p xs ys -> Forall P ys -> Forall Q xs.
Proof.
  intros Hp H. induction H; intros HP; constructor;
    inversion HP; subst; eauto.
Qed.

(** The layout moves sliders and cells; it changes no value. *)
Lemma chi2_calculate_layout_sliders (g : Globals) :
  Forall2 (fun s' s => value s' = value s /\ smin s' = smin s /\
                       smax s' = smax s /\ dragging s' = dragging s /\
                       (width s' = width s \/
                        width s' = inject_Z SLIDER_MIN_WIDTH))
          (sliders_gof_observed (calculate_layout g))
          (sliders_gof_observed g) /\
  Forall2 (fun s' s => value s' = value s /\ smin s' = smin s /\
                       smax s' = smax s /\ dragging s' = dragging s /\
                       (width s' = width s \/
                        width s' = inject_Z SLIDER_MIN_WIDTH))
          (sliders_gof_expected (calculate_layout g))
          (sliders_gof_expected g).
Proof.
  assert (Hid : forall l : list Slider,
             Forall2 (fun s' s => value s' = value s /\ smin s' = smin s /\
                                  smax s' = smax s /\
                                  dragging s' = dragging s /\
                                  (width s' = width s \/
                                   width s' = inject_Z SLIDER_MIN_WIDTH))
                     l l).
  { induction l; constructor; auto. repeat split; auto. }
  unfold calculate_layout. destruct (state g); simpl; try (split; apply Hid).
  split; apply map_enumerate; intros ix; simpl; repeat split; auto.
Qed.

Lemma calculate_layout_cells (g : Globals) :
  Forall2 (Forall2 (fun c' c => cvalue c' = cvalue c /\
                                active c' = active c))
          (independence_cells (calculate_layout g))
          (independence_cells g) /\
  active_cell (calculate_layout g) = active_cell g.
Proof.
  assert (Hid : forall l : list Cell,
             Forall2 (fun c' c => cvalue c' = cvalue c /\
                                  active c' = active c) l l).
  { induction l; constructor; auto. }
  assert (Hid2 : forall l : list (list Cell),
             Forall2 (Forall2 (fun c' c => cvalue c' = cvalue c /\
                                           active c' = active c)) l l).
  { induction l; constructor; auto. }
  unfold calculate_layout. destruct (state g); simpl;
    try (split; [apply Hid2 | reflexivity]).
  split; [|reflexivity].
  apply map_enumerate. intros ir.
  apply map_enumerate. intros jc. simpl. auto.
Qed.


Lemma calculate_layout_inputs (g : Globals) :
  inputs (calculate_layout g) = inputs g /\
  has_calculated (calculate_layout g) = has_calculated g.
Proof.
  destruct (chi2_calculate_layout_sliders g) as [Ho He].
  destruct (calculate_layout_cells g) as [Hc _].
  split.
  - unfold inputs. f_equal; [f_equal|].
    + apply Forall2_map_eq. eapply Forall2_impl; [|exact Ho].
      intros a b H. apply H.
    + apply Forall2_map_eq. eapply Forall2_impl; [|exact He].
      intros a b H. apply H.
    + apply Forall2_map_eq. eapply Forall2_impl; [|exact Hc].
      intros a b H. apply Forall2_map_eq.
      eapply Forall2_impl; [|exact H]. intros c c' Hcc. apply Hcc.
  - unfold calculate_layout. destruct (state g); reflexivity.
Qed.

Lemma bind_ok {A B : Type} (c : exc A) (k : A -> exc B) (b : B) :
  bind c k = ok b -> exists a, c = ok a /\ k a = ok b.
Proof.
  destruct c as [e|a]; simpl; intros H; [discriminate|].
  exists a. split; [reflexivity | exact H].
Qed.

Lemma ok_inj {A : Type} (a b : A) : ok a = ok b -> a = b.
Proof. intros H. injection H. auto. Qed.

(** A loop over sliders whose body reports no change changed nothing. *)
Lemma mapM_no_change (f : Slider -> exc (Slider * bool))
    (xs : list Slider) :
  (forall x y, f x = ok y -> snd y = false -> fst y = x) ->
  forall ys, mapM f xs = ok ys -> existsb snd ys = false ->
             map fst ys = xs.
Proof.
  intros Hf. induction xs as [|x xs IH]; intros ys H Hb; simpl in H.
  - apply ok_inj in H. subst ys. reflexivity.
  - apply bind_ok in H. destruct H as (y & Hy & H).
    apply bind_ok in H. destruct H as (ys' & Hys & H).
    apply ok_inj in H. subst ys. simpl in Hb.
    apply orb_false_iff in Hb. destruct Hb as [Hb1 Hb2].
    simpl. rewrite (Hf x y Hy Hb1), (IH ys' Hys Hb2). reflexivity.
Qed.

Lemma press_slider_no_change (mp : Z * Z) (x : Slider)
    (y : Slider * bool) :
  press_slider mp x = ok y -> snd y = false -> fst y = x.
Proof.
  unfold press_slider. destruct (collidepoint (slider_rect x) mp).
  - intros H. apply bind_ok in H. destruct H as (s' & _ & H).
    apply ok_inj in H. subst y. discriminate.
  - intros H. apply ok_inj in H. subst y. reflexivity.
Qed.

Lemma move_slider_no_change (mp : Z * Z) (x : Slider)
    (y : Slider * bool) :
  move_slider mp x = ok y -> snd y = false -> fst y = x.
Proof.
  unfold move_slider. destruct (dragging x).
  - intros H. apply bind_ok in H. destruct H as (s' & _ & H).
    apply ok_inj in H. subst y. discriminate.
  - intros H. apply ok_inj in H. subst y. reflexivity.
Qed.

(** After a loop over the sliders, either the loop reported a change (and
    the handler clears the flag) or every input is as before. *)
Lemma for_sliders_tracks (f : Slider -> exc (Slider * bool))
    (g : Globals) (r : Globals * bool) :
  (forall x y, f x = ok y -> snd y = false -> fst y = x) ->
  for_sliders f g = ok r ->
  let g' := if snd r then set_has_calculated (fst r) false else fst r in
  has_calculated g' = false \/
  (inputs g' = inputs g /\ has_calculated g' = has_calculated g).
Proof.
  intros Hf H g'. unfold for_sliders in H.
  apply bind_ok in H. destruct H as (obs & Ho & H).
  apply bind_ok in H. destruct H as (exp & He & H).
  apply ok_inj in H. subst r. unfold g'. simpl.
  destruct (existsb snd obs || existsb snd exp) eqn:E.
  - left. reflexivity.
  - right. apply orb_false_iff in E. destruct E as [E1 E2].
    unfold inputs. simpl.
    rewrite (mapM_no_change f _ Hf obs Ho E1).
    rewrite (mapM_no_change f _ Hf exp He E2).
    split; reflexivity.
Qed.

Lemma reset_goodness_of_fit_clears (g g' : Globals) :
  reset_goodness_of_fit g = ok g' -> has_calculated g' = false.
Proof.
  unfold reset_goodness_of_fit. intros H.
  apply bind_ok in H. destruct H as (obs & _ & H).
  apply bind_ok in H. destruct H as (exp & _ & H).
  apply ok_inj in H. subst g'. reflexivity.
Qed.

Lemma reset_independence_clears (g g' : Globals) :
  reset_independence g = ok g' -> has_calculated g' = false.
Proof.
  unfold reset_independence. intros H.
  apply bind_ok in H. destruct H as (cells & _ & H).
  apply ok_inj in H. subst g'. reflexivity.
Qed.

Section Engine.

Variable stats_chisquare : list Z -> list Q -> exc (Q * R).
Variable stats_chi2_contingency : list (list Z) -> exc (Q * R * Z).

(** The two statistic functions write results only. *)
Lemma calculate_goodness_of_fit_frame (g : Globals) :
  let g' := calculate_goodness_of_fit stats_chisquare g in
  sliders_gof_observed g' = sliders_gof_observed g /\
  sliders_gof_expected g' = sliders_gof_expected g /\
  independence_cells g' = independence_cells g.
Proof.
  unfold calculate_goodness_of_fit, gof_try.
  destruct (zsum (gof_observed_counts g) =? 0)%Z; [repeat split|].
  destruct (gof_expected_counts g (zsum (gof_observed_counts g)))
    as [e|expected]; [repeat split|].
  destruct (stats_chisquare (gof_observed_counts g) expected)
    as [e|[stat p]]; repeat split.
Qed.

Lemma calculate_independence_frame (g : Globals) :
  let g' := calculate_independence stats_chi2_contingency g in
  sliders_gof_observed g' = sliders_gof_observed g /\
  sliders_gof_expected g' = sliders_gof_expected g /\
  independence_cells g' = independence_cells g.
Proof.
  unfold calculate_independence, independence_try.
  destruct (np_shape2 (independence_observed g)) as [e|[nrows ncols]];
    [repeat split|].
  destruct (any_zero (row_sums (independence_observed g))
            || any_zero (col_sums (independence_observed g) ncols));
    [repeat split|].
  destruct (stats_chi2_contingency (independence_observed g))
    as [e|[[stat p] d]]; repeat split.
Qed.

End Engine.

Lemma map_update_nth {A B : Type} (h : A -> B) (f : A -> A) (xs : list A) :
  (forall x, h (f x) = h x) ->
  forall n, map h (update_nth n f xs) = map h xs.
Proof.
  intros Hf. induction xs as [|x xs IH]; intros [|n]; simpl;
    try reflexivity.
  - rewrite Hf. reflexivity.
  - rewrite IH. reflexivity.
Qed.

Lemma length_update_nth {A : Type} (f : A -> A) (xs : list A) :
  forall n, length (update_nth n f xs) = length xs.
Proof.
  induction xs as [|x xs IH]; intros [|n]; simpl; try reflexivity.
  rewrite IH. reflexivity.
Qed.

Lemma update_cell_shape (cells : list (list Cell)) (ij : nat * nat)
    (f : Cell -> Cell) :
  map (@length Cell) (update_cell cells ij f) = map (@length Cell) cells.
Proof.
  unfold update_cell. apply map_update_nth. intros row.
  apply length_update_nth.
Qed.


Lemma on_keydown_tracks (g g' : Globals) (key : Z) :
  on_keydown g key = ok g' -> flag_tracks g g'.
Proof.
  unfold on_keydown.
  set (g1 := if (key =? K_ESCAPE)%Z
             then if Page_eqb (state g) MENU then g
                  else set_has_calculated (set_state g MENU) false
             else g).
  assert (H1 : flag_tracks g g1).
  { unfold g1. destruct (key =? K_ESCAPE)%Z; [|apply flag_tracks_refl].
    destruct (Page_eqb (state g) MENU); [apply flag_tracks_refl|].
    left. reflexivity. }
  clearbody g1. intros H.
  destruct (active_cell g1) as [ij|];
    [|apply ok_inj in H; subst g'; exact H1].
  destruct (Page_eqb (state g1) INDEPENDENCE);
    [|apply ok_inj in H; subst g'; exact H1].
  destruct (lookup_cell (independence_cells g1) ij) as [cell|];
    [|apply ok_inj in H; subst g'; exact H1].
  destruct (key =? K_BACKSPACE)%Z.
  - apply bind_ok in H. destruct H as (v & _ & H).
    apply ok_inj in H. subst g'. left. reflexivity.
  - destruct ((K_0 <=? key) && (key <=? K_9))%Z;
      apply ok_inj in H; subst g'; [left; reflexivity | exact H1].
Qed.

Lemma clear_active_inputs (g : Globals) :
  inputs (clear_active g) = inputs g /\
  has_calculated (clear_active g) = has_calculated g.
Proof.
  split; [|reflexivity]. unfold inputs, clear_active. simpl.
  f_equal. rewrite map_map. apply map_ext. intros row.
  rewrite map_map. reflexivity.
Qed.

Lemma clear_dragging_inputs (g : Globals) :
  inputs (clear_dragging g) = inputs g /\
  has_calculated (clear_dragging g) = has_calculated g.
Proof.
  split; [|reflexivity]. unfold inputs, clear_dragging. simpl.
  rewrite !map_map. reflexivity.
Qed.

Lemma click_cells_inputs (mp : Z * Z) (g : Globals) :
  inputs (click_cells mp g) = inputs g /\
  (has_calculated (click_cells mp g) = false \/
   has_calculated (click_cells mp g) = has_calculated g).
Proof.
  assert (Hv : map (map cvalue)
                   (map (map (fun c => if collidepoint (rect c) mp
                                       then set_active c true else c))
                        (independence_cells g))
               = map (map cvalue) (independence_cells g)).
  { rewrite map_map. apply map_ext. intros row. rewrite map_map.
    apply map_ext. intros c. destruct (collidepoint (rect c) mp);
      reflexivity. }
  unfold click_cells.
  destruct (hit_cells mp (independence_cells g)); unfold inputs; simpl;
    rewrite Hv; auto.
Qed.

Section Loop.

Variable stats_chisquare : list Z -> list Q -> exc (Q * R).
Variable stats_chi2_contingency : list (list Z) -> exc (Q * R * Z).

Lemma on_mousemotion_tracks (mp : Z * Z) (g g' : Globals) :
  on_mousemotion mp g = ok g' -> flag_tracks g g'.
Proof.
  unfold on_mousemotion. intros H.
  apply bind_ok in H. destruct H as (r & Hr & H).
  apply ok_inj in H. subst g'.
  destruct (for_sliders_tracks _ g r (move_slider_no_change mp) Hr)
    as [Hf | [Hi _]]; [left | right]; assumption.
Qed.

Lemma on_mousebuttondown_tracks (mp : Z * Z) (g g' : Globals) :
  on_mousebuttondown stats_chisquare stats_chi2_contingency mp g = ok g'
  -> flag_tracks g g'.
Proof.
  unfold on_mousebuttondown. destruct (state g).
  - (* MENU *)
    destruct (draw_menu g) as [[gof_button ind_button] tutorial_button].
    destruct (collidepoint gof_button mp).
    { intros H. left. eapply reset_goodness_of_fit_clears, H. }
    destruct (collidepoint ind_button mp).
    { intros H. left. eapply reset_independence_clears, H. }
    destruct (collidepoint tutorial_button mp);
      intros H; apply ok_inj in H; subst g'; (right; reflexivity).
  - (* GOODNESS_OF_FIT *)
    destruct (draw_test_page g) as [back_button toggle].
    set (g1 := if collidepoint toggle mp
               then set_show_instructions g (negb (show_instructions g))
               else g).
    assert (H1 : inputs g1 = inputs g /\
                 has_calculated g1 = has_calculated g).
    { unfold g1. destruct (collidepoint toggle mp); split; reflexivity. }
    clearbody g1. intros H.
    apply bind_ok in H. destruct H as (g2 & H2 & H).
    apply bind_ok in H. destruct H as (r & Hr & H).
    apply ok_inj in H. subst g'.
    assert (T2 : flag_tracks g g2).
    { destruct (collidepoint back_button mp).
      { apply ok_inj in H2. subst g2. right. apply H1. }
      destruct (collidepoint (calc_button g1) mp
                && negb (has_calculated g1)).
      { apply ok_inj in H2. subst g2. right.
        destruct (calculate_goodness_of_fit_frame stats_chisquare g1)
          as (Ea & Eb & Ec).
        unfold inputs. rewrite Ea, Eb, Ec. apply H1. }
      destruct (collidepoint (reset_button g1) mp).
      { left. eapply reset_goodness_of_fit_clears, H2. }
      apply ok_inj in H2. subst g2. right. apply H1. }
    destruct (for_sliders_tracks _ g2 r (press_slider_no_change mp) Hr)
      as [Hf | [Hi Hc]].
    + left. exact Hf.
    + eapply flag_tracks_trans; [exact T2 | exact Hi |].
      intros E. rewrite Hc. exact E.
  - (* INDEPENDENCE *)
    destruct (draw_test_page g) as [back_button toggle].
    set (g1 := if collidepoint toggle mp
               then set_show_instructions g (negb (show_instructions g))
               else g).
    assert (H1 : inputs g1 = inputs g /\
                 has_calculated g1 = has_calculated g).
    { unfold g1. destruct (collidepoint toggle mp); split; reflexivity. }
    clearbody g1. intros H.
    apply bind_ok in H. destruct H as (g2 & H2 & H).
    apply ok_inj in H. subst g'.
    assert (T2 : flag_tracks g g2).
    { destruct (collidepoint back_button mp).
      { apply ok_inj in H2. subst g2. right. apply H1. }
      destruct (collidepoint (calc_button g1) mp
                && negb (has_calculated g1)).
      { apply ok_inj in H2. subst g2. right.
        destruct (calculate_independence_frame stats_chi2_contingency g1)
          as (Ea & Eb & Ec).
        unfold inputs. rewrite Ea, Eb, Ec. apply H1. }
      destruct (collidepoint (reset_button g1) mp).
      { left. eapply reset_independence_clears, H2. }
      apply ok_inj in H2. subst g2. right. apply H1. }
    destruct (click_cells_inputs mp (clear_active g2)) as [Hi Hc].
    destruct (clear_active_inputs g2) as [Hi' Hc'].
    eapply flag_tracks_trans; [exact T2 | congruence |].
    intros E. destruct Hc as [Hc|Hc]; congruence.
  - (* TUTORIAL *)
    destruct (draw_tutorial g) as [[menu_button back_button] next_button].
    destruct (collidepoint menu_button mp).
    { intros H; apply ok_inj in H; subst g'; (right; reflexivity). }
    destruct (collidepoint back_button mp && (0 <? tutorial_page g)%Z).
    { intros H; apply ok_inj in H; subst g'; (right; reflexivity). }
    destruct (collidepoint next_button mp);
      [destruct (tutorial_page g <? num_tutorial_pages - 1)%Z|];
      intros H; apply ok_inj in H; subst g'; (right; reflexivity).
Qed.

(** Every step of the event loop clears [has_calculated] or leaves all
    slider and cell values as they were. *)
Lemma handle_event_tracks (mp : Z * Z) (g g' : Globals) (ev : Event) :
  handle_event stats_chisquare stats_chi2_contingency mp g ev = ok g' ->
  flag_tracks g g'.
Proof.
  destruct ev as [|w h|key|button| |rel_y|]; simpl; intros H.
  - apply ok_inj in H. subst g'. (right; reflexivity).
  - apply ok_inj in H. subst g'. right. unfold on_videoresize.
    destruct (clear_active_inputs
                (clear_dragging
                   (calculate_layout
                      (set_window g
                         (Z.max (Z.max w 800) MIN_WIDTH)
                         (Z.max h calculate_min_height))))) as [E1 _].
    destruct (clear_dragging_inputs
                (calculate_layout
                   (set_window g
                      (Z.max (Z.max w 800) MIN_WIDTH)
                      (Z.max h calculate_min_height)))) as [E2 _].
    destruct (calculate_layout_inputs
                (set_window g
                   (Z.max (Z.max w 800) MIN_WIDTH)
                   (Z.max h calculate_min_height))) as [E3 _].
    rewrite E1, E2, E3. reflexivity.
  - apply on_keydown_tracks in H. exact H.
  - destruct (button =? 1)%Z.
    + apply on_mousebuttondown_tracks in H. exact H.
    + apply ok_inj in H. subst g'. (right; reflexivity).
  - apply ok_inj in H. subst g'. right. apply clear_dragging_inputs.
  - apply on_mousemotion_tracks in H. exact H.
  - apply ok_inj in H. subst g'. (right; reflexivity).
Qed.

End Loop.


(** *** The invariant *)

Lemma Inv_ext (g g' : Globals) :
  sliders_gof_observed g' = sliders_gof_observed g ->
  sliders_gof_expected g' = sliders_gof_expected g ->
  independence_cells g' = independence_cells g ->
  Inv g -> Inv g'.
Proof.
  unfold Inv, cells_in_range. intros -> -> ->. auto.
Qed.

Lemma Inv_sliders (g : Globals) (obs exp : list Slider) :
  Forall (bounded 0 150) obs -> Forall (bounded 0 100) exp ->
  length obs = length (sliders_gof_observed g) ->
  length exp = length (sliders_gof_expected g) ->
  Inv g -> Inv (set_sliders g obs exp).
Proof.
  intros Ho He Lo Le (_ & _ & L1 & L2 & Hs & Hc).
  unfold Inv, cells_in_range in *.
  cbn [sliders_gof_observed sliders_gof_expected independence_cells
       set_sliders].
  repeat split; try assumption; congruence.
Qed.

Lemma Inv_cells (g : Globals) (cells : list (list Cell))
    (ac : option (nat * nat)) :
  map (@length Cell) cells = map (@length Cell) (independence_cells g) ->
  Forall (Forall (fun c => (0 <= cvalue c < 1000)%Z)) cells ->
  Inv g -> Inv (set_cells g cells ac).
Proof.
  intros Hs Hr (Ho & He & L1 & L2 & Hs' & _).
  unfold Inv, cells_in_range.
  cbn [sliders_gof_observed sliders_gof_expected independence_cells
       set_cells].
  repeat split; try assumption; congruence.
Qed.

Lemma chi2_calculate_layout_Inv (g : Globals) : Inv g -> Inv (calculate_layout g).
Proof.
  intros (Ho & He & L1 & L2 & Hs & Hc).
  destruct (chi2_calculate_layout_sliders g) as [So Se].
  destruct (calculate_layout_cells g) as [Sc _].
  assert (Hb : forall lo hi (s' s : Slider),
             value s' = value s /\ smin s' = smin s /\ smax s' = smax s /\
             dragging s' = dragging s /\
             (width s' = width s \/ width s' = inject_Z SLIDER_MIN_WIDTH)
             -> bounded lo hi s -> bounded lo hi s').
  { intros lo hi s' s (Ev & Emin & Emax & _ & Ew) (B1 & B2 & B3 & B4 & B5).
    unfold bounded. rewrite Ev, Emin, Emax.
    repeat split; try assumption.
    destruct Ew as [-> | ->]; [exact B3 | reflexivity]. }
  unfold Inv. repeat split.
  - eapply Forall2_Forall; [apply (Hb 0 150) | exact So | exact Ho].
  - eapply Forall2_Forall; [apply (Hb 0 100) | exact Se | exact He].
  - rewrite (Forall2_length_eq _ _ _ So). exact L1.
  - rewrite (Forall2_length_eq _ _ _ Se). exact L2.
  - rewrite <- Hs. apply Forall2_map_eq.
    eapply Forall2_impl; [|exact Sc].
    intros a b H. eapply Forall2_length_eq, H.
  - unfold cells_in_range in *.
    eapply Forall2_Forall; [|exact Sc | exact Hc].
    intros row' row Hrow Hr.
    eapply Forall2_Forall; [|exact Hrow | exact Hr].
    intros c' c [Ev _] Hv. rewrite Ev. exact Hv.
Qed.

Lemma chi2_clear_dragging_Inv (g : Globals) : Inv g -> Inv (clear_dragging g).
Proof.
  intros H. pose proof H as (Ho & He & _).
  unfold clear_dragging. apply Inv_sliders; try exact H.
  - apply Forall_map_preserved; [|exact Ho]. intros x Hx. exact Hx.
  - apply Forall_map_preserved; [|exact He]. intros x Hx. exact Hx.
  - apply length_map.
  - apply length_map.
Qed.

Lemma map_active_range (f : Cell -> Cell) (cells : list (list Cell)) :
  (forall c, cvalue (f c) = cvalue c) ->
  Forall (Forall (fun c => (0 <= cvalue c < 1000)%Z)) cells ->
  map (@length Cell) (map (map f) cells) = map (@length Cell) cells /\
  Forall (Forall (fun c => (0 <= cvalue c < 1000)%Z)) (map (map f) cells).
Proof.
  intros Hf H. split.
  - rewrite map_map. apply map_ext. intros row. apply length_map.
  - induction H as [|row rows Hrow _ IH]; simpl; constructor; [|exact IH].
    induction Hrow as [|c cs Hc _ IHc]; simpl; constructor;
      [rewrite Hf; exact Hc | exact IHc].
Qed.

Lemma clear_active_Inv (g : Globals) : Inv g -> Inv (clear_active g).
Proof.
  intros H. pose proof H as (_ & _ & _ & _ & _ & Hc).
  destruct (map_active_range (fun c => set_active c false)
              (independence_cells g) (fun c => eq_refl) Hc) as [E1 E2].
  unfold clear_active. apply Inv_cells; assumption.
Qed.

Lemma click_cells_Inv (mp : Z * Z) (g : Globals) :
  Inv g -> Inv (click_cells mp g).
Proof.
  intros H. pose proof H as (_ & _ & _ & _ & _ & Hc).
  destruct (map_active_range
              (fun c => if collidepoint (rect c) mp
                        then set_active c true else c)
              (independence_cells g)) as [E1 E2]; [|exact Hc|].
  { intros c. destruct (collidepoint (rect c) mp); reflexivity. }
  unfold click_cells. destruct (hit_cells mp (independence_cells g)).
  - apply Inv_cells; assumption.
  - eapply Inv_ext;
      [| | | apply (Inv_cells g _ (Some (last (p :: l) (O, O))) E1 E2 H)];
      reflexivity.
Qed.

(** Under the invariant the slider loops divide by a positive width, so
    they return, and they keep the invariant. *)
Lemma chi2_for_sliders_Inv (f : Slider -> exc (Slider * bool))
    (F : Slider -> Slider * bool) (g : Globals) :
  (forall s, 0 < width s -> f s = ok (F s)) ->
  (forall lo hi s, bounded lo hi s -> bounded lo hi (fst (F s))) ->
  Inv g ->
  for_sliders f g
  = ok (set_sliders g (map (fun s => fst (F s)) (sliders_gof_observed g))
                      (map (fun s => fst (F s)) (sliders_gof_expected g)),
        existsb snd (map F (sliders_gof_observed g))
        || existsb snd (map F (sliders_gof_expected g))) /\
  Inv (set_sliders g (map (fun s => fst (F s)) (sliders_gof_observed g))
                     (map (fun s => fst (F s)) (sliders_gof_expected g))).
Proof.
  intros Hf HF H. pose proof H as (Ho & He & _).
  split.
  - unfold for_sliders.
    rewrite (mapM_total f F (bounded 0 150) _ (fun s Hs => Hf s (proj1 (proj2 (proj2 Hs)))) Ho).
    simpl.
    rewrite (mapM_total f F (bounded 0 100) _ (fun s Hs => Hf s (proj1 (proj2 (proj2 Hs)))) He).
    simpl. rewrite !map_map. reflexivity.
  - apply Inv_sliders; try exact H.
    + apply Forall_forall. intros s' Hs'. apply in_map_iff in Hs'.
      destruct Hs' as (s & <- & Hin). apply HF.
      rewrite Forall_forall in Ho. apply Ho, Hin.
    + apply Forall_forall. intros s' Hs'. apply in_map_iff in Hs'.
      destruct Hs' as (s & <- & Hin). apply HF.
      rewrite Forall_forall in He. apply He, Hin.
    + apply length_map.
    + apply length_map.
Qed.

Lemma chi2_press_slider_pressed (mp : Z * Z) (s : Slider) :
  0 < width s ->
  press_slider mp s = ok (pressed mp s, collidepoint (slider_rect s) mp).
Proof.
  intros H. unfold press_slider, pressed.
  destruct (collidepoint (slider_rect s) mp); [|reflexivity].
  rewrite drag_to_dragged by exact H. reflexivity.
Qed.

Lemma chi2_move_slider_moved (mp : Z * Z) (s : Slider) :
  0 < width s -> move_slider mp s = ok (moved mp s, dragging s).
Proof.
  intros H. unfold move_slider, moved.
  destruct (dragging s); [|reflexivity].
  rewrite drag_to_dragged by exact H. reflexivity.
Qed.


Lemma reset_goodness_of_fit_Inv (g : Globals) :
  Inv g -> exists g', reset_goodness_of_fit g = ok g' /\ Inv g'.
Proof.
  intros H. pose proof H as (Ho & He & Lo & Le & _).
  unfold reset_goodness_of_fit.
  destruct (sliders_gof_observed g) as [|a [|b [|c [|? ?]]]] eqn:Eo;
    try discriminate Lo.
  destruct (sliders_gof_expected g) as [|a' [|b' [|c' [|? ?]]]] eqn:Ee;
    try discriminate Le.
  cbn [enumerate length seq combine mapM fst snd py_index nth_error
       gof_observed gof_expected bind ok].
  eexists. split; [reflexivity|].
  refine (Inv_ext (set_sliders g _ _) _ eq_refl eq_refl eq_refl _).
  inversion Ho as [|? ? Ba Ho1]; subst.
  inversion Ho1 as [|? ? Bb Ho2]; subst.
  inversion Ho2 as [|? ? Bc _]; subst.
  inversion He as [|? ? Ba' He1]; subst.
  inversion He1 as [|? ? Bb' He2]; subst.
  inversion He2 as [|? ? Bc' _]; subst.
  apply Inv_sliders; try exact H; try (rewrite ?Eo, ?Ee; reflexivity).
  - repeat (first
              [ apply Forall_nil
              | apply Forall_cons;
                [ apply set_value_bounded;
                  [ unfold Qle; simpl; lia
                  | unfold Qle; simpl; lia
                  | assumption ]
                | ] ]).
  - repeat (first
              [ apply Forall_nil
              | apply Forall_cons;
                [ apply set_value_bounded;
                  [ unfold Qle; simpl; lia
                  | unfold Qle; simpl; lia
                  | assumption ]
                | ] ]).
Qed.

Lemma reset_independence_Inv (g : Globals) :
  Inv g -> exists g', reset_independence g = ok g' /\ Inv g'.
Proof.
  intros H. pose proof H as (_ & _ & _ & _ & Hs & _).
  unfold reset_independence.
  destruct (independence_cells g) as [|r1 [|r2 [|? ?]]] eqn:Ec;
    try discriminate Hs.
  simpl in Hs. injection Hs as H1 H2.
  destruct r1 as [|a [|b [|c [|? ?]]]]; try discriminate H1.
  destruct r2 as [|d [|e [|f [|? ?]]]]; try discriminate H2.
  cbn [enumerate length seq combine mapM fst snd py_index nth_error
       independence_data bind ok].
  eexists. split; [reflexivity|].
  refine (Inv_ext (set_cells g _ None) _ eq_refl eq_refl eq_refl _).
  apply Inv_cells; [rewrite Ec; reflexivity | | exact H].
  repeat constructor; simpl; lia.
Qed.

Lemma on_keydown_Inv (g : Globals) (key : Z) :
  Inv g -> exists g', on_keydown g key = ok g' /\ Inv g'.
Proof.
  intros H. pose proof H as (_ & _ & _ & _ & _ & Hc).
  destruct (CellEditing.on_keydown_in_range g key Hc) as (g' & E & Hc').
  exists g'. split; [exact E|].
  revert E. unfold on_keydown.
  set (g1 := if (key =? K_ESCAPE)%Z
             then if Page_eqb (state g) MENU then g
                  else set_has_calculated (set_state g MENU) false
             else g).
  assert (H1 : Inv g1).
  { unfold g1. destruct (key =? K_ESCAPE)%Z; [|exact H].
    destruct (Page_eqb (state g) MENU); exact H. }
  clearbody g1. intros E.
  destruct (active_cell g1) as [ij|];
    [|apply ok_inj in E; subst g'; exact H1].
  destruct (Page_eqb (state g1) INDEPENDENCE);
    [|apply ok_inj in E; subst g'; exact H1].
  destruct (lookup_cell (independence_cells g1) ij) as [cell|];
    [|apply ok_inj in E; subst g'; exact H1].
  destruct (key =? K_BACKSPACE)%Z.
  - apply bind_ok in E. destruct E as (v & _ & E).
    apply ok_inj in E. subst g'.
    refine (Inv_ext (set_cells g1 _ (active_cell g1)) _
                    eq_refl eq_refl eq_refl _).
    apply Inv_cells; [apply update_cell_shape | exact Hc' | exact H1].
  - destruct ((K_0 <=? key) && (key <=? K_9))%Z;
      apply ok_inj in E; subst g'; [|exact H1].
    refine (Inv_ext (set_cells g1 _ (active_cell g1)) _
                    eq_refl eq_refl eq_refl _).
    apply Inv_cells; [apply update_cell_shape | exact Hc' | exact H1].
Qed.

Section LoopInv.

Variable stats_chisquare : list Z -> list Q -> exc (Q * R).
Variable stats_chi2_contingency : list (list Z) -> exc (Q * R * Z).

Lemma calculate_goodness_of_fit_Inv (g : Globals) :
  Inv g -> Inv (calculate_goodness_of_fit stats_chisquare g).
Proof.
  destruct (calculate_goodness_of_fit_frame stats_chisquare g)
    as (E1 & E2 & E3).
  apply Inv_ext; assumption.
Qed.

Lemma calculate_independence_Inv (g : Globals) :
  Inv g -> Inv (calculate_independence stats_chi2_contingency g).
Proof.
  destruct (calculate_independence_frame stats_chi2_contingency g)
    as (E1 & E2 & E3).
  apply Inv_ext; assumption.
Qed.

(** What [MOUSEMOTION] does under the invariant. *)
Lemma chi2_on_mousemotion_Inv (mp : Z * Z) (g : Globals) :
  Inv g ->
  exists g',
    on_mousemotion mp g = ok g' /\ Inv g' /\
    sliders g' = map (moved mp) (sliders g).
Proof.
  intros H. unfold on_mousemotion.
  destruct (chi2_for_sliders_Inv (move_slider mp)
              (fun s => (moved mp s, dragging s)) g
              (chi2_move_slider_moved mp)
              (fun lo hi s => moved_bounded mp lo hi s) H) as [E HI].
  rewrite E. cbn [bind ok fst snd].
  eexists. split; [reflexivity|]. split.
  - destruct (existsb snd _ || existsb snd _); exact HI.
  - unfold sliders. rewrite map_app.
    destruct (existsb snd _ || existsb snd _); reflexivity.
Qed.

Lemma chi2_on_mousebuttondown_Inv (mp : Z * Z) (g : Globals) :
  Inv g ->
  exists g',
    on_mousebuttondown stats_chisquare stats_chi2_contingency mp g
    = ok g' /\ Inv g'.
Proof.
  intros H. unfold on_mousebuttondown. destruct (state g).
  - destruct (draw_menu g) as [[gof_button ind_button] tutorial_button].
    destruct (collidepoint gof_button mp).
    { apply reset_goodness_of_fit_Inv. exact H. }
    destruct (collidepoint ind_button mp).
    { apply reset_independence_Inv. exact H. }
    destruct (collidepoint tutorial_button mp); eauto.
  - destruct (draw_test_page g) as [back_button toggle].
    set (g1 := if collidepoint toggle mp
               then set_show_instructions g (negb (show_instructions g))
               else g).
    assert (H1 : Inv g1).
    { unfold g1. destruct (collidepoint toggle mp); exact H. }
    clearbody g1.
    assert (H2 : exists g2,
               (if collidepoint back_button mp then ok (set_state g1 MENU)
                else if collidepoint (calc_button g1) mp
                        && negb (has_calculated g1)
                then ok (calculate_goodness_of_fit stats_chisquare g1)
                else if collidepoint (reset_button g1) mp
                then reset_goodness_of_fit g1 else ok g1) = ok g2
               /\ Inv g2).
    { destruct (collidepoint back_button mp); [eauto|].
      destruct (collidepoint (calc_button g1) mp
                && negb (has_calculated g1)).
      { eexists. split; [reflexivity|].
        apply calculate_goodness_of_fit_Inv, H1. }
      destruct (collidepoint (reset_button g1) mp); [|eauto].
      apply reset_goodness_of_fit_Inv, H1. }
    destruct H2 as (g2 & E2 & I2). rewrite E2. cbn [bind ok].
    destruct (chi2_for_sliders_Inv (press_slider mp)
                (fun s => (pressed mp s,
                           collidepoint (slider_rect s) mp)) g2
                (chi2_press_slider_pressed mp)
                (fun lo hi s => pressed_bounded mp lo hi s) I2)
      as [E HI].
    rewrite E. cbn [bind ok fst snd].
    eexists. split; [reflexivity|].
    destruct (existsb snd _ || existsb snd _); exact HI.
  - destruct (draw_test_page g) as [back_button toggle].
    set (g1 := if collidepoint toggle mp
               then set_show_instructions g (negb (show_instructions g))
               else g).
    assert (H1 : Inv g1).
    { unfold g1. destruct (collidepoint toggle mp); exact H. }
    clearbody g1.
    assert (H2 : exists g2,
               (if collidepoint back_button mp then ok (set_state g1 MENU)
                else if collidepoint (calc_button g1) mp
                        && negb (has_calculated g1)
                then ok (calculate_independence
                           stats_chi2_contingency g1)
                else if collidepoint (reset_button g1) mp
                then reset_independence g1 else ok g1) = ok g2
               /\ Inv g2).
    { destruct (collidepoint back_button mp); [eauto|].
      destruct (collidepoint (calc_button g1) mp
                && negb (has_calculated g1)).
      { eexists. split; [reflexivity|].
        apply calculate_independence_Inv, H1. }
      destruct (collidepoint (reset_button g1) mp); [|eauto].
      apply reset_independence_Inv, H1. }
    destruct H2 as (g2 & E2 & I2). rewrite E2. cbn [bind ok].
    eexists. split; [reflexivity|].
    apply click_cells_Inv, clear_active_Inv, I2.
  - destruct (draw_tutorial g) as [[menu_button back_button] next_button].
    destruct (collidepoint menu_button mp); [eauto|].
    destruct (collidepoint back_button mp && (0 <? tutorial_page g)%Z);
      [eauto|].
    destruct (collidepoint next_button mp); [|eauto].
    destruct (tutorial_page g <? num_tutorial_pages - 1)%Z; eauto.
Qed.

(** No step of the loop fails under the invariant, and every step keeps
    it. *)
Lemma chi2_handle_event_Inv (mp : Z * Z) (g : Globals) (ev : Event) :
  Inv g ->
  exists g',
    handle_event stats_chisquare stats_chi2_contingency mp g ev = ok g'
    /\ Inv g'.
Proof.
  intros H. destruct ev as [|w h|key|button| |rel_y|]; simpl.
  - eauto.
  - eexists. split; [reflexivity|]. unfold on_videoresize.
    apply clear_active_Inv, chi2_clear_dragging_Inv, chi2_calculate_layout_Inv.
    exact H.
  - apply on_keydown_Inv, H.
  - destruct (button =? 1)%Z; [|eauto].
    apply chi2_on_mousebuttondown_Inv, H.
  - eexists. split; [reflexivity|]. apply chi2_clear_dragging_Inv, H.
  - destruct (chi2_on_mousemotion_Inv mp g H) as (g' & E & I & _). eauto.
  - eauto.
Qed.

End LoopInv.

Lemma chi2_initial_globals_Inv : Inv initial_globals.
Proof.
  apply chi2_calculate_layout_Inv.
  unfold Inv, cells_in_range. simpl.
  repeat split; repeat constructor; simpl;
    solve [lia | unfold Qle, Qlt; simpl; lia].
Qed.

Lemma chi2_Inv_in_range (g : Globals) :
  Inv g -> Forall slider_in_range (sliders g).
Proof.
  intros (Ho & He & _). unfold sliders. apply Forall_app. split.
  - eapply Forall_impl; [|exact Ho]. apply bounded_in_range.
  - eapply Forall_impl; [|exact He]. apply bounded_in_range.
Qed.

(** After a resize no slider is being dragged. *)
Lemma chi2_on_videoresize_releases (g : Globals) (w h : Z) :
  Forall (fun s => dragging s = false) (sliders (on_videoresize g w h)).
Proof.
  unfold on_videoresize, clear_active, clear_dragging, sliders. simpl.
  apply Forall_app. split; apply Forall_forall; intros s Hs;
    apply in_map_iff in Hs; destruct Hs as (s0 & <- & _); reflexivity.
Qed.

End Chi2LoopFacts.

(** ** [t_test.py]: the event loop *)

Module TTestFacts.

Import TTest PyFacts SliderFacts.

(** The layout gives every slider a track of positive width, keeps its
    value and drag flag, and sets its bounds. *)
Lemma ttest_calculate_layout_sliders (g : Globals) :
  (1000 <= WIDTH g)%Z ->
  let g' := calculate_layout g in
  let rebuilt lo hi s' s :=
    smin s' = lo /\ smax s' = hi /\ 0 < width s' /\
    value s' = value s /\ dragging s' = dragging s in
  rebuilt 70 130 (slider_mean1 g') (slider_mean1 g) /\
  rebuilt 70 130 (slider_mean2 g') (slider_mean2 g) /\
  rebuilt 5 25 (slider_std1 g') (slider_std1 g) /\
  rebuilt 5 25 (slider_std2 g') (slider_std2 g) /\
  rebuilt 5 20000 (slider_sample g') (slider_sample g).
Proof.
  intros HW. cbv zeta.
  assert (Hgrid :
    0 < py_max (py_min (inject_Z (WIDTH g) * (4 # 10)) 450)
               (inject_Z (LABEL_COLUMN_WIDTH + SLIDER_MIN_WIDTH
                          + VALUE_COLUMN_WIDTH + LABEL_SLIDER_GAP
                          + SLIDER_VALUE_GAP + H_MARGIN * 2))
        - inject_Z LABEL_COLUMN_WIDTH - inject_Z VALUE_COLUMN_WIDTH
        - inject_Z H_MARGIN * 2 - inject_Z LABEL_SLIDER_GAP
        - inject_Z SLIDER_VALUE_GAP).
  { pose proof (py_max_ge_r
                  (py_min (inject_Z (WIDTH g) * (4 # 10)) 450)
                  (inject_Z (LABEL_COLUMN_WIDTH + SLIDER_MIN_WIDTH
                             + VALUE_COLUMN_WIDTH + LABEL_SLIDER_GAP
                             + SLIDER_VALUE_GAP + H_MARGIN * 2))) as Hm.
    set (m := py_max _ _) in *. clearbody m.
    unfold LABEL_COLUMN_WIDTH, SLIDER_MIN_WIDTH, VALUE_COLUMN_WIDTH,
      LABEL_SLIDER_GAP, SLIDER_VALUE_GAP, H_MARGIN, inject_Z in *.
    simpl in Hm. lra. }
  assert (Hsample :
    0 < py_min (inject_Z (WIDTH g) * (6 # 10)) 550
        - inject_Z SAMPLE_LABEL_WIDTH - inject_Z VALUE_COLUMN_WIDTH
        - inject_Z H_MARGIN * 2 - inject_Z LABEL_SLIDER_GAP
        - inject_Z SLIDER_VALUE_GAP).
  { assert (Hw : 1000 <= inject_Z (WIDTH g)).
    { change 1000 with (inject_Z 1000). rewrite <- Zle_Qle. exact HW. }
    pose proof (py_min_gt (inject_Z (WIDTH g) * (6 # 10)) 550 306
                  ltac:(lra) ltac:(reflexivity)) as Hm.
    set (m := py_min _ _) in *. clearbody m.
    unfold SAMPLE_LABEL_WIDTH, VALUE_COLUMN_WIDTH, LABEL_SLIDER_GAP,
      SLIDER_VALUE_GAP, H_MARGIN, inject_Z in *.
    lra. }
  unfold calculate_layout.
  cbn [slider_mean1 slider_mean2 slider_std1 slider_std2 slider_sample
       set_layout set_sliders smin smax width value dragging].
  repeat split; try reflexivity; assumption.
Qed.

Lemma ttest_calculate_layout_Inv (g : Globals) :
  (1000 <= WIDTH g)%Z -> Inv g -> Inv (calculate_layout g).
Proof.
  intros HW (I1 & I2 & I3 & I4 & I5).
  destruct (ttest_calculate_layout_sliders g HW) as (R1 & R2 & R3 & R4 & R5).
  assert (Hb : forall lo hi s' s,
             (smin s' = lo /\ smax s' = hi /\ 0 < width s' /\
              value s' = value s /\ dragging s' = dragging s) ->
             bounded lo hi s -> bounded lo hi s').
  { intros lo hi s' s (E1 & E2 & E3 & E4 & _) (_ & _ & _ & B4 & B5).
    unfold bounded. rewrite E4. repeat split; assumption. }
  unfold Inv.
  split; [eapply Hb; eassumption|]. split; [eapply Hb; eassumption|].
  split; [eapply Hb; eassumption|].
  split; eapply Hb; eassumption.
Qed.

Lemma ttest_clear_dragging_Inv (g : Globals) : Inv g -> Inv (clear_dragging g).
Proof. intros H. exact H. Qed.

Lemma ttest_on_videoresize_Inv (g : Globals) (w h : Z) :
  Inv g -> Inv (on_videoresize g w h).
Proof.
  intros H. unfold on_videoresize.
  apply ttest_clear_dragging_Inv, ttest_calculate_layout_Inv; [|exact H].
  cbn [WIDTH set_window]. unfold MIN_WIDTH. lia.
Qed.

(** After a resize no slider is being dragged. *)
Lemma ttest_on_videoresize_releases (g : Globals) (w h : Z) :
  Forall (fun s => dragging s = false) (sliders (on_videoresize g w h)).
Proof.
  unfold on_videoresize, clear_dragging, sliders.
  cbn [slider_mean1 slider_mean2 slider_std1 slider_std2 slider_sample
       set_sliders].
  repeat constructor.
Qed.

Lemma ttest_press_slider_pressed (mp : Z * Z) (s : Slider) :
  0 < width s -> press_slider mp s = ok (pressed mp s).
Proof.
  intros H. unfold press_slider, pressed.
  destruct (collidepoint (slider_rect s) mp); [|reflexivity].
  apply drag_to_dragged. exact H.
Qed.

Lemma ttest_move_slider_moved (mp : Z * Z) (s : Slider) :
  0 < width s -> move_slider mp s = ok (moved mp s).
Proof.
  intros H. unfold move_slider, moved.
  destruct (dragging s); [|reflexivity].
  apply drag_to_dragged. exact H.
Qed.

(** Under the invariant a slider loop returns, with every slider mapped by
    the total version of its body. *)
Lemma ttest_for_sliders_Inv (f : Slider -> exc Slider) (F : Slider -> Slider)
    (g : Globals) :
  (forall s, 0 < width s -> f s = ok (F s)) ->
  (forall lo hi s, bounded lo hi s -> bounded lo hi (F s)) ->
  Inv g ->
  for_sliders f g
  = ok (set_sliders g (F (slider_mean1 g)) (F (slider_mean2 g))
                      (F (slider_std1 g)) (F (slider_std2 g))
                      (F (slider_sample g))) /\
  Inv (set_sliders g (F (slider_mean1 g)) (F (slider_mean2 g))
                     (F (slider_std1 g)) (F (slider_std2 g))
                     (F (slider_sample g))).
Proof.
  intros Hf HF (I1 & I2 & I3 & I4 & I5). split.
  - unfold for_sliders.
    rewrite (Hf _ (proj1 (proj2 (proj2 I1)))). cbn [bind ok].
    rewrite (Hf _ (proj1 (proj2 (proj2 I2)))). cbn [bind ok].
    rewrite (Hf _ (proj1 (proj2 (proj2 I3)))). cbn [bind ok].
    rewrite (Hf _ (proj1 (proj2 (proj2 I4)))). cbn [bind ok].
    rewrite (Hf _ (proj1 (proj2 (proj2 I5)))). cbn [bind ok].
    reflexivity.
  - unfold Inv.
    cbn [slider_mean1 slider_mean2 slider_std1 slider_std2 slider_sample
         set_sliders].
    split; [apply HF, I1|]. split; [apply HF, I2|].
    split; [apply HF, I3|]. split; [apply HF, I4 | apply HF, I5].
Qed.

Lemma ttest_on_mousemotion_Inv (mp : Z * Z) (g : Globals) :
  Inv g ->
  exists g',
    on_mousemotion mp g = ok g' /\ Inv g' /\
    sliders g' = map (moved mp) (sliders g) /\
    has_calculated g' = has_calculated g.
Proof.
  intros H. unfold on_mousemotion.
  destruct (ttest_for_sliders_Inv (move_slider mp) (moved mp) g
              (ttest_move_slider_moved mp)
              (fun lo hi s => moved_bounded mp lo hi s) H) as [E HI].
  rewrite E. eexists. split; [reflexivity|]. split; [exact HI|].
  split; reflexivity.
Qed.

Section Loop.

Variable np_random_normal : nat -> Q -> Q -> Z -> list Q.
Variable stats_ttest_ind :
  list Q -> list Q -> exc (option R * option R).

Lemma reset_data_Inv (g : Globals) :
  Inv g -> Inv (reset_data np_random_normal g).
Proof. intros H. exact H. Qed.

Lemma reset_data_clears (g : Globals) :
  has_calculated (reset_data np_random_normal g) = false.
Proof. reflexivity. Qed.

Lemma calculate_ttest_Inv (g : Globals) :
  Inv g -> Inv (calculate_ttest stats_ttest_ind g).
Proof.
  intros H. unfold calculate_ttest.
  destruct ((length (group1 g) <? 2)%nat || (length (group2 g) <? 2)%nat);
    [exact H|].
  destruct (stats_ttest_ind (group1 g) (group2 g))
    as [e|[[t|] [p|]]]; exact H.
Qed.

Lemma on_mousebuttonup_Inv (g : Globals) :
  Inv g -> Inv (on_mousebuttonup np_random_normal g).
Proof.
  intros (I1 & I2 & I3 & I4 & I5).
  unfold on_mousebuttonup, release, Inv.
  destruct (dragging (slider_mean1 g));
    cbn [slider_mean1 slider_mean2 slider_std1 slider_std2 slider_sample
         set_sliders reset_data set_has_calculated set_groups];
    destruct (dragging (slider_mean2 g));
    cbn [slider_mean1 slider_mean2 slider_std1 slider_std2 slider_sample
         set_sliders reset_data set_has_calculated set_groups];
    destruct (dragging (slider_std1 g));
    cbn [slider_mean1 slider_mean2 slider_std1 slider_std2 slider_sample
         set_sliders reset_data set_has_calculated set_groups];
    destruct (dragging (slider_std2 g));
    cbn [slider_mean1 slider_mean2 slider_std1 slider_std2 slider_sample
         set_sliders reset_data set_has_calculated set_groups];
    destruct (dragging (slider_sample g));
    cbn [slider_mean1 slider_mean2 slider_std1 slider_std2 slider_sample
         set_sliders reset_data set_has_calculated set_groups];
    (split; [assumption|]; split; [assumption|]; split; [assumption|];
     split; assumption).
Qed.

(** Releasing a slider that was being dragged draws new samples and
    clears the result flag. *)
Lemma on_mousebuttonup_clears (g : Globals) :
  Exists (fun s => dragging s = true) (sliders g) ->
  has_calculated (on_mousebuttonup np_random_normal g) = false.
Proof.
  intros H. unfold sliders in H.
  unfold on_mousebuttonup, release.
  destruct (dragging (slider_mean1 g)) eqn:D1;
    cbn [slider_mean1 slider_mean2 slider_std1 slider_std2 slider_sample
         set_sliders reset_data set_has_calculated set_groups
         has_calculated];
    destruct (dragging (slider_mean2 g)) eqn:D2;
    cbn [slider_mean1 slider_mean2 slider_std1 slider_std2 slider_sample
         set_sliders reset_data set_has_calculated set_groups
         has_calculated];
    destruct (dragging (slider_std1 g)) eqn:D3;
    cbn [slider_mean1 slider_mean2 slider_std1 slider_std2 slider_sample
         set_sliders reset_data set_has_calculated set_groups
         has_calculated];
    destruct (dragging (slider_std2 g)) eqn:D4;
    cbn [slider_mean1 slider_mean2 slider_std1 slider_std2 slider_sample
         set_sliders reset_data set_has_calculated set_groups
         has_calculated];
    destruct (dragging (slider_sample g)) eqn:D5;
    cbn [slider_mean1 slider_mean2 slider_std1 slider_std2 slider_sample
         set_sliders reset_data set_has_calculated set_groups
         has_calculated];
    try reflexivity.
  exfalso.
  repeat match goal with
         | H : Exists _ (_ :: _) |- _ => inversion H; clear H; subst
         | H : Exists _ [] |- _ => inversion H
         end; congruence.
Qed.

Lemma ttest_on_mousebuttondown_Inv (mp : Z * Z) (g : Globals) :
  Inv g ->
  exists g',
    on_mousebuttondown np_random_normal stats_ttest_ind mp g = ok g'
    /\ Inv g'.
Proof.
  intros H. unfold on_mousebuttondown. destruct (state g).
  - destruct (draw_menu g) as [start_button tutorial_button].
    destruct (collidepoint start_button mp); [eauto|].
    destruct (collidepoint tutorial_button mp); eauto.
  - destruct (draw_game g) as [back_button toggle].
    set (g1 := if collidepoint toggle mp
               then set_show_instructions g (negb (show_instructions g))
               else g).
    assert (H1 : Inv g1).
    { unfold g1. destruct (collidepoint toggle mp); exact H. }
    clearbody g1.
    set (g2 := if collidepoint back_button mp then set_state g1 MENU
               else if collidepoint (calc_button g1) mp
               then calculate_ttest stats_ttest_ind g1
               else if collidepoint (reset_button g1) mp
               then reset_data np_random_normal g1 else g1).
    assert (H2 : Inv g2).
    { unfold g2. destruct (collidepoint back_button mp); [exact H1|].
      destruct (collidepoint (calc_button g1) mp);
        [apply calculate_ttest_Inv, H1|].
      destruct (collidepoint (reset_button g1) mp); exact H1. }
    clearbody g2.
    destruct (ttest_for_sliders_Inv (press_slider mp) (pressed mp) g2
                (ttest_press_slider_pressed mp)
                (fun lo hi s => pressed_bounded mp lo hi s) H2)
      as [E HI].
    rewrite E. eauto.
  - destruct (tutorial_buttons g)
      as [[back_button next_button] menu_button].
    destruct (collidepoint menu_button mp); [eauto|].
    destruct (collidepoint back_button mp && (0 <? tutorial_page g)%Z);
      [eauto|].
    destruct (collidepoint next_button mp); [|eauto].
    destruct (tutorial_page g <? num_tutorial_pages - 1)%Z; eauto.
  - eauto.
Qed.

(** No step of the loop fails under the invariant, and every step keeps
    it. *)
Lemma ttest_handle_event_Inv (mp : Z * Z) (g : Globals) (ev : Event) :
  Inv g ->
  exists g',
    handle_event np_random_normal stats_ttest_ind mp g ev = ok g'
    /\ Inv g'.
Proof.
  intros H. destruct ev as [|w h|key|button| |rel_y|]; simpl.
  - eauto.
  - eexists. split; [reflexivity|]. apply ttest_on_videoresize_Inv, H.
  - eexists. split; [reflexivity|]. unfold on_keydown.
    destruct (key =? K_ESCAPE)%Z; [|exact H].
    destruct (Page_eqb (state g) MENU); exact H.
  - destruct (button =? 1)%Z; [|eauto].
    apply ttest_on_mousebuttondown_Inv, H.
  - eexists. split; [reflexivity|]. apply on_mousebuttonup_Inv, H.
  - destruct (ttest_on_mousemotion_Inv mp g H) as (g' & E & I & _). eauto.
  - eauto.
Qed.

Lemma ttest_initial_globals_Inv : Inv (initial_globals np_random_normal).
Proof.
  unfold initial_globals. cbv zeta.
  apply ttest_calculate_layout_Inv.
  - cbn [WIDTH]. unfold initial_width. lia.
  - unfold Inv, bounded.
    cbn [slider_mean1 slider_mean2 slider_std1 slider_std2 slider_sample
         smin smax width value].
    repeat split; try reflexivity; unfold Qle, Qlt; simpl; lia.
Qed.

End Loop.

Lemma ttest_Inv_in_range (g : Globals) :
  Inv g -> Forall slider_in_range (sliders g).
Proof.
  intros (I1 & I2 & I3 & I4 & I5). unfold sliders.
  repeat constructor; eapply bounded_in_range; eassumption.
Qed.

End TTestFacts.

(** ** [chi_square.py]: the event loop *)

Module ChiSquareFacts.

Import ChiSquare PyFacts SliderFacts.

(** The layout gives every slider a track of positive width, keeps its
    value and drag flag, and sets its bounds. *)
Lemma chisq_calculate_layout_sliders (g : Globals) :
  let g' := calculate_layout g in
  let rebuilt lo hi s' s :=
    smin s' = lo /\ smax s' = hi /\ 0 < width s' /\
    value s' = value s /\ dragging s' = dragging s in
  rebuilt 1 30 (slider_df g') (slider_df g) /\
  rebuilt (1 # 100) (2 # 10) (slider_alpha g') (slider_alpha g) /\
  rebuilt 5 40 (slider_max_x g') (slider_max_x g) /\
  rebuilt 1 5 (slider_num_dist g') (slider_num_dist g).
Proof.
  cbv zeta.
  assert (Hgrid :
    0 < py_max (py_min (inject_Z (WIDTH g) * (8 # 10)) 600)
               (inject_Z (LABEL_COLUMN_WIDTH + SLIDER_MIN_WIDTH
                          + VALUE_COLUMN_WIDTH + LABEL_SLIDER_GAP
                          + SLIDER_VALUE_GAP + H_MARGIN * 2))
        - inject_Z LABEL_COLUMN_WIDTH - inject_Z VALUE_COLUMN_WIDTH
        - inject_Z H_MARGIN * 2 - inject_Z LABEL_SLIDER_GAP
        - inject_Z SLIDER_VALUE_GAP).
  { pose proof (py_max_ge_r
                  (py_min (inject_Z (WIDTH g) * (8 # 10)) 600)
                  (inject_Z (LABEL_COLUMN_WIDTH + SLIDER_MIN_WIDTH
                             + VALUE_COLUMN_WIDTH + LABEL_SLIDER_GAP
                             + SLIDER_VALUE_GAP + H_MARGIN * 2))) as Hm.
    set (m := py_max _ _) in *. clearbody m.
    unfold LABEL_COLUMN_WIDTH, SLIDER_MIN_WIDTH, VALUE_COLUMN_WIDTH,
      LABEL_SLIDER_GAP, SLIDER_VALUE_GAP, H_MARGIN, inject_Z in *.
    simpl in Hm. lra. }
  unfold calculate_layout.
  cbn [slider_df slider_alpha slider_max_x slider_num_dist
       set_layout set_sliders smin smax width value dragging].
  repeat split; try reflexivity; assumption.
Qed.

Lemma chisq_calculate_layout_Inv (g : Globals) : Inv g -> Inv (calculate_layout g).
Proof.
  intros (I1 & I2 & I3 & I4).
  destruct (chisq_calculate_layout_sliders g) as (R1 & R2 & R3 & R4).
  assert (Hb : forall lo hi s' s,
             (smin s' = lo /\ smax s' = hi /\ 0 < width s' /\
              value s' = value s /\ dragging s' = dragging s) ->
             bounded lo hi s -> bounded lo hi s').
  { intros lo hi s' s (E1 & E2 & E3 & E4 & _) (_ & _ & _ & B4 & B5).
    unfold bounded. rewrite E4. repeat split; assumption. }
  unfold Inv.
  split; [eapply Hb; eassumption|]. split; [eapply Hb; eassumption|].
  split; eapply Hb; eassumption.
Qed.

Lemma chisq_on_videoresize_Inv (g : Globals) (w h : Z) :
  Inv g -> Inv (on_videoresize g w h).
Proof.
  intros H. unfold on_videoresize. cbv zeta.
  match goal with
  | |- Inv (clear_dragging (calculate_layout ?g1)) =>
      exact (chisq_calculate_layout_Inv g1 H)
  end.
Qed.

(** After a resize no slider is being dragged. *)
Lemma chisq_on_videoresize_releases (g : Globals) (w h : Z) :
  Forall (fun s => dragging s = false) (sliders (on_videoresize g w h)).
Proof.
  unfold on_videoresize, clear_dragging, sliders.
  cbn [slider_df slider_alpha slider_max_x slider_num_dist set_sliders].
  repeat constructor.
Qed.

Lemma chisq_press_slider_pressed (mp : Z * Z) (s : Slider) :
  0 < width s -> press_slider mp s = ok (pressed mp s).
Proof.
  intros H. unfold press_slider, pressed.
  destruct (collidepoint (slider_rect s) mp); [|reflexivity].
  apply drag_to_dragged. exact H.
Qed.

Lemma chisq_move_slider_moved (mp : Z * Z) (s : Slider) :
  0 < width s -> move_slider mp s = ok (moved mp s).
Proof.
  intros H. unfold move_slider, moved.
  destruct (dragging s); [|reflexivity].
  apply drag_to_dragged. exact H.
Qed.

Lemma chisq_for_sliders_Inv (f : Slider -> exc Slider) (F : Slider -> Slider)
    (g : Globals) :
  (forall s, 0 < width s -> f s = ok (F s)) ->
  (forall lo hi s, bounded lo hi s -> bounded lo hi (F s)) ->
  Inv g ->
  for_sliders f g
  = ok (set_sliders g (F (slider_df g)) (F (slider_alpha g))
                      (F (slider_max_x g)) (F (slider_num_dist g))) /\
  Inv (set_sliders g (F (slider_df g)) (F (slider_alpha g))
                     (F (slider_max_x g)) (F (slider_num_dist g))).
Proof.
  intros Hf HF (I1 & I2 & I3 & I4). split.
  - unfold for_sliders.
    rewrite (Hf _ (proj1 (proj2 (proj2 I1)))). cbn [bind ok].
    rewrite (Hf _ (proj1 (proj2 (proj2 I2)))). cbn [bind ok].
    rewrite (Hf _ (proj1 (proj2 (proj2 I3)))). cbn [bind ok].
    rewrite (Hf _ (proj1 (proj2 (proj2 I4)))). cbn [bind ok].
    reflexivity.
  - unfold Inv.
    cbn [slider_df slider_alpha slider_max_x slider_num_dist set_sliders].
    split; [apply HF, I1|]. split; [apply HF, I2|].
    split; [apply HF, I3 | apply HF, I4].
Qed.

Section Loop.

Variable stats_chi2_ppf : Q -> Z -> R.

Lemma chisq_on_mousemotion_Inv (mp : Z * Z) (g : Globals) (rel_y : Z) :
  Inv g ->
  exists g',
    handle_event stats_chi2_ppf mp g (MOUSEMOTION rel_y) = ok g' /\
    Inv g' /\ sliders g' = map (moved mp) (sliders g).
Proof.
  intros H. cbn [handle_event].
  destruct (chisq_for_sliders_Inv (move_slider mp) (moved mp) g
              (chisq_move_slider_moved mp)
              (fun lo hi s => moved_bounded mp lo hi s) H) as [E HI].
  rewrite E. eexists. split; [reflexivity|]. split; [exact HI|].
  reflexivity.
Qed.

Lemma chisq_on_mousebuttondown_Inv (mp : Z * Z) (g : Globals) :
  Inv g ->
  exists g',
    on_mousebuttondown stats_chi2_ppf mp g = ok g' /\ Inv g'.
Proof.
  intros H. unfold on_mousebuttondown. destruct (state g).
  - destruct (draw_menu g) as [start_button tutorial_button].
    destruct (collidepoint start_button mp); [eauto|].
    destruct (collidepoint tutorial_button mp); eauto.
  - destruct (draw_game g) as [back_button toggle].
    set (g1 := if collidepoint toggle mp
               then set_show_instructions g (negb (show_instructions g))
               else g).
    assert (H1 : Inv g1).
    { unfold g1. destruct (collidepoint toggle mp); exact H. }
    clearbody g1.
    set (g2 := if collidepoint back_button mp then set_state g1 MENU
               else if collidepoint (update_button g1) mp
               then update_parameters stats_chi2_ppf g1
               else if collidepoint (toggle_critical_button g1) mp
               then update_parameters stats_chi2_ppf
                      (set_show_critical g1 (negb (show_critical g1)))
               else g1).
    assert (H2 : Inv g2).
    { unfold g2. destruct (collidepoint back_button mp); [exact H1|].
      destruct (collidepoint (update_button g1) mp); [exact H1|].
      destruct (collidepoint (toggle_critical_button g1) mp); exact H1. }
    clearbody g2.
    destruct (chisq_for_sliders_Inv (press_slider mp) (pressed mp) g2
                (chisq_press_slider_pressed mp)
                (fun lo hi s => pressed_bounded mp lo hi s) H2)
      as [E HI].
    rewrite E. eauto.
  - destruct (tutorial_buttons g)
      as [[back_button next_button] menu_button].
    destruct (collidepoint menu_button mp); [eauto|].
    destruct (collidepoint back_button mp && (0 <? tutorial_page g)%Z);
      [eauto|].
    destruct (collidepoint next_button mp); [|eauto].
    destruct (tutorial_page g <? num_tutorial_pages - 1)%Z; eauto.
Qed.

(** No step of the loop fails under the invariant, and every step keeps
    it. *)
Lemma chisq_handle_event_Inv (mp : Z * Z) (g : Globals) (ev : Event) :
  Inv g ->
  exists g', handle_event stats_chi2_ppf mp g ev = ok g' /\ Inv g'.
Proof.
  intros H. destruct ev as [|w h|key|button| |rel_y|].
  - cbn [handle_event]. eauto.
  - cbn [handle_event]. eexists. split; [reflexivity|].
    apply chisq_on_videoresize_Inv, H.
  - cbn [handle_event]. eexists. split; [reflexivity|].
    unfold on_keydown.
    destruct (key =? K_ESCAPE)%Z; [|exact H].
    destruct (Page_eqb (state g) MENU); exact H.
  - cbn [handle_event]. destruct (button =? 1)%Z; [|eauto].
    apply chisq_on_mousebuttondown_Inv, H.
  - cbn [handle_event]. eexists. split; [reflexivity|]. exact H.
  - destruct (chisq_on_mousemotion_Inv mp g rel_y H) as (g' & E & I & _).
    eauto.
  - cbn [handle_event]. eauto.
Qed.

Lemma chisq_initial_globals_Inv : Inv (initial_globals stats_chi2_ppf).
Proof.
  unfold initial_globals. cbv zeta.
  apply chisq_calculate_layout_Inv.
  unfold Inv, bounded.
  cbn [slider_df slider_alpha slider_max_x slider_num_dist
       smin smax width value].
  repeat split; try reflexivity; unfold Qle, Qlt; simpl; lia.
Qed.

End Loop.

Lemma chisq_Inv_in_range (g : Globals) :
  Inv g -> Forall slider_in_range (sliders g).
Proof.
  intros (I1 & I2 & I3 & I4). unfold sliders.
  repeat constructor; eapply bounded_in_range; eassumption.
Qed.

End ChiSquareFacts.

(** ** [one_sample_ttest.py]: the loop keeps its invariant *)

Module OneSampleFacts.

Import OneSampleTTest PyFacts.

Lemma py_int_lower (n : Z) (q : Q) :
  (0 <= n)%Z -> inject_Z n <= q -> (n <= py_int q)%Z.
Proof.
  destruct q as [a b]. unfold py_int, Qle, inject_Z. cbn [Qnum Qden].
  intros Hn H. rewrite Z.mul_1_r in H.
  assert (Ha : (0 <= a)%Z) by nia.
  rewrite Z.quot_div_nonneg by lia.
  apply Z.div_le_lower_bound; lia.
Qed.

(** The layout at a window of at least the minimum size. *)
Lemma calculate_layout_geometry (g : Globals) :
  (1000 <= WIDTH g)%Z -> (700 <= HEIGHT g)%Z ->
  let g' := calculate_layout g in
  let p := data_panel (layout g') in
  let panel := rect_of (left p) (top p) (pwidth p) (pheight p) in
  (0 < rw (srect (test_value_slider g')))%Z /\
  (21 <= rw panel)%Z /\ (380 <= rh panel)%Z.
Proof.
  intros HW HH. cbv zeta.
  assert (QW : 1000 <= inject_Z (WIDTH g)).
  { change 1000 with (inject_Z 1000). rewrite <- Zle_Qle. exact HW. }
  assert (QH : 700 <= inject_Z (HEIGHT g)).
  { change 700 with (inject_Z 700). rewrite <- Zle_Qle. exact HH. }
  unfold calculate_layout.
  cbn [layout set_layout data_panel test_value_slider srect rect_of rw rh
       left top pwidth pheight].
  set (W := inject_Z (WIDTH g)) in *.
  set (H := inject_Z (HEIGHT g)) in *.
  set (side := py_max 350 (W * (3 # 10))).
  assert (Hside : 350 <= side) by apply py_max_lower.
  split; [|split].
  - assert (300 <= py_int
              ((if Qltb (W - 2 * side - 40) 400 then 400
                else W - 2 * side - 40) - 100))%Z; [|lia].
    apply py_int_lower; [lia|]. change (inject_Z 300) with 300.
    destruct (Qltb (W - 2 * side - 40) 400) eqn:E.
    + lra.
    + apply Qltb_ge in E. lra.
  - assert (240 <= py_int
              ((if Qltb (W - 2 * side - 40) 400
                then (W - (if Qltb (W - 2 * side - 40) 400 then 400
                           else W - 2 * side - 40) - 40) / 2
                else side) - 40))%Z; [|lia].
    apply py_int_lower; [lia|]. change (inject_Z 240) with 240.
    destruct (Qltb (W - 2 * side - 40) 400) eqn:E.
    + assert (E2 : (W - 400 - 40) / 2 == (W - 440) * (1 # 2)) by field.
      rewrite E2. lra.
    + lra.
  - assert (500 <= py_int (H - (60 + 20) - 120))%Z; [|lia].
    apply py_int_lower; [lia|]. change (inject_Z 500) with 500. lra.
Qed.

(** The test value computed from a slider position lies between 0 and 100
    whenever the track has a width. *)
Lemma mean_of_pos_range (r : Rect) (p : Q) :
  (0 < rw r)%Z ->
  exists mu,
    mean_of_pos r p = ok mu /\ 0 <= mu /\ mu <= 100 /\
    mu = py_max 0 (py_min 100 ((p - inject_Z (rx r)) / inject_Z (rw r)
                               * 100)).
Proof.
  intros Hw. unfold mean_of_pos.
  rewrite py_truediv_ok.
  - cbn [bind ok]. eexists. split; [reflexivity|].
    split; [apply py_max_lower|].
    split; [|reflexivity].
    apply py_max_upper; [discriminate | apply py_min_upper].
  - intros E. unfold Qeq, inject_Z in E. cbn [Qnum Qden] in E. lia.
Qed.

Lemma one_sample_Inv_ext (g g' : Globals) :
  Inv g ->
  srect (test_value_slider g') = srect (test_value_slider g) ->
  data_panel (layout g') = data_panel (layout g) ->
  length (data g') = 10%nat ->
  (forall i, selected_point g' = Some i -> (i < 10)%nat) ->
  0 <= hypothesized_mean g' -> hypothesized_mean g' <= 100 ->
  Inv g'.
Proof.
  unfold Inv. cbv zeta. intros (H1 & H2 & H3 & _) E1 E2 Hd Hs Hlo Hhi.
  rewrite E1, E2. repeat (split; [assumption|]). assumption.
Qed.

Lemma one_sample_on_videoresize_Inv (g : Globals) (w h : Z) :
  Inv g -> Inv (on_videoresize g w h).
Proof.
  intros (_ & _ & _ & Hd & Hs & Hlo & Hhi).
  unfold on_videoresize.
  pose proof (calculate_layout_geometry
                (set_window g (Z.max w MIN_WIDTH) (Z.max h MIN_HEIGHT)))
    as G.
  cbv zeta in G.
  destruct G as (G1 & G2 & G3).
  - cbn [WIDTH set_window]. unfold MIN_WIDTH. lia.
  - cbn [HEIGHT set_window]. unfold MIN_HEIGHT. lia.
  - unfold Inv. cbv zeta.
    split; [exact G1|]. split; [exact G2|]. split; [exact G3|].
    unfold calculate_layout.
    cbn [data selected_point hypothesized_mean set_layout set_window].
    repeat (split; [assumption|]). assumption.
Qed.

Lemma one_sample_initial_globals_Inv : Inv initial_globals.
Proof.
  unfold Inv. cbv zeta. vm_compute.
  repeat split; try (intros E; discriminate E).
  intros i E. discriminate E.
Qed.

(** The table hit test never fails on a panel of the invariant's size. *)
Lemma clicked_point_total (g : Globals) (mouse_pos : Z * Z) :
  Inv g -> exists hit, clicked_point g mouse_pos = ok hit.
Proof.
  unfold Inv. cbv zeta. intros (_ & Hw & Hh & Hd & _).
  unfold clicked_point.
  set (panel := rect_of _ _ _ _) in *.
  destruct (collidepoint panel mouse_pos); [|eexists; reflexivity].
  cbv zeta. rewrite Hd.
  set (aw := (rw panel - 20)%Z).
  set (cols := Z.max 1 (Z.min 5 (aw / 80))).
  assert (Haw : (1 <= aw)%Z) by (unfold aw; lia).
  assert (Hc1 : (1 <= cols)%Z) by (unfold cols; lia).
  assert (Hc2 : (cols <= aw)%Z).
  { unfold cols.
    assert (aw / 80 <= aw)%Z; [|lia].
    apply Z.div_le_upper_bound; lia. }
  assert (Hcw : (1 <= aw / cols)%Z).
  { apply Z.div_le_lower_bound; lia. }
  assert (Hrows : ((Z.of_nat 10 + cols - 1) / cols <= 10)%Z).
  { apply Z.div_le_upper_bound; [lia|]. change (Z.of_nat 10) with 10%Z.
    nia. }
  assert (Hvis : (10 <= (rh panel - 80) / 30)%Z).
  { apply Z.div_le_lower_bound; lia. }
  destruct ((rh panel - 80) / 30 <? (Z.of_nat 10 + cols - 1) / cols)%Z
    eqn:E.
  - apply Z.ltb_lt in E. lia.
  - cbn [bind ok]. unfold py_floordiv.
    destruct (aw / cols =? 0)%Z eqn:E1; [apply Z.eqb_eq in E1; lia|].
    cbn [bind ok]. change (30 =? 0)%Z with false. cbn [bind ok].
    eexists. reflexivity.
Qed.

Lemma one_sample_on_mousebuttondown_Inv (mouse_pos : Z * Z) (g : Globals) :
  Inv g ->
  exists g', on_mousebuttondown mouse_pos g = ok g' /\ Inv g'.
Proof.
  intros HI. unfold on_mousebuttondown. cbv zeta.
  set (g1 := if collidepoint (reset_button g) mouse_pos then _ else _).
  assert (H1 : Inv g1).
  { pose proof HI as (_ & _ & _ & Hd & Hs & Hlo & Hhi).
    unfold g1.
    destruct (collidepoint (reset_button g) mouse_pos).
    - apply (one_sample_Inv_ext g); try assumption; try reflexivity.
      intros i E. discriminate E.
    - destruct (collidepoint (info_button g) mouse_pos); [|exact HI].
      apply (one_sample_Inv_ext g); try assumption; reflexivity. }
  clearbody g1. clear HI.
  set (r := srect (test_value_slider g1)).
  assert (H2 : exists g2,
             (if collidepoint
                   (mkRect (rx r - 10) (ry r - 10) (rw r + 20) (rh r + 20))
                   mouse_pos
              then
                mu <- mean_of_pos r (inject_Z (fst mouse_pos)) ;;
                ok (set_slider g1
                      (mkValueSlider r (inject_Z (fst mouse_pos)) true) mu)
              else ok g1) = ok g2 /\ Inv g2).
  { destruct (collidepoint _ mouse_pos); [|eauto].
    pose proof H1 as (Hw & _ & _ & Hd & Hs & Hlo & Hhi).
    destruct (mean_of_pos_range r (inject_Z (fst mouse_pos)) Hw)
      as (mu & E & L & U & _).
    rewrite E. cbn [bind ok]. eexists. split; [reflexivity|].
    apply (one_sample_Inv_ext g1); try assumption; reflexivity. }
  destruct H2 as (g2 & E2 & I2). rewrite E2. cbn [bind ok].
  destruct (clicked_point_total g2 mouse_pos I2) as (hit & Eh).
  rewrite Eh. cbn [bind ok].
  destruct hit as [idx|]; [|eauto].
  destruct ((0 <=? idx) && (idx <? Z.of_nat (length (data g2))))%Z eqn:E;
    [|eauto].
  eexists. split; [reflexivity|].
  pose proof I2 as (_ & _ & _ & Hd & Hs & Hlo & Hhi).
  apply andb_true_iff in E. destruct E as [Ea Eb].
  apply Z.leb_le in Ea. apply Z.ltb_lt in Eb. rewrite Hd in Eb.
  apply (one_sample_Inv_ext g2); try assumption; try reflexivity.
  cbn [selected_point set_selection]. intros i Ei. inversion Ei. lia.
Qed.

Lemma one_sample_on_mousebuttonup_Inv (g : Globals) : Inv g -> Inv (on_mousebuttonup g).
Proof.
  intros HI. pose proof HI as (_ & _ & _ & Hd & Hs & Hlo & Hhi).
  apply (one_sample_Inv_ext g); try assumption; reflexivity.
Qed.

(** A pointer move never fails; while the slider is grabbed it sets the
    test value from the pointer abscissa clamped to the track. *)
Lemma one_sample_on_mousemotion_Inv (mouse_pos : Z * Z) (rel_y : Z) (g : Globals) :
  Inv g ->
  exists g',
    on_mousemotion mouse_pos rel_y g = ok g' /\ Inv g' /\
    (sdragging (test_value_slider g) = true ->
     let r := srect (test_value_slider g) in
     let p := py_max (inject_Z (rx r))
                (py_min (inject_Z (rx r + rw r))
                        (inject_Z (fst mouse_pos))) in
     hypothesized_mean g'
     = py_max 0 (py_min 100 ((p - inject_Z (rx r)) / inject_Z (rw r)
                             * 100))).
Proof.
  intros HI. unfold on_mousemotion.
  set (c1 := match dragging g with true => _ | false => _ end).
  assert (H1 : exists g1,
             c1 = ok g1 /\ Inv g1 /\
             test_value_slider g1 = test_value_slider g).
  { unfold c1. pose proof HI as (_ & _ & _ & Hd & Hs & Hlo & Hhi).
    destruct (dragging g); [|eauto].
    destruct (selected_point g) as [i|] eqn:Es; [|eauto].
    unfold py_index.
    destruct (nth_error (data g) i) as [v|] eqn:En.
    - cbn [bind ok]. eexists. split; [reflexivity|]. split; [|reflexivity].
      apply (one_sample_Inv_ext g); try assumption; try reflexivity.
      + cbn [data set_data]. rewrite Chi2LoopFacts.length_update_nth. exact Hd.
      + cbn [selected_point set_data]. rewrite Es. exact Hs.
    - apply nth_error_None in En. specialize (Hs i eq_refl). lia. }
  destruct H1 as (g1 & E1 & I1 & Et). rewrite E1. cbn [bind ok]. cbv zeta.
  rewrite Et.
  destruct (sdragging (test_value_slider g)) eqn:Ed.
  - pose proof I1 as (Hw & _ & _ & Hd & Hs & Hlo & Hhi).
    rewrite Et in Hw.
    match goal with
    | |- context [mean_of_pos ?r ?p] =>
        destruct (mean_of_pos_range r p Hw) as (mu & E & L & U & Emu)
    end.
    rewrite E. cbn [bind ok]. eexists. split; [reflexivity|].
    split.
    + apply (one_sample_Inv_ext g1); try assumption.
      * cbn [test_value_slider set_slider srect]. rewrite Et. reflexivity.
      * reflexivity.
    + intros _. exact Emu.
  - exists g1. split; [reflexivity|]. split; [exact I1|].
    intros E. discriminate E.
Qed.

Lemma one_sample_handle_event_Inv (mouse_pos : Z * Z) (g : Globals) (ev : Event) :
  Inv g -> exists g', handle_event mouse_pos g ev = ok g' /\ Inv g'.
Proof.
  intros HI.
  destruct ev as [|w h|key|button| |rel_y|]; cbn [handle_event].
  - eexists. split; [reflexivity|].
    pose proof HI as (_ & _ & _ & Hd & Hs & Hlo & Hhi).
    apply (one_sample_Inv_ext g); try assumption; reflexivity.
  - eexists. split; [reflexivity|]. apply one_sample_on_videoresize_Inv, HI.
  - eauto.
  - apply one_sample_on_mousebuttondown_Inv, HI.
  - eexists. split; [reflexivity|]. apply one_sample_on_mousebuttonup_Inv, HI.
  - destruct (one_sample_on_mousemotion_Inv mouse_pos rel_y g HI) as (g' & E & I & _).
    eauto.
  - eauto.
Qed.

(** The two ends of the track. *)
Lemma mean_at_left (r : Rect) (mouse_x : Z) :
  (0 < rw r)%Z -> (mouse_x <= rx r)%Z ->
  let p := py_max (inject_Z (rx r))
             (py_min (inject_Z (rx r + rw r)) (inject_Z mouse_x)) in
  py_max 0 (py_min 100 ((p - inject_Z (rx r)) / inject_Z (rw r) * 100))
  == 0.
Proof.
  intros Hw Hx. cbv zeta.
  assert (Ep : py_max (inject_Z (rx r))
                 (py_min (inject_Z (rx r + rw r)) (inject_Z mouse_x))
               = inject_Z (rx r)).
  { unfold py_max.
    destruct (Qltb _ _) eqn:E; [|reflexivity].
    apply Qltb_lt in E. exfalso.
    assert (Hm : py_min (inject_Z (rx r + rw r)) (inject_Z mouse_x)
                 <= inject_Z mouse_x).
    { unfold py_min. destruct (Qltb _ _) eqn:E2.
      - apply Qle_refl.
      - apply Qltb_ge in E2. exact E2. }
    pose proof (Qlt_le_trans _ _ _ E Hm) as C.
    rewrite <- Zlt_Qlt in C. lia. }
  rewrite Ep.
  assert (E0 : (inject_Z (rx r) - inject_Z (rx r)) / inject_Z (rw r) * 100
               == 0).
  { unfold Qminus. rewrite Qplus_opp_r. unfold Qdiv.
    rewrite Qmult_0_l, Qmult_0_l. reflexivity. }
  unfold py_max, py_min.
  destruct (Qltb _ 100) eqn:Ea.
  - destruct (Qltb 0 _) eqn:Eb; [|reflexivity]. exact E0.
  - apply Qltb_ge in Ea. rewrite E0 in Ea. exfalso.
    apply (Qle_not_lt _ _ Ea). reflexivity.
Qed.

Lemma mean_at_right (r : Rect) (mouse_x : Z) :
  (0 < rw r)%Z -> (rx r + rw r <= mouse_x)%Z ->
  let p := py_max (inject_Z (rx r))
             (py_min (inject_Z (rx r + rw r)) (inject_Z mouse_x)) in
  py_max 0 (py_min 100 ((p - inject_Z (rx r)) / inject_Z (rw r) * 100))
  == 100.
Proof.
  intros Hw Hx. cbv zeta.
  assert (Ep : py_max (inject_Z (rx r))
                 (py_min (inject_Z (rx r + rw r)) (inject_Z mouse_x))
               = inject_Z (rx r + rw r)).
  { unfold py_min.
    destruct (Qltb (inject_Z mouse_x) _) eqn:E.
    - apply Qltb_lt in E. rewrite <- Zlt_Qlt in E. lia.
    - unfold py_max.
      destruct (Qltb (inject_Z (rx r)) (inject_Z (rx r + rw r))) eqn:E2;
        [reflexivity|].
      apply Qltb_ge in E2. rewrite <- Zle_Qle in E2. lia. }
  rewrite Ep.
  assert (E1 : (inject_Z (rx r + rw r) - inject_Z (rx r)) / inject_Z (rw r)
               * 100 == 100).
  { rewrite inject_Z_plus. field.
    intros E. unfold Qeq, inject_Z in E. cbn [Qnum Qden] in E. lia. }
  unfold py_max, py_min.
  destruct (Qltb _ 100) eqn:Ea.
  - apply Qltb_lt in Ea. rewrite E1 in Ea. exfalso.
    apply (Qlt_irrefl _ Ea).
  - destruct (Qltb 0 100) eqn:Eb; [reflexivity|].
    vm_compute in Eb. discriminate Eb.
Qed.

End OneSampleFacts.

(** ** The event loops: the claims *)

Module EventLoops.

Import PyFacts SliderFacts.

(** C4 as stated fails in [t_test.py]: after the test has been computed,
    moving a grabbed slider changes its value (here from 100 to 70) and
    leaves [has_calculated] set. *)
Lemma t_test_slider_move_keeps_the_flag :
  exists g',
    TTest.handle_event TTest.constant_samples TTest.ttest_ind_nan
      (0, 0)%Z TTest.grabbed_after_calculation (MOUSEMOTION 0) = ok g' /\
    TTest.has_calculated TTest.grabbed_after_calculation = true /\
    value (TTest.slider_mean1 TTest.grabbed_after_calculation) == 100 /\
    value (TTest.slider_mean1 g') == 70 /\
    TTest.has_calculated g' = true.
Proof.
  eexists. split; [vm_compute; reflexivity|].
  repeat split; reflexivity.
Qed.

(** C4, as the code has it: in [Chi_2_Goodness_Fit.py] every step of the
    event loop that changes a slider value or a cell value leaves
    [has_calculated] cleared; in [t_test.py] the flag is cleared when a
    grabbed slider is released and new samples are drawn, and a slider
    move leaves it as it was. *)
Theorem changed_inputs_clear_the_flag :
  (forall (stats_chisquare : list Z -> list Q -> exc (Q * R))
          (stats_chi2_contingency : list (list Z) -> exc (Q * R * Z))
          (mouse_pos : Z * Z) (g g' : Chi2GoodnessFit.Globals)
          (ev : Event),
      Chi2GoodnessFit.handle_event stats_chisquare stats_chi2_contingency
        mouse_pos g ev = ok g' ->
      Chi2GoodnessFit.inputs g' <> Chi2GoodnessFit.inputs g ->
      Chi2GoodnessFit.has_calculated g' = false) /\
  (forall (np_random_normal : nat -> Q -> Q -> Z -> list Q)
          (g : TTest.Globals),
      Exists (fun s => dragging s = true) (TTest.sliders g) ->
      TTest.has_calculated (TTest.on_mousebuttonup np_random_normal g)
      = false) /\
  (forall (mouse_pos : Z * Z) (g g' : TTest.Globals),
      TTest.on_mousemotion mouse_pos g = ok g' ->
      TTest.has_calculated g' = TTest.has_calculated g).
Proof.
  split; [|split].
  - intros lib1 lib2 mp g g' ev H Hne.
    destruct (Chi2LoopFacts.handle_event_tracks lib1 lib2 mp g g' ev H)
      as [Hf | Hi]; [exact Hf | contradiction].
  - intros rng g H. apply TTestFacts.on_mousebuttonup_clears, H.
  - intros mp g g' H. unfold TTest.on_mousemotion, TTest.for_sliders in H.
    repeat (apply Chi2LoopFacts.bind_ok in H;
            destruct H as (? & _ & H)).
    apply Chi2LoopFacts.ok_inj in H. subst g'. reflexivity.
Qed.

Lemma changed_inputs_clear_the_flag_witness :
  exists g',
    Chi2GoodnessFit.handle_event Chi2GoodnessFit.chisquare_3
      Chi2GoodnessFit.chi2_contingency_2x3 (0, 0)%Z
      Chi2GoodnessFit.editing_state (KEYDOWN (K_0 + 5)) = ok g' /\
    Chi2GoodnessFit.cell_value_at g' (O, O) = Some 5%Z /\
    Chi2GoodnessFit.has_calculated g' = false.
Proof.
  eexists. split; [reflexivity|]. split; [reflexivity|].
  refine (proj1 changed_inputs_clear_the_flag
            Chi2GoodnessFit.chisquare_3
            Chi2GoodnessFit.chi2_contingency_2x3 (0, 0)%Z
            Chi2GoodnessFit.editing_state _ (KEYDOWN (K_0 + 5))
            eq_refl _).
  intros E. vm_compute in E. discriminate E.
Defined.


(** C5 as stated fails in [one_sample_ttest.py]: a resize leaves a grabbed
    test-value slider grabbed. *)
Lemma one_sample_resize_keeps_the_drag :
  OneSampleTTest.sdragging
    (OneSampleTTest.test_value_slider
       (OneSampleTTest.on_videoresize OneSampleTTest.grabbed 1300 900))
  = true.
Proof. reflexivity. Qed.

(** C5, as the code has it: in [Chi_2_Goodness_Fit.py], [t_test.py] and
    [chi_square.py] no slider is being dragged after a window resize; in
    [one_sample_ttest.py] the resize keeps the drag flag of the test-value
    slider as it was. *)
Theorem resize_and_drag_flags :
  (forall (g : Chi2GoodnessFit.Globals) (w h : Z),
      Forall (fun s => dragging s = false)
             (Chi2GoodnessFit.sliders
                (Chi2GoodnessFit.on_videoresize g w h))) /\
  (forall (g : TTest.Globals) (w h : Z),
      Forall (fun s => dragging s = false)
             (TTest.sliders (TTest.on_videoresize g w h))) /\
  (forall (g : ChiSquare.Globals) (w h : Z),
      Forall (fun s => dragging s = false)
             (ChiSquare.sliders (ChiSquare.on_videoresize g w h))) /\
  (forall (g : OneSampleTTest.Globals) (w h : Z),
      OneSampleTTest.sdragging
        (OneSampleTTest.test_value_slider
           (OneSampleTTest.on_videoresize g w h))
      = OneSampleTTest.sdragging (OneSampleTTest.test_value_slider g)).
Proof.
  split; [|split; [|split]].
  - apply Chi2LoopFacts.chi2_on_videoresize_releases.
  - apply TTestFacts.ttest_on_videoresize_releases.
  - apply ChiSquareFacts.chisq_on_videoresize_releases.
  - intros g w h. reflexivity.
Qed.

(** C8: a grabbed slider that is moved ends within its bounds, at its
    minimum itself when the pointer is at or left of the track start and
    at its maximum when the pointer is at or right of the track end; and
    in [Chi_2_Goodness_Fit.py], [t_test.py] and [chi_square.py] the start
    state has every slider within its bounds on a track of positive width,
    no step of the event loop fails from such a state, every step keeps
    it, and a pointer move maps every slider by that drag.  In
    [one_sample_ttest.py] the test value starts between 0 and 100, no
    step fails, every step keeps it there, and a move with the slider
    grabbed gives 0 at or left of the track start and 100 at or right of
    the track end. *)
Theorem slider_values_stay_in_range :
  (forall (lo hi : Q) (mouse_pos : Z * Z) (s : Slider),
      bounded lo hi s -> dragging s = true ->
      slider_in_range (moved mouse_pos s) /\
      (inject_Z (fst mouse_pos) <= fst (pos s) ->
       value (moved mouse_pos s) = smin s) /\
      (fst (pos s) + width s <= inject_Z (fst mouse_pos) ->
       value (moved mouse_pos s) == smax s)) /\
  (Chi2GoodnessFit.Inv Chi2GoodnessFit.initial_globals /\
   (forall g, Chi2GoodnessFit.Inv g ->
              Forall slider_in_range (Chi2GoodnessFit.sliders g)) /\
   (forall lib1 lib2 mouse_pos g ev,
       Chi2GoodnessFit.Inv g ->
       exists g',
         Chi2GoodnessFit.handle_event lib1 lib2 mouse_pos g ev = ok g' /\
         Chi2GoodnessFit.Inv g') /\
   (forall lib1 lib2 mouse_pos g rel_y,
       Chi2GoodnessFit.Inv g ->
       exists g',
         Chi2GoodnessFit.handle_event lib1 lib2 mouse_pos g
           (MOUSEMOTION rel_y) = ok g' /\
         Chi2GoodnessFit.sliders g'
         = map (moved mouse_pos) (Chi2GoodnessFit.sliders g))) /\
  ((forall rng, TTest.Inv (TTest.initial_globals rng)) /\
   (forall g, TTest.Inv g -> Forall slider_in_range (TTest.sliders g)) /\
   (forall rng lib mouse_pos g ev,
       TTest.Inv g ->
       exists g',
         TTest.handle_event rng lib mouse_pos g ev = ok g' /\
         TTest.Inv g') /\
   (forall rng lib mouse_pos g rel_y,
       TTest.Inv g ->
       exists g',
         TTest.handle_event rng lib mouse_pos g (MOUSEMOTION rel_y)
         = ok g' /\
         TTest.sliders g' = map (moved mouse_pos) (TTest.sliders g))) /\
  ((forall lib, ChiSquare.Inv (ChiSquare.initial_globals lib)) /\
   (forall g, ChiSquare.Inv g ->
              Forall slider_in_range (ChiSquare.sliders g)) /\
   (forall lib mouse_pos g ev,
       ChiSquare.Inv g ->
       exists g',
         ChiSquare.handle_event lib mouse_pos g ev = ok g' /\
         ChiSquare.Inv g') /\
   (forall lib mouse_pos g rel_y,
       ChiSquare.Inv g ->
       exists g',
         ChiSquare.handle_event lib mouse_pos g (MOUSEMOTION rel_y)
         = ok g' /\
         ChiSquare.sliders g'
         = map (moved mouse_pos) (ChiSquare.sliders g))) /\
  (OneSampleTTest.Inv OneSampleTTest.initial_globals /\
   (forall g, OneSampleTTest.Inv g ->
              0 <= OneSampleTTest.hypothesized_mean g /\
              OneSampleTTest.hypothesized_mean g <= 100) /\
   (forall mouse_pos g ev,
       OneSampleTTest.Inv g ->
       exists g',
         OneSampleTTest.handle_event mouse_pos g ev = ok g' /\
         OneSampleTTest.Inv g') /\
   (forall mouse_pos g rel_y,
       OneSampleTTest.Inv g ->
       OneSampleTTest.sdragging (OneSampleTTest.test_value_slider g) = true ->
       exists g',
         OneSampleTTest.handle_event mouse_pos g (MOUSEMOTION rel_y)
         = ok g' /\
         let r := OneSampleTTest.srect (OneSampleTTest.test_value_slider g) in
         ((fst mouse_pos <= rx r)%Z ->
          OneSampleTTest.hypothesized_mean g' == 0) /\
         ((rx r + rw r <= fst mouse_pos)%Z ->
          OneSampleTTest.hypothesized_mean g' == 100))).
Proof.
  split; [|split; [|split; [|split]]].
  - intros lo hi mp s Hb Hd.
    pose proof Hb as (Hlo & Hhi & _).
    split; [|split].
    + eapply bounded_in_range, moved_bounded, Hb.
    + intros Hx. unfold moved. rewrite Hd, Hlo.
      apply (dragged_left lo hi); assumption.
    + intros Hx. unfold moved. rewrite Hd, Hhi.
      apply (dragged_right lo hi); assumption.
  - split; [apply Chi2LoopFacts.chi2_initial_globals_Inv|].
    split; [apply Chi2LoopFacts.chi2_Inv_in_range|].
    split; [intros; apply Chi2LoopFacts.chi2_handle_event_Inv; assumption|].
    intros lib1 lib2 mp g r H. cbn [Chi2GoodnessFit.handle_event].
    destruct (Chi2LoopFacts.chi2_on_mousemotion_Inv mp g H) as (g' & E & _ & S).
    eauto.
  - split; [apply TTestFacts.ttest_initial_globals_Inv|].
    split; [apply TTestFacts.ttest_Inv_in_range|].
    split; [intros; apply TTestFacts.ttest_handle_event_Inv; assumption|].
    intros rng lib mp g r H. cbn [TTest.handle_event].
    destruct (TTestFacts.ttest_on_mousemotion_Inv mp g H)
      as (g' & E & _ & S & _).
    eauto.
  - split; [apply ChiSquareFacts.chisq_initial_globals_Inv|].
    split; [apply ChiSquareFacts.chisq_Inv_in_range|].
    split; [intros; apply ChiSquareFacts.chisq_handle_event_Inv; assumption|].
    intros lib mp g r H.
    destruct (ChiSquareFacts.chisq_on_mousemotion_Inv lib mp g r H)
      as (g' & E & _ & S).
    eauto.
  - split; [apply OneSampleFacts.one_sample_initial_globals_Inv|].
    split; [intros g (_ & _ & _ & _ & _ & Hlo & Hhi); split; assumption|].
    split; [intros; apply OneSampleFacts.one_sample_handle_event_Inv;
            assumption|].
    intros mp g r H Hd. cbn [OneSampleTTest.handle_event].
    destruct (OneSampleFacts.one_sample_on_mousemotion_Inv mp r g H)
      as (g' & E & _ & Emu).
    specialize (Emu Hd). cbv zeta in Emu.
    pose proof H as (Hw & _).
    exists g'. split; [exact E|]. cbv zeta. rewrite Emu. split.
    + intros Hx. apply OneSampleFacts.mean_at_left; assumption.
    + intros Hx. apply OneSampleFacts.mean_at_right; assumption.
Qed.

Lemma slider_values_stay_in_range_witness :
  (exists g',
      Chi2GoodnessFit.handle_event Chi2GoodnessFit.chisquare_3
        Chi2GoodnessFit.chi2_contingency_2x3 (0, 0)%Z
        Chi2GoodnessFit.initial_globals (MOUSEBUTTONDOWN 1) = ok g' /\
      Chi2GoodnessFit.Inv g') /\
  (exists g',
      TTest.handle_event TTest.constant_samples TTest.ttest_ind_nan
        (0, 0)%Z TTest.grabbed_after_calculation (MOUSEMOTION 0) = ok g'
      /\
      TTest.sliders g'
      = map (moved (0, 0)%Z) (TTest.sliders TTest.grabbed_after_calculation)).
Proof.
  split.
  - exact (proj1 (proj2 (proj2 (proj1 (proj2 slider_values_stay_in_range))))
             Chi2GoodnessFit.chisquare_3
             Chi2GoodnessFit.chi2_contingency_2x3 (0, 0)%Z
             Chi2GoodnessFit.initial_globals (MOUSEBUTTONDOWN 1)
             (proj1 (proj1 (proj2 slider_values_stay_in_range)))).
  - apply (proj2 (proj2 (proj2
              (proj1 (proj2 (proj2 slider_values_stay_in_range)))))).
    unfold TTest.Inv, bounded. vm_compute.
    repeat split; intros E; discriminate E.
Defined.

End EventLoops.

(** ** The t-test programs *)

Module TTestEngines.

Import Np.
Local Open Scope R_scope.

Lemma rsum_sub (xs ys : list R) :
  length xs = length ys ->
  rsum (map (fun ba => fst ba - snd ba) (combine xs ys))
  = rsum xs - rsum ys.
Proof.
  revert ys. induction xs as [|x xs IH]; intros [|y ys] H;
    simpl in *; try discriminate.
  - Lra.lra.
  - rewrite IH by congruence. Lra.lra.
Qed.

Lemma rsum_squares_nonneg (m : R) (xs : list R) :
  0 <= rsum (map (fun x => (x - m) * (x - m)) xs).
Proof.
  induction xs as [|x xs IH]; simpl.
  - Lra.lra.
  - pose proof (Rle_0_sqr (x - m)) as H. unfold Rsqr in H. Lra.lra.
Qed.

Lemma np_mean_nonempty (xs : list R) :
  xs <> [] -> np_mean xs = Some (rsum xs / INR (length xs)).
Proof. destruct xs; [congruence | reflexivity]. Qed.

(** The mean of the differences is the difference of the means. *)
Lemma np_mean_sub (xs ys : list R) :
  length xs = length ys ->
  np_mean (map (fun ba => fst ba - snd ba) (combine xs ys))
  = nf_sub (np_mean xs) (np_mean ys).
Proof.
  intros H. destruct xs as [|x xs]; destruct ys as [|y ys];
    try discriminate H; [reflexivity|].
  assert (Hn : INR (length (x :: xs)) <> 0).
  { apply not_0_INR. discriminate. }
  rewrite !np_mean_nonempty by discriminate.
  unfold nf_sub, lift2. f_equal.
  rewrite rsum_sub by exact H.
  rewrite length_map, length_combine, <- H, Nat.min_id.
  field. exact Hn.
Qed.

Lemma np_subtract_equal_length (xs ys : list R) :
  length xs = length ys ->
  PairedTTest.np_subtract xs ys
  = ok (map (fun ba => fst ba - snd ba) (combine xs ys)).
Proof.
  intros H. unfold PairedTTest.np_subtract.
  rewrite H, Nat.eqb_refl. reflexivity.
Qed.

(** C6: on two arrays of equal length, whenever SciPy's paired test
    returns, [perform_paired_ttest] returns a result whose differences are
    [before - after] element by element and whose mean difference is
    [mean(before) - mean(after)] (NaN on both sides for empty arrays);
    floats are read as exact reals. *)
Theorem paired_differences_and_mean :
  forall (stats_ttest_rel : list R -> list R -> exc (npfloat * npfloat))
         (stats_t_ppf : R -> Z -> npfloat)
         (before after : list R) (tp : npfloat * npfloat),
    length before = length after ->
    stats_ttest_rel before after = ok tp ->
    exists r,
      PairedTTest.perform_paired_ttest stats_ttest_rel stats_t_ppf
        before after = ok r /\
      PairedTTest.differences r
      = map (fun ba => fst ba - snd ba) (combine before after) /\
      PairedTTest.mean_diff r
      = nf_sub (PairedTTest.mean_before r) (PairedTTest.mean_after r) /\
      PairedTTest.mean_before r = np_mean before /\
      PairedTTest.mean_after r = np_mean after.
Proof.
  intros lib ppf before after tp Hlen Hlib.
  unfold PairedTTest.perform_paired_ttest.
  rewrite np_subtract_equal_length by exact Hlen.
  cbn [bind ok]. rewrite Hlib. cbn [bind ok].
  eexists. split; [reflexivity|].
  cbn [PairedTTest.differences PairedTTest.mean_diff
       PairedTTest.mean_before PairedTTest.mean_after].
  split; [reflexivity|]. split; [|split; reflexivity].
  apply np_mean_sub, Hlen.
Qed.

(** The reference implementation of the paired test returns on arrays of
    equal length. *)
Lemma ttest_rel_2_returns (before after : list R) :
  length before = length after ->
  exists tp, PairedTTest.ttest_rel_2 before after = ok tp.
Proof.
  intros H. unfold PairedTTest.ttest_rel_2.
  rewrite np_subtract_equal_length by exact H. cbn [bind ok].
  destruct (np_mean _); [|eauto].
  destruct (nf_div_sqrt_len _ _); [|eauto].
  destruct (Req_dec_T _ 0); eauto.
Qed.

Lemma paired_differences_and_mean_witness :
  exists r,
    PairedTTest.perform_paired_ttest PairedTTest.ttest_rel_2
      PairedTTest.t_ppf_1 [3; 5] [1; 2] = ok r /\
    PairedTTest.differences r = [3 - 1; 5 - 2] /\
    PairedTTest.mean_diff r
    = nf_sub (PairedTTest.mean_before r) (PairedTTest.mean_after r).
Proof.
  destruct (ttest_rel_2_returns [3; 5] [1; 2] eq_refl) as [tp Htp].
  destruct (paired_differences_and_mean PairedTTest.ttest_rel_2
              PairedTTest.t_ppf_1 [3; 5] [1; 2] tp eq_refl Htp)
    as (r & E & Hd & Hm & _).
  exists r. repeat split; assumption.
Defined.


Lemma sqrt_INR_pos (n : nat) : (0 < n)%nat -> 0 < sqrt (INR n).
Proof. intros H. apply sqrt_lt_R0. apply lt_0_INR. exact H. Qed.

(** What [perform_ttest] computes on a sample of at least two points. *)
Lemma perform_ttest_two_points
    (stats_ttest_1samp : list R -> R -> npfloat * npfloat)
    (stats_t_ppf : R -> Z -> npfloat) (xs : list R) (mu q : R) :
  (2 <= length xs)%nat ->
  stats_t_ppf (975 / 1000) (Z.of_nat (length xs) - 1)%Z = Some q ->
  let r := OneSampleTTest.perform_ttest stats_ttest_1samp stats_t_ppf
             xs mu in
  let n := INR (length xs) in
  let m := rsum xs / n in
  let sd := sqrt (rsum (map (fun x => (x - m) * (x - m)) xs) / (n - 1)) in
  OneSampleTTest.sample_mean r = Some m /\
  OneSampleTTest.sample_std r = Some sd /\
  OneSampleTTest.ci_lower r = Some (m - q * (sd / sqrt n)) /\
  OneSampleTTest.ci_upper r = Some (m + q * (sd / sqrt n)).
Proof.
  intros Hlen Hq. cbv zeta. unfold OneSampleTTest.perform_ttest.
  destruct (stats_ttest_1samp xs mu) as [t p].
  rewrite Hq.
  destruct xs as [|a [|b xs]]; simpl in Hlen; try lia.
  cbn [OneSampleTTest.sample_mean OneSampleTTest.sample_std
       OneSampleTTest.ci_lower OneSampleTTest.ci_upper
       np_mean np_std_ddof1 nf_div_sqrt_len length
       nf_sub nf_add nf_mul lift2].
  repeat split; reflexivity.
Qed.

(** C7: on a sample [xs] of at least two points, with the Student
    quantile at 0.975 a non-negative number [q] (as it is for every
    positive number of degrees of freedom), [perform_ttest] returns the
    mean [m] of [xs], its standard deviation [sd] (with [n - 1] in the
    denominator) and the interval [m - q sd / sqrt n, m + q sd / sqrt n];
    the interval contains [m], its width is [2 q sd / sqrt n], and a
    sample of the same size with a larger standard deviation gets an
    interval at least as wide. *)
Theorem confidence_interval_brackets_and_widens :
  forall (stats_ttest_1samp : list R -> R -> npfloat * npfloat)
         (stats_t_ppf : R -> Z -> npfloat)
         (xs : list R) (mu q : R),
    (2 <= length xs)%nat ->
    stats_t_ppf (975 / 1000) (Z.of_nat (length xs) - 1)%Z = Some q ->
    0 <= q ->
    let r := OneSampleTTest.perform_ttest stats_ttest_1samp stats_t_ppf
               xs mu in
    let n := INR (length xs) in
    let m := rsum xs / n in
    let sd := sqrt (rsum (map (fun x => (x - m) * (x - m)) xs) / (n - 1)) in
    let lo := m - q * (sd / sqrt n) in
    let hi := m + q * (sd / sqrt n) in
    OneSampleTTest.sample_mean r = Some m /\
    OneSampleTTest.sample_std r = Some sd /\
    OneSampleTTest.ci_lower r = Some lo /\
    OneSampleTTest.ci_upper r = Some hi /\
    lo <= m /\ m <= hi /\
    hi - lo = 2 * q * sd / sqrt n /\
    forall (ys : list R) (mu' : R),
      length ys = length xs ->
      let r' := OneSampleTTest.perform_ttest stats_ttest_1samp
                  stats_t_ppf ys mu' in
      let m' := rsum ys / n in
      let sd' :=
        sqrt (rsum (map (fun y => (y - m') * (y - m')) ys) / (n - 1)) in
      let lo' := m' - q * (sd' / sqrt n) in
      let hi' := m' + q * (sd' / sqrt n) in
      OneSampleTTest.sample_mean r' = Some m' /\
      OneSampleTTest.sample_std r' = Some sd' /\
      OneSampleTTest.ci_lower r' = Some lo' /\
      OneSampleTTest.ci_upper r' = Some hi' /\
      (sd <= sd' -> hi - lo <= hi' - lo').
Proof.
  intros lib1 ppf xs mu q Hlen Hq Hq0 r n m sd lo hi.
  destruct (perform_ttest_two_points lib1 ppf xs mu q Hlen Hq)
    as (Em & Es & El & Eh).
  fold r n m sd lo hi in Em, Es, El, Eh.
  assert (Hn : 0 < sqrt n) by (apply sqrt_INR_pos; lia).
  assert (Hsd : 0 <= sd) by apply sqrt_pos.
  assert (Hse : 0 <= q * (sd / sqrt n)).
  { apply Rmult_le_pos; [exact Hq0|].
    apply Rmult_le_pos; [exact Hsd|].
    apply Rlt_le, Rinv_0_lt_compat, Hn. }
  split; [exact Em|]. split; [exact Es|].
  split; [exact El|]. split; [exact Eh|].
  split; [unfold lo; Lra.lra|]. split; [unfold hi; Lra.lra|].
  split; [unfold hi, lo; field; Lra.lra|].
  intros ys mu' Hys r' m' sd' lo' hi'.
  assert (Hlen' : (2 <= length ys)%nat) by lia.
  assert (Hq' : ppf (975 / 1000) (Z.of_nat (length ys) - 1)%Z = Some q)
    by (rewrite Hys; exact Hq).
  destruct (perform_ttest_two_points lib1 ppf ys mu' q Hlen' Hq')
    as (Em' & Es' & El' & Eh').
  fold r' in Em', Es', El', Eh'. rewrite Hys in Em', Es', El', Eh'.
  fold n m' sd' lo' hi' in Em', Es', El', Eh'.
  split; [exact Em'|]. split; [exact Es'|].
  split; [exact El'|]. split; [exact Eh'|].
  intros Hle.
  assert (Hm : q * (sd / sqrt n) <= q * (sd' / sqrt n)).
  { apply Rmult_le_compat_l; [exact Hq0|].
    apply Rmult_le_compat_r; [|exact Hle].
    apply Rlt_le, Rinv_0_lt_compat, Hn. }
  unfold hi, lo, hi', lo'. Lra.lra.
Qed.

Lemma t_ppf_2_nonneg :
  0 <= (2 * (975 / 1000) - 1)
       / sqrt (2 * (975 / 1000) * (1 - 975 / 1000)).
Proof.
  apply Rmult_le_pos; [Lra.lra|].
  apply Rlt_le, Rinv_0_lt_compat, sqrt_lt_R0. Lra.lra.
Qed.

Lemma confidence_interval_brackets_and_widens_witness :
  let r := OneSampleTTest.perform_ttest OneSampleTTest.ttest_1samp_3
             OneSampleTTest.t_ppf_2 [1; 2; 3] 2 in
  let m := (1 + (2 + (3 + 0))) / INR 3 in
  exists lo hi,
    OneSampleTTest.sample_mean r = Some m /\
    OneSampleTTest.ci_lower r = Some lo /\
    OneSampleTTest.ci_upper r = Some hi /\
    lo <= m /\ m <= hi.
Proof.
  destruct (confidence_interval_brackets_and_widens
              OneSampleTTest.ttest_1samp_3 OneSampleTTest.t_ppf_2
              [1; 2; 3] 2 _ ltac:(simpl; lia) eq_refl t_ppf_2_nonneg)
    as (H1 & H2 & H3 & H4 & H5 & H6 & _).
  eexists. eexists.
  split; [exact H1|]. split; [exact H3|]. split; [exact H4|].
  split; [exact H5 | exact H6].
Defined.

End TTestEngines.

(** ** [Chi_2_Goodness_Fit.py]: what the two computations hand over and
    leave behind *)

Module Chi2Results.

Import Chi2GoodnessFit PyFacts SumFacts SliderFacts.

Lemma fold_left_Qplus (xs : list Q) (a : Q) :
  fold_left Qplus xs a == a + qsum xs.
Proof.
  unfold qsum. revert a. induction xs as [|x xs IH]; intros a; simpl.
  - ring.
  - rewrite IH, (IH (0 + x)). ring.
Qed.

Lemma qsum_cons (x : Q) (xs : list Q) : qsum (x :: xs) == x + qsum xs.
Proof. unfold qsum at 1. simpl. rewrite fold_left_Qplus. ring. Qed.

Lemma qsum_map_mult (h : Q -> Q) (c : Q) (xs : list Q) :
  (forall x, h x == x * c) -> qsum (map h xs) == qsum xs * c.
Proof.
  intros Hh. induction xs as [|x xs IH].
  - reflexivity.
  - cbn [map]. rewrite !qsum_cons, IH, Hh. ring.
Qed.

Lemma qsum_repeat (u : Q) (k : nat) :
  qsum (repeat u k) == inject_Z (Z.of_nat k) * u.
Proof.
  induction k as [|k IH].
  - reflexivity.
  - cbn [repeat]. rewrite qsum_cons, IH, Nat2Z.inj_succ.
    unfold Z.succ. rewrite inject_Z_plus. ring.
Qed.

Lemma normalised (props : list Q) :
  0 < qsum props ->
  mapM (fun prop => py_truediv prop (qsum props)) props
  = ok (map (fun prop => prop / qsum props) props).
Proof.
  intros Hs. apply (mapM_total _ _ (fun _ => True)).
  - intros x _. apply py_truediv_ok. intros E. rewrite E in Hs.
    apply (Qlt_irrefl _ Hs).
  - apply Forall_forall. intros; exact I.
Qed.

(** X2: with at least one proportion slider, the expected counts exist,
    there is one for each slider, and they add up to the observed total:
    both after the proportions are normalised and in the uniform
    fallback. *)
Theorem expected_counts_sum_to_total :
  forall (g : Globals) (total_observed : Z),
    sliders_gof_expected g <> [] ->
    exists expected,
      gof_expected_counts g total_observed = ok expected /\
      length expected = length (sliders_gof_expected g) /\
      qsum expected == inject_Z total_observed.
Proof.
  intros g T Hne. unfold gof_expected_counts. cbv zeta.
  set (props := map (fun slider => value slider / 100)
                    (sliders_gof_expected g)).
  assert (Hlen : length props = length (sliders_gof_expected g))
    by apply length_map.
  destruct (Qltb 0 (qsum props)) eqn:E.
  - apply Qltb_lt in E. rewrite (normalised props E). cbn [bind ok].
    eexists. split; [reflexivity|]. split.
    + rewrite !length_map. exact Hlen.
    + rewrite (qsum_map_mult (fun prop => prop * inject_Z T) (inject_Z T))
        by (intros; reflexivity).
      rewrite (qsum_map_mult (fun prop => prop / qsum props)
                             (/ qsum props)) by (intros; reflexivity).
      field. intros E0. rewrite E0 in E. apply (Qlt_irrefl _ E).
  - assert (Hk : (0 < Z.of_nat (length props))%Z).
    { rewrite Hlen. destruct (sliders_gof_expected g); [congruence|].
      simpl length. lia. }
    assert (Hk0 : ~ inject_Z (Z.of_nat (length props)) == 0).
    { intros E0. unfold Qeq, inject_Z in E0. cbn [Qnum Qden] in E0. lia. }
    rewrite py_truediv_ok by exact Hk0. cbn [bind ok].
    eexists. split; [reflexivity|]. split.
    + rewrite length_map, repeat_length. exact Hlen.
    + rewrite (qsum_map_mult (fun prop => prop * inject_Z T) (inject_Z T))
        by (intros; reflexivity).
      rewrite qsum_repeat. field. exact Hk0.
Qed.

Lemma expected_counts_sum_to_total_witness :
  exists expected,
    gof_expected_counts initial_globals 144 = ok expected /\
    length expected = length (sliders_gof_expected initial_globals) /\
    qsum expected == inject_Z 144.
Proof.
  apply (expected_counts_sum_to_total initial_globals 144).
  intros E. vm_compute in E. discriminate E.
Defined.

Lemma Forall2_scaled_sum (c : Q) (xs ys : list Q) :
  Forall2 (fun y x => y == c * x) ys xs -> qsum ys == c * qsum xs.
Proof.
  intros H. induction H as [|y x ys xs Hyx _ IH].
  - unfold qsum. simpl. ring.
  - rewrite !qsum_cons, IH, Hyx. ring.
Qed.

Lemma Forall2_map2 {A B C D : Type} (p : A -> B -> Prop)
    (q : C -> D -> Prop) (f : A -> C) (h : B -> D)
    (xs : list A) (ys : list B) :
  (forall x y, p x y -> q (f x) (h y)) ->
  Forall2 p xs ys -> Forall2 q (map f xs) (map h ys).
Proof.
  intros Hp H. induction H; simpl; constructor; auto.
Qed.

(** X3: only the ratios of the proportion sliders matter.  Two settings
    of the sliders of which one is a positive multiple of the other, with
    a positive sum, give the same expected counts. *)
Theorem expected_counts_depend_on_ratios :
  forall (g g' : Globals) (c : Q) (total_observed : Z),
    0 < c ->
    0 < qsum (map (fun slider => value slider / 100)
                  (sliders_gof_expected g)) ->
    Forall2 (fun s' s => value s' == c * value s)
            (sliders_gof_expected g') (sliders_gof_expected g) ->
    exists expected expected',
      gof_expected_counts g total_observed = ok expected /\
      gof_expected_counts g' total_observed = ok expected' /\
      Forall2 Qeq expected' expected.
Proof.
  intros g g' c T Hc Hs H. unfold gof_expected_counts. cbv zeta.
  set (props := map (fun slider => value slider / 100)
                    (sliders_gof_expected g)) in *.
  set (props' := map (fun slider => value slider / 100)
                     (sliders_gof_expected g')).
  assert (Hp : Forall2 (fun y x => y == c * x) props' props).
  { unfold props, props'.
    apply (Forall2_map2 (fun s' s => value s' == c * value s)); [|exact H].
    intros x y Hxy. rewrite Hxy. field. }
  assert (Hsum : qsum props' == c * qsum props)
    by (apply Forall2_scaled_sum, Hp).
  assert (Hs' : 0 < qsum props').
  { rewrite Hsum. apply Qmult_lt_0_compat; assumption. }
  pose proof Hs as Hb. apply Qltb_lt in Hb. rewrite Hb.
  pose proof Hs' as Hb'. apply Qltb_lt in Hb'. rewrite Hb'.
  rewrite (normalised props Hs), (normalised props' Hs'). cbn [bind ok].
  eexists. eexists. split; [reflexivity|]. split; [reflexivity|].
  apply (Forall2_map2 Qeq).
  - intros x y Hxy. rewrite Hxy. reflexivity.
  - apply (Forall2_map2 (fun y x => y == c * x)); [|exact Hp].
    intros x y Hxy. rewrite Hxy, Hsum. field. split.
    + intros E0. rewrite E0 in Hs. apply (Qlt_irrefl _ Hs).
    + intros E0. rewrite E0 in Hc. apply (Qlt_irrefl _ Hc).
Qed.

Lemma expected_counts_depend_on_ratios_witness :
  exists expected expected',
    gof_expected_counts (gof_state [74; 50; 20] [25; 427 # 10; 335 # 10])
                        144 = ok expected /\
    gof_expected_counts (gof_state [74; 50; 20] [50; 854 # 10; 67])
                        144 = ok expected' /\
    Forall2 Qeq expected' expected.
Proof.
  apply (expected_counts_depend_on_ratios
           (gof_state [74; 50; 20] [25; 427 # 10; 335 # 10])
           (gof_state [74; 50; 20] [50; 854 # 10; 67]) 2 144).
  - reflexivity.
  - vm_compute. reflexivity.
  - repeat constructor.
Defined.

Lemma Inv_table_shape (g : Globals) :
  Inv g -> np_shape2 (independence_observed g) = ok (2%nat, 3%nat).
Proof.
  intros (_ & _ & _ & _ & Hc & _). unfold independence_observed.
  destruct (independence_cells g) as [|r1 [|r2 [|r3 rest]]];
    try discriminate Hc.
  cbn [map independence_data] in Hc. injection Hc as H1 H2.
  unfold np_shape2. cbn [map forallb length].
  rewrite !length_map, H1, H2. reflexivity.
Qed.

(** X1: the two computations always leave a result behind.  Whatever the
    library does, returning or raising, the flag ends set and no slider
    and no cell has changed; and in a state of the program (three
    categories, a 2 x 3 table) a library that raises leaves the neutral
    result: statistic 0, p-value 1.0 and two degrees of freedom. *)
Theorem computations_always_yield_a_result :
  forall (stats_chisquare : list Z -> list Q -> exc (Q * R))
         (stats_chi2_contingency : list (list Z) -> exc (Q * R * Z))
         (g : Globals),
    let g1 := calculate_goodness_of_fit stats_chisquare g in
    let g2 := calculate_independence stats_chi2_contingency g in
    (has_calculated g1 = true /\ inputs g1 = inputs g /\
     (Inv g ->
      (forall f_obs f_exp, exists e, stats_chisquare f_obs f_exp = inl e) ->
      chi2_stat g1 = 0 /\ p_value g1 = 1%R /\ df g1 = 2%Z)) /\
    (has_calculated g2 = true /\ inputs g2 = inputs g /\
     (Inv g ->
      (forall observed, exists e, stats_chi2_contingency observed = inl e) ->
      chi2_stat g2 = 0 /\ p_value g2 = 1%R /\ df g2 = 2%Z)).
Proof.
  intros lib1 lib2 g g1 g2. split.
  - split; [|split].
    + unfold g1, calculate_goodness_of_fit, gof_try.
      destruct (zsum (gof_observed_counts g) =? 0)%Z; [reflexivity|].
      destruct (gof_expected_counts g (zsum (gof_observed_counts g)))
        as [e|expected]; [reflexivity|].
      destruct (lib1 (gof_observed_counts g) expected) as [e|[stat p]];
        reflexivity.
    + destruct (Chi2LoopFacts.calculate_goodness_of_fit_frame lib1 g)
        as (H1 & H2 & H3).
      unfold inputs. fold g1 in H1, H2, H3. rewrite H1, H2, H3.
      reflexivity.
    + intros HI Hraise.
      assert (Hlen : (Z.of_nat (length (gof_observed_counts g)) - 1 = 2)%Z).
      { destruct HI as (_ & _ & Hl & _). unfold gof_observed_counts.
        rewrite length_map, Hl. reflexivity. }
      unfold g1, calculate_goodness_of_fit, gof_try.
      destruct (zsum (gof_observed_counts g) =? 0)%Z.
      { cbn [chi2_stat p_value df set_has_calculated set_results].
        repeat split. exact Hlen. }
      destruct (gof_expected_counts g (zsum (gof_observed_counts g)))
        as [e|expected]; [repeat split|].
      destruct (Hraise (gof_observed_counts g) expected) as [e He].
      rewrite He. repeat split.
  - split; [|split].
    + unfold g2, calculate_independence, independence_try.
      destruct (np_shape2 (independence_observed g)) as [e|[nrows ncols]];
        [reflexivity|].
      destruct (any_zero (row_sums (independence_observed g))
                || any_zero (col_sums (independence_observed g) ncols));
        [reflexivity|].
      destruct (lib2 (independence_observed g)) as [e|[[stat p] d]];
        reflexivity.
    + destruct (Chi2LoopFacts.calculate_independence_frame lib2 g)
        as (H1 & H2 & H3).
      unfold inputs. fold g2 in H1, H2, H3. rewrite H1, H2, H3.
      reflexivity.
    + intros HI Hraise.
      unfold g2, calculate_independence, independence_try.
      rewrite (Inv_table_shape g HI). unfold ok. cbv iota beta.
      destruct (any_zero (row_sums (independence_observed g))
                || any_zero (col_sums (independence_observed g) 3));
        [repeat split|].
      destruct (Hraise (independence_observed g)) as [e He].
      rewrite He. repeat split.
Qed.

Lemma computations_always_yield_a_result_witness :
  let g1 :=
    calculate_goodness_of_fit (fun _ _ => raise ValueError)
                              initial_globals in
  let g2 :=
    calculate_independence (fun _ => raise ValueError) initial_globals in
  (chi2_stat g1 = 0 /\ p_value g1 = 1%R /\ df g1 = 2%Z) /\
  (chi2_stat g2 = 0 /\ p_value g2 = 1%R /\ df g2 = 2%Z).
Proof.
  pose proof (computations_always_yield_a_result
                (fun _ _ => raise ValueError) (fun _ => raise ValueError)
                initial_globals) as [(_ & _ & H1) (_ & _ & H2)].
  split.
  - apply H1; [apply Chi2LoopFacts.chi2_initial_globals_Inv|].
    intros. exists ValueError. reflexivity.
  - apply H2; [apply Chi2LoopFacts.chi2_initial_globals_Inv|].
    intros. exists ValueError. reflexivity.
Defined.

End Chi2Results.

(** ** [Chi_2_Goodness_Fit.py]: resets, keys and the active cell *)

Module Chi2Pages.

Import Chi2GoodnessFit PyFacts SliderFacts Chi2LoopFacts.

(** X4: on the program's three and three sliders the goodness-of-fit
    reset never fails; it puts the shipped defaults back (74, 50, 20 and
    25, 42.7, 33.5), clears the result flag, leaves every track, every
    drag flag and the table alone, and doing it again changes nothing. *)
Theorem reset_goodness_of_fit_restores_defaults :
  forall g : Globals,
    Inv g ->
    exists g',
      reset_goodness_of_fit g = ok g' /\
      map value (sliders_gof_observed g') = map inject_Z gof_observed /\
      map value (sliders_gof_expected g') = gof_expected /\
      has_calculated g' = false /\
      Forall2 (fun s' s => pos s' = pos s /\ width s' = width s /\
                           smin s' = smin s /\ smax s' = smax s /\
                           dragging s' = dragging s)
              (sliders g') (sliders g) /\
      independence_cells g' = independence_cells g /\
      active_cell g' = active_cell g /\
      reset_goodness_of_fit g' = ok g'.
Proof.
  intros g (_ & _ & Lo & Le & _).
  unfold reset_goodness_of_fit, sliders.
  destruct (sliders_gof_observed g) as [|a [|b [|c [|? ?]]]] eqn:Eo;
    try discriminate Lo.
  destruct (sliders_gof_expected g) as [|a' [|b' [|c' [|? ?]]]] eqn:Ee;
    try discriminate Le.
  cbn [enumerate length seq combine mapM fst snd py_index nth_error
       gof_observed gof_expected bind ok].
  eexists. split; [reflexivity|].
  cbn [sliders_gof_observed sliders_gof_expected set_sliders
       set_has_calculated has_calculated independence_cells active_cell
       map value set_value app].
  split; [reflexivity|]. split; [reflexivity|]. split; [reflexivity|].
  split.
  { repeat (apply Forall2_cons; [repeat split|]). apply Forall2_nil. }
  split; [reflexivity|]. split; reflexivity.
Qed.

Lemma reset_goodness_of_fit_restores_defaults_witness :
  exists g',
    reset_goodness_of_fit (gof_state [0; 150; 3] [0; 0; 100]) = ok g' /\
    map value (sliders_gof_observed g') = map inject_Z gof_observed /\
    map value (sliders_gof_expected g') = gof_expected.
Proof.
  destruct (reset_goodness_of_fit_restores_defaults
              (gof_state [0; 150; 3] [0; 0; 100]))
    as (g' & E & Ho & He & _).
  - unfold Inv, bounded, cells_in_range. vm_compute.
    repeat split; try (intros E; discriminate E);
      repeat constructor; try (intros E; discriminate E).
  - exists g'. repeat split; assumption.
Defined.

(** X5: on the program's 2 x 3 table the independence reset never fails;
    it puts the shipped table back, unmarks every cell and forgets the
    active cell, clears the result flag, and leaves the cell rectangles
    and the sliders alone. *)
Theorem reset_independence_restores_defaults :
  forall g : Globals,
    Inv g ->
    exists g',
      reset_independence g = ok g' /\
      map (map cvalue) (independence_cells g') = independence_data /\
      Forall (Forall (fun c => active c = false)) (independence_cells g') /\
      active_cell g' = None /\
      has_calculated g' = false /\
      map (map rect) (independence_cells g')
      = map (map rect) (independence_cells g) /\
      sliders g' = sliders g.
Proof.
  intros g (_ & _ & _ & _ & Hs & _).
  unfold reset_independence, sliders.
  destruct (independence_cells g) as [|r1 [|r2 [|? ?]]] eqn:Ec;
    try discriminate Hs.
  simpl in Hs. injection Hs as H1 H2.
  destruct r1 as [|a [|b [|c [|? ?]]]]; try discriminate H1.
  destruct r2 as [|d [|e [|f [|? ?]]]]; try discriminate H2.
  cbn [enumerate length seq combine mapM fst snd py_index nth_error
       independence_data bind ok].
  eexists. split; [reflexivity|].
  cbn [independence_cells set_cells set_has_calculated has_calculated
       active_cell sliders_gof_observed sliders_gof_expected map cvalue
       rect active set_active set_cvalue].
  split; [reflexivity|].
  split; [repeat constructor|].
  repeat split.
Qed.

Lemma reset_independence_restores_defaults_witness :
  exists g',
    reset_independence editing_state = ok g' /\
    map (map cvalue) (independence_cells g') = independence_data /\
    active_cell g' = None.
Proof.
  destruct (reset_independence_restores_defaults editing_state)
    as (g' & E & Hv & _ & Ha & _).
  - unfold Inv, bounded, cells_in_range. vm_compute.
    repeat split; try (intros E; discriminate E);
      repeat constructor; try (intros E; discriminate E).
  - exists g'. repeat split; assumption.
Defined.

Lemma nth_error_update_nth_other {A : Type} (f : A -> A) (xs : list A) :
  forall n m, n <> m -> nth_error (update_nth n f xs) m = nth_error xs m.
Proof.
  induction xs as [|x xs IH]; intros [|n] [|m] H; simpl; auto.
  - congruence.
Qed.

Lemma lookup_update_cell_other (cells : list (list Cell)) (ij kl : nat * nat)
    (f : Cell -> Cell) :
  ij <> kl ->
  lookup_cell (update_cell cells ij f) kl = lookup_cell cells kl.
Proof.
  intros H. unfold lookup_cell, update_cell.
  destruct (Nat.eq_dec (fst ij) (fst kl)) as [E|E].
  - rewrite <- E, CellEditing.nth_error_update_nth.
    destruct (nth_error cells (fst ij)) as [row|]; simpl; [|reflexivity].
    apply nth_error_update_nth_other. intros E2. apply H.
    destruct ij, kl; simpl in *; congruence.
  - rewrite nth_error_update_nth_other by exact E. reflexivity.
Qed.

Lemma map_map_update_cell {B : Type} (h : Cell -> B)
    (cells : list (list Cell)) (ij : nat * nat) (f : Cell -> Cell) :
  (forall c, h (f c) = h c) ->
  map (map h) (update_cell cells ij f) = map (map h) cells.
Proof.
  intros Hf. unfold update_cell.
  rewrite <- (map_map (map h) (fun x => x)), map_id.
  revert ij. induction cells as [|row cells IH]; intros [i j]; simpl.
  - destruct i; reflexivity.
  - destruct i; simpl.
    + rewrite (map_update_nth h f row Hf). reflexivity.
    + specialize (IH (i, j)). simpl in IH.
      rewrite <- (map_map (map h) (fun x => x)), map_id in IH.
      rewrite IH. reflexivity.
Qed.

(** X9: a key press touches no slider, no cell rectangle and no mark,
    and changes at most the value of the active cell: every other cell
    keeps its value, and away from the independence page, or without an
    active cell, the whole table is left alone. *)
Theorem key_press_edits_only_the_active_cell :
  forall (g g' : Globals) (key : Z),
    on_keydown g key = ok g' ->
    sliders g' = sliders g /\
    map (map rect) (independence_cells g')
    = map (map rect) (independence_cells g) /\
    map (map active) (independence_cells g')
    = map (map active) (independence_cells g) /\
    active_cell g' = active_cell g /\
    (forall ij, active_cell g <> Some ij ->
                cell_value_at g' ij = cell_value_at g ij) /\
    (state g <> INDEPENDENCE \/ active_cell g = None ->
     independence_cells g' = independence_cells g).
Proof.
  intros g g' key. unfold on_keydown.
  set (g1 := if (key =? K_ESCAPE)%Z
             then if Page_eqb (state g) MENU then g
                  else set_has_calculated (set_state g MENU) false
             else g).
  assert (H1 : sliders g1 = sliders g /\
               independence_cells g1 = independence_cells g /\
               active_cell g1 = active_cell g /\
               (state g <> INDEPENDENCE -> state g1 <> INDEPENDENCE)).
  { unfold g1. destruct (key =? K_ESCAPE)%Z; [|repeat split; auto].
    destruct (Page_eqb (state g) MENU); repeat split; auto.
    intros _. cbn [state set_has_calculated set_state]. discriminate. }
  destruct H1 as (Hs & Hc & Ha & Hst). clearbody g1.
  assert (Hsame : g' = g1 ->
            sliders g' = sliders g /\
            map (map rect) (independence_cells g')
            = map (map rect) (independence_cells g) /\
            map (map active) (independence_cells g')
            = map (map active) (independence_cells g) /\
            active_cell g' = active_cell g /\
            (forall ij, active_cell g <> Some ij ->
                        cell_value_at g' ij = cell_value_at g ij) /\
            (state g <> INDEPENDENCE \/ active_cell g = None ->
             independence_cells g' = independence_cells g)).
  { intros ->. unfold cell_value_at. rewrite Hs, Hc, Ha.
    repeat split; auto. }
  assert (Hedit : forall v,
            g' = set_has_calculated
                   (set_cells g1
                      (update_cell (independence_cells g1)
                         (match active_cell g1 with
                          | Some ij => ij | None => (O, O) end)
                         (fun c => set_cvalue c v))
                      (active_cell g1)) false ->
            Page_eqb (state g1) INDEPENDENCE = true ->
            active_cell g1 <> None ->
            sliders g' = sliders g /\
            map (map rect) (independence_cells g')
            = map (map rect) (independence_cells g) /\
            map (map active) (independence_cells g')
            = map (map active) (independence_cells g) /\
            active_cell g' = active_cell g /\
            (forall ij, active_cell g <> Some ij ->
                        cell_value_at g' ij = cell_value_at g ij) /\
            (state g <> INDEPENDENCE \/ active_cell g = None ->
             independence_cells g' = independence_cells g)).
  { intros v -> Hp Hn.
    cbn [independence_cells active_cell set_has_calculated set_cells].
    split; [exact Hs|].
    split; [rewrite map_map_update_cell by reflexivity; rewrite Hc;
            reflexivity|].
    split; [rewrite map_map_update_cell by reflexivity; rewrite Hc;
            reflexivity|].
    split; [exact Ha|]. split.
    - intros ij Hij. unfold cell_value_at.
      cbn [independence_cells set_has_calculated set_cells].
      rewrite lookup_update_cell_other; [rewrite Hc; reflexivity|].
      rewrite Ha. destruct (active_cell g) as [kl|]; [|congruence].
      congruence.
    - intros [Hno|Hno].
      + apply Hst in Hno. destruct (state g1); simpl in Hp;
          try discriminate Hp. congruence.
      + rewrite Ha in Hn. contradiction. }
  destruct (active_cell g1) as [ij|] eqn:Eac;
    [|intros E; apply ok_inj in E; auto].
  destruct (Page_eqb (state g1) INDEPENDENCE) eqn:Ep;
    [|intros E; apply ok_inj in E; auto].
  destruct (lookup_cell (independence_cells g1) ij) as [cell|];
    [|intros E; apply ok_inj in E; auto].
  destruct (key =? K_BACKSPACE)%Z.
  - intros E. apply bind_ok in E. destruct E as (v & _ & E).
    apply ok_inj in E. apply (Hedit v); congruence.
  - destruct ((K_0 <=? key) && (key <=? K_9))%Z;
      intros E; apply ok_inj in E; [|auto].
    apply (Hedit (digit_value (cvalue cell) (key - K_0))); congruence.
Qed.

Lemma key_press_edits_only_the_active_cell_witness :
  exists g',
    on_keydown editing_state (K_0 + 7) = ok g' /\
    cell_value_at g' (O, O) = Some 7%Z /\
    cell_value_at g' (1%nat, 2%nat) = cell_value_at editing_state (1%nat, 2%nat).
Proof.
  assert (E : on_keydown editing_state (K_0 + 7)
              = ok (set_has_calculated
                      (set_cells editing_state
                         (update_cell (independence_cells editing_state)
                            (O, O) (fun c => set_cvalue c 7%Z))
                         (Some (O, O))) false))
    by (vm_compute; reflexivity).
  eexists. split; [exact E|]. split; [vm_compute; reflexivity|].
  apply (key_press_edits_only_the_active_cell _ _ _ E).
  vm_compute. intros H. discriminate H.
Defined.

End Chi2Pages.

Module Chi2ActiveCell.

Import Chi2GoodnessFit PyFacts SliderFacts Chi2LoopFacts.

Lemma active_cell_ok_same_marks (g g' : Globals) :
  map (map active) (independence_cells g')
  = map (map active) (independence_cells g) ->
  active_cell g' = active_cell g ->
  active_cell_ok g -> active_cell_ok g'.
Proof.
  intros Hm Ha. unfold active_cell_ok. rewrite Ha.
  destruct (active_cell g) as [[i j]|].
  - intros (c & El & Hc). unfold lookup_cell in *. cbn [fst snd] in *.
    destruct (nth_error (independence_cells g) i) as [row|] eqn:Er;
      [|discriminate El].
    assert (E1 : nth_error (map (map active) (independence_cells g')) i
                 = Some (map active row)).
    { rewrite Hm, nth_error_map, Er. reflexivity. }
    rewrite nth_error_map in E1.
    destruct (nth_error (independence_cells g') i) as [row'|];
      [|discriminate E1].
    cbn [option_map] in E1. injection E1 as E1.
    assert (E2 : nth_error (map active row') j = Some true).
    { rewrite E1, nth_error_map, El. cbn [option_map]. rewrite Hc.
      reflexivity. }
    rewrite nth_error_map in E2.
    destruct (nth_error row' j) as [c'|]; [|discriminate E2].
    cbn [option_map] in E2. injection E2 as E2.
    exists c'. split; [reflexivity | exact E2].
  - intros H.
    assert (Hf : forall cells : list (list Cell),
               Forall (Forall (fun c => active c = false)) cells <->
               Forall (Forall (fun b => b = false))
                      (map (map active) cells)).
    { intros cells. rewrite Forall_map. split; intros Hx;
        (eapply Forall_impl; [|exact Hx]); intros row Hrow.
      - rewrite Forall_map. exact Hrow.
      - rewrite Forall_map in Hrow. exact Hrow. }
    apply Hf. rewrite Hm. apply Hf. exact H.
Qed.

Lemma active_cell_ok_ext (g g' : Globals) :
  independence_cells g' = independence_cells g ->
  active_cell g' = active_cell g ->
  active_cell_ok g -> active_cell_ok g'.
Proof.
  intros Hc Ha. apply active_cell_ok_same_marks; [rewrite Hc|]; auto.
Qed.

Lemma calculate_layout_active (g : Globals) :
  active_cell_ok g -> active_cell_ok (calculate_layout g).
Proof.
  destruct (calculate_layout_cells g) as [Hc Ha].
  apply active_cell_ok_same_marks; [|exact Ha].
  apply Forall2_map_eq. eapply Forall2_impl; [|exact Hc].
  intros a b H. apply Forall2_map_eq.
  eapply Forall2_impl; [|exact H]. intros c c' Hcc. apply Hcc.
Qed.

Lemma clear_active_active (g : Globals) : active_cell_ok (clear_active g).
Proof.
  unfold active_cell_ok, clear_active.
  cbn [active_cell independence_cells set_cells].
  rewrite Forall_map. apply Forall_forall. intros row _.
  rewrite Forall_map. apply Forall_forall. intros c _. reflexivity.
Qed.

Lemma clear_active_unmarked (g : Globals) :
  Forall (Forall (fun c => active c = false))
         (independence_cells (clear_active g)) /\
  active_cell (clear_active g) = None.
Proof.
  split; [|reflexivity]. exact (clear_active_active g).
Qed.

Lemma mapM_Forall {A B : Type} (f : A -> exc B) (P : B -> Prop)
    (xs : list A) :
  (forall x y, f x = ok y -> P y) ->
  forall ys, mapM f xs = ok ys -> Forall P ys.
Proof.
  intros Hf. induction xs as [|x xs IH]; intros ys H; simpl in H.
  - apply ok_inj in H. subst ys. constructor.
  - apply bind_ok in H. destruct H as (y & Hy & H).
    apply bind_ok in H. destruct H as (ys' & Hys & H).
    apply ok_inj in H. subst ys. constructor; eauto.
Qed.

Lemma reset_independence_active (g g' : Globals) :
  reset_independence g = ok g' -> active_cell_ok g'.
Proof.
  unfold reset_independence. intros H.
  apply bind_ok in H. destruct H as (cells & Hc & H).
  apply ok_inj in H. subst g'. unfold active_cell_ok.
  cbn [active_cell independence_cells set_cells set_has_calculated].
  revert Hc. apply mapM_Forall. intros ir row. apply mapM_Forall.
  intros jc c H. apply bind_ok in H. destruct H as (r & _ & H).
  apply bind_ok in H. destruct H as (v & _ & H).
  apply ok_inj in H. subst c. reflexivity.
Qed.

Lemma reset_goodness_of_fit_active (g g' : Globals) :
  reset_goodness_of_fit g = ok g' -> active_cell_ok g -> active_cell_ok g'.
Proof.
  unfold reset_goodness_of_fit. intros H.
  apply bind_ok in H. destruct H as (obs & _ & H).
  apply bind_ok in H. destruct H as (exp & _ & H).
  apply ok_inj in H. subst g'. apply active_cell_ok_ext; reflexivity.
Qed.

Lemma on_keydown_active (g g' : Globals) (key : Z) :
  on_keydown g key = ok g' -> active_cell_ok g -> active_cell_ok g'.
Proof.
  unfold on_keydown.
  set (g1 := if (key =? K_ESCAPE)%Z
             then if Page_eqb (state g) MENU then g
                  else set_has_calculated (set_state g MENU) false
             else g).
  assert (H1 : active_cell_ok g -> active_cell_ok g1).
  { unfold g1. destruct (key =? K_ESCAPE)%Z; [|auto].
    destruct (Page_eqb (state g) MENU); [auto|].
    apply active_cell_ok_ext; reflexivity. }
  clearbody g1. intros E H. apply H1 in H. clear H1. revert E.
  assert (Hedit : forall v,
            active_cell_ok
              (set_has_calculated
                 (set_cells g1
                    (update_cell (independence_cells g1)
                       (match active_cell g1 with
                        | Some ij => ij | None => (O, O) end)
                       (fun c => set_cvalue c v))
                    (active_cell g1)) false)).
  { intros v. revert H. apply active_cell_ok_same_marks; [|reflexivity].
    cbn [independence_cells set_has_calculated set_cells].
    apply Chi2Pages.map_map_update_cell. reflexivity. }
  destruct (active_cell g1) as [ij|] eqn:Eac;
    [|intros E; apply ok_inj in E; subst g'; exact H].
  destruct (Page_eqb (state g1) INDEPENDENCE);
    [|intros E; apply ok_inj in E; subst g'; exact H].
  destruct (lookup_cell (independence_cells g1) ij) as [cell|];
    [|intros E; apply ok_inj in E; subst g'; exact H].
  destruct (key =? K_BACKSPACE)%Z.
  - intros E. apply bind_ok in E. destruct E as (v & _ & E).
    apply ok_inj in E. subst g'. apply Hedit.
  - destruct ((K_0 <=? key) && (key <=? K_9))%Z;
      intros E; apply ok_inj in E; subst g'; [apply Hedit | exact H].
Qed.

(** The positions [enumerate] pairs the elements with. *)
Lemma In_combine_seq {A : Type} (xs : list A) :
  forall (s i : nat) (x : A),
    In (i, x) (combine (seq s (length xs)) xs) ->
    (s <= i)%nat /\ nth_error xs (i - s) = Some x.
Proof.
  induction xs as [|y xs IH]; intros s i x H; simpl in H; [contradiction|].
  destruct H as [H|H].
  - injection H as <- <-. rewrite Nat.sub_diag. split; [lia|reflexivity].
  - apply IH in H. destruct H as [Hs Hn]. split; [lia|].
    replace (i - s)%nat with (S (i - S s)) by lia. exact Hn.
Qed.

Lemma In_enumerate {A : Type} (xs : list A) (i : nat) (x : A) :
  In (i, x) (enumerate xs) -> nth_error xs i = Some x.
Proof.
  intros H. apply In_combine_seq in H. destruct H as [_ H].
  rewrite Nat.sub_0_r in H. exact H.
Qed.

Lemma In_hit_cells (mp : Z * Z) (cells : list (list Cell)) (ij : nat * nat) :
  In ij (hit_cells mp cells) ->
  exists c, lookup_cell cells ij = Some c /\
            collidepoint (rect c) mp = true.
Proof.
  unfold hit_cells. intros H.
  apply in_flat_map in H. destruct H as ([i row] & Hi & H).
  apply in_flat_map in H. destruct H as ([j c] & Hj & H).
  cbn [fst snd] in H.
  destruct (collidepoint (rect c) mp) eqn:Ec; [|contradiction].
  destruct H as [H|[]]. subst ij.
  apply In_enumerate in Hi, Hj.
  exists c. unfold lookup_cell. cbn [fst snd]. rewrite Hi. auto.
Qed.

Lemma row_not_hit (mp : Z * Z) (i : nat) (row : list Cell) :
  forall t,
    flat_map (fun jc : nat * Cell =>
                if collidepoint (rect (snd jc)) mp
                then [(i, fst jc)] else [])
             (combine (seq t (length row)) row) = [] ->
    map (fun c => if collidepoint (rect c) mp then set_active c true else c)
        row = row.
Proof.
  induction row as [|c row IH]; intros t H; [reflexivity|].
  cbn [length seq combine flat_map fst snd] in H.
  apply app_eq_nil in H. destruct H as [Hc Hrow].
  cbn [map]. rewrite (IH _ Hrow).
  destruct (collidepoint (rect c) mp); [discriminate Hc | reflexivity].
Qed.

Lemma hit_cells_none (mp : Z * Z) (cells : list (list Cell)) :
  hit_cells mp cells = [] ->
  map (map (fun c => if collidepoint (rect c) mp
                     then set_active c true else c)) cells = cells.
Proof.
  assert (H : forall s,
             flat_map
               (fun ir : nat * list Cell =>
                  flat_map
                    (fun jc : nat * Cell =>
                       if collidepoint (rect (snd jc)) mp
                       then [(fst ir, fst jc)] else [])
                    (enumerate (snd ir)))
               (combine (seq s (length cells)) cells) = [] ->
             map (map (fun c => if collidepoint (rect c) mp
                                then set_active c true else c)) cells
             = cells).
  { induction cells as [|row cells IH]; intros s H; [reflexivity|].
    cbn [length seq combine flat_map fst snd] in H.
    apply app_eq_nil in H. destruct H as [Hrow Hrest].
    cbn [map]. rewrite (IH _ Hrest). f_equal.
    exact (row_not_hit mp s row 0%nat Hrow). }
  exact (H 0%nat).
Qed.

Lemma click_cells_active (mp : Z * Z) (g : Globals) :
  active_cell_ok g -> active_cell_ok (click_cells mp g).
Proof.
  intros H. unfold click_cells.
  destruct (hit_cells mp (independence_cells g)) as [|h hits] eqn:Eh.
  - revert H. apply active_cell_ok_ext; [|reflexivity].
    cbn [independence_cells set_cells]. apply hit_cells_none, Eh.
  - unfold active_cell_ok.
    cbn [active_cell independence_cells set_cells set_has_calculated].
    assert (Hin : In (last (h :: hits) (O, O))
                     (hit_cells mp (independence_cells g))).
    { rewrite Eh. destruct (exists_last (l := h :: hits)) as (l & a & E);
        [discriminate|].
      rewrite E, last_last. apply in_or_app. right. left. reflexivity. }
    apply In_hit_cells in Hin. destruct Hin as (c & El & Hc).
    set (ij := last (h :: hits) (O, O)) in *.
    exists (set_active c true). split; [|reflexivity].
    unfold lookup_cell in *. rewrite nth_error_map.
    destruct (nth_error (independence_cells g) (fst ij)) as [row|];
      [|discriminate El].
    cbn [option_map]. rewrite nth_error_map, El. cbn [option_map].
    rewrite Hc. reflexivity.
Qed.

Section Loop.

Variable stats_chisquare : list Z -> list Q -> exc (Q * R).
Variable stats_chi2_contingency : list (list Z) -> exc (Q * R * Z).

Lemma calculate_goodness_of_fit_active (g : Globals) :
  active_cell_ok g ->
  active_cell_ok (calculate_goodness_of_fit stats_chisquare g).
Proof.
  apply active_cell_ok_ext.
  - apply (calculate_goodness_of_fit_frame stats_chisquare g).
  - unfold calculate_goodness_of_fit, gof_try.
    destruct (zsum (gof_observed_counts g) =? 0)%Z; [reflexivity|].
    destruct (gof_expected_counts g (zsum (gof_observed_counts g)))
      as [e|expected]; [reflexivity|].
    destruct (stats_chisquare (gof_observed_counts g) expected)
      as [e|[stat p]]; reflexivity.
Qed.

Lemma for_sliders_active (f : Slider -> exc (Slider * bool))
    (g : Globals) (r : Globals * bool) :
  for_sliders f g = ok r -> active_cell_ok g ->
  active_cell_ok
    (if snd r then set_has_calculated (fst r) false else fst r).
Proof.
  unfold for_sliders. intros H.
  apply bind_ok in H. destruct H as (obs & _ & H).
  apply bind_ok in H. destruct H as (exp & _ & H).
  apply ok_inj in H. subst r. cbn [fst snd].
  destruct (existsb snd obs || existsb snd exp);
    apply active_cell_ok_ext; reflexivity.
Qed.

Lemma on_mousebuttondown_active (mp : Z * Z) (g g' : Globals) :
  on_mousebuttondown stats_chisquare stats_chi2_contingency mp g = ok g' ->
  active_cell_ok g -> active_cell_ok g'.
Proof.
  unfold on_mousebuttondown. intros E H.
  destruct (state g).
  - (* MENU *)
    cbv beta iota zeta delta [draw_menu] in E.
    repeat break_if_in E.
    + apply reset_goodness_of_fit_active in E; [exact E|].
      revert H. apply active_cell_ok_ext; reflexivity.
    + apply reset_independence_active in E. exact E.
    + apply ok_inj in E. subst g'. revert H.
      apply active_cell_ok_ext; reflexivity.
    + apply ok_inj in E. subst g'. exact H.
  - (* GOODNESS_OF_FIT *)
    cbv beta iota zeta delta [draw_test_page] in E.
    set (g1 := if collidepoint (toggle_rect (layout g)) mp
               then set_show_instructions g (negb (show_instructions g))
               else g) in E.
    assert (H1 : active_cell_ok g1).
    { unfold g1. destruct (collidepoint (toggle_rect (layout g)) mp);
        [|exact H]. revert H. apply active_cell_ok_ext; reflexivity. }
    clearbody g1.
    apply bind_ok in E. destruct E as (g2 & E2 & E).
    assert (H2 : active_cell_ok g2).
    { repeat break_if_in E2.
      - apply ok_inj in E2. subst g2. revert H1.
        apply active_cell_ok_ext; reflexivity.
      - apply ok_inj in E2. subst g2.
        apply calculate_goodness_of_fit_active, H1.
      - eapply reset_goodness_of_fit_active; eassumption.
      - apply ok_inj in E2. subst g2. exact H1. }
    apply bind_ok in E. destruct E as (r & Er & E).
    apply ok_inj in E. subst g'.
    eapply for_sliders_active; eassumption.
  - (* INDEPENDENCE *)
    cbv beta iota zeta delta [draw_test_page] in E.
    apply bind_ok in E. destruct E as (g2 & E2 & E).
    apply ok_inj in E. subst g'.
    apply click_cells_active, clear_active_active.
  - (* TUTORIAL *)
    cbv beta iota zeta delta [draw_tutorial] in E.
    repeat break_if_in E; apply ok_inj in E; subst g';
      try exact H; revert H; apply active_cell_ok_ext; reflexivity.
Qed.

Lemma handle_event_active (mp : Z * Z) (g g' : Globals) (ev : Event) :
  handle_event stats_chisquare stats_chi2_contingency mp g ev = ok g' ->
  active_cell_ok g -> active_cell_ok g'.
Proof.
  destruct ev as [|w h|key|button| |rel_y|]; cbn [handle_event]; intros E H.
  - apply ok_inj in E. subst g'. revert H.
    apply active_cell_ok_ext; reflexivity.
  - apply ok_inj in E. subst g'. apply clear_active_active.
  - eapply on_keydown_active; eassumption.
  - destruct (button =? 1)%Z.
    + eapply on_mousebuttondown_active; eassumption.
    + apply ok_inj in E. subst g'. exact H.
  - apply ok_inj in E. subst g'. revert H.
    apply active_cell_ok_ext; reflexivity.
  - unfold on_mousemotion in E.
    apply bind_ok in E. destruct E as (r & Er & E).
    apply ok_inj in E. subst g'.
    eapply for_sliders_active; eassumption.
  - apply ok_inj in E. subst g'. exact H.
Qed.

End Loop.

Lemma initial_globals_active : active_cell_ok initial_globals.
Proof.
  unfold active_cell_ok. vm_compute. repeat constructor.
Qed.

(** X8: the active cell and the marks never disagree.  At the start, and
    after every event the loop gets through, the cell that key presses go
    to is one that is drawn as active, and when there is no such cell
    none is drawn as active. *)
Theorem active_cell_is_a_marked_cell :
  active_cell_ok initial_globals /\
  forall (stats_chisquare : list Z -> list Q -> exc (Q * R))
         (stats_chi2_contingency : list (list Z) -> exc (Q * R * Z))
         (mouse_pos : Z * Z) (g g' : Globals) (ev : Event),
    active_cell_ok g ->
    handle_event stats_chisquare stats_chi2_contingency mouse_pos g ev
    = ok g' ->
    active_cell_ok g'.
Proof.
  split; [exact initial_globals_active|].
  intros lib1 lib2 mp g g' ev H E.
  exact (handle_event_active lib1 lib2 mp g g' ev E H).
Qed.

Lemma active_cell_is_a_marked_cell_witness :
  active_cell_ok editing_state /\
  exists g',
    handle_event chisquare_3 chi2_contingency_2x3 (0, 0)%Z editing_state
                 (KEYDOWN (K_0 + 4)) = ok g' /\
    active_cell_ok g'.
Proof.
  assert (H : active_cell_ok editing_state).
  { unfold active_cell_ok. vm_compute. eexists. split; reflexivity. }
  split; [exact H|].
  assert (E : handle_event chisquare_3 chi2_contingency_2x3 (0, 0)%Z
                editing_state (KEYDOWN (K_0 + 4))
              = ok (set_has_calculated
                      (set_cells editing_state
                         (update_cell (independence_cells editing_state)
                            (O, O) (fun c => set_cvalue c 4%Z))
                         (Some (O, O))) false))
    by (vm_compute; reflexivity).
  eexists. split; [exact E|].
  exact (proj2 active_cell_is_a_marked_cell chisquare_3
               chi2_contingency_2x3 (0, 0)%Z editing_state _
               (KEYDOWN (K_0 + 4)) H E).
Defined.

End Chi2ActiveCell.

(** ** The event loops: tutorial pages and window sizes *)

Module Navigation.

Import PyFacts SliderFacts.

(** How an event can move the tutorial page: not at all, back to the
    first page, one back from a later page, one on from a page before the
    last. *)
Lemma chi2_tutorial_step
    (lib1 : list Z -> list Q -> exc (Q * R))
    (lib2 : list (list Z) -> exc (Q * R * Z))
    (mp : Z * Z) (g g' : Chi2GoodnessFit.Globals) (ev : Event) :
  Chi2GoodnessFit.handle_event lib1 lib2 mp g ev = ok g' ->
  let p := Chi2GoodnessFit.tutorial_page g in
  let p' := Chi2GoodnessFit.tutorial_page g' in
  (p' = p \/ p' = 0 \/ (0 < p /\ p' = p - 1) \/
   (p < Chi2GoodnessFit.num_tutorial_pages - 1 /\ p' = p + 1))%Z.
Proof.
  intros E. cbv zeta.
  assert (Hfs : forall f g0 r,
             Chi2GoodnessFit.for_sliders f g0 = ok r ->
             Chi2GoodnessFit.tutorial_page
               (if snd r then Chi2GoodnessFit.set_has_calculated (fst r) false
                else fst r)
             = Chi2GoodnessFit.tutorial_page g0).
  { intros f g0 r H. unfold Chi2GoodnessFit.for_sliders in H.
    apply Chi2LoopFacts.bind_ok in H. destruct H as (obs & _ & H).
    apply Chi2LoopFacts.bind_ok in H. destruct H as (exp & _ & H).
    apply Chi2LoopFacts.ok_inj in H. subst r. cbn [fst snd].
    destruct (existsb snd obs || existsb snd exp); reflexivity. }
  assert (Hrg : forall g0 g1,
             Chi2GoodnessFit.reset_goodness_of_fit g0 = ok g1 ->
             Chi2GoodnessFit.tutorial_page g1
             = Chi2GoodnessFit.tutorial_page g0).
  { intros g0 g1 H. unfold Chi2GoodnessFit.reset_goodness_of_fit in H.
    apply Chi2LoopFacts.bind_ok in H. destruct H as (obs & _ & H).
    apply Chi2LoopFacts.bind_ok in H. destruct H as (exp & _ & H).
    apply Chi2LoopFacts.ok_inj in H. subst g1. reflexivity. }
  assert (Hri : forall g0 g1,
             Chi2GoodnessFit.reset_independence g0 = ok g1 ->
             Chi2GoodnessFit.tutorial_page g1
             = Chi2GoodnessFit.tutorial_page g0).
  { intros g0 g1 H. unfold Chi2GoodnessFit.reset_independence in H.
    apply Chi2LoopFacts.bind_ok in H. destruct H as (cells & _ & H).
    apply Chi2LoopFacts.ok_inj in H. subst g1. reflexivity. }
  assert (Hcg : forall g0,
             Chi2GoodnessFit.tutorial_page
               (Chi2GoodnessFit.calculate_goodness_of_fit lib1 g0)
             = Chi2GoodnessFit.tutorial_page g0).
  { intros g0.
    unfold Chi2GoodnessFit.calculate_goodness_of_fit,
      Chi2GoodnessFit.gof_try.
    destruct (zsum (Chi2GoodnessFit.gof_observed_counts g0) =? 0)%Z;
      [reflexivity|].
    destruct (Chi2GoodnessFit.gof_expected_counts g0
                (zsum (Chi2GoodnessFit.gof_observed_counts g0)))
      as [e|expected]; [reflexivity|].
    destruct (lib1 (Chi2GoodnessFit.gof_observed_counts g0) expected)
      as [e|[stat p]]; reflexivity. }
  assert (Hci : forall g0,
             Chi2GoodnessFit.tutorial_page
               (Chi2GoodnessFit.calculate_independence lib2 g0)
             = Chi2GoodnessFit.tutorial_page g0).
  { intros g0.
    unfold Chi2GoodnessFit.calculate_independence,
      Chi2GoodnessFit.independence_try.
    destruct (Chi2GoodnessFit.np_shape2
                (Chi2GoodnessFit.independence_observed g0))
      as [e|[nrows ncols]]; [reflexivity|].
    destruct (Chi2GoodnessFit.any_zero _ || Chi2GoodnessFit.any_zero _);
      [reflexivity|].
    destruct (lib2 (Chi2GoodnessFit.independence_observed g0))
      as [e|[[stat p] d]]; reflexivity. }
  assert (Hlay : forall g0,
             Chi2GoodnessFit.tutorial_page
               (Chi2GoodnessFit.calculate_layout g0)
             = Chi2GoodnessFit.tutorial_page g0).
  { intros g0. unfold Chi2GoodnessFit.calculate_layout.
    destruct (Chi2GoodnessFit.state g0); reflexivity. }
  assert (Hclick : forall g0,
             Chi2GoodnessFit.tutorial_page
               (Chi2GoodnessFit.click_cells mp g0)
             = Chi2GoodnessFit.tutorial_page g0).
  { intros g0. unfold Chi2GoodnessFit.click_cells.
    destruct (Chi2GoodnessFit.hit_cells mp _); reflexivity. }
  destruct ev as [|w h|key|button| |rel_y|];
    cbn [Chi2GoodnessFit.handle_event] in E.
  - apply Chi2LoopFacts.ok_inj in E. subst g'. left. reflexivity.
  - apply Chi2LoopFacts.ok_inj in E. subst g'. left.
    unfold Chi2GoodnessFit.on_videoresize. cbv zeta.
    change (Chi2GoodnessFit.tutorial_page
              (Chi2GoodnessFit.calculate_layout
                 (Chi2GoodnessFit.set_window g
                    (Z.max (Z.max w 800) Chi2GoodnessFit.MIN_WIDTH)
                    (Z.max h Chi2GoodnessFit.calculate_min_height)))
            = Chi2GoodnessFit.tutorial_page g).
    rewrite Hlay. reflexivity.
  - left. revert E. unfold Chi2GoodnessFit.on_keydown.
    set (g1 := if (key =? K_ESCAPE)%Z then _ else _).
    assert (H1 : Chi2GoodnessFit.tutorial_page g1
                 = Chi2GoodnessFit.tutorial_page g).
    { unfold g1. destruct (key =? K_ESCAPE)%Z; [|reflexivity].
      destruct (Chi2GoodnessFit.Page_eqb _ _); reflexivity. }
    clearbody g1. intros E. rewrite <- H1.
    destruct (Chi2GoodnessFit.active_cell g1) as [ij|];
      [|apply Chi2LoopFacts.ok_inj in E; subst g'; reflexivity].
    destruct (Chi2GoodnessFit.Page_eqb _ _);
      [|apply Chi2LoopFacts.ok_inj in E; subst g'; reflexivity].
    destruct (Chi2GoodnessFit.lookup_cell _ ij) as [cell|];
      [|apply Chi2LoopFacts.ok_inj in E; subst g'; reflexivity].
    destruct (key =? K_BACKSPACE)%Z.
    + apply Chi2LoopFacts.bind_ok in E. destruct E as (v & _ & E).
      apply Chi2LoopFacts.ok_inj in E. subst g'. reflexivity.
    + destruct ((K_0 <=? key) && (key <=? K_9))%Z;
        apply Chi2LoopFacts.ok_inj in E; subst g'; reflexivity.
  - destruct (button =? 1)%Z;
      [|apply Chi2LoopFacts.ok_inj in E; subst g'; left; reflexivity].
    unfold Chi2GoodnessFit.on_mousebuttondown in E.
    destruct (Chi2GoodnessFit.state g).
    + cbv beta iota zeta delta [Chi2GoodnessFit.draw_menu] in E.
      repeat break_if_in E.
      * apply Hrg in E. left. rewrite E. reflexivity.
      * apply Hri in E. left. rewrite E. reflexivity.
      * apply Chi2LoopFacts.ok_inj in E. subst g'. right. left.
        reflexivity.
      * apply Chi2LoopFacts.ok_inj in E. subst g'. left. reflexivity.
    + cbv beta iota zeta delta [Chi2GoodnessFit.draw_test_page] in E.
      set (g1 := if collidepoint _ mp then _ else g) in E.
      assert (H1 : Chi2GoodnessFit.tutorial_page g1
                   = Chi2GoodnessFit.tutorial_page g).
      { unfold g1. destruct (collidepoint _ mp); reflexivity. }
      clearbody g1.
      apply Chi2LoopFacts.bind_ok in E. destruct E as (g2 & E2 & E).
      apply Chi2LoopFacts.bind_ok in E. destruct E as (r & Er & E).
      apply Chi2LoopFacts.ok_inj in E. subst g'.
      left. rewrite (Hfs _ _ _ Er), <- H1.
      repeat break_if_in E2;
        try (apply Chi2LoopFacts.ok_inj in E2; subst g2;
             first [reflexivity | apply Hcg]).
      apply Hrg, E2.
    + cbv beta iota zeta delta [Chi2GoodnessFit.draw_test_page] in E.
      set (g1 := if collidepoint _ mp then _ else g) in E.
      assert (H1 : Chi2GoodnessFit.tutorial_page g1
                   = Chi2GoodnessFit.tutorial_page g).
      { unfold g1. destruct (collidepoint _ mp); reflexivity. }
      clearbody g1.
      apply Chi2LoopFacts.bind_ok in E. destruct E as (g2 & E2 & E).
      apply Chi2LoopFacts.ok_inj in E. subst g'.
      left. rewrite Hclick.
      change (Chi2GoodnessFit.tutorial_page g2
              = Chi2GoodnessFit.tutorial_page g).
      rewrite <- H1.
      repeat break_if_in E2;
        try (apply Chi2LoopFacts.ok_inj in E2; subst g2;
             first [reflexivity | apply Hci]).
      apply Hri, E2.
    + cbv beta iota zeta delta [Chi2GoodnessFit.draw_tutorial] in E.
      repeat break_if_in E; apply Chi2LoopFacts.ok_inj in E; subst g';
        cbn [Chi2GoodnessFit.tutorial_page
             Chi2GoodnessFit.set_tutorial_page Chi2GoodnessFit.set_state];
        try (left; reflexivity).
      * right. right. left.
        match goal with
        | H : _ && _ = true |- _ =>
            apply andb_true_iff in H; destruct H as [_ H];
            apply Z.ltb_lt in H
        end. split; [assumption | reflexivity].
      * right. right. right.
        match goal with
        | H : (_ <? _)%Z = true |- _ => apply Z.ltb_lt in H
        end. split; [assumption | reflexivity].
  - apply Chi2LoopFacts.ok_inj in E. subst g'. left. reflexivity.
  - unfold Chi2GoodnessFit.on_mousemotion in E.
    apply Chi2LoopFacts.bind_ok in E. destruct E as (r & Er & E).
    apply Chi2LoopFacts.ok_inj in E. subst g'. left. apply (Hfs _ _ _ Er).
  - apply Chi2LoopFacts.ok_inj in E. subst g'. left. reflexivity.
Qed.

Lemma ttest_tutorial_step
    (rng : nat -> Q -> Q -> Z -> list Q)
    (lib : list Q -> list Q -> exc (option R * option R))
    (mp : Z * Z) (g g' : TTest.Globals) (ev : Event) :
  TTest.handle_event rng lib mp g ev = ok g' ->
  let p := TTest.tutorial_page g in
  let p' := TTest.tutorial_page g' in
  (p' = p \/ p' = 0 \/ (0 < p /\ p' = p - 1) \/
   (p < TTest.num_tutorial_pages - 1 /\ p' = p + 1))%Z.
Proof.
  intros E. cbv zeta.
  assert (Hfs : forall f g0 g1,
             TTest.for_sliders f g0 = ok g1 ->
             TTest.tutorial_page g1 = TTest.tutorial_page g0).
  { intros f g0 g1 H. unfold TTest.for_sliders in H.
    repeat (apply Chi2LoopFacts.bind_ok in H; destruct H as (? & _ & H)).
    apply Chi2LoopFacts.ok_inj in H. subst g1. reflexivity. }
  assert (Hct : forall g0,
             TTest.tutorial_page (TTest.calculate_ttest lib g0)
             = TTest.tutorial_page g0).
  { intros g0. unfold TTest.calculate_ttest.
    destruct (_ || _); [reflexivity|].
    destruct (lib (TTest.group1 g0) (TTest.group2 g0))
      as [e|[[t|] [p|]]]; reflexivity. }
  destruct ev as [|w h|key|button| |rel_y|]; cbn [TTest.handle_event] in E.
  - apply Chi2LoopFacts.ok_inj in E. subst g'. left. reflexivity.
  - apply Chi2LoopFacts.ok_inj in E. subst g'. left. reflexivity.
  - apply Chi2LoopFacts.ok_inj in E. subst g'. left.
    unfold TTest.on_keydown. repeat break_if; reflexivity.
  - destruct (button =? 1)%Z;
      [|apply Chi2LoopFacts.ok_inj in E; subst g'; left; reflexivity].
    unfold TTest.on_mousebuttondown in E.
    destruct (TTest.state g).
    + cbv beta iota zeta delta [TTest.draw_menu] in E.
      repeat break_if_in E; apply Chi2LoopFacts.ok_inj in E; subst g';
        [left | right; left | left]; reflexivity.
    + cbv beta iota zeta delta [TTest.draw_game] in E.
      apply Hfs in E. left. rewrite E.
      repeat break_if; try reflexivity; rewrite Hct;
        repeat break_if; reflexivity.
    + cbv beta iota zeta delta [TTest.tutorial_buttons] in E.
      repeat break_if_in E; apply Chi2LoopFacts.ok_inj in E; subst g';
        cbn [TTest.tutorial_page TTest.set_tutorial_page TTest.set_state];
        try (left; reflexivity).
      * right. right. left.
        match goal with
        | H : _ && _ = true |- _ =>
            apply andb_true_iff in H; destruct H as [_ H];
            apply Z.ltb_lt in H
        end. split; [assumption | reflexivity].
      * right. right. right.
        match goal with
        | H : (_ <? _)%Z = true |- _ => apply Z.ltb_lt in H
        end. split; [assumption | reflexivity].
    + apply Chi2LoopFacts.ok_inj in E. subst g'. left. reflexivity.
  - apply Chi2LoopFacts.ok_inj in E. subst g'. left.
    unfold TTest.on_mousebuttonup, TTest.release.
    repeat (break_if;
            cbn [TTest.slider_mean1 TTest.slider_mean2 TTest.slider_std1
                 TTest.slider_std2 TTest.slider_sample TTest.set_sliders
                 TTest.reset_data TTest.set_has_calculated
                 TTest.set_groups]);
      reflexivity.
  - unfold TTest.on_mousemotion in E. apply Hfs in E. left. exact E.
  - apply Chi2LoopFacts.ok_inj in E. subst g'. left. reflexivity.
Qed.

Lemma chisq_tutorial_step (lib : Q -> Z -> R)
    (mp : Z * Z) (g g' : ChiSquare.Globals) (ev : Event) :
  ChiSquare.handle_event lib mp g ev = ok g' ->
  let p := ChiSquare.tutorial_page g in
  let p' := ChiSquare.tutorial_page g' in
  (p' = p \/ p' = 0 \/ (0 < p /\ p' = p - 1) \/
   (p < ChiSquare.num_tutorial_pages - 1 /\ p' = p + 1))%Z.
Proof.
  intros E. cbv zeta.
  assert (Hfs : forall f g0 g1,
             ChiSquare.for_sliders f g0 = ok g1 ->
             ChiSquare.tutorial_page g1 = ChiSquare.tutorial_page g0).
  { intros f g0 g1 H. unfold ChiSquare.for_sliders in H.
    repeat (apply Chi2LoopFacts.bind_ok in H; destruct H as (? & _ & H)).
    apply Chi2LoopFacts.ok_inj in H. subst g1. reflexivity. }
  destruct ev as [|w h|key|button| |rel_y|];
    cbn [ChiSquare.handle_event] in E.
  - apply Chi2LoopFacts.ok_inj in E. subst g'. left. reflexivity.
  - apply Chi2LoopFacts.ok_inj in E. subst g'. left. reflexivity.
  - apply Chi2LoopFacts.ok_inj in E. subst g'. left.
    unfold ChiSquare.on_keydown. repeat break_if; reflexivity.
  - destruct (button =? 1)%Z;
      [|apply Chi2LoopFacts.ok_inj in E; subst g'; left; reflexivity].
    unfold ChiSquare.on_mousebuttondown in E.
    destruct (ChiSquare.state g).
    + cbv beta iota zeta delta [ChiSquare.draw_menu] in E.
      repeat break_if_in E; apply Chi2LoopFacts.ok_inj in E; subst g';
        [left | right; left | left]; reflexivity.
    + cbv beta iota zeta delta [ChiSquare.draw_game] in E.
      apply Hfs in E. left. rewrite E.
      repeat break_if; reflexivity.
    + cbv beta iota zeta delta [ChiSquare.tutorial_buttons] in E.
      repeat break_if_in E; apply Chi2LoopFacts.ok_inj in E; subst g';
        cbn [ChiSquare.tutorial_page ChiSquare.set_tutorial_page
             ChiSquare.set_state];
        try (left; reflexivity).
      * right. right. left.
        match goal with
        | H : _ && _ = true |- _ =>
            apply andb_true_iff in H; destruct H as [_ H];
            apply Z.ltb_lt in H
        end. split; [assumption | reflexivity].
      * right. right. right.
        match goal with
        | H : (_ <? _)%Z = true |- _ => apply Z.ltb_lt in H
        end. split; [assumption | reflexivity].
  - apply Chi2LoopFacts.ok_inj in E. subst g'. left. reflexivity.
  - apply Hfs in E. left. exact E.
  - apply Chi2LoopFacts.ok_inj in E. subst g'. left. reflexivity.
Qed.

(** X6: the tutorial page never leaves its range.  In each of the three
    programs with a tutorial the page starts at 0, and every event the
    loop gets through leaves it between 0 and the last page (3 in
    [Chi_2_Goodness_Fit.py], 4 in [t_test.py] and [chi_square.py]). *)
Theorem tutorial_page_stays_in_range :
  (Chi2GoodnessFit.tutorial_page Chi2GoodnessFit.initial_globals = 0%Z /\
   forall lib1 lib2 mouse_pos g g' ev,
     (0 <= Chi2GoodnessFit.tutorial_page g
      < Chi2GoodnessFit.num_tutorial_pages)%Z ->
     Chi2GoodnessFit.handle_event lib1 lib2 mouse_pos g ev = ok g' ->
     (0 <= Chi2GoodnessFit.tutorial_page g'
      < Chi2GoodnessFit.num_tutorial_pages)%Z) /\
  ((forall rng, TTest.tutorial_page (TTest.initial_globals rng) = 0%Z) /\
   forall rng lib mouse_pos g g' ev,
     (0 <= TTest.tutorial_page g < TTest.num_tutorial_pages)%Z ->
     TTest.handle_event rng lib mouse_pos g ev = ok g' ->
     (0 <= TTest.tutorial_page g' < TTest.num_tutorial_pages)%Z) /\
  ((forall lib,
       ChiSquare.tutorial_page (ChiSquare.initial_globals lib) = 0%Z) /\
   forall lib mouse_pos g g' ev,
     (0 <= ChiSquare.tutorial_page g < ChiSquare.num_tutorial_pages)%Z ->
     ChiSquare.handle_event lib mouse_pos g ev = ok g' ->
     (0 <= ChiSquare.tutorial_page g' < ChiSquare.num_tutorial_pages)%Z).
Proof.
  split; [|split].
  - split; [reflexivity|].
    intros lib1 lib2 mp g g' ev H E.
    pose proof (chi2_tutorial_step lib1 lib2 mp g g' ev E) as S.
    cbv zeta in S. unfold Chi2GoodnessFit.num_tutorial_pages in *. lia.
  - split; [reflexivity|].
    intros rng lib mp g g' ev H E.
    pose proof (ttest_tutorial_step rng lib mp g g' ev E) as S.
    cbv zeta in S. unfold TTest.num_tutorial_pages in *. lia.
  - split; [reflexivity|].
    intros lib mp g g' ev H E.
    pose proof (chisq_tutorial_step lib mp g g' ev E) as S.
    cbv zeta in S. unfold ChiSquare.num_tutorial_pages in *. lia.
Qed.

Lemma tutorial_page_stays_in_range_witness :
  let g :=
    Chi2GoodnessFit.set_tutorial_page
      (Chi2GoodnessFit.set_state Chi2GoodnessFit.initial_globals
                                 Chi2GoodnessFit.TUTORIAL) 3 in
  exists g',
    Chi2GoodnessFit.handle_event Chi2GoodnessFit.chisquare_3
      Chi2GoodnessFit.chi2_contingency_2x3 (1000, 720)%Z g
      (MOUSEBUTTONDOWN 1) = ok g' /\
    (0 <= Chi2GoodnessFit.tutorial_page g'
     < Chi2GoodnessFit.num_tutorial_pages)%Z.
Proof.
  cbv zeta.
  set (g := Chi2GoodnessFit.set_tutorial_page
              (Chi2GoodnessFit.set_state Chi2GoodnessFit.initial_globals
                                         Chi2GoodnessFit.TUTORIAL) 3).
  assert (E : Chi2GoodnessFit.handle_event Chi2GoodnessFit.chisquare_3
                Chi2GoodnessFit.chi2_contingency_2x3 (1000, 720)%Z g
                (MOUSEBUTTONDOWN 1)
              = ok (Chi2GoodnessFit.set_state g Chi2GoodnessFit.MENU))
    by (vm_compute; reflexivity).
  exists (Chi2GoodnessFit.set_state g Chi2GoodnessFit.MENU).
  split; [exact E|].
  refine (proj2 (proj1 tutorial_page_stays_in_range) _ _ _ g _ _ _ E).
  vm_compute. split; [intros H; discriminate H | reflexivity].
Defined.

(** X7: what a resize keeps and what it clears.  The window becomes the
    requested size raised to the program's minimum (1000 x 855,
    1000 x 740, 1000 x 725 and 1000 x 700); no slider value, no table or
    data value, no stored result, no result flag and no page changes.
    What is cleared: in [Chi_2_Goodness_Fit.py], [t_test.py] and
    [chi_square.py] no slider is being dragged afterwards, and in
    [Chi_2_Goodness_Fit.py] no cell is marked active and there is no
    active cell; [one_sample_ttest.py] keeps its two drag flags and its
    selected point. *)
Theorem resize_keeps_values_and_results :
  (forall (g : Chi2GoodnessFit.Globals) (w h : Z),
      let g' := Chi2GoodnessFit.on_videoresize g w h in
      Chi2GoodnessFit.WIDTH g' = Z.max w 1000 /\
      Chi2GoodnessFit.HEIGHT g' = Z.max h 855 /\
      Chi2GoodnessFit.inputs g' = Chi2GoodnessFit.inputs g /\
      Chi2GoodnessFit.has_calculated g' = Chi2GoodnessFit.has_calculated g /\
      Chi2GoodnessFit.chi2_stat g' = Chi2GoodnessFit.chi2_stat g /\
      Chi2GoodnessFit.p_value g' = Chi2GoodnessFit.p_value g /\
      Chi2GoodnessFit.df g' = Chi2GoodnessFit.df g /\
      Chi2GoodnessFit.state g' = Chi2GoodnessFit.state g /\
      Forall (fun s => dragging s = false) (Chi2GoodnessFit.sliders g') /\
      Forall (Forall (fun c => Chi2GoodnessFit.active c = false))
             (Chi2GoodnessFit.independence_cells g') /\
      Chi2GoodnessFit.active_cell g' = None) /\
  (forall (g : TTest.Globals) (w h : Z),
      let g' := TTest.on_videoresize g w h in
      TTest.WIDTH g' = Z.max w 1000 /\
      TTest.HEIGHT g' = Z.max h 740 /\
      map value (TTest.sliders g') = map value (TTest.sliders g) /\
      TTest.group1 g' = TTest.group1 g /\
      TTest.group2 g' = TTest.group2 g /\
      TTest.has_calculated g' = TTest.has_calculated g /\
      TTest.t_stat g' = TTest.t_stat g /\
      TTest.p_value g' = TTest.p_value g /\
      TTest.state g' = TTest.state g /\
      Forall (fun s => dragging s = false) (TTest.sliders g')) /\
  (forall (g : ChiSquare.Globals) (w h : Z),
      let g' := ChiSquare.on_videoresize g w h in
      ChiSquare.WIDTH g' = Z.max w 1000 /\
      ChiSquare.HEIGHT g' = Z.max h 725 /\
      map value (ChiSquare.sliders g') = map value (ChiSquare.sliders g) /\
      ChiSquare.degrees_of_freedom g' = ChiSquare.degrees_of_freedom g /\
      ChiSquare.alpha_level g' = ChiSquare.alpha_level g /\
      ChiSquare.max_x_value g' = ChiSquare.max_x_value g /\
      ChiSquare.num_distributions g' = ChiSquare.num_distributions g /\
      ChiSquare.critical_value g' = ChiSquare.critical_value g /\
      ChiSquare.has_updated g' = ChiSquare.has_updated g /\
      ChiSquare.state g' = ChiSquare.state g /\
      Forall (fun s => dragging s = false) (ChiSquare.sliders g')) /\
  (forall (g : OneSampleTTest.Globals) (w h : Z),
      let g' := OneSampleTTest.on_videoresize g w h in
      OneSampleTTest.WIDTH g' = Z.max w 1000 /\
      OneSampleTTest.HEIGHT g' = Z.max h 700 /\
      OneSampleTTest.data g' = OneSampleTTest.data g /\
      OneSampleTTest.hypothesized_mean g'
      = OneSampleTTest.hypothesized_mean g /\
      OneSampleTTest.selected_point g' = OneSampleTTest.selected_point g /\
      OneSampleTTest.dragging g' = OneSampleTTest.dragging g /\
      OneSampleTTest.sdragging (OneSampleTTest.test_value_slider g')
      = OneSampleTTest.sdragging (OneSampleTTest.test_value_slider g)).
Proof.
  split; [|split; [|split]].
  - intros g w h g'.
    assert (Hw : Chi2GoodnessFit.WIDTH g'
                 = Z.max (Z.max w 800) Chi2GoodnessFit.MIN_WIDTH).
    { unfold g', Chi2GoodnessFit.on_videoresize,
        Chi2GoodnessFit.calculate_layout.
      cbv zeta. cbn [Chi2GoodnessFit.state Chi2GoodnessFit.set_window].
      destruct (Chi2GoodnessFit.state g); reflexivity. }
    assert (Hh : Chi2GoodnessFit.HEIGHT g'
                 = Z.max h Chi2GoodnessFit.calculate_min_height).
    { unfold g', Chi2GoodnessFit.on_videoresize,
        Chi2GoodnessFit.calculate_layout.
      cbv zeta. cbn [Chi2GoodnessFit.state Chi2GoodnessFit.set_window].
      destruct (Chi2GoodnessFit.state g); reflexivity. }
    split; [rewrite Hw; unfold Chi2GoodnessFit.MIN_WIDTH; lia|].
    split; [rewrite Hh; reflexivity|].
    unfold g', Chi2GoodnessFit.on_videoresize. cbv zeta.
    set (g1 := Chi2GoodnessFit.set_window g _ _).
    destruct (Chi2LoopFacts.calculate_layout_inputs g1) as [Hi Hf].
    split.
    { rewrite (proj1 (Chi2LoopFacts.clear_active_inputs _)),
        (proj1 (Chi2LoopFacts.clear_dragging_inputs _)), Hi.
      reflexivity. }
    split.
    { rewrite (proj2 (Chi2LoopFacts.clear_active_inputs _)),
        (proj2 (Chi2LoopFacts.clear_dragging_inputs _)), Hf.
      reflexivity. }
    assert (Hrest :
              Chi2GoodnessFit.chi2_stat
                (Chi2GoodnessFit.calculate_layout g1)
              = Chi2GoodnessFit.chi2_stat g /\
              Chi2GoodnessFit.p_value (Chi2GoodnessFit.calculate_layout g1)
              = Chi2GoodnessFit.p_value g /\
              Chi2GoodnessFit.df (Chi2GoodnessFit.calculate_layout g1)
              = Chi2GoodnessFit.df g /\
              Chi2GoodnessFit.state (Chi2GoodnessFit.calculate_layout g1)
              = Chi2GoodnessFit.state g).
    { unfold Chi2GoodnessFit.calculate_layout. cbv zeta.
      cbn [Chi2GoodnessFit.state Chi2GoodnessFit.set_window g1].
      destruct (Chi2GoodnessFit.state g) eqn:Es; repeat split;
        try reflexivity; exact Es. }
    destruct Hrest as (R1 & R2 & R3 & R4).
    split; [exact R1|]. split; [exact R2|]. split; [exact R3|].
    split; [exact R4|].
    split; [exact (Chi2LoopFacts.chi2_on_videoresize_releases g w h)|].
    apply Chi2ActiveCell.clear_active_unmarked.
  - intros g w h g'.
    split; [unfold g', TTest.on_videoresize; cbv zeta;
            cbn [TTest.WIDTH TTest.clear_dragging TTest.calculate_layout
                 TTest.set_sliders TTest.set_layout TTest.set_window];
            unfold TTest.MIN_WIDTH, TTest.LABEL_COLUMN_WIDTH,
              TTest.SLIDER_MIN_WIDTH, TTest.VALUE_COLUMN_WIDTH,
              TTest.PANEL_MARGIN, TTest.H_MARGIN; lia|].
    repeat (split; [reflexivity|]).
    exact (TTestFacts.ttest_on_videoresize_releases g w h).
  - intros g w h g'.
    split; [unfold g', ChiSquare.on_videoresize; cbv zeta;
            cbn [ChiSquare.WIDTH ChiSquare.clear_dragging
                 ChiSquare.calculate_layout ChiSquare.set_sliders
                 ChiSquare.set_layout ChiSquare.set_window];
            unfold ChiSquare.MIN_WIDTH, ChiSquare.LABEL_COLUMN_WIDTH,
              ChiSquare.SLIDER_MIN_WIDTH, ChiSquare.VALUE_COLUMN_WIDTH,
              ChiSquare.PANEL_MARGIN, ChiSquare.H_MARGIN; lia|].
    repeat (split; [reflexivity|]).
    exact (ChiSquareFacts.chisq_on_videoresize_releases g w h).
  - intros g w h g'. repeat split.
Qed.

End Navigation.

(** ** [one_sample_ttest.py]: dragging the data points *)

Module OneSampleLoop.

Import OneSampleTTest PyFacts OneSampleFacts.

Lemma nth_error_update_nth_same {A : Type} (f : A -> A) (xs : list A) :
  forall n x, nth_error xs n = Some x ->
              nth_error (update_nth n f xs) n = Some (f x).
Proof.
  induction xs as [|y xs IH]; intros [|n] x H; simpl in *;
    try discriminate; auto. congruence.
Qed.

Lemma nth_error_update_nth_diff {A : Type} (f : A -> A) (xs : list A) :
  forall n m, n <> m -> nth_error (update_nth n f xs) m = nth_error xs m.
Proof.
  induction xs as [|x xs IH]; intros [|n] [|m] H; simpl; auto.
  congruence.
Qed.

Lemma on_mousemotion_data (mouse_pos : Z * Z) (rel_y : Z) (g g' : Globals)
    (i : nat) (v : Z) :
  on_mousemotion mouse_pos rel_y g = ok g' ->
  dragging g = true -> selected_point g = Some i ->
  nth_error (data g) i = Some v ->
  data g' = update_nth i (fun _ => Z.max 0 (v - rel_y)) (data g).
Proof.
  unfold on_mousemotion. intros E Hdr Hs Hn. revert E.
  rewrite Hdr, Hs. unfold py_index. rewrite Hn. cbn [bind ok].
  cbv zeta. intros E.
  break_if_in E.
  - apply Chi2LoopFacts.bind_ok in E. destruct E as (mu & _ & E).
    apply Chi2LoopFacts.ok_inj in E. subst g'. reflexivity.
  - apply Chi2LoopFacts.ok_inj in E. subst g'. reflexivity.
Qed.

(** The data after an event: the same, the original data, or the data
    with the selected point moved. *)
Lemma data_step (mouse_pos : Z * Z) (g g' : Globals) (ev : Event) :
  handle_event mouse_pos g ev = ok g' ->
  data g' = data g \/ data g' = original_data \/
  exists i v rel_y,
    ev = MOUSEMOTION rel_y /\ dragging g = true /\
    selected_point g = Some i /\ nth_error (data g) i = Some v /\
    data g' = update_nth i (fun _ => Z.max 0 (v - rel_y)) (data g).
Proof.
  destruct ev as [|w h|key|button| |rel_y|]; cbn [handle_event]; intros E;
    try (apply Chi2LoopFacts.ok_inj in E; subst g'; left; reflexivity).
  - (* MOUSEBUTTONDOWN *)
    unfold on_mousebuttondown in E. cbv zeta in E.
    set (g1 := if collidepoint (reset_button g) mouse_pos then _ else _)
      in E.
    assert (H1 : data g1 = data g \/ data g1 = original_data).
    { unfold g1. repeat break_if; auto. }
    clearbody g1.
    apply Chi2LoopFacts.bind_ok in E. destruct E as (g2 & E2 & E).
    assert (H2 : data g2 = data g1).
    { break_if_in E2.
      - apply Chi2LoopFacts.bind_ok in E2. destruct E2 as (mu & _ & E2).
        apply Chi2LoopFacts.ok_inj in E2. subst g2. reflexivity.
      - apply Chi2LoopFacts.ok_inj in E2. subst g2. reflexivity. }
    apply Chi2LoopFacts.bind_ok in E. destruct E as (hit & _ & E).
    assert (H3 : data g' = data g2).
    { destruct hit as [idx|].
      - break_if_in E; apply Chi2LoopFacts.ok_inj in E; subst g';
          reflexivity.
      - apply Chi2LoopFacts.ok_inj in E. subst g'. reflexivity. }
    rewrite H3, H2. destruct H1; auto.
  - (* MOUSEMOTION *)
    unfold on_mousemotion in E.
    apply Chi2LoopFacts.bind_ok in E. destruct E as (g1 & E1 & E).
    assert (H2 : data g' = data g1).
    { cbv zeta in E. break_if_in E.
      - apply Chi2LoopFacts.bind_ok in E. destruct E as (mu & _ & E).
        apply Chi2LoopFacts.ok_inj in E. subst g'. reflexivity.
      - apply Chi2LoopFacts.ok_inj in E. subst g'. reflexivity. }
    rewrite H2.
    destruct (dragging g) eqn:Ed;
      [|apply Chi2LoopFacts.ok_inj in E1; subst g1; left; reflexivity].
    destruct (selected_point g) as [i|] eqn:Es;
      [|apply Chi2LoopFacts.ok_inj in E1; subst g1; left; reflexivity].
    apply Chi2LoopFacts.bind_ok in E1. destruct E1 as (v & Ev & E1).
    apply Chi2LoopFacts.ok_inj in E1. subst g1.
    right. right. exists i, v, rel_y.
    unfold py_index in Ev.
    destruct (nth_error (data g) i) as [v'|]; [|discriminate Ev].
    apply Chi2LoopFacts.ok_inj in Ev. subst v'.
    repeat split; reflexivity.
Qed.

(** X12: the data of [one_sample_ttest.py] are only ever edited one point
    at a time and never go below 0.  They start non-negative and every
    event keeps them so; and with a point selected and held, a pointer
    move by [rel_y] puts [max(0, value - rel_y)] at that point and leaves
    every other point alone. *)
Theorem data_points_stay_non_negative :
  Forall (fun v => (0 <= v)%Z) (data initial_globals) /\
  (forall (mouse_pos : Z * Z) (g g' : Globals) (ev : Event),
      Forall (fun v => (0 <= v)%Z) (data g) ->
      handle_event mouse_pos g ev = ok g' ->
      Forall (fun v => (0 <= v)%Z) (data g')) /\
  (forall (mouse_pos : Z * Z) (g : Globals) (rel_y : Z) (i : nat) (v : Z),
      Inv g ->
      dragging g = true -> selected_point g = Some i ->
      nth_error (data g) i = Some v ->
      exists g',
        handle_event mouse_pos g (MOUSEMOTION rel_y) = ok g' /\
        nth_error (data g') i = Some (Z.max 0 (v - rel_y)) /\
        (forall j, j <> i -> nth_error (data g') j = nth_error (data g) j)).
Proof.
  split; [|split].
  - vm_compute. repeat constructor; intros H; discriminate H.
  - intros mp g g' ev H E.
    destruct (data_step mp g g' ev E)
      as [Hd|[Hd|(i & v & rel & _ & _ & _ & _ & Hd)]]; rewrite Hd.
    + exact H.
    + vm_compute. repeat constructor; intros H0; discriminate H0.
    + apply CellEditing.Forall_update_nth; [exact H | intros; lia].
  - intros mp g rel i v HI Hdr Hs Hn.
    destruct (one_sample_handle_event_Inv mp g (MOUSEMOTION rel) HI)
      as (g' & E & _).
    exists g'. split; [exact E|].
    cbn [handle_event] in E.
    rewrite (on_mousemotion_data mp rel g g' i v E Hdr Hs Hn). split.
    + rewrite (nth_error_update_nth_same
                 (fun _ => Z.max 0 (v - rel)) _ _ _ Hn).
      reflexivity.
    + intros j Hj. apply nth_error_update_nth_diff. congruence.
Qed.

Lemma data_points_stay_non_negative_witness :
  let g := set_selection initial_globals (Some 2%nat) true in
  exists g',
    handle_event (0, 0)%Z g (MOUSEMOTION 60%Z) = ok g' /\
    nth_error (data g') 2%nat = Some 0%Z /\
    nth_error (data g') 3%nat = Some 73%Z.
Proof.
  cbv zeta.
  destruct (proj2 (proj2 data_points_stay_non_negative) (0, 0)%Z
              (set_selection initial_globals (Some 2%nat) true) 60%Z
              2%nat 50%Z)
    as (g' & E & H2 & Ho).
  - unfold Inv. cbv zeta. vm_compute.
    repeat split; try (intros E; discriminate E).
    intros i E. injection E as <-. lia.
  - reflexivity.
  - reflexivity.
  - reflexivity.
  - exists g'. split; [exact E|]. split; [exact H2|].
    rewrite (Ho 3%nat) by discriminate. reflexivity.
Defined.

End OneSampleLoop.

(** ** The t-test programs: what the reports say *)

Module TTestReports.

Import Np TTestEngines.
Local Open Scope R_scope.

Lemma nf_ltb_true (x y : R) : x < y -> nf_ltb (Some x) (Some y) = true.
Proof.
  intros H. unfold nf_ltb. destruct (Rlt_dec x y); [reflexivity|].
  contradiction.
Qed.

Lemma nf_ltb_false (x y : R) : y <= x -> nf_ltb (Some x) (Some y) = false.
Proof.
  intros H. unfold nf_ltb. destruct (Rlt_dec x y); [|reflexivity].
  Lra.lra.
Qed.

(** X13: the one-sided p-values of [perform_ttest].  When SciPy returns a
    statistic [t] and a two-sided p-value [p], the tail on the side of
    [t] gets [p / 2] and the other tail [1 - p / 2], so for [t <> 0] the
    two add up to 1; a statistic of exactly 0 gives [1 - p / 2] to both;
    with [p <= 1] the two one-sided tests are never both significant; and
    when SciPy returns NaN for both, no test is reported significant. *)
Theorem one_sided_p_values :
  forall (stats_ttest_1samp : list R -> R -> npfloat * npfloat)
         (stats_t_ppf : R -> Z -> npfloat) (xs : list R) (mu : R),
    let r := OneSampleTTest.perform_ttest stats_ttest_1samp stats_t_ppf
               xs mu in
    (forall t p : R,
        stats_ttest_1samp xs mu = (Some t, Some p) ->
        (0 < t ->
         OneSampleTTest.p_greater r = Some (p * (1 / 2)) /\
         OneSampleTTest.p_less r = Some (1 - p * (1 / 2))) /\
        (t < 0 ->
         OneSampleTTest.p_greater r = Some (1 - p * (1 / 2)) /\
         OneSampleTTest.p_less r = Some (p * (1 / 2))) /\
        (t = 0 ->
         OneSampleTTest.p_greater r = Some (1 - p * (1 / 2)) /\
         OneSampleTTest.p_less r = Some (1 - p * (1 / 2))) /\
        (t <> 0 ->
         exists a b,
           OneSampleTTest.p_greater r = Some a /\
           OneSampleTTest.p_less r = Some b /\ a + b = 1) /\
        (p <= 1 ->
         OneSampleTTest.significant_greater r = true ->
         OneSampleTTest.significant_less r = false)) /\
    (stats_ttest_1samp xs mu = (None, None) ->
     OneSampleTTest.significant_two_sided r = false /\
     OneSampleTTest.significant_greater r = false /\
     OneSampleTTest.significant_less r = false).
Proof.
  intros lib ppf xs mu r. split.
  - intros t p E.
    assert (Hpos : 0 < t ->
              OneSampleTTest.p_greater r = Some (p * (1 / 2)) /\
              OneSampleTTest.p_less r = Some (1 - p * (1 / 2))).
    { intros Ht. unfold r, OneSampleTTest.perform_ttest. rewrite E.
      cbn [OneSampleTTest.p_greater OneSampleTTest.p_less].
      rewrite (nf_ltb_true 0 t Ht), (nf_ltb_false t 0) by Lra.lra.
      split; reflexivity. }
    assert (Hneg : t < 0 ->
              OneSampleTTest.p_greater r = Some (1 - p * (1 / 2)) /\
              OneSampleTTest.p_less r = Some (p * (1 / 2))).
    { intros Ht. unfold r, OneSampleTTest.perform_ttest. rewrite E.
      cbn [OneSampleTTest.p_greater OneSampleTTest.p_less].
      rewrite (nf_ltb_true t 0 Ht), (nf_ltb_false 0 t) by Lra.lra.
      split; reflexivity. }
    assert (Hzero : t = 0 ->
              OneSampleTTest.p_greater r = Some (1 - p * (1 / 2)) /\
              OneSampleTTest.p_less r = Some (1 - p * (1 / 2))).
    { intros Ht. unfold r, OneSampleTTest.perform_ttest. rewrite E.
      cbn [OneSampleTTest.p_greater OneSampleTTest.p_less].
      rewrite (nf_ltb_false 0 t), (nf_ltb_false t 0) by Lra.lra.
      split; reflexivity. }
    split; [exact Hpos|]. split; [exact Hneg|]. split; [exact Hzero|].
    split.
    + intros Ht. destruct (Rtotal_order t 0) as [Hl|[He|Hg]].
      * destruct (Hneg Hl) as [Ha Hb]. eexists. eexists.
        split; [exact Ha|]. split; [exact Hb|]. Lra.lra.
      * contradiction.
      * destruct (Hpos Hg) as [Ha Hb]. eexists. eexists.
        split; [exact Ha|]. split; [exact Hb|]. Lra.lra.
    + intros Hp.
      assert (Hsg : OneSampleTTest.significant_greater r
                    = nf_ltb (OneSampleTTest.p_greater r)
                             (Some OneSampleTTest.significance_level)).
      { unfold r, OneSampleTTest.perform_ttest. rewrite E. reflexivity. }
      assert (Hsl : OneSampleTTest.significant_less r
                    = nf_ltb (OneSampleTTest.p_less r)
                             (Some OneSampleTTest.significance_level)).
      { unfold r, OneSampleTTest.perform_ttest. rewrite E. reflexivity. }
      rewrite Hsg, Hsl. unfold OneSampleTTest.significance_level.
      destruct (Rtotal_order t 0) as [Hl|[He|Hg]].
      * destruct (Hneg Hl) as [Ha Hb]. rewrite Ha, Hb.
        unfold nf_ltb.
        destruct (Rlt_dec (1 - p * (1 / 2)) (5 / 100));
          [|intros H; discriminate H].
        intros _. destruct (Rlt_dec (p * (1 / 2)) (5 / 100));
          [Lra.lra | reflexivity].
      * destruct (Hzero He) as [Ha Hb]. rewrite Ha, Hb.
        unfold nf_ltb.
        destruct (Rlt_dec (1 - p * (1 / 2)) (5 / 100));
          [Lra.lra | intros H; discriminate H].
      * destruct (Hpos Hg) as [Ha Hb]. rewrite Ha, Hb.
        unfold nf_ltb.
        destruct (Rlt_dec (p * (1 / 2)) (5 / 100));
          [|intros H; discriminate H].
        intros _. destruct (Rlt_dec (1 - p * (1 / 2)) (5 / 100));
          [Lra.lra | reflexivity].
  - intros E. unfold r, OneSampleTTest.perform_ttest. rewrite E.
    repeat split.
Qed.

Lemma one_sided_p_values_witness :
  let r := OneSampleTTest.perform_ttest
             (fun _ _ => (Some 2, Some (1 / 10)))
             OneSampleTTest.t_ppf_2 [1; 2; 3] 0 in
  exists a b,
    OneSampleTTest.p_greater r = Some a /\
    OneSampleTTest.p_less r = Some b /\ a + b = 1.
Proof.
  apply (proj1 (proj2 (proj2 (proj2
           (proj1 (one_sided_p_values
                     (fun _ _ => (Some 2, Some (1 / 10)))
                     OneSampleTTest.t_ppf_2 [1; 2; 3] 0)
                  2 (1 / 10) eq_refl))))).
  Lra.lra.
Defined.

(** X14: [perform_paired_ttest] on arrays that do not pair up.  When the
    lengths differ and neither array has exactly one element the
    subtraction raises [ValueError], before SciPy is consulted; an array
    of one element is broadcast instead, so that the differences are as
    many as the elements of the other array. *)
Theorem unpaired_arrays_raise :
  forall (stats_ttest_rel : list R -> list R -> exc (npfloat * npfloat))
         (stats_t_ppf : R -> Z -> npfloat)
         (before after : list R),
    (length before <> length after ->
     length before <> 1%nat -> length after <> 1%nat ->
     PairedTTest.perform_paired_ttest stats_ttest_rel stats_t_ppf
       before after = raise ValueError) /\
    (forall b r,
        before = [b] ->
        PairedTTest.perform_paired_ttest stats_ttest_rel stats_t_ppf
          before after = ok r ->
        PairedTTest.differences r = map (fun a => b - a) after).
Proof.
  intros lib ppf before after. split.
  - intros Hne Hb Ha. unfold PairedTTest.perform_paired_ttest,
      PairedTTest.np_subtract.
    apply Nat.eqb_neq in Hne. rewrite Hne.
    destruct before as [|b [|b' before]]; try (simpl in Hb; congruence);
      destruct after as [|a [|a' after]]; try (simpl in Ha; congruence);
      try reflexivity.
  - intros b r -> E. unfold PairedTTest.perform_paired_ttest in E.
    unfold PairedTTest.np_subtract in E.
    destruct (Nat.eqb (length [b]) (length after)) eqn:El.
    + apply Nat.eqb_eq in El.
      destruct after as [|a [|a' after]]; try discriminate El.
      cbn [combine map fst snd bind ok] in E.
      destruct (lib [b] [a]) as [e|tp]; [discriminate E|].
      cbn [bind ok] in E. apply Chi2LoopFacts.ok_inj in E. subst r.
      reflexivity.
    + cbn [bind ok] in E.
      destruct (lib [b] after) as [e|tp]; [discriminate E|].
      cbn [bind ok] in E. apply Chi2LoopFacts.ok_inj in E. subst r.
      reflexivity.
Qed.

Lemma unpaired_arrays_raise_witness :
  PairedTTest.perform_paired_ttest PairedTTest.ttest_rel_2
    PairedTTest.t_ppf_1 [3; 5; 8] [1; 2] = raise ValueError.
Proof.
  apply (proj1 (unpaired_arrays_raise PairedTTest.ttest_rel_2
                  PairedTTest.t_ppf_1 [3; 5; 8] [1; 2]));
    simpl; lia.
Defined.

Lemma np_std_two_points (xs : list R) :
  (2 <= length xs)%nat ->
  np_std_ddof1 xs
  = Some (sqrt (rsum (map (fun x => (x - rsum xs / INR (length xs))
                                    * (x - rsum xs / INR (length xs))) xs)
                / (INR (length xs) - 1))).
Proof.
  destruct xs as [|a [|b xs]]; simpl length; intros H; try lia.
  reflexivity.
Qed.

Lemma nf_div_sqrt_len_pos (v : R) (n : nat) :
  (0 < n)%nat -> nf_div_sqrt_len (Some v) n = Some (v / sqrt (INR n)).
Proof. destruct n; [lia | reflexivity]. Qed.

(** X15: the interval of [perform_paired_ttest].  On two arrays of equal
    length with at least two pairs, when SciPy's test returns and the
    Student quantiles at 0.025 and 0.975 are numbers [q1 <= 0 <= q2], the
    result holds the differences [d = before - after], their mean [m]
    (the difference of the two means), their standard deviation [sd]
    (with [n - 1] in the denominator), the standard error
    [se = sd / sqrt n] and the interval [m + q1 se, m + q2 se], which
    contains [m]. *)
Theorem paired_interval_brackets_the_mean :
  forall (stats_ttest_rel : list R -> list R -> exc (npfloat * npfloat))
         (stats_t_ppf : R -> Z -> npfloat)
         (before after : list R) (tp : npfloat * npfloat) (q1 q2 : R),
    length before = length after ->
    (2 <= length before)%nat ->
    stats_ttest_rel before after = ok tp ->
    stats_t_ppf (25 / 1000) (Z.of_nat (length before) - 1)%Z = Some q1 ->
    stats_t_ppf (975 / 1000) (Z.of_nat (length before) - 1)%Z = Some q2 ->
    q1 <= 0 -> 0 <= q2 ->
    let d := map (fun ba => fst ba - snd ba) (combine before after) in
    let n := INR (length before) in
    let m := rsum d / n in
    let sd := sqrt (rsum (map (fun x => (x - m) * (x - m)) d) / (n - 1)) in
    let se := sd / sqrt n in
    m = rsum before / n - rsum after / n /\
    0 <= se /\
    q1 * se + m <= m /\ m <= q2 * se + m /\
    exists r,
      PairedTTest.perform_paired_ttest stats_ttest_rel stats_t_ppf
        before after = ok r /\
      PairedTTest.differences r = d /\
      PairedTTest.mean_diff r = Some m /\
      PairedTTest.std_diff r = Some sd /\
      PairedTTest.se_diff r = Some se /\
      PairedTTest.ci_95 r = (Some (q1 * se + m), Some (q2 * se + m)).
Proof.
  intros lib ppf before after tp q1 q2 Hlen H2 Hlib Hq1 Hq2 Hn Hp
         d n m sd se.
  assert (Hd : length d = length before).
  { unfold d. rewrite length_map, length_combine, <- Hlen.
    apply Nat.min_id. }
  assert (Hn0 : n <> 0).
  { unfold n. apply not_0_INR. lia. }
  assert (Hse : 0 <= se).
  { unfold se. apply Rmult_le_pos; [apply sqrt_pos|].
    apply Rlt_le, Rinv_0_lt_compat, sqrt_INR_pos. lia. }
  assert (H1 : q1 * se <= 0).
  { replace 0 with (0 * se) by ring.
    apply Rmult_le_compat_r; assumption. }
  assert (H3 : 0 <= q2 * se) by (apply Rmult_le_pos; assumption).
  split.
  { unfold m, d. rewrite rsum_sub by exact Hlen. field. exact Hn0. }
  split; [exact Hse|]. split; [Lra.lra|]. split; [Lra.lra|].
  unfold PairedTTest.perform_paired_ttest.
  rewrite np_subtract_equal_length by exact Hlen.
  cbn [bind ok]. rewrite Hlib. cbn [bind ok].
  fold d. rewrite Hd, Hq1, Hq2.
  eexists. split; [reflexivity|].
  cbn [PairedTTest.differences PairedTTest.mean_diff PairedTTest.std_diff
       PairedTTest.se_diff PairedTTest.ci_95].
  rewrite np_mean_nonempty by (intros E; rewrite E in Hd; simpl in Hd; lia).
  rewrite np_std_two_points by lia.
  rewrite nf_div_sqrt_len_pos by lia.
  rewrite Hd. fold n m sd se.
  cbn [nf_add nf_mul lift2].
  repeat split; reflexivity.
Qed.

Lemma t_ppf_1_signs :
  tan (PI * (25 / 1000 - 1 / 2)) <= 0 /\ 0 <= tan (PI * (975 / 1000 - 1 / 2)).
Proof.
  pose proof PI_RGT_0 as Hpi.
  split.
  - replace (PI * (25 / 1000 - 1 / 2)) with (- (PI * (475 / 1000)))
      by field.
    rewrite tan_neg.
    assert (0 < tan (PI * (475 / 1000))); [|Lra.lra].
    apply tan_gt_0; Lra.nra.
  - apply Rlt_le, tan_gt_0; Lra.nra.
Qed.

Lemma paired_interval_brackets_the_mean_witness :
  exists r,
    PairedTTest.perform_paired_ttest PairedTTest.ttest_rel_2
      PairedTTest.t_ppf_1 [3; 5] [1; 2] = ok r /\
    PairedTTest.differences r = [3 - 1; 5 - 2] /\
    PairedTTest.mean_diff r = Some ((3 - 1 + (5 - 2 + 0)) / INR 2).
Proof.
  destruct (ttest_rel_2_returns [3; 5] [1; 2] eq_refl) as [tp Htp].
  destruct (paired_interval_brackets_the_mean PairedTTest.ttest_rel_2
              PairedTTest.t_ppf_1 [3; 5] [1; 2] tp _ _ eq_refl
              ltac:(simpl; lia) Htp eq_refl eq_refl
              (proj1 t_ppf_1_signs) (proj2 t_ppf_1_signs))
    as (_ & _ & _ & _ & r & E & Hd & Hm & _).
  exists r. split; [exact E|]. split; [exact Hd | exact Hm].
Defined.

End TTestReports.

(** ** [t_test.py]: drawing the samples and computing the test *)

Module TTestSimulation.

Import TTest PyFacts SliderFacts.

(** X16: what [calculate_ttest] reports.  Whatever SciPy does, the flag
    ends set, the statistic on display is not negative, and neither the
    samples nor the sliders change.  The result is the neutral one (0 and
    1.0) when a sample has fewer than two values, when SciPy raises and
    when it returns NaN; otherwise it is the absolute value of SciPy's
    statistic, with SciPy's p-value. *)
Theorem calculate_ttest_reports :
  forall (stats_ttest_ind : list Q -> list Q -> exc (option R * option R))
         (g : Globals),
    let g' := calculate_ttest stats_ttest_ind g in
    has_calculated g' = true /\
    (0 <= t_stat g')%R /\
    group1 g' = group1 g /\ group2 g' = group2 g /\
    sliders g' = sliders g /\
    (((length (group1 g) < 2)%nat \/ (length (group2 g) < 2)%nat) ->
     t_stat g' = 0%R /\ p_value g' = 1%R) /\
    ((2 <= length (group1 g))%nat -> (2 <= length (group2 g))%nat ->
     (forall t p,
         stats_ttest_ind (group1 g) (group2 g) = ok (Some t, Some p) ->
         t_stat g' = Rabs t /\ p_value g' = p) /\
     (forall e,
         stats_ttest_ind (group1 g) (group2 g) = raise e ->
         t_stat g' = 0%R /\ p_value g' = 1%R) /\
     (forall t p,
         stats_ttest_ind (group1 g) (group2 g) = ok (t, p) ->
         t = None \/ p = None ->
         t_stat g' = 0%R /\ p_value g' = 1%R)).
Proof.
  intros lib g g'. unfold g', calculate_ttest.
  destruct ((length (group1 g) <? 2)%nat || (length (group2 g) <? 2)%nat)
    eqn:Eg.
  - cbn [has_calculated t_stat p_value group1 group2 sliders slider_mean1
         slider_mean2 slider_std1 slider_std2 slider_sample
         set_has_calculated set_results].
    split; [reflexivity|]. split; [Lra.lra|].
    split; [reflexivity|]. split; [reflexivity|]. split; [reflexivity|].
    split; [intros _; split; reflexivity|].
    intros H1 H2. exfalso. apply orb_true_iff in Eg.
    destruct Eg as [E|E]; apply Nat.ltb_lt in E; lia.
  - apply orb_false_iff in Eg. destruct Eg as [E1 E2].
    apply Nat.ltb_ge in E1, E2.
    destruct (lib (group1 g) (group2 g)) as [e|[[t|] [p|]]];
      cbn [has_calculated t_stat p_value group1 group2 sliders
           slider_mean1 slider_mean2 slider_std1 slider_std2
           slider_sample set_has_calculated set_results];
      (split; [reflexivity|]);
      (split; [first [apply Rabs_pos | Lra.lra]|]);
      (split; [reflexivity|]); (split; [reflexivity|]);
      (split; [reflexivity|]);
      (split; [intros [H|H]; lia|]);
      intros _ _;
      (split; [intros t' p' H; try discriminate H|]);
      try (split; [intros e' H; try discriminate H;
                   split; reflexivity|]);
      try (intros t' p' H [Hn|Hn]; try discriminate H;
           injection H as <- <-; try discriminate Hn;
           split; reflexivity).
    + injection H as <- <-. split; reflexivity.
Qed.

Lemma calculate_ttest_reports_witness :
  let g := reset_data constant_samples
             (set_state (initial_globals constant_samples) GAME) in
  let g' := calculate_ttest (fun _ _ => ok (Some (-3)%R, Some (1 / 100)%R))
                            g in
  t_stat g' = Rabs (-3) /\ p_value g' = (1 / 100)%R.
Proof.
  cbv zeta.
  set (g := reset_data constant_samples
              (set_state (initial_globals constant_samples) GAME)).
  destruct (calculate_ttest_reports
              (fun _ _ => ok (Some (-3)%R, Some (1 / 100)%R)) g)
    as (_ & _ & _ & _ & _ & _ & H).
  destruct H as (H & _).
  - vm_compute. lia.
  - vm_compute. lia.
  - apply (H (-3)%R (1 / 100)%R). reflexivity.
Defined.

Lemma py_int_upper (q : Q) :
  0 <= q -> (0 <= py_int q)%Z /\ inject_Z (py_int q) <= q.
Proof.
  destruct q as [a b]. unfold py_int, Qle, inject_Z. cbn [Qnum Qden].
  intros H. rewrite Z.mul_1_r in H. rewrite Z.mul_1_r.
  rewrite Z.quot_div_nonneg by lia.
  split.
  - apply Z.div_pos; lia.
  - rewrite Z.mul_comm. apply Z.mul_div_le. lia.
Qed.

(** X17: [reset_data] draws from the sliders.  With the sliders in their
    ranges the floors of the function never bite: both samples are drawn
    with the very mean and standard deviation on the sliders and with
    the integer part of the sample-size slider, a size between 5 and
    20000; the flag is cleared, the sliders keep their values, and the
    statistic and p-value of the previous test stay in place. *)
Theorem reset_data_draws_from_the_sliders :
  forall (np_random_normal : nat -> Q -> Q -> Z -> list Q) (g : Globals),
    Inv g ->
    let n := py_int (value (slider_sample g)) in
    let g' := reset_data np_random_normal g in
    (5 <= n <= 20000)%Z /\
    group1 g'
    = np_random_normal (draws g) (value (slider_mean1 g))
                       (value (slider_std1 g)) n /\
    group2 g'
    = np_random_normal (S (draws g)) (value (slider_mean2 g))
                       (value (slider_std2 g)) n /\
    has_calculated g' = false /\
    sliders g' = sliders g /\
    t_stat g' = t_stat g /\ p_value g' = p_value g.
Proof.
  intros rng g (_ & _ & B1 & B2 & Bn) n g'.
  destruct B1 as (_ & _ & _ & L1 & _).
  destruct B2 as (_ & _ & _ & L2 & _).
  destruct Bn as (_ & _ & _ & Ln & Un).
  assert (Hn : (5 <= n <= 20000)%Z).
  { unfold n. split.
    - apply OneSampleFacts.py_int_lower; [lia | exact Ln].
    - destruct (py_int_upper (value (slider_sample g))) as [_ H]; [lra|].
      assert (Hq : inject_Z (py_int (value (slider_sample g)))
                   <= inject_Z 20000).
      { apply Qle_trans with (value (slider_sample g)); assumption. }
      rewrite <- Zle_Qle in Hq. exact Hq. }
  split; [exact Hn|].
  assert (Hs : forall v, 5 <= v -> py_max (1 # 10) v = v).
  { intros v Hv. unfold py_max.
    destruct (Qltb (1 # 10) v) eqn:E; [reflexivity|].
    apply Qltb_ge in E. lra. }
  unfold g', reset_data.
  cbn [group1 group2 has_calculated sliders slider_mean1 slider_mean2
       slider_std1 slider_std2 slider_sample t_stat p_value
       set_has_calculated set_groups].
  fold n. rewrite (Hs _ L1), (Hs _ L2).
  replace (Z.max 5 n) with n by lia.
  repeat split.
Qed.

Lemma reset_data_draws_from_the_sliders_witness :
  let g := initial_globals constant_samples in
  group1 (reset_data constant_samples g)
  = constant_samples (draws g) (value (slider_mean1 g))
                     (value (slider_std1 g))
                     (py_int (value (slider_sample g))).
Proof.
  cbv zeta.
  apply (reset_data_draws_from_the_sliders constant_samples
           (initial_globals constant_samples)).
  apply TTestFacts.ttest_initial_globals_Inv.
Defined.

Section Samples.

Variable np_random_normal : nat -> Q -> Q -> Z -> list Q.
Variable stats_ttest_ind :
  list Q -> list Q -> exc (option R * option R).

(** numpy returns as many values as it is asked for. *)
Hypothesis np_random_normal_size :
  forall k loc scale size,
    length (np_random_normal k loc scale size) = Z.to_nat size.

Lemma samples_ok_ext (g g' : Globals) :
  group1 g' = group1 g -> group2 g' = group2 g ->
  samples_ok g -> samples_ok g'.
Proof. unfold samples_ok. intros -> ->. auto. Qed.

Lemma reset_data_samples (g : Globals) :
  samples_ok (reset_data np_random_normal g).
Proof.
  unfold samples_ok, reset_data.
  cbn [group1 group2 set_has_calculated set_groups].
  rewrite !np_random_normal_size. split; [lia | reflexivity].
Qed.

Lemma release_samples (get : Globals -> Slider)
    (put : Globals -> Slider -> Globals) (g : Globals) :
  samples_ok g -> samples_ok (release np_random_normal get put g).
Proof.
  intros H. unfold release. destruct (dragging (get g)); [|exact H].
  apply reset_data_samples.
Qed.

Lemma for_sliders_samples (f : Slider -> exc Slider) (g g' : Globals) :
  for_sliders f g = ok g' -> samples_ok g -> samples_ok g'.
Proof.
  unfold for_sliders. intros H.
  repeat (apply Chi2LoopFacts.bind_ok in H; destruct H as (? & _ & H)).
  apply Chi2LoopFacts.ok_inj in H. subst g'.
  apply samples_ok_ext; reflexivity.
Qed.

Lemma calculate_ttest_samples (g : Globals) :
  samples_ok g -> samples_ok (calculate_ttest stats_ttest_ind g).
Proof.
  apply samples_ok_ext; unfold calculate_ttest;
    destruct (_ || _); try reflexivity;
    destruct (stats_ttest_ind (group1 g) (group2 g))
      as [e|[[t|] [p|]]]; reflexivity.
Qed.

Lemma handle_event_samples (mp : Z * Z) (g g' : Globals) (ev : Event) :
  handle_event np_random_normal stats_ttest_ind mp g ev = ok g' ->
  samples_ok g -> samples_ok g'.
Proof.
  destruct ev as [|w h|key|button| |rel_y|]; cbn [handle_event];
    intros E H.
  - apply Chi2LoopFacts.ok_inj in E. subst g'. exact H.
  - apply Chi2LoopFacts.ok_inj in E. subst g'. revert H.
    apply samples_ok_ext; reflexivity.
  - apply Chi2LoopFacts.ok_inj in E. subst g'. unfold on_keydown.
    repeat break_if; try exact H; revert H;
      apply samples_ok_ext; reflexivity.
  - destruct (button =? 1)%Z;
      [|apply Chi2LoopFacts.ok_inj in E; subst g'; exact H].
    unfold on_mousebuttondown in E. destruct (state g).
    + cbv beta iota zeta delta [draw_menu] in E.
      repeat break_if_in E; apply Chi2LoopFacts.ok_inj in E; subst g'.
      * apply reset_data_samples.
      * revert H. apply samples_ok_ext; reflexivity.
      * exact H.
    + cbv beta iota zeta delta [draw_game] in E.
      apply (for_sliders_samples _ _ _ E). clear E.
      set (g1 := if collidepoint (toggle_rect (layout g)) mp
                 then set_show_instructions g (negb (show_instructions g))
                 else g).
      assert (H1 : samples_ok g1).
      { unfold g1. destruct (collidepoint (toggle_rect (layout g)) mp);
          [|exact H]. revert H. apply samples_ok_ext; reflexivity. }
      clearbody g1.
      repeat break_if.
      * revert H1. apply samples_ok_ext; reflexivity.
      * apply calculate_ttest_samples, H1.
      * apply reset_data_samples.
      * exact H1.
    + cbv beta iota zeta delta [tutorial_buttons] in E.
      repeat break_if_in E; apply Chi2LoopFacts.ok_inj in E; subst g';
        first [ apply reset_data_samples
              | exact H
              | revert H; apply samples_ok_ext; reflexivity ].
    + apply Chi2LoopFacts.ok_inj in E. subst g'. exact H.
  - apply Chi2LoopFacts.ok_inj in E. subst g'. unfold on_mousebuttonup.
    cbv zeta. repeat apply release_samples. exact H.
  - unfold on_mousemotion in E. exact (for_sliders_samples _ _ _ E H).
  - apply Chi2LoopFacts.ok_inj in E. subst g'. exact H.
Qed.

End Samples.

(** X18: the samples are never too small for the test.  With a generator
    that returns as many values as it is asked for, the two samples start
    with equally many values, at least five; every event leaves them so;
    and so the guard of [calculate_ttest] against fewer than two values
    never fires. *)
Theorem samples_are_never_too_small :
  forall (np_random_normal : nat -> Q -> Q -> Z -> list Q),
    (forall k loc scale size,
        length (np_random_normal k loc scale size) = Z.to_nat size) ->
    samples_ok (initial_globals np_random_normal) /\
    (forall stats_ttest_ind mouse_pos g g' ev,
        samples_ok g ->
        handle_event np_random_normal stats_ttest_ind mouse_pos g ev
        = ok g' ->
        samples_ok g') /\
    (forall g,
        samples_ok g ->
        (length (group1 g) <? 2)%nat || (length (group2 g) <? 2)%nat
        = false).
Proof.
  intros rng Hrng. split; [|split].
  - unfold samples_ok, initial_globals. cbv zeta.
    cbn [group1 group2 calculate_layout set_layout set_sliders].
    rewrite !Hrng. split; [simpl; lia | reflexivity].
  - intros lib mp g g' ev H E.
    exact (handle_event_samples rng lib Hrng mp g g' ev E H).
  - intros g [H1 H2]. apply orb_false_iff.
    split; apply Nat.ltb_ge; lia.
Qed.

Lemma samples_are_never_too_small_witness :
  samples_ok (initial_globals constant_samples).
Proof.
  apply (samples_are_never_too_small constant_samples).
  intros k loc scale size. unfold constant_samples. apply repeat_length.
Defined.

(** What a release leaves of a slider. *)
Lemma release_sliders (rng : nat -> Q -> Q -> Z -> list Q) (g : Globals) :
  let g' := on_mousebuttonup rng g in
  Forall (fun s => dragging s = false) (sliders g') /\
  map value (sliders g') = map value (sliders g) /\
  (Forall (fun s => dragging s = false) (sliders g) -> g' = g).
Proof.
  cbv zeta. unfold sliders, on_mousebuttonup, release.
  destruct (dragging (slider_mean1 g)) eqn:D1;
    cbn [slider_mean1 slider_mean2 slider_std1 slider_std2 slider_sample
         set_sliders reset_data set_has_calculated set_groups
         set_dragging dragging];
    destruct (dragging (slider_mean2 g)) eqn:D2;
    cbn [slider_mean1 slider_mean2 slider_std1 slider_std2 slider_sample
         set_sliders reset_data set_has_calculated set_groups
         set_dragging dragging];
    destruct (dragging (slider_std1 g)) eqn:D3;
    cbn [slider_mean1 slider_mean2 slider_std1 slider_std2 slider_sample
         set_sliders reset_data set_has_calculated set_groups
         set_dragging dragging];
    destruct (dragging (slider_std2 g)) eqn:D4;
    cbn [slider_mean1 slider_mean2 slider_std1 slider_std2 slider_sample
         set_sliders reset_data set_has_calculated set_groups
         set_dragging dragging];
    destruct (dragging (slider_sample g)) eqn:D5;
    cbn [slider_mean1 slider_mean2 slider_std1 slider_std2 slider_sample
         set_sliders reset_data set_has_calculated set_groups
         set_dragging dragging];
    (split; [repeat constructor; assumption|]);
    (split; [reflexivity|]);
    intros H;
    repeat match goal with
           | H : Forall _ (_ :: _) |- _ => inversion H; clear H; subst
           end;
    try congruence; reflexivity.
Qed.

(** X19: a release stops every drag and moves no slider.  After a
    [MOUSEBUTTONUP] no slider of [t_test.py] is being dragged and every
    slider has the value it had; and when no slider was being dragged the
    event changes nothing at all: no new samples are drawn and the result
    stays valid. *)
Theorem release_stops_every_drag :
  forall (np_random_normal : nat -> Q -> Q -> Z -> list Q)
         (stats_ttest_ind : list Q -> list Q -> exc (option R * option R))
         (mouse_pos : Z * Z) (g : Globals),
    exists g',
      handle_event np_random_normal stats_ttest_ind mouse_pos g
                   MOUSEBUTTONUP = ok g' /\
      Forall (fun s => dragging s = false) (sliders g') /\
      map value (sliders g') = map value (sliders g) /\
      (Forall (fun s => dragging s = false) (sliders g) -> g' = g).
Proof.
  intros rng lib mp g. cbn [handle_event].
  exists (on_mousebuttonup rng g). split; [reflexivity|].
  apply release_sliders.
Qed.

End TTestSimulation.

(** ** [chi_square.py]: the parameters on display *)

Module ChiSquareParameters.

Import ChiSquare PyFacts SliderFacts.

Lemma py_int_range (lo hi : Z) (q : Q) :
  (0 <= lo)%Z -> inject_Z lo <= q -> q <= inject_Z hi ->
  (lo <= py_int q <= hi)%Z.
Proof.
  intros H0 H1 H2. split.
  - apply OneSampleFacts.py_int_lower; assumption.
  - destruct (TTestSimulation.py_int_upper q) as [_ H].
    + apply Qle_trans with (inject_Z lo); [|exact H1].
      change 0 with (inject_Z 0). rewrite <- Zle_Qle. exact H0.
    + assert (Hq : inject_Z (py_int q) <= inject_Z hi)
        by (apply Qle_trans with q; assumption).
      rewrite <- Zle_Qle in Hq. exact Hq.
Qed.

Lemma update_parameters_ok (lib : Q -> Z -> R) (g : Globals) :
  Inv g -> params_ok lib (update_parameters lib g).
Proof.
  intros (Bd & Ba & Bx & Bn).
  destruct Bd as (_ & _ & _ & Ld & Ud).
  destruct Ba as (_ & _ & _ & La & Ua).
  destruct Bx as (_ & _ & _ & Lx & Ux).
  destruct Bn as (_ & _ & _ & Ln & Un).
  unfold params_ok, update_parameters.
  cbn [degrees_of_freedom alpha_level max_x_value num_distributions
       critical_value set_parameters].
  pose proof (py_int_range 1 30 (value (slider_df g))
                ltac:(lia) Ld Ud) as Hd.
  pose proof (py_int_range 1 5 (value (slider_num_dist g))
                ltac:(lia) Ln Un) as Hn.
  split; [lia|].
  split; [apply py_max_lower|].
  split; [apply py_max_upper; [discriminate | apply py_min_upper]|].
  split; [exact Lx|]. split; [exact Ux|]. split; [exact Hn|].
  reflexivity.
Qed.

(** X20: [update_parameters] reads the sliders.  With the sliders in
    their ranges the displayed degrees of freedom and number of curves
    are the integer parts of their sliders, [alpha] and the x-range are
    the slider values themselves, the critical value is the quantile for
    that [alpha] and those degrees of freedom, everything lies in the
    slider ranges, and the sliders are left as they were. *)
Theorem update_parameters_reads_the_sliders :
  forall (stats_chi2_ppf : Q -> Z -> R) (g : Globals),
    Inv g ->
    let g' := update_parameters stats_chi2_ppf g in
    degrees_of_freedom g' = py_int (value (slider_df g)) /\
    alpha_level g' == value (slider_alpha g) /\
    max_x_value g' = value (slider_max_x g) /\
    num_distributions g' = py_int (value (slider_num_dist g)) /\
    params_ok stats_chi2_ppf g' /\
    has_updated g' = true /\
    sliders g' = sliders g.
Proof.
  intros lib g HI g'.
  pose proof (update_parameters_ok lib g HI) as Hok.
  destruct HI as (Bd & Ba & _ & _).
  destruct Bd as (_ & _ & _ & Ld & Ud).
  destruct Ba as (_ & _ & _ & La & Ua).
  split.
  { unfold g', update_parameters.
    cbn [degrees_of_freedom set_parameters].
    pose proof (py_int_range 1 30 (value (slider_df g))
                  ltac:(lia) Ld Ud). lia. }
  split.
  { unfold g', update_parameters. cbn [alpha_level set_parameters].
    unfold py_max, py_min.
    destruct (Qltb (value (slider_alpha g)) (2 # 10)) eqn:E1.
    - destruct (Qltb (1 # 100) (value (slider_alpha g))) eqn:E2;
        [reflexivity|].
      apply Qltb_ge in E2. apply Qle_antisym; assumption.
    - apply Qltb_ge in E1.
      destruct (Qltb (1 # 100) (2 # 10)) eqn:E2; [|discriminate E2].
      apply Qle_antisym; assumption. }
  split; [reflexivity|]. split; [reflexivity|].
  split; [exact Hok|]. split; reflexivity.
Qed.

Lemma update_parameters_reads_the_sliders_witness :
  let lib := fun (q : Q) (d : Z) => 0%R in
  let g := set_state (initial_globals lib) GAME in
  degrees_of_freedom (update_parameters lib g) = 3%Z /\
  has_updated (update_parameters lib g) = true.
Proof.
  cbv zeta.
  destruct (update_parameters_reads_the_sliders (fun _ _ => 0%R)
              (set_state (initial_globals (fun _ _ => 0%R)) GAME))
    as (Hd & _ & _ & _ & _ & Hu & _).
  - exact (ChiSquareFacts.chisq_initial_globals_Inv (fun _ _ => 0%R)).
  - split; [rewrite Hd; reflexivity | exact Hu].
Defined.

Lemma params_ok_ext (lib : Q -> Z -> R) (g g' : Globals) :
  degrees_of_freedom g' = degrees_of_freedom g ->
  alpha_level g' = alpha_level g ->
  max_x_value g' = max_x_value g ->
  num_distributions g' = num_distributions g ->
  critical_value g' = critical_value g ->
  params_ok lib g -> params_ok lib g'.
Proof. unfold params_ok. intros -> -> -> -> ->. auto. Qed.

Lemma for_sliders_params (lib : Q -> Z -> R) (f : Slider -> exc Slider)
    (g g' : Globals) :
  for_sliders f g = ok g' ->
  (params_ok lib g -> params_ok lib g') /\
  has_updated g' = has_updated g.
Proof.
  unfold for_sliders. intros H.
  repeat (apply Chi2LoopFacts.bind_ok in H; destruct H as (? & _ & H)).
  apply Chi2LoopFacts.ok_inj in H. subst g'.
  split; [apply params_ok_ext; reflexivity | reflexivity].
Qed.

Lemma handle_event_params (lib : Q -> Z -> R) (mp : Z * Z)
    (g g' : Globals) (ev : Event) :
  Inv g -> params_ok lib g ->
  handle_event lib mp g ev = ok g' ->
  params_ok lib g' /\ (has_updated g = true -> has_updated g' = true).
Proof.
  intros HI H E.
  destruct ev as [|w h|key|button| |rel_y|]; cbn [handle_event] in E.
  - apply Chi2LoopFacts.ok_inj in E. subst g'. split; [|auto].
    revert H. apply params_ok_ext; reflexivity.
  - apply Chi2LoopFacts.ok_inj in E. subst g'. split; [|auto].
    revert H. apply params_ok_ext; reflexivity.
  - apply Chi2LoopFacts.ok_inj in E. subst g'. unfold on_keydown.
    repeat break_if; (split; [|auto]); try exact H;
      revert H; apply params_ok_ext; reflexivity.
  - destruct (button =? 1)%Z;
      [|apply Chi2LoopFacts.ok_inj in E; subst g'; auto].
    unfold on_mousebuttondown in E. destruct (state g).
    + cbv beta iota zeta delta [draw_menu] in E.
      repeat break_if_in E; apply Chi2LoopFacts.ok_inj in E; subst g'.
      * split; [apply update_parameters_ok; exact HI | reflexivity].
      * split; [|auto]. revert H. apply params_ok_ext; reflexivity.
      * auto.
    + cbv beta iota zeta delta [draw_game] in E.
      destruct (for_sliders_params lib _ _ _ E) as [Hp Hu].
      rewrite Hu. clear E Hu.
      set (g1 := if collidepoint (toggle_rect (layout g)) mp
                 then set_show_instructions g (negb (show_instructions g))
                 else g) in *.
      assert (H1 : Inv g1 /\ params_ok lib g1 /\
                   has_updated g1 = has_updated g).
      { unfold g1. destruct (collidepoint (toggle_rect (layout g)) mp);
          [|auto]. split; [exact HI|]. split; [|reflexivity].
        revert H. apply params_ok_ext; reflexivity. }
      destruct H1 as (I1 & P1 & U1). clearbody g1.
      repeat break_if.
      * split; [apply Hp; revert P1; apply params_ok_ext; reflexivity|].
        cbn [has_updated set_state]. congruence.
      * split; [apply Hp, update_parameters_ok, I1 | reflexivity].
      * split; [apply Hp, update_parameters_ok; exact I1 | reflexivity].
      * split; [apply Hp, P1 | congruence].
    + cbv beta iota zeta delta [tutorial_buttons] in E.
      repeat break_if_in E; apply Chi2LoopFacts.ok_inj in E; subst g';
        first [ split; [apply update_parameters_ok; exact HI
                       | reflexivity]
              | split; [|auto]; first
                  [ exact H
                  | revert H; apply params_ok_ext; reflexivity ] ].
  - apply Chi2LoopFacts.ok_inj in E. subst g'. split; [|auto].
    revert H. apply params_ok_ext; reflexivity.
  - destruct (for_sliders_params lib _ _ _ E) as [Hp Hu].
    rewrite Hu. auto.
  - apply Chi2LoopFacts.ok_inj in E. subst g'. auto.
Qed.

(** X21: what [chi_square.py] displays stays consistent.  At the start
    and after every event the degrees of freedom, [alpha], the x-range
    and the number of curves on display lie in the ranges of their
    sliders and the critical value on display is the quantile for the
    [alpha] and degrees of freedom on display; and [has_updated], once
    set, is never cleared. *)
Theorem displayed_parameters_stay_consistent :
  forall (stats_chi2_ppf : Q -> Z -> R),
    params_ok stats_chi2_ppf (initial_globals stats_chi2_ppf) /\
    forall (mouse_pos : Z * Z) (g g' : Globals) (ev : Event),
      Inv g -> params_ok stats_chi2_ppf g ->
      handle_event stats_chi2_ppf mouse_pos g ev = ok g' ->
      params_ok stats_chi2_ppf g' /\
      (has_updated g = true -> has_updated g' = true).
Proof.
  intros lib. split.
  - unfold params_ok, initial_globals. cbv zeta.
    cbn [degrees_of_freedom alpha_level max_x_value num_distributions
         critical_value calculate_layout set_layout set_sliders].
    repeat split; try lia; try discriminate.
  - intros mp g g' ev HI H E.
    exact (handle_event_params lib mp g g' ev HI H E).
Qed.

Lemma displayed_parameters_stay_consistent_witness :
  let lib := fun (q : Q) (d : Z) => 0%R in
  exists g',
    handle_event lib (600, 530)%Z (initial_globals lib) (MOUSEBUTTONDOWN 1)
    = ok g' /\
    params_ok lib g'.
Proof.
  cbv zeta.
  destruct (ChiSquareFacts.chisq_handle_event_Inv (fun _ _ => 0%R)
              (600, 530)%Z (initial_globals (fun _ _ => 0%R))
              (MOUSEBUTTONDOWN 1)
              (ChiSquareFacts.chisq_initial_globals_Inv _))
    as (g' & E & _).
  exists g'. split; [exact E|].
  apply (proj2 (displayed_parameters_stay_consistent (fun _ _ => 0%R))
               (600, 530)%Z _ g' (MOUSEBUTTONDOWN 1)
               (ChiSquareFacts.chisq_initial_globals_Inv _)
               (proj1 (displayed_parameters_stay_consistent _)) E).
Defined.

End ChiSquareParameters.

(** ** [paired_ttest.py]: the event loop *)

Module PairedLoop.

Import PairedTTest PyFacts.

(** The data panel at a window of at least the minimum height. *)
Lemma calculate_layout_panel (g : Globals) :
  (700 <= HEIGHT g)%Z ->
  let p := data_panel (layout (calculate_layout g)) in
  (500 <= rh (rect_of (left p) (top p) (pwidth p) (pheight p)))%Z.
Proof.
  intros HH. cbv zeta.
  assert (QH : 700 <= inject_Z (HEIGHT g)).
  { change 700 with (inject_Z 700). rewrite <- Zle_Qle. exact HH. }
  unfold calculate_layout.
  cbn [layout set_layout data_panel rect_of rh left top pwidth pheight].
  assert (500 <= py_int (inject_Z (HEIGHT g) - (60 + 20) - 120))%Z; [|lia].
  apply OneSampleFacts.py_int_lower; [lia|].
  change (inject_Z 500) with 500. lra.
Qed.

Lemma paired_Inv_ext (g g' : Globals) :
  Inv g ->
  data_panel (layout g') = data_panel (layout g) ->
  length (before_data g') = 10%nat ->
  length (after_data g') = 10%nat ->
  (forall i, selected_point g' = Some i -> (i < 10)%nat) ->
  Forall (fun v => 0 <= v) (before_data g') ->
  Forall (fun v => 0 <= v) (after_data g') ->
  Inv g'.
Proof.
  unfold Inv. cbv zeta. intros (H1 & _) E Hb Ha Hs Fb Fa.
  rewrite E. repeat (split; [assumption|]). assumption.
Qed.

Lemma paired_initial_globals_Inv : Inv initial_globals.
Proof.
  unfold Inv. cbv zeta. vm_compute.
  split; [intros E; discriminate E|].
  split; [reflexivity|]. split; [reflexivity|].
  split; [intros i E; discriminate E|].
  split; repeat constructor; intros E; discriminate E.
Qed.

Lemma originals_nonneg :
  Forall (fun v => 0 <= v) original_before /\
  Forall (fun v => 0 <= v) original_after.
Proof.
  split; repeat constructor; intros E; discriminate E.
Qed.

Lemma paired_on_videoresize_Inv (g : Globals) (w h : Z) :
  Inv g -> Inv (on_videoresize g w h).
Proof.
  intros (_ & Hb & Ha & Hs & Fb & Fa). unfold on_videoresize.
  pose proof (calculate_layout_panel
                (set_window g (Z.max w MIN_WIDTH) (Z.max h MIN_HEIGHT)))
    as G.
  cbv zeta in G.
  assert (G1 := G ltac:(cbn [HEIGHT set_window]; unfold MIN_HEIGHT; lia)).
  unfold Inv. cbv zeta. split; [exact G1|].
  unfold calculate_layout.
  cbn [before_data after_data selected_point set_layout set_window].
  repeat (split; [assumption|]). assumption.
Qed.

(** The table hit test never fails on a panel of the invariant's height,
    and a row it returns is one of the ten. *)
Lemma clicked_cell_total (g : Globals) (mouse_pos : Z * Z) :
  Inv g ->
  exists hit,
    clicked_cell g mouse_pos = ok hit /\
    (forall i c, hit = Some (i, c) -> (0 <= i < 10)%Z).
Proof.
  unfold Inv. cbv zeta. intros (Hh & Hb & _).
  unfold clicked_cell.
  set (panel := rect_of _ _ _ _) in *.
  destruct (collidepoint panel mouse_pos);
    [|eexists; split; [reflexivity | intros ? ? H; discriminate H]].
  cbv zeta. rewrite Hb.
  rewrite py_truediv_ok by (intros E; discriminate E).
  cbn [bind ok].
  set (q := inject_Z (rh panel - 100) / inject_Z (Z.of_nat 10)).
  assert (Hq : 28 <= q).
  { unfold q. apply Qle_shift_div_l; [reflexivity|].
    change (inject_Z (Z.of_nat 10)) with 10.
    assert (280 <= inject_Z (rh panel - 100)); [|lra].
    change 280 with (inject_Z 280). rewrite <- Zle_Qle. lia. }
  assert (Hr : 0 < py_min 30 q).
  { apply py_min_gt; lra. }
  destruct (ry panel + 60 + 10 + 35 <=? snd mouse_pos)%Z;
    [|eexists; split; [reflexivity | intros ? ? H; discriminate H]].
  rewrite py_truediv_ok by (intros E; rewrite E in Hr;
                            apply (Qlt_irrefl _ Hr)).
  cbn [bind ok].
  match goal with
  | |- context [((0 <=? ?i) && (?i <? ?n))%Z] =>
      destruct ((0 <=? i) && (i <? n))%Z eqn:E
  end.
  - eexists. split; [reflexivity|].
    intros i c H. injection H as <- _.
    apply andb_true_iff in E. destruct E as [E1 E2].
    apply Z.leb_le in E1. apply Z.ltb_lt in E2.
    change (Z.of_nat 10) with 10%Z in E2.
    unfold panel in *. cbn [ry rect_of] in *. lia.
  - eexists. split; [reflexivity | intros ? ? H; discriminate H].
Qed.

Lemma paired_on_mousebuttondown_Inv (mouse_pos : Z * Z) (g : Globals) :
  Inv g ->
  exists g', on_mousebuttondown mouse_pos g = ok g' /\ Inv g'.
Proof.
  intros HI. unfold on_mousebuttondown. cbv zeta.
  set (g1 := if collidepoint (reset_button g) mouse_pos then _ else _).
  assert (H1 : Inv g1).
  { pose proof HI as (_ & Hb & Ha & Hs & Fb & Fa).
    unfold g1.
    destruct (collidepoint (reset_button g) mouse_pos).
    - apply (paired_Inv_ext g); try assumption; try reflexivity.
      + intros i E. discriminate E.
      + apply originals_nonneg.
      + apply originals_nonneg.
    - destruct (collidepoint (info_button g) mouse_pos); [|exact HI].
      apply (paired_Inv_ext g); try assumption; reflexivity. }
  clearbody g1. clear HI.
  destruct (clicked_cell_total g1 mouse_pos H1) as (hit & Eh & Hhit).
  rewrite Eh. cbn [bind ok].
  destruct hit as [[i c]|]; [|eauto].
  eexists. split; [reflexivity|].
  pose proof H1 as (_ & Hb & Ha & Hs & Fb & Fa).
  apply (paired_Inv_ext g1); try assumption; try reflexivity.
  cbn [selected_point set_selection]. intros j Ej. injection Ej as <-.
  specialize (Hhit i c eq_refl). lia.
Qed.

Lemma Forall_update_nth_const (P : Q -> Prop) (v : Q) (xs : list Q) :
  P v -> Forall P xs -> forall n, Forall P (update_nth n (fun _ => v) xs).
Proof.
  intros Hv H. induction H as [|x xs Hx Hxs IH]; intros [|n]; simpl;
    constructor; auto.
Qed.

(** A pointer move never fails, and tells what it did to the arrays. *)
Lemma paired_on_mousemotion_Inv (rel_y : Z) (g : Globals) :
  Inv g ->
  exists g',
    on_mousemotion rel_y g = ok g' /\ Inv g' /\
    (forall i v,
        dragging g = true -> selected_point g = Some i ->
        selected_column g = Some Before ->
        nth_error (before_data g) i = Some v ->
        before_data g'
        = update_nth i
            (fun _ => py_max 0 (v + - inject_Z rel_y * (5 # 10)))
            (before_data g) /\
        after_data g' = after_data g) /\
    (forall i v,
        dragging g = true -> selected_point g = Some i ->
        selected_column g = Some After ->
        nth_error (after_data g) i = Some v ->
        after_data g'
        = update_nth i
            (fun _ => py_max 0 (v + - inject_Z rel_y * (5 # 10)))
            (after_data g) /\
        before_data g' = before_data g) /\
    (dragging g = false -> g' = g).
Proof.
  intros HI. pose proof HI as (_ & Hb & Ha & Hs & Fb & Fa).
  unfold on_mousemotion.
  destruct (dragging g) eqn:Ed.
  2:{ exists g. split; [reflexivity|]. split; [exact HI|].
      split; [intros ? ? H; discriminate H|].
      split; [intros ? ? H; discriminate H | reflexivity]. }
  destruct (selected_point g) as [i|] eqn:Es.
  2:{ exists g. split; [reflexivity|]. split; [exact HI|].
      split; [intros ? ? _ H; discriminate H|].
      split; [intros ? ? _ H; discriminate H | intros H; discriminate H]. }
  specialize (Hs i eq_refl).
  destruct (selected_column g) as [[|]|] eqn:Ec.
  - unfold py_index.
    destruct (nth_error (before_data g) i) as [v|] eqn:En.
    2:{ apply nth_error_None in En. lia. }
    cbn [bind ok]. cbv zeta. eexists. split; [reflexivity|].
    split.
    { apply (paired_Inv_ext g); try assumption; try reflexivity.
      - cbn [before_data set_data].
        rewrite Chi2LoopFacts.length_update_nth. exact Hb.
      - cbn [selected_point set_data]. rewrite Es.
        intros j Ej. injection Ej as <-. exact Hs.
      - cbn [before_data set_data].
        apply Forall_update_nth_const; [apply py_max_lower | exact Fb]. }
    split.
    { intros i' v' _ Hi _ Hv. injection Hi as <-.
      rewrite Hv in En. injection En as <-.
      cbn [before_data after_data set_data]. split; reflexivity. }
    split; [intros ? ? _ _ H; discriminate H | intros H; discriminate H].
  - unfold py_index.
    destruct (nth_error (after_data g) i) as [v|] eqn:En.
    2:{ apply nth_error_None in En. lia. }
    cbn [bind ok]. cbv zeta. eexists. split; [reflexivity|].
    split.
    { apply (paired_Inv_ext g); try assumption; try reflexivity.
      - cbn [after_data set_data].
        rewrite Chi2LoopFacts.length_update_nth. exact Ha.
      - cbn [selected_point set_data]. rewrite Es.
        intros j Ej. injection Ej as <-. exact Hs.
      - cbn [after_data set_data].
        apply Forall_update_nth_const; [apply py_max_lower | exact Fa]. }
    split; [intros ? ? _ _ H; discriminate H|].
    split.
    { intros i' v' _ Hi _ Hv. injection Hi as <-.
      rewrite Hv in En. injection En as <-.
      cbn [before_data after_data set_data]. split; reflexivity. }
    intros H; discriminate H.
  - exists g. split; [reflexivity|]. split; [exact HI|].
    split; [intros ? ? _ _ H; discriminate H|].
    split; [intros ? ? _ _ H; discriminate H | intros H; discriminate H].
Qed.

Lemma paired_handle_event_Inv (mouse_pos : Z * Z) (g : Globals)
    (ev : Event) :
  Inv g -> exists g', handle_event mouse_pos g ev = ok g' /\ Inv g'.
Proof.
  intros HI.
  destruct ev as [|w h|key|button| |rel_y|]; cbn [handle_event].
  - eexists. split; [reflexivity|].
    pose proof HI as (_ & Hb & Ha & Hs & Fb & Fa).
    apply (paired_Inv_ext g); try assumption; reflexivity.
  - eexists. split; [reflexivity|]. apply paired_on_videoresize_Inv, HI.
  - eauto.
  - apply paired_on_mousebuttondown_Inv, HI.
  - eexists. split; [reflexivity|].
    pose proof HI as (_ & Hb & Ha & Hs & Fb & Fa).
    apply (paired_Inv_ext g); try assumption; reflexivity.
  - destruct (paired_on_mousemotion_Inv rel_y g HI) as (g' & E & I & _).
    eauto.
  - eauto.
Qed.

(** X22: the loop of [paired_ttest.py] always has ten pairs to test.  The
    start state has ten values before and ten after, none negative; no
    event makes the loop fail and every event keeps it so; hence the
    subtraction of [perform_paired_ttest], run once per frame, never
    raises: whenever SciPy's test returns, the frame gets its results,
    with ten differences. *)
Theorem paired_loop_keeps_ten_pairs :
  Inv initial_globals /\
  (forall (mouse_pos : Z * Z) (g : Globals) (ev : Event),
      Inv g ->
      exists g', handle_event mouse_pos g ev = ok g' /\ Inv g') /\
  (forall (stats_ttest_rel : list R -> list R -> exc (Np.npfloat * Np.npfloat))
          (stats_t_ppf : R -> Z -> Np.npfloat) (g : Globals)
          (tp : Np.npfloat * Np.npfloat),
      Inv g ->
      stats_ttest_rel (map Q2R (before_data g)) (map Q2R (after_data g))
      = ok tp ->
      exists r,
        frame_results stats_ttest_rel stats_t_ppf g = ok r /\
        length (differences r) = 10%nat).
Proof.
  split; [exact paired_initial_globals_Inv|].
  split; [exact paired_handle_event_Inv|].
  intros lib ppf g tp (_ & Hb & Ha & _) Hlib.
  unfold frame_results, perform_paired_ttest.
  rewrite TTestEngines.np_subtract_equal_length
    by (rewrite !length_map; congruence).
  cbn [bind ok]. rewrite Hlib. cbn [bind ok].
  eexists. split; [reflexivity|].
  cbn [differences].
  rewrite length_map, length_combine, !length_map, Hb, Ha. reflexivity.
Qed.

Lemma paired_loop_keeps_ten_pairs_witness :
  exists g',
    handle_event (0, 0)%Z
      (set_selection initial_globals (Some 3%nat) (Some After) true)
      (MOUSEMOTION 7) = ok g' /\
    Inv g'.
Proof.
  apply (proj1 (proj2 paired_loop_keeps_ten_pairs)).
  unfold Inv. cbv zeta. vm_compute.
  split; [intros E; discriminate E|].
  split; [reflexivity|]. split; [reflexivity|].
  split; [intros i E; injection E as <-; lia|].
  split; repeat constructor; intros E; discriminate E.
Defined.

(** X23: a drag in the table moves one value.  With a cell selected and
    held, a pointer move by [rel_y] adds [-rel_y / 2] to the selected
    value of the selected column, keeps it at 0 or above, and leaves the
    rest of that column and the whole other column as they were; without
    a held cell a move changes nothing. *)
Theorem table_drag_moves_one_value :
  forall (mouse_pos : Z * Z) (rel_y : Z) (g : Globals),
    Inv g ->
    exists g',
      handle_event mouse_pos g (MOUSEMOTION rel_y) = ok g' /\
      (forall i v,
          dragging g = true -> selected_point g = Some i ->
          selected_column g = Some Before ->
          nth_error (before_data g) i = Some v ->
          nth_error (before_data g') i
          = Some (py_max 0 (v + - inject_Z rel_y * (5 # 10))) /\
          (forall j, j <> i ->
                     nth_error (before_data g') j
                     = nth_error (before_data g) j) /\
          after_data g' = after_data g) /\
      (forall i v,
          dragging g = true -> selected_point g = Some i ->
          selected_column g = Some After ->
          nth_error (after_data g) i = Some v ->
          nth_error (after_data g') i
          = Some (py_max 0 (v + - inject_Z rel_y * (5 # 10))) /\
          (forall j, j <> i ->
                     nth_error (after_data g') j
                     = nth_error (after_data g) j) /\
          before_data g' = before_data g) /\
      (dragging g = false -> g' = g).
Proof.
  intros mp rel g HI. cbn [handle_event].
  destruct (paired_on_mousemotion_Inv rel g HI)
    as (g' & E & _ & Hbefore & Hafter & Hidle).
  exists g'. split; [exact E|]. split; [|split; [|exact Hidle]].
  - intros i v Hd Hs Hc Hn.
    destruct (Hbefore i v Hd Hs Hc Hn) as [Hb Ha].
    rewrite Hb. split; [|split; [|exact Ha]].
    + rewrite (OneSampleLoop.nth_error_update_nth_same
                 (fun _ => py_max 0 (v + - inject_Z rel * (5 # 10)))
                 _ _ _ Hn).
      reflexivity.
    + intros j Hj. apply OneSampleLoop.nth_error_update_nth_diff.
      congruence.
  - intros i v Hd Hs Hc Hn.
    destruct (Hafter i v Hd Hs Hc Hn) as [Ha Hb].
    rewrite Ha. split; [|split; [|exact Hb]].
    + rewrite (OneSampleLoop.nth_error_update_nth_same
                 (fun _ => py_max 0 (v + - inject_Z rel * (5 # 10)))
                 _ _ _ Hn).
      reflexivity.
    + intros j Hj. apply OneSampleLoop.nth_error_update_nth_diff.
      congruence.
Qed.

Lemma table_drag_moves_one_value_witness :
  let g := set_selection initial_globals (Some 3%nat) (Some After) true in
  exists g',
    handle_event (0, 0)%Z g (MOUSEMOTION 7) = ok g' /\
    nth_error (after_data g') 3%nat
    = Some (py_max 0 ((423 # 10) + - inject_Z 7 * (5 # 10))) /\
    before_data g' = before_data g.
Proof.
  cbv zeta.
  destruct (table_drag_moves_one_value (0, 0)%Z 7
              (set_selection initial_globals (Some 3%nat) (Some After)
                             true))
    as (g' & E & _ & Hafter & _).
  - unfold Inv. cbv zeta. vm_compute.
    split; [intros E; discriminate E|].
    split; [reflexivity|]. split; [reflexivity|].
    split; [intros i E; injection E as <-; lia|].
    split; repeat constructor; intros E; discriminate E.
  - exists g'. split; [exact E|].
    destruct (Hafter 3%nat (423 # 10) eq_refl eq_refl eq_refl eq_refl)
      as (H1 & _ & H2).
    split; assumption.
Defined.

End PairedLoop.

(** ** The data tables: drawing and clicking *)

Module TableClicks.

Import PyFacts.

(** *** [one_sample_ttest.py] *)

Lemma one_sample_grid (g : OneSampleTTest.Globals) :
  OneSampleTTest.Inv g ->
  let p := OneSampleTTest.data_panel (OneSampleTTest.layout g) in
  let panel := rect_of (OneSampleTTest.left p) (OneSampleTTest.top p)
                       (OneSampleTTest.pwidth p)
                       (OneSampleTTest.pheight p) in
  let cols := OneSampleTTest.table_cols g in
  let cw := ((rw panel - 20) / cols)%Z in
  (1 <= cols <= 5)%Z /\ (1 <= cw)%Z /\ (cols * cw <= rw panel - 20)%Z /\
  OneSampleTTest.table_cell_width g = ok cw /\
  OneSampleTTest.table_cell_height g = ok 30%Z.
Proof.
  unfold OneSampleTTest.Inv. cbv zeta. intros (_ & Hw & Hh & Hd & _).
  unfold OneSampleTTest.table_cell_width, OneSampleTTest.table_cell_height,
    OneSampleTTest.table_cols.
  cbv zeta. rewrite Hd.
  set (panel := rect_of _ _ _ _) in *.
  set (aw := (rw panel - 20)%Z).
  set (cols := Z.max 1 (Z.min 5 (aw / 80))).
  assert (Haw : (1 <= aw)%Z) by (unfold aw; lia).
  assert (Hc1 : (1 <= cols <= 5)%Z) by (unfold cols; lia).
  assert (Hc2 : (cols <= aw)%Z).
  { unfold cols. assert (aw / 80 <= aw)%Z; [|lia].
    apply Z.div_le_upper_bound; lia. }
  assert (Hcw : (1 <= aw / cols)%Z).
  { apply Z.div_le_lower_bound; lia. }
  split; [exact Hc1|]. split; [exact Hcw|].
  split; [apply Z.mul_div_le; lia|].
  split.
  - unfold OneSampleTTest.py_floordiv.
    destruct (cols =? 0)%Z eqn:E; [apply Z.eqb_eq in E; lia|].
    reflexivity.
  - assert (Hrows : ((Z.of_nat 10 + cols - 1) / cols <= 10)%Z).
    { apply Z.div_le_upper_bound; [lia|]. change (Z.of_nat 10) with 10%Z.
      nia. }
    assert (Hvis : (10 <= (rh panel - 80) / 30)%Z).
    { apply Z.div_le_lower_bound; lia. }
    destruct ((rh panel - 80) / 30 <? (Z.of_nat 10 + cols - 1) / cols)%Z
      eqn:E; [apply Z.ltb_lt in E; lia | reflexivity].
Qed.

(** X24: in [one_sample_ttest.py] the hit test inverts the grid.  For
    each of the ten data points, [draw_data_table] has a place to draw
    it, and a press anywhere in the cell that starts there, one cell
    width wide and 30 high, is a press on that data point. *)
Theorem table_click_finds_the_point :
  forall (g : OneSampleTTest.Globals) (i : nat) (dx dy : Z),
    OneSampleTTest.Inv g ->
    (i < 10)%nat ->
    exists cell_x cell_y cell_width,
      OneSampleTTest.cell_origin g i = ok (cell_x, cell_y) /\
      OneSampleTTest.table_cell_width g = ok cell_width /\
      (1 <= cell_width)%Z /\
      ((0 <= dx < cell_width)%Z -> (0 <= dy < 30)%Z ->
       OneSampleTTest.clicked_point g (cell_x + dx, cell_y + dy)%Z
       = ok (Some (Z.of_nat i))).
Proof.
  intros g i dx dy HI Hi.
  destruct (one_sample_grid g HI) as (Hc & Hcw & Hfit & Ew & Eh).
  cbv zeta in Hc, Hcw, Hfit, Ew, Eh.
  pose proof HI as (_ & Hw & Hh & Hd & _). cbv zeta in Hw, Hh.
  unfold OneSampleTTest.cell_origin. cbv zeta.
  rewrite Ew, Eh. cbn [bind ok].
  set (panel := rect_of _ _ _ _) in *.
  set (cols := OneSampleTTest.table_cols g) in *.
  set (cw := ((rw panel - 20) / cols)%Z) in *.
  destruct (cols =? 0)%Z eqn:E0; [apply Z.eqb_eq in E0; lia|].
  cbn [bind ok]. unfold OneSampleTTest.py_floordiv at 1. rewrite E0.
  cbn [bind ok].
  set (col := (Z.of_nat i mod cols)%Z).
  set (row := (Z.of_nat i / cols)%Z).
  assert (Hcol : (0 <= col < cols)%Z) by (apply Z.mod_pos_bound; lia).
  assert (Hrow : (0 <= row <= 9)%Z).
  { unfold row. split; [apply Z.div_pos; lia|].
    apply Z.div_le_upper_bound; nia. }
  assert (Hi' : (Z.of_nat i = row * cols + col)%Z).
  { unfold row, col. rewrite (Z.mul_comm _ cols).
    apply Z.div_mod. lia. }
  eexists. eexists. eexists. split; [reflexivity|]. split; [reflexivity|].
  split; [exact Hcw|].
  intros Hdx Hdy.
  unfold OneSampleTTest.clicked_point. cbv zeta. fold panel.
  assert (Hin : collidepoint panel
                  (rx panel + 10 + col * cw + dx,
                   ry panel + 60 + row * 30 + dy)%Z = true).
  { unfold collidepoint. cbn [fst snd].
    assert (col * cw + cw <= cols * cw)%Z by nia.
    repeat (apply andb_true_iff; split);
      first [apply Z.leb_le | apply Z.ltb_lt]; nia. }
  rewrite Hin. rewrite Hd. cbn [fst snd].
  change (Z.max 1 (Z.min 5 ((rw panel - 20) / 80))) with cols.
  fold cw.
  assert (Hrows : ((Z.of_nat 10 + cols - 1) / cols <= 10)%Z).
  { apply Z.div_le_upper_bound; [lia|]. change (Z.of_nat 10) with 10%Z.
    nia. }
  assert (Hvis : (10 <= (rh panel - 80) / 30)%Z).
  { apply Z.div_le_lower_bound; lia. }
  destruct ((rh panel - 80) / 30 <? (Z.of_nat 10 + cols - 1) / cols)%Z
    eqn:E; [apply Z.ltb_lt in E; lia|].
  cbn [bind ok]. unfold OneSampleTTest.py_floordiv.
  destruct (cw =? 0)%Z eqn:E1; [apply Z.eqb_eq in E1; lia|].
  cbn [bind ok]. change (30 =? 0)%Z with false. cbn [bind ok].
  replace (rx panel + 10 + col * cw + dx - (rx panel + 10))%Z
    with (dx + col * cw)%Z by lia.
  replace (ry panel + 60 + row * 30 + dy - (ry panel + 60))%Z
    with (dy + row * 30)%Z by lia.
  rewrite Z.div_add by lia. rewrite Z.div_add by lia.
  rewrite (Z.div_small dx cw) by lia. rewrite (Z.div_small dy 30) by lia.
  f_equal. f_equal. lia.
Qed.

Lemma table_click_finds_the_point_witness :
  exists cell_x cell_y cell_width,
    OneSampleTTest.cell_origin OneSampleTTest.initial_globals 7
    = ok (cell_x, cell_y) /\
    OneSampleTTest.table_cell_width OneSampleTTest.initial_globals
    = ok cell_width /\
    (1 <= cell_width)%Z /\
    ((0 <= 0 < cell_width)%Z -> (0 <= 5 < 30)%Z ->
     OneSampleTTest.clicked_point OneSampleTTest.initial_globals
       (cell_x + 0, cell_y + 5)%Z = ok (Some (Z.of_nat 7))).
Proof.
  apply (table_click_finds_the_point OneSampleTTest.initial_globals 7 0 5).
  - apply OneSampleFacts.one_sample_initial_globals_Inv.
  - lia.
Defined.

(** *** [paired_ttest.py] *)

Lemma paired_row_height (g : PairedTTest.Globals) :
  PairedTTest.Inv g -> PairedTTest.row_height g = ok 30.
Proof.
  unfold PairedTTest.Inv. cbv zeta. intros (Hh & Hb & _).
  unfold PairedTTest.row_height. cbv zeta. rewrite Hb.
  rewrite py_truediv_ok by (intros E; discriminate E).
  cbn [bind ok]. f_equal. unfold py_min.
  match goal with
  | |- (if Qltb ?q 30 then _ else _) = _ =>
      destruct (Qltb q 30) eqn:E; [|reflexivity];
      apply Qltb_lt in E; exfalso;
      assert (Hq : 40 <= q)
  end.
  { apply Qle_shift_div_l; [reflexivity|].
    change (inject_Z (Z.of_nat 10)) with 10.
    match goal with
    | |- _ <= inject_Z ?k => assert (400 <= inject_Z k); [|lra]
    end.
    change 400 with (inject_Z 400). rewrite <- Zle_Qle. lia. }
  lra.
Qed.

Lemma py_int_div_30 (k i : Z) :
  (30 * i <= k < 30 * i + 30)%Z -> (0 <= i)%Z ->
  py_int (inject_Z k / 30) = i.
Proof.
  intros H Hi. unfold py_int, Qdiv, Qmult, Qinv, inject_Z.
  cbn [Qnum Qden]. rewrite Z.mul_1_r.
  change (Z.pos (1 * 30)) with 30%Z.
  rewrite Z.quot_div_nonneg by lia.
  symmetry. apply (Z.div_unique k 30 i (k - 30 * i)); lia.
Qed.

(** Nearer to the first quarter than to the third: left of the middle. *)
Lemma nearer_before (x left w : Q) :
  0 < w ->
  Qltb (Qabs (x - (left + w * (25 # 100))))
       (Qabs (x - (left + w * (75 # 100))))
  = Qltb x (left + w * (1 # 2)).
Proof.
  intros Hw.
  set (u := x - (left + w * (25 # 100))).
  set (v := x - (left + w * (75 # 100))).
  assert (Huv : v == u - w * (1 # 2)) by (unfold u, v; ring).
  destruct (Qltb x (left + w * (1 # 2))) eqn:E.
  - apply Qltb_lt in E. apply Qltb_lt.
    assert (Hv : v < 0) by (unfold v; lra).
    rewrite (Qabs_neg v) by lra.
    apply Qabs_case; intros Hu; unfold u, v in *; lra.
  - apply Qltb_ge in E. apply Qltb_ge.
    assert (Hu : 0 <= u) by (unfold u; lra).
    rewrite (Qabs_pos u) by exact Hu.
    apply Qabs_case; intros Hv; unfold u, v in *; lra.
Qed.

(** X25: in [paired_ttest.py] a press in the table selects the row it
    falls in, and the column by the half of the panel.  For each of the
    ten subjects the row is drawn at [row_y]; a press inside the panel
    whose ordinate lies from that row's [row_y] up to the next row's
    never fails, selects that subject and starts a drag, in the "before"
    column when the pointer is left of the middle of the panel and in the
    "after" column otherwise. *)
Theorem table_click_selects_the_row :
  forall (g : PairedTTest.Globals) (i : nat) (x y button : Z),
    PairedTTest.Inv g ->
    (i < 10)%nat ->
    let p := PairedTTest.data_panel (PairedTTest.layout g) in
    let panel := rect_of (PairedTTest.left p) (PairedTTest.top p)
                         (PairedTTest.pwidth p) (PairedTTest.pheight p) in
    (rx panel <= x < rx panel + rw panel)%Z ->
    exists y_i y_next,
      PairedTTest.row_y g i = ok y_i /\
      PairedTTest.row_y g (S i) = ok y_next /\
      (y_i <= inject_Z y -> inject_Z y < y_next ->
       exists g',
         PairedTTest.handle_event (x, y) g (MOUSEBUTTONDOWN button)
         = ok g' /\
         PairedTTest.selected_point g' = Some i /\
         PairedTTest.dragging g' = true /\
         PairedTTest.selected_column g'
         = Some (if (2 * x <? 2 * rx panel + rw panel)%Z
                 then PairedTTest.Before else PairedTTest.After)).
Proof.
  intros g i x y button HI Hi p panel Hx.
  pose proof HI as (Hh & Hb & _). cbv zeta in Hh. fold p in Hh.
  fold panel in Hh.
  unfold PairedTTest.row_y. cbv zeta.
  rewrite (paired_row_height g HI). cbn [bind ok].
  fold p. fold panel.
  eexists. eexists. split; [reflexivity|]. split; [reflexivity|].
  intros Hy1 Hy2.
  assert (Zy : (ry panel + 60 + 10 + 35 + 30 * Z.of_nat i <= y
                < ry panel + 60 + 10 + 35 + 30 * Z.of_nat i + 30)%Z).
  { assert (E1 : inject_Z (ry panel + 60 + 10 + 35)
                 + inject_Z (Z.of_nat i) * 30
                 == inject_Z (ry panel + 60 + 10 + 35 + 30 * Z.of_nat i)).
    { rewrite !inject_Z_plus, inject_Z_mult. ring. }
    assert (E2 : inject_Z (ry panel + 60 + 10 + 35)
                 + inject_Z (Z.of_nat (S i)) * 30
                 == inject_Z (ry panel + 60 + 10 + 35
                              + 30 * Z.of_nat i + 30)).
    { rewrite Nat2Z.inj_succ. unfold Z.succ.
      rewrite !inject_Z_plus, inject_Z_mult. ring. }
    rewrite E1 in Hy1. rewrite E2 in Hy2.
    rewrite <- Zle_Qle in Hy1. rewrite <- Zlt_Qlt in Hy2. lia. }
  cbn [PairedTTest.handle_event]. unfold PairedTTest.on_mousebuttondown.
  cbv zeta.
  set (g1 := if collidepoint (PairedTTest.reset_button g) (x, y)
             then _ else _).
  assert (H1 : PairedTTest.layout g1 = PairedTTest.layout g /\
               length (PairedTTest.before_data g1) = 10%nat).
  { unfold g1. repeat break_if; split; try reflexivity; exact Hb. }
  destruct H1 as [El Elen]. clearbody g1.
  unfold PairedTTest.clicked_cell. cbv zeta. rewrite El, Elen.
  fold p. fold panel.
  assert (Hin : collidepoint panel (x, y) = true).
  { unfold collidepoint. cbn [fst snd].
    repeat (apply andb_true_iff; split);
      first [apply Z.leb_le | apply Z.ltb_lt]; lia. }
  rewrite Hin.
  pose proof (paired_row_height g HI) as Er.
  unfold PairedTTest.row_height in Er. cbv zeta in Er.
  fold p in Er. fold panel in Er. rewrite Hb in Er.
  destruct (py_truediv (inject_Z (rh panel - 100))
                       (inject_Z (Z.of_nat 10))) as [e|q] eqn:Eq;
    [discriminate Er|].
  cbn [bind ok] in Er |- *. apply Chi2LoopFacts.ok_inj in Er.
  rewrite Er. cbn [fst snd].
  destruct (ry panel + 60 + 10 + 35 <=? y)%Z eqn:Ey;
    [|apply Z.leb_gt in Ey; lia].
  rewrite py_truediv_ok by (intros E; discriminate E).
  cbn [bind ok].
  rewrite (py_int_div_30 (y - (ry panel + 60 + 10 + 35)) (Z.of_nat i))
    by lia.
  assert (Hrange : ((0 <=? Z.of_nat i)
                    && (Z.of_nat i <? Z.of_nat 10))%Z = true).
  { apply andb_true_iff. split; [apply Z.leb_le | apply Z.ltb_lt]; lia. }
  rewrite Hrange.
  eexists. split; [reflexivity|].
  cbn [PairedTTest.selected_point PairedTTest.dragging
       PairedTTest.selected_column PairedTTest.set_selection].
  rewrite Nat2Z.id. split; [reflexivity|]. split; [reflexivity|].
  f_equal.
  assert (Qw : 0 < inject_Z (rw panel)).
  { change 0 with (inject_Z 0). rewrite <- Zlt_Qlt. lia. }
  rewrite (nearer_before (inject_Z x) (inject_Z (rx panel))
                         (inject_Z (rw panel)) Qw).
  destruct (2 * x <? 2 * rx panel + rw panel)%Z eqn:Ex.
  - apply Z.ltb_lt in Ex.
    assert (E : Qltb (inject_Z x)
                  (inject_Z (rx panel) + inject_Z (rw panel) * (1 # 2))
                = true).
    { apply Qltb_lt.
      assert (inject_Z (2 * x) < inject_Z (2 * rx panel + rw panel))
        by (rewrite <- Zlt_Qlt; exact Ex).
      rewrite inject_Z_plus, !inject_Z_mult in H.
      change (inject_Z 2) with 2 in H. lra. }
    rewrite E. reflexivity.
  - apply Z.ltb_ge in Ex.
    assert (E : Qltb (inject_Z x)
                  (inject_Z (rx panel) + inject_Z (rw panel) * (1 # 2))
                = false).
    { apply Qltb_ge.
      assert (inject_Z (2 * rx panel + rw panel) <= inject_Z (2 * x))
        by (rewrite <- Zle_Qle; exact Ex).
      rewrite inject_Z_plus, !inject_Z_mult in H.
      change (inject_Z 2) with 2 in H. lra. }
    rewrite E. reflexivity.
Qed.

Lemma table_click_selects_the_row_witness :
  exists g',
    PairedTTest.handle_event (900, 250)%Z PairedTTest.initial_globals
                             (MOUSEBUTTONDOWN 1) = ok g' /\
    PairedTTest.selected_point g' = Some 2%nat /\
    PairedTTest.selected_column g' = Some PairedTTest.Before.
Proof.
  destruct (table_click_selects_the_row PairedTTest.initial_globals 2
              900 250 1 PairedLoop.paired_initial_globals_Inv
              ltac:(lia) ltac:(vm_compute; split; [intros E; discriminate E | reflexivity]))
    as (yi & yn & E1 & E2 & H).
  vm_compute in E1, E2. injection E1 as <-. injection E2 as <-.
  destruct H as (g' & E & Hs & _ & Hc).
  - intros E. discriminate E.
  - reflexivity.
  - exists g'. split; [exact E|]. split; [exact Hs | exact Hc].
Defined.

End TableClicks.

(** ** The layouts: one slider under the pointer *)

Module SliderLayout.

Import PyFacts SliderFacts.

(** Integer parts of non-negative floats keep the order of sums. *)
Lemma py_int_add_le (a b c : Q) :
  0 <= a -> 0 <= b -> a + b <= c -> (py_int a + py_int b <= py_int c)%Z.
Proof.
  intros Ha Hb Hc.
  destruct (TTestSimulation.py_int_upper a Ha) as [A0 A1].
  destruct (TTestSimulation.py_int_upper b Hb) as [B0 B1].
  apply OneSampleFacts.py_int_lower; [lia|].
  rewrite inject_Z_plus. lra.
Qed.

Lemma py_int_shift_le (a c : Q) (k : Z) :
  0 <= a -> (0 <= k)%Z -> a + inject_Z k <= c ->
  (py_int a + k <= py_int c)%Z.
Proof.
  intros Ha Hk Hc.
  destruct (TTestSimulation.py_int_upper a Ha) as [A0 A1].
  apply OneSampleFacts.py_int_lower; [lia|].
  rewrite inject_Z_plus. lra.
Qed.

Lemma py_min_lower (a b c : Q) : c <= a -> c <= b -> c <= py_min a b.
Proof. intros Ha Hb. unfold py_min. destruct (Qltb b a); assumption. Qed.

Lemma py_floor_nonneg (q : Q) : 0 <= q -> 0 <= py_floor q.
Proof.
  intros H. unfold py_floor. change 0 with (inject_Z 0).
  rewrite <- Zle_Qle. change 0%Z with (Qfloor (inject_Z 0)).
  apply Qfloor_resp_le. exact H.
Qed.

Lemma collidepoint_true (r : Rect) (p : Z * Z) :
  collidepoint r p = true ->
  (rx r <= fst p < rx r + rw r)%Z /\ (ry r <= snd p < ry r + rh r)%Z.
Proof.
  unfold collidepoint. intros H.
  repeat (apply andb_true_iff in H; destruct H as [H ?]).
  apply Z.leb_le in H. apply Z.ltb_lt in H0, H2. apply Z.leb_le in H1.
  lia.
Qed.

(** Two rectangles of which one ends where the other starts, or before,
    in one of the two directions, share no point. *)
Lemma apart_disjoint (r1 r2 : Rect) (p : Z * Z) :
  (rx r1 + rw r1 <= rx r2 \/ rx r2 + rw r2 <= rx r1 \/
   ry r1 + rh r1 <= ry r2 \/ ry r2 + rh r2 <= ry r1)%Z ->
  collidepoint r1 p = true -> collidepoint r2 p = false.
Proof.
  intros A H1. destruct (collidepoint r2 p) eqn:H2; [|reflexivity].
  apply collidepoint_true in H1, H2. lia.
Qed.

Lemma slider_rect_height (s : Slider) : rh (slider_rect s) = 20%Z.
Proof. reflexivity. Qed.

Lemma slider_rect_beside (s1 s2 : Slider) :
  5 <= fst (pos s1) -> 0 <= width s1 + 10 ->
  fst (pos s1) + width s1 + 10 <= fst (pos s2) ->
  (rx (slider_rect s1) + rw (slider_rect s1) <= rx (slider_rect s2))%Z.
Proof.
  intros H1 H2 H3. unfold slider_rect, rect_of. cbn [rx rw].
  apply py_int_add_le; lra.
Qed.

Lemma slider_rect_over (s1 s2 : Slider) :
  10 <= snd (pos s1) -> snd (pos s1) + 20 <= snd (pos s2) ->
  (ry (slider_rect s1) + rh (slider_rect s1) <= ry (slider_rect s2))%Z.
Proof.
  intros H1 H2. rewrite slider_rect_height.
  unfold slider_rect, rect_of. cbn [ry].
  apply py_int_shift_le; [lra | lia |].
  change (inject_Z 20) with 20. lra.
Qed.

Lemma slider_rect_geometry (s s' : Slider) :
  geometry s = geometry s' -> slider_rect s = slider_rect s'.
Proof.
  unfold geometry, slider_rect. intros E. injection E as -> ->.
  reflexivity.
Qed.

(** Whether hit areas overlap depends on the geometry alone. *)
Lemma hit_areas_disjoint_ext (ss ss' : list Slider) :
  map geometry ss = map geometry ss' ->
  hit_areas_disjoint ss' -> hit_areas_disjoint ss.
Proof.
  intros E H p i j si sj Hij Hi Hj Hc.
  assert (G : forall k s, nth_error ss k = Some s ->
                exists s', nth_error ss' k = Some s' /\
                           slider_rect s = slider_rect s').
  { intros k s Hk.
    pose proof (map_nth_error geometry _ _ Hk) as Hm. rewrite E in Hm.
    rewrite nth_error_map in Hm.
    destruct (nth_error ss' k) as [s'|]; [|discriminate Hm].
    exists s'. split; [reflexivity|].
    apply slider_rect_geometry. cbn in Hm. congruence. }
  destruct (G i si Hi) as (si' & Hi' & Ei).
  destruct (G j sj Hj) as (sj' & Hj' & Ej).
  rewrite Ej. rewrite Ei in Hc. exact (H p i j si' sj' Hij Hi' Hj' Hc).
Qed.

(** *** [t_test.py] *)

Lemma ttest_layout_grid (g : TTest.Globals) :
  (TTest.MIN_HEIGHT <= TTest.HEIGHT g)%Z ->
  let g' := TTest.calculate_layout g in
  let m1 := TTest.slider_mean1 g' in
  let m2 := TTest.slider_mean2 g' in
  let s1 := TTest.slider_std1 g' in
  let s2 := TTest.slider_std2 g' in
  let n := TTest.slider_sample g' in
  (5 <= fst (pos m1) /\ 0 <= width m1 + 10 /\
   fst (pos m1) + width m1 + 10 <= fst (pos m2)) /\
  (fst (pos s1) = fst (pos m1) /\ width s1 = width m1 /\
   fst (pos s2) = fst (pos m2) /\
   snd (pos m2) = snd (pos m1) /\ snd (pos s2) = snd (pos s1)) /\
  (10 <= snd (pos m1) /\ snd (pos m1) + 20 <= snd (pos s1) /\
   snd (pos s1) + 20 <= snd (pos n)).
Proof.
  intros HH. cbv zeta.
  assert (QH : 700 <= inject_Z (TTest.HEIGHT g)).
  { change 700 with (inject_Z TTest.MIN_HEIGHT). rewrite <- Zle_Qle.
    exact HH. }
  unfold TTest.calculate_layout. cbv zeta.
  cbn [TTest.slider_mean1 TTest.slider_mean2 TTest.slider_std1
       TTest.slider_std2 TTest.slider_sample TTest.set_layout
       TTest.set_sliders pos width fst snd].
  set (W := inject_Z (TTest.WIDTH g)).
  set (H := inject_Z (TTest.HEIGHT g)) in *.
  change (inject_Z TTest.H_MARGIN) with 20.
  change (inject_Z TTest.PANEL_MARGIN) with 15.
  change (inject_Z TTest.LABEL_COLUMN_WIDTH) with 140.
  change (inject_Z TTest.VALUE_COLUMN_WIDTH) with 50.
  change (inject_Z TTest.LABEL_SLIDER_GAP) with 20.
  change (inject_Z TTest.SLIDER_VALUE_GAP) with 16.
  change (inject_Z TTest.HEADER_HEIGHT) with 60.
  change (inject_Z TTest.RESULT_MARGIN) with 20.
  change (inject_Z (TTest.LABEL_COLUMN_WIDTH + TTest.SLIDER_MIN_WIDTH +
                    TTest.VALUE_COLUMN_WIDTH + TTest.LABEL_SLIDER_GAP +
                    TTest.SLIDER_VALUE_GAP + TTest.H_MARGIN * 2))
    with 416.
  set (pw := py_max (py_min (W * (4 # 10)) 450) 416).
  set (lpl := py_max (py_floor ((W - 2 * pw - 15) / 2)) 20).
  set (ch := py_min ((H - 60 - 15 - 40 - 20) * (4 # 10)) 450).
  set (shrink := Qltb _ _).
  set (ph := if shrink then py_max 80 _ else 120).
  set (sph := if shrink then py_max 40 _ else 50).
  assert (Hpw : 416 <= pw) by apply py_max_ge_r.
  assert (Hlpl : 20 <= lpl) by apply py_max_ge_r.
  assert (Hch : 0 <= ch).
  { unfold ch. apply py_min_lower; lra. }
  assert (Hph : 80 <= ph).
  { unfold ph. destruct shrink; [apply py_max_lower | lra]. }
  assert (Hsph : 0 <= py_floor (sph / 2)).
  { apply py_floor_nonneg.
    assert (40 <= sph).
    { unfold sph. destruct shrink; [apply py_max_lower | lra]. }
    apply Qle_shift_div_l; lra. }
  repeat split; try reflexivity; lra.
Qed.

(** The five hit areas laid out by [calculate_layout] share no point. *)
Lemma ttest_layout_disjoint (g : TTest.Globals) :
  (TTest.MIN_HEIGHT <= TTest.HEIGHT g)%Z ->
  hit_areas_disjoint (TTest.sliders (TTest.calculate_layout g)).
Proof.
  intros HH.
  destruct (ttest_layout_grid g HH)
    as ((X1 & X2 & X3) & (E1 & E2 & E3 & E4 & E5) & (Y1 & Y2 & Y3)).
  cbv zeta in *. unfold TTest.sliders.
  set (g' := TTest.calculate_layout g) in *.
  set (m1 := TTest.slider_mean1 g') in *.
  set (m2 := TTest.slider_mean2 g') in *.
  set (s1 := TTest.slider_std1 g') in *.
  set (s2 := TTest.slider_std2 g') in *.
  set (n := TTest.slider_sample g') in *.
  assert (B12 : (rx (slider_rect m1) + rw (slider_rect m1)
                 <= rx (slider_rect m2))%Z)
    by (apply slider_rect_beside; assumption).
  assert (B34 : (rx (slider_rect s1) + rw (slider_rect s1)
                 <= rx (slider_rect s2))%Z).
  { apply slider_rect_beside; rewrite ?E1, ?E2, ?E3; assumption. }
  assert (O13 : (ry (slider_rect m1) + rh (slider_rect m1)
                 <= ry (slider_rect s1))%Z)
    by (apply slider_rect_over; assumption).
  assert (O14 : (ry (slider_rect m1) + rh (slider_rect m1)
                 <= ry (slider_rect s2))%Z).
  { apply slider_rect_over; rewrite ?E5; assumption. }
  assert (O23 : (ry (slider_rect m2) + rh (slider_rect m2)
                 <= ry (slider_rect s1))%Z).
  { apply slider_rect_over; rewrite ?E4; assumption. }
  assert (O24 : (ry (slider_rect m2) + rh (slider_rect m2)
                 <= ry (slider_rect s2))%Z).
  { apply slider_rect_over; rewrite ?E4, ?E5; assumption. }
  assert (O35 : (ry (slider_rect s1) + rh (slider_rect s1)
                 <= ry (slider_rect n))%Z).
  { apply slider_rect_over; [lra | assumption]. }
  assert (O45 : (ry (slider_rect s2) + rh (slider_rect s2)
                 <= ry (slider_rect n))%Z).
  { apply slider_rect_over; rewrite ?E5; [lra | assumption]. }
  assert (O15 : (ry (slider_rect m1) + rh (slider_rect m1)
                 <= ry (slider_rect n))%Z).
  { apply slider_rect_over; [assumption | lra]. }
  assert (O25 : (ry (slider_rect m2) + rh (slider_rect m2)
                 <= ry (slider_rect n))%Z).
  { apply slider_rect_over; rewrite ?E4; [assumption | lra]. }
  clearbody m1 m2 s1 s2 n.
  intros p i j si sj Hij Hi Hj Hc.
  destruct i as [|[|[|[|[|i]]]]]; cbn in Hi;
    [| | | | |destruct i; discriminate Hi];
    injection Hi as <-;
    (destruct j as [|[|[|[|[|j]]]]]; cbn in Hj;
     [| | | | |destruct j; discriminate Hj];
     injection Hj as <-;
     try (exfalso; apply Hij; reflexivity);
     apply (fun A => apart_disjoint _ _ p A Hc); lia).
Qed.


(** What a press or a move makes of one slider. *)
Lemma drag_to_geometry (mx : Z) (s s' : Slider) :
  drag_to mx s = ok s' ->
  geometry s' = geometry s /\ dragging s' = dragging s.
Proof.
  unfold drag_to. intros H.
  apply Chi2LoopFacts.bind_ok in H. destruct H as (v & _ & H).
  apply Chi2LoopFacts.ok_inj in H. subst s'. split; reflexivity.
Qed.

Lemma ttest_press_slider_geometry (mp : Z * Z) (s s' : Slider) :
  TTest.press_slider mp s = ok s' -> geometry s' = geometry s.
Proof.
  unfold TTest.press_slider. destruct (collidepoint _ _); intros H.
  - apply drag_to_geometry in H. apply H.
  - apply Chi2LoopFacts.ok_inj in H. subst s'. reflexivity.
Qed.

Lemma ttest_move_slider_geometry (mp : Z * Z) (s s' : Slider) :
  TTest.move_slider mp s = ok s' -> geometry s' = geometry s.
Proof.
  unfold TTest.move_slider. destruct (dragging s); intros H.
  - apply drag_to_geometry in H. apply H.
  - apply Chi2LoopFacts.ok_inj in H. subst s'. reflexivity.
Qed.

(** A press sets the drag flag of a released slider exactly when the
    pointer is in its hit area. *)
Lemma ttest_press_slider_flag (mp : Z * Z) (s s' : Slider) :
  TTest.press_slider mp s = ok s' -> dragging s = false ->
  dragging s' = collidepoint (slider_rect s) mp.
Proof.
  unfold TTest.press_slider. destruct (collidepoint _ _); intros H D.
  - apply drag_to_geometry in H. destruct H as [_ H]. rewrite H.
    reflexivity.
  - apply Chi2LoopFacts.ok_inj in H. subst s'. exact D.
Qed.

Section TTestLoop.

Import TTest.

Variable np_random_normal : nat -> Q -> Q -> Z -> list Q.
Variable stats_ttest_ind :
  list Q -> list Q -> exc (option R * option R).

(** The geometry [calculate_layout] gives the sliders depends on the
    window alone. *)
Lemma ttest_layout_geometry (g1 g2 : Globals) :
  WIDTH g1 = WIDTH g2 -> HEIGHT g1 = HEIGHT g2 ->
  map geometry (sliders (calculate_layout g1))
  = map geometry (sliders (calculate_layout g2)).
Proof.
  intros Ew Eh. unfold calculate_layout, sliders, geometry. cbv zeta.
  cbn [slider_mean1 slider_mean2 slider_std1 slider_std2 slider_sample
       set_layout set_sliders pos width map].
  rewrite Ew, Eh. reflexivity.
Qed.

Lemma laid_out_ext (g g' : Globals) :
  WIDTH g' = WIDTH g -> HEIGHT g' = HEIGHT g ->
  map geometry (sliders g') = map geometry (sliders g) ->
  laid_out g -> laid_out g'.
Proof.
  unfold laid_out. intros Ew Eh Eg [H1 H2]. split.
  - rewrite Eh. exact H1.
  - rewrite Eg, H2. apply ttest_layout_geometry; congruence.
Qed.

Lemma ttest_calculate_layout_laid_out (g : Globals) :
  (MIN_HEIGHT <= HEIGHT g)%Z -> laid_out (calculate_layout g).
Proof.
  intros H. split; [exact H|].
  apply ttest_layout_geometry; reflexivity.
Qed.

Lemma ttest_for_sliders_laid_out (f : Slider -> exc Slider)
    (g g' : Globals) :
  (forall s s', f s = ok s' -> geometry s' = geometry s) ->
  for_sliders f g = ok g' -> laid_out g -> laid_out g'.
Proof.
  intros Hf H. unfold for_sliders in H.
  apply Chi2LoopFacts.bind_ok in H. destruct H as (m1 & E1 & H).
  apply Chi2LoopFacts.bind_ok in H. destruct H as (m2 & E2 & H).
  apply Chi2LoopFacts.bind_ok in H. destruct H as (s1 & E3 & H).
  apply Chi2LoopFacts.bind_ok in H. destruct H as (s2 & E4 & H).
  apply Chi2LoopFacts.bind_ok in H. destruct H as (n & E5 & H).
  apply Chi2LoopFacts.ok_inj in H. subst g'.
  apply laid_out_ext; try reflexivity.
  unfold sliders.
  cbn [slider_mean1 slider_mean2 slider_std1 slider_std2 slider_sample
       set_sliders map].
  rewrite (Hf _ _ E1), (Hf _ _ E2), (Hf _ _ E3), (Hf _ _ E4), (Hf _ _ E5).
  reflexivity.
Qed.

Lemma ttest_calculate_ttest_sliders (g : Globals) :
  let g' := calculate_ttest stats_ttest_ind g in
  WIDTH g' = WIDTH g /\ HEIGHT g' = HEIGHT g /\ sliders g' = sliders g /\
  state g' = state g.
Proof.
  cbv zeta. unfold calculate_ttest. destruct (_ || _).
  - repeat split.
  - destruct (stats_ttest_ind (group1 g) (group2 g))
      as [e|[[t|] [p|]]]; repeat split.
Qed.

Lemma ttest_release_laid_out (get : Globals -> Slider)
    (put : Globals -> Slider -> Globals) (g : Globals) :
  (forall s, geometry s = geometry (get g) ->
             WIDTH (put g s) = WIDTH g /\ HEIGHT (put g s) = HEIGHT g /\
             map geometry (sliders (put g s)) = map geometry (sliders g)) ->
  laid_out g -> laid_out (release np_random_normal get put g).
Proof.
  intros Hput H. unfold release. destruct (dragging (get g)); [|exact H].
  destruct (Hput (set_dragging (get g) false) eq_refl) as (Ew & Eh & Eg).
  revert H. apply laid_out_ext.
  - exact Ew.
  - exact Eh.
  - exact Eg.
Qed.

Lemma ttest_on_mousebuttonup_laid_out (g : Globals) :
  laid_out g -> laid_out (on_mousebuttonup np_random_normal g).
Proof.
  intros H. unfold on_mousebuttonup. cbv zeta.
  repeat (apply ttest_release_laid_out;
          [intros s Es; unfold sliders;
           cbn [WIDTH HEIGHT set_sliders slider_mean1 slider_mean2
                slider_std1 slider_std2 slider_sample map];
           rewrite Es; repeat split|]).
  exact H.
Qed.

Lemma ttest_handle_event_laid_out (mp : Z * Z) (g g' : Globals)
    (ev : Event) :
  handle_event np_random_normal stats_ttest_ind mp g ev = ok g' ->
  laid_out g -> laid_out g'.
Proof.
  destruct ev as [|w h|key|button| |rel_y|]; cbn [handle_event];
    intros E H.
  - apply Chi2LoopFacts.ok_inj in E. subst g'. exact H.
  - apply Chi2LoopFacts.ok_inj in E. subst g'. unfold on_videoresize.
    cbv zeta. eapply laid_out_ext;
      [| | |apply ttest_calculate_layout_laid_out]; try reflexivity.
    cbn [HEIGHT set_window]. unfold calculate_min_height, MIN_HEIGHT.
    cbv zeta. lia.
  - apply Chi2LoopFacts.ok_inj in E. subst g'. unfold on_keydown.
    repeat break_if; try exact H; revert H;
      apply laid_out_ext; reflexivity.
  - destruct (button =? 1)%Z;
      [|apply Chi2LoopFacts.ok_inj in E; subst g'; exact H].
    unfold on_mousebuttondown in E. destruct (state g).
    + cbv beta iota zeta delta [draw_menu] in E.
      repeat break_if_in E; apply Chi2LoopFacts.ok_inj in E; subst g';
        first [ exact H | revert H; apply laid_out_ext; reflexivity ].
    + cbv beta iota zeta delta [draw_game] in E.
      apply (ttest_for_sliders_laid_out _ _ _
               (ttest_press_slider_geometry mp) E). clear E.
      set (g1 := if collidepoint (toggle_rect (layout g)) mp
                 then set_show_instructions g (negb (show_instructions g))
                 else g).
      assert (H1 : laid_out g1).
      { unfold g1. destruct (collidepoint (toggle_rect (layout g)) mp);
          [|exact H]. revert H. apply laid_out_ext; reflexivity. }
      clearbody g1.
      repeat break_if.
      * revert H1. apply laid_out_ext; reflexivity.
      * destruct (ttest_calculate_ttest_sliders g1) as (Ew & Eh & Es & _).
        revert H1. apply laid_out_ext; [exact Ew | exact Eh |].
        rewrite Es. reflexivity.
      * revert H1. apply laid_out_ext; reflexivity.
      * exact H1.
    + cbv beta iota zeta delta [tutorial_buttons] in E.
      repeat break_if_in E; apply Chi2LoopFacts.ok_inj in E; subst g';
        first [ exact H | revert H; apply laid_out_ext; reflexivity ].
    + apply Chi2LoopFacts.ok_inj in E. subst g'. exact H.
  - apply Chi2LoopFacts.ok_inj in E. subst g'.
    apply ttest_on_mousebuttonup_laid_out, H.
  - unfold on_mousemotion in E.
    exact (ttest_for_sliders_laid_out _ _ _
             (ttest_move_slider_geometry mp) E H).
  - apply Chi2LoopFacts.ok_inj in E. subst g'. exact H.
Qed.

Lemma ttest_laid_out_disjoint (g : Globals) :
  laid_out g -> hit_areas_disjoint (sliders g).
Proof.
  intros [H1 H2].
  apply (hit_areas_disjoint_ext _ _ H2).
  apply ttest_layout_disjoint, H1.
Qed.

(** A press on released sliders with disjoint hit areas grabs at most
    one. *)
Lemma ttest_press_one_drag (mp : Z * Z) (g g' : Globals) :
  hit_areas_disjoint (sliders g) ->
  Forall (fun s => dragging s = false) (sliders g) ->
  for_sliders (press_slider mp) g = ok g' ->
  one_drag (sliders g').
Proof.
  intros D F H. unfold for_sliders in H.
  apply Chi2LoopFacts.bind_ok in H. destruct H as (m1 & E1 & H).
  apply Chi2LoopFacts.bind_ok in H. destruct H as (m2 & E2 & H).
  apply Chi2LoopFacts.bind_ok in H. destruct H as (s1 & E3 & H).
  apply Chi2LoopFacts.bind_ok in H. destruct H as (s2 & E4 & H).
  apply Chi2LoopFacts.bind_ok in H. destruct H as (n & E5 & H).
  apply Chi2LoopFacts.ok_inj in H. subst g'.
  unfold sliders in F.
  inversion F as [|? ? F1 F']; subst. inversion F' as [|? ? F2 F'']; subst.
  inversion F'' as [|? ? F3 G]; subst. inversion G as [|? ? F4 G']; subst.
  inversion G' as [|? ? F5 _]; subst.
  apply ttest_press_slider_flag in E1, E2, E3, E4, E5; try assumption.
  unfold sliders.
  cbn [slider_mean1 slider_mean2 slider_std1 slider_std2 slider_sample
       set_sliders].
  intros i j si sj Hij Hi Hj Hd.
  destruct i as [|[|[|[|[|i]]]]]; cbn in Hi;
    [| | | | |destruct i; discriminate Hi];
    injection Hi as <-;
    (destruct j as [|[|[|[|[|j]]]]]; cbn in Hj;
     [| | | | |destruct j; discriminate Hj];
     injection Hj as <-;
     try (exfalso; apply Hij; reflexivity);
     rewrite ?E1, ?E2, ?E3, ?E4, ?E5 in *;
     refine (D mp _ _ _ _ Hij _ _ Hd); reflexivity).
Qed.

End TTestLoop.

(** X26: the sliders of [t_test.py] never overlap.  At the start and
    after every event the window is at least [MIN_HEIGHT] high and the
    five sliders sit where [calculate_layout] puts them for the window;
    there no point lies in the hit areas of two sliders, and so a press
    while no slider is held grabs at most one slider. *)
Theorem t_test_press_grabs_one_slider :
  forall (np_random_normal : nat -> Q -> Q -> Z -> list Q),
    TTest.laid_out (TTest.initial_globals np_random_normal) /\
    (forall stats_ttest_ind mouse_pos g g' ev,
        TTest.laid_out g ->
        TTest.handle_event np_random_normal stats_ttest_ind mouse_pos g ev
        = ok g' ->
        TTest.laid_out g') /\
    (forall g, TTest.laid_out g -> hit_areas_disjoint (TTest.sliders g)) /\
    (forall stats_ttest_ind mouse_pos g g',
        TTest.laid_out g ->
        Forall (fun s => dragging s = false) (TTest.sliders g) ->
        TTest.handle_event np_random_normal stats_ttest_ind mouse_pos g
                           (MOUSEBUTTONDOWN 1) = ok g' ->
        one_drag (TTest.sliders g')).
Proof.
  intros rng. split; [|split; [|split]].
  - unfold TTest.initial_globals. cbv zeta.
    apply ttest_calculate_layout_laid_out. cbn [TTest.HEIGHT].
    unfold TTest.MIN_HEIGHT, TTest.initial_height. lia.
  - intros lib mp g g' ev H E.
    exact (ttest_handle_event_laid_out rng lib mp g g' ev E H).
  - exact ttest_laid_out_disjoint.
  - intros lib mp g g' H F E.
    cbn [TTest.handle_event] in E. change (1 =? 1)%Z with true in E.
    cbv iota in E.
    assert (Q0 : forall g0, TTest.sliders g0 = TTest.sliders g ->
                            one_drag (TTest.sliders g0)).
    { intros g0 ->. intros i j si sj _ _ Hj _.
      apply nth_error_In in Hj.
      rewrite Forall_forall in F. exact (F _ Hj). }
    unfold TTest.on_mousebuttondown in E. destruct (TTest.state g).
    + cbv beta iota zeta delta [TTest.draw_menu] in E.
      repeat break_if_in E; apply Chi2LoopFacts.ok_inj in E; subst g';
        apply Q0; reflexivity.
    + cbv beta iota zeta delta [TTest.draw_game] in E.
      revert E.
      set (g1 := if collidepoint (TTest.toggle_rect (TTest.layout g)) mp
                 then TTest.set_show_instructions g
                        (negb (TTest.show_instructions g))
                 else g).
      assert (E1 : TTest.sliders g1 = TTest.sliders g).
      { unfold g1. destruct (collidepoint _ mp); reflexivity. }
      clearbody g1.
      set (g2 := if collidepoint _ mp then _ else _).
      assert (E2 : TTest.sliders g2 = TTest.sliders g).
      { unfold g2. repeat break_if; try exact E1.
        destruct (ttest_calculate_ttest_sliders lib g1) as (_ & _ & Es & _).
        rewrite Es. exact E1. }
      clearbody g2. intros E.
      apply (ttest_press_one_drag mp g2 g');
        [rewrite E2; apply ttest_laid_out_disjoint, H
        | rewrite E2; exact F | exact E].
    + cbv beta iota zeta delta [TTest.tutorial_buttons] in E.
      repeat break_if_in E; apply Chi2LoopFacts.ok_inj in E; subst g';
        apply Q0; reflexivity.
    + apply Chi2LoopFacts.ok_inj in E. subst g'. apply Q0. reflexivity.
Qed.

Lemma t_test_press_grabs_one_slider_witness :
  hit_areas_disjoint (TTest.sliders (TTest.initial_globals TTest.constant_samples)).
Proof.
  destruct (t_test_press_grabs_one_slider TTest.constant_samples)
    as (H0 & _ & H & _).
  exact (H _ H0).
Defined.

(** *** [chi_square.py] *)

Lemma chisq_layout_column (g : ChiSquare.Globals) :
  (ChiSquare.calculate_min_height <= ChiSquare.HEIGHT g)%Z ->
  let g' := ChiSquare.calculate_layout g in
  let d := ChiSquare.slider_df g' in
  let a := ChiSquare.slider_alpha g' in
  let x := ChiSquare.slider_max_x g' in
  let n := ChiSquare.slider_num_dist g' in
  10 <= snd (pos d) /\ snd (pos d) + 20 <= snd (pos a) /\
  snd (pos a) + 20 <= snd (pos x) /\ snd (pos x) + 20 <= snd (pos n).
Proof.
  intros HH. cbv zeta.
  assert (QH : 725 <= inject_Z (ChiSquare.HEIGHT g)).
  { change 725 with (inject_Z ChiSquare.calculate_min_height).
    rewrite <- Zle_Qle. exact HH. }
  unfold ChiSquare.calculate_layout. cbv zeta.
  cbn [ChiSquare.slider_df ChiSquare.slider_alpha ChiSquare.slider_max_x
       ChiSquare.slider_num_dist ChiSquare.set_layout
       ChiSquare.set_sliders pos width fst snd].
  set (H := inject_Z (ChiSquare.HEIGHT g)) in *.
  change (inject_Z ChiSquare.PANEL_MARGIN) with 15.
  change (inject_Z ChiSquare.HEADER_HEIGHT) with 60.
  change (inject_Z ChiSquare.RESULT_MARGIN) with 20.
  set (ch := py_min ((H - 60 - 15 - 40 - 20) * (5 # 10)) 450).
  set (rem := H - (60 + 20 + 40 + 15 + ch + 15) - 40 - 15).
  set (ph := if Qltb rem _ then _ else 180).
  assert (Hch : 0 <= ch /\ ch <= (H - 135) * (5 # 10)).
  { unfold ch. split; [apply py_min_lower; lra|].
    eapply Qle_trans; [apply py_min_upper|]. lra. }
  assert (Hrem : 225 <= rem) by (unfold rem; lra).
  assert (Hph : 140 <= ph).
  { unfold ph. destruct (Qltb rem _); [|lra].
    eapply Qle_trans; [|apply py_max_ge_r].
    change 140 with (inject_Z 140). rewrite <- Zle_Qle.
    apply OneSampleFacts.py_int_lower; [lia|].
    assert (Hq : (45 # 53) <= rem / (180 + 15 * 3 + 40)).
    { apply Qle_shift_div_l; lra. }
    change (inject_Z 140) with 140. lra. }
  set (row_height := (ph - 40 - 20) / 4).
  assert (Hrow : 20 <= row_height).
  { unfold row_height. apply Qle_shift_div_l; lra. }
  clearbody row_height.
  repeat split; lra.
Qed.

(** The four hit areas laid out by [calculate_layout] share no point. *)
Lemma chisq_layout_disjoint (g : ChiSquare.Globals) :
  (ChiSquare.calculate_min_height <= ChiSquare.HEIGHT g)%Z ->
  hit_areas_disjoint (ChiSquare.sliders (ChiSquare.calculate_layout g)).
Proof.
  intros HH.
  destruct (chisq_layout_column g HH) as (Y1 & Y2 & Y3 & Y4).
  cbv zeta in *. unfold ChiSquare.sliders.
  set (g' := ChiSquare.calculate_layout g) in *.
  set (d := ChiSquare.slider_df g') in *.
  set (a := ChiSquare.slider_alpha g') in *.
  set (x := ChiSquare.slider_max_x g') in *.
  set (n := ChiSquare.slider_num_dist g') in *.
  assert (O12 : (ry (slider_rect d) + rh (slider_rect d)
                 <= ry (slider_rect a))%Z)
    by (apply slider_rect_over; assumption).
  assert (O23 : (ry (slider_rect a) + rh (slider_rect a)
                 <= ry (slider_rect x))%Z)
    by (apply slider_rect_over; [lra | assumption]).
  assert (O34 : (ry (slider_rect x) + rh (slider_rect x)
                 <= ry (slider_rect n))%Z)
    by (apply slider_rect_over; [lra | assumption]).
  pose proof (slider_rect_height d) as R1.
  pose proof (slider_rect_height a) as R2.
  pose proof (slider_rect_height x) as R3.
  clearbody d a x n.
  intros p i j si sj Hij Hi Hj Hc.
  destruct i as [|[|[|[|i]]]]; cbn in Hi;
    [| | | |destruct i; discriminate Hi];
    injection Hi as <-;
    (destruct j as [|[|[|[|j]]]]; cbn in Hj;
     [| | | |destruct j; discriminate Hj];
     injection Hj as <-;
     try (exfalso; apply Hij; reflexivity);
     apply (fun A => apart_disjoint _ _ p A Hc); lia).
Qed.

Lemma chisq_press_slider_geometry (mp : Z * Z) (s s' : Slider) :
  ChiSquare.press_slider mp s = ok s' -> geometry s' = geometry s.
Proof.
  unfold ChiSquare.press_slider. destruct (collidepoint _ _); intros H.
  - apply drag_to_geometry in H. apply H.
  - apply Chi2LoopFacts.ok_inj in H. subst s'. reflexivity.
Qed.

Lemma chisq_move_slider_geometry (mp : Z * Z) (s s' : Slider) :
  ChiSquare.move_slider mp s = ok s' -> geometry s' = geometry s.
Proof.
  unfold ChiSquare.move_slider. destruct (dragging s); intros H.
  - apply drag_to_geometry in H. apply H.
  - apply Chi2LoopFacts.ok_inj in H. subst s'. reflexivity.
Qed.

Lemma chisq_press_slider_flag (mp : Z * Z) (s s' : Slider) :
  ChiSquare.press_slider mp s = ok s' -> dragging s = false ->
  dragging s' = collidepoint (slider_rect s) mp.
Proof.
  unfold ChiSquare.press_slider. destruct (collidepoint _ _); intros H D.
  - apply drag_to_geometry in H. destruct H as [_ H]. rewrite H.
    reflexivity.
  - apply Chi2LoopFacts.ok_inj in H. subst s'. exact D.
Qed.

Section ChiSquareLoop.

Import ChiSquare.

Variable stats_chi2_ppf : Q -> Z -> R.

Lemma chisq_layout_geometry (g1 g2 : Globals) :
  WIDTH g1 = WIDTH g2 -> HEIGHT g1 = HEIGHT g2 ->
  map geometry (sliders (calculate_layout g1))
  = map geometry (sliders (calculate_layout g2)).
Proof.
  intros Ew Eh. unfold calculate_layout, sliders, geometry. cbv zeta.
  cbn [slider_df slider_alpha slider_max_x slider_num_dist
       set_layout set_sliders pos width map].
  rewrite Ew, Eh. reflexivity.
Qed.

Lemma chisq_laid_out_ext (g g' : Globals) :
  WIDTH g' = WIDTH g -> HEIGHT g' = HEIGHT g ->
  map geometry (sliders g') = map geometry (sliders g) ->
  laid_out g -> laid_out g'.
Proof.
  unfold laid_out. intros Ew Eh Eg [H1 H2]. split.
  - rewrite Eh. exact H1.
  - rewrite Eg, H2. apply chisq_layout_geometry; congruence.
Qed.

Lemma chisq_calculate_layout_laid_out (g : Globals) :
  (calculate_min_height <= HEIGHT g)%Z -> laid_out (calculate_layout g).
Proof.
  intros H. split; [exact H|].
  apply chisq_layout_geometry; reflexivity.
Qed.

Lemma chisq_for_sliders_laid_out (f : Slider -> exc Slider)
    (g g' : Globals) :
  (forall s s', f s = ok s' -> geometry s' = geometry s) ->
  for_sliders f g = ok g' -> laid_out g -> laid_out g'.
Proof.
  intros Hf H. unfold for_sliders in H.
  apply Chi2LoopFacts.bind_ok in H. destruct H as (d & E1 & H).
  apply Chi2LoopFacts.bind_ok in H. destruct H as (a & E2 & H).
  apply Chi2LoopFacts.bind_ok in H. destruct H as (x & E3 & H).
  apply Chi2LoopFacts.bind_ok in H. destruct H as (n & E4 & H).
  apply Chi2LoopFacts.ok_inj in H. subst g'.
  apply chisq_laid_out_ext; try reflexivity.
  unfold sliders.
  cbn [slider_df slider_alpha slider_max_x slider_num_dist
       set_sliders map].
  rewrite (Hf _ _ E1), (Hf _ _ E2), (Hf _ _ E3), (Hf _ _ E4).
  reflexivity.
Qed.

Lemma chisq_handle_event_laid_out (mp : Z * Z) (g g' : Globals)
    (ev : Event) :
  handle_event stats_chi2_ppf mp g ev = ok g' ->
  laid_out g -> laid_out g'.
Proof.
  destruct ev as [|w h|key|button| |rel_y|]; cbn [handle_event];
    intros E H.
  - apply Chi2LoopFacts.ok_inj in E. subst g'. exact H.
  - apply Chi2LoopFacts.ok_inj in E. subst g'. unfold on_videoresize.
    cbv zeta. eapply chisq_laid_out_ext;
      [| | |apply chisq_calculate_layout_laid_out]; try reflexivity.
    cbn [HEIGHT set_window]. lia.
  - apply Chi2LoopFacts.ok_inj in E. subst g'. unfold on_keydown.
    repeat break_if; try exact H; revert H;
      apply chisq_laid_out_ext; reflexivity.
  - destruct (button =? 1)%Z;
      [|apply Chi2LoopFacts.ok_inj in E; subst g'; exact H].
    unfold on_mousebuttondown in E. destruct (state g).
    + cbv beta iota zeta delta [draw_menu] in E.
      repeat break_if_in E; apply Chi2LoopFacts.ok_inj in E; subst g';
        first [ exact H | revert H; apply chisq_laid_out_ext; reflexivity ].
    + cbv beta iota zeta delta [draw_game] in E.
      apply (chisq_for_sliders_laid_out _ _ _
               (chisq_press_slider_geometry mp) E). clear E.
      set (g1 := if collidepoint (toggle_rect (layout g)) mp
                 then set_show_instructions g (negb (show_instructions g))
                 else g).
      assert (H1 : laid_out g1).
      { unfold g1. destruct (collidepoint (toggle_rect (layout g)) mp);
          [|exact H]. revert H. apply chisq_laid_out_ext; reflexivity. }
      clearbody g1.
      repeat break_if; first [ exact H1
                             | revert H1; apply chisq_laid_out_ext;
                               reflexivity ].
    + cbv beta iota zeta delta [tutorial_buttons] in E.
      repeat break_if_in E; apply Chi2LoopFacts.ok_inj in E; subst g';
        first [ exact H | revert H; apply chisq_laid_out_ext; reflexivity ].
  - apply Chi2LoopFacts.ok_inj in E. subst g'. revert H.
    apply chisq_laid_out_ext; reflexivity.
  - exact (chisq_for_sliders_laid_out _ _ _
             (chisq_move_slider_geometry mp) E H).
  - apply Chi2LoopFacts.ok_inj in E. subst g'. exact H.
Qed.

Lemma chisq_laid_out_disjoint (g : Globals) :
  laid_out g -> hit_areas_disjoint (sliders g).
Proof.
  intros [H1 H2].
  apply (hit_areas_disjoint_ext _ _ H2).
  apply chisq_layout_disjoint, H1.
Qed.

Lemma chisq_press_one_drag (mp : Z * Z) (g g' : Globals) :
  hit_areas_disjoint (sliders g) ->
  Forall (fun s => dragging s = false) (sliders g) ->
  for_sliders (press_slider mp) g = ok g' ->
  one_drag (sliders g').
Proof.
  intros D F H. unfold for_sliders in H.
  apply Chi2LoopFacts.bind_ok in H. destruct H as (d & E1 & H).
  apply Chi2LoopFacts.bind_ok in H. destruct H as (a & E2 & H).
  apply Chi2LoopFacts.bind_ok in H. destruct H as (x & E3 & H).
  apply Chi2LoopFacts.bind_ok in H. destruct H as (n & E4 & H).
  apply Chi2LoopFacts.ok_inj in H. subst g'.
  unfold sliders in F.
  inversion F as [|? ? F1 F']; subst. inversion F' as [|? ? F2 F'']; subst.
  inversion F'' as [|? ? F3 G]; subst. inversion G as [|? ? F4 _]; subst.
  apply chisq_press_slider_flag in E1, E2, E3, E4; try assumption.
  unfold sliders.
  cbn [slider_df slider_alpha slider_max_x slider_num_dist set_sliders].
  intros i j si sj Hij Hi Hj Hd.
  destruct i as [|[|[|[|i]]]]; cbn in Hi;
    [| | | |destruct i; discriminate Hi];
    injection Hi as <-;
    (destruct j as [|[|[|[|j]]]]; cbn in Hj;
     [| | | |destruct j; discriminate Hj];
     injection Hj as <-;
     try (exfalso; apply Hij; reflexivity);
     rewrite ?E1, ?E2, ?E3, ?E4 in *;
     refine (D mp _ _ _ _ Hij _ _ Hd); reflexivity).
Qed.

End ChiSquareLoop.

(** X27: the sliders of [chi_square.py] never overlap.  At the start and
    after every event the window is at least [calculate_min_height()]
    high and the four sliders sit where [calculate_layout] puts them for
    the window; there no point lies in the hit areas of two sliders, and
    so a press while no slider is held grabs at most one slider. *)
Theorem chi_square_press_grabs_one_slider :
  forall (stats_chi2_ppf : Q -> Z -> R),
    ChiSquare.laid_out (ChiSquare.initial_globals stats_chi2_ppf) /\
    (forall mouse_pos g g' ev,
        ChiSquare.laid_out g ->
        ChiSquare.handle_event stats_chi2_ppf mouse_pos g ev = ok g' ->
        ChiSquare.laid_out g') /\
    (forall g,
        ChiSquare.laid_out g -> hit_areas_disjoint (ChiSquare.sliders g)) /\
    (forall mouse_pos g g',
        ChiSquare.laid_out g ->
        Forall (fun s => dragging s = false) (ChiSquare.sliders g) ->
        ChiSquare.handle_event stats_chi2_ppf mouse_pos g
                               (MOUSEBUTTONDOWN 1) = ok g' ->
        one_drag (ChiSquare.sliders g')).
Proof.
  intros lib. split; [|split; [|split]].
  - unfold ChiSquare.initial_globals. cbv zeta.
    apply chisq_calculate_layout_laid_out. cbn [ChiSquare.HEIGHT].
    unfold ChiSquare.initial_height. vm_compute. intros E. discriminate E.
  - intros mp g g' ev H E.
    exact (chisq_handle_event_laid_out lib mp g g' ev E H).
  - exact chisq_laid_out_disjoint.
  - intros mp g g' H F E.
    cbn [ChiSquare.handle_event] in E. change (1 =? 1)%Z with true in E.
    cbv iota in E.
    assert (Q0 : forall g0, ChiSquare.sliders g0 = ChiSquare.sliders g ->
                            one_drag (ChiSquare.sliders g0)).
    { intros g0 ->. intros i j si sj _ _ Hj _.
      apply nth_error_In in Hj.
      rewrite Forall_forall in F. exact (F _ Hj). }
    unfold ChiSquare.on_mousebuttondown in E.
    destruct (ChiSquare.state g).
    + cbv beta iota zeta delta [ChiSquare.draw_menu] in E.
      repeat break_if_in E; apply Chi2LoopFacts.ok_inj in E; subst g';
        apply Q0; reflexivity.
    + cbv beta iota zeta delta [ChiSquare.draw_game] in E.
      revert E.
      set (g1 := if collidepoint
                      (ChiSquare.toggle_rect (ChiSquare.layout g)) mp
                 then ChiSquare.set_show_instructions g
                        (negb (ChiSquare.show_instructions g))
                 else g).
      assert (E1 : ChiSquare.sliders g1 = ChiSquare.sliders g).
      { unfold g1. destruct (collidepoint _ mp); reflexivity. }
      clearbody g1.
      set (g2 := if collidepoint _ mp then _ else _).
      assert (E2 : ChiSquare.sliders g2 = ChiSquare.sliders g).
      { unfold g2. repeat break_if; exact E1. }
      clearbody g2. intros E.
      apply (chisq_press_one_drag mp g2 g');
        [rewrite E2; apply chisq_laid_out_disjoint, H
        | rewrite E2; exact F | exact E].
    + cbv beta iota zeta delta [ChiSquare.tutorial_buttons] in E.
      repeat break_if_in E; apply Chi2LoopFacts.ok_inj in E; subst g';
        apply Q0; reflexivity.
Qed.

Lemma chi_square_press_grabs_one_slider_witness :
  hit_areas_disjoint
    (ChiSquare.sliders (ChiSquare.initial_globals (fun _ _ => 0%R))).
Proof.
  destruct (chi_square_press_grabs_one_slider (fun _ _ => 0%R))
    as (H0 & _ & H & _).
  exact (H _ H0).
Defined.

End SliderLayout.

(** ** [Chi_2_Goodness_Fit.py]: the layout of the two test pages *)

Module Chi2Layout.

Import PyFacts SliderFacts SliderLayout.

(** *** The sliders of the goodness-of-fit page *)

Lemma py_floor_lower (n : Z) (q : Q) :
  inject_Z n <= q -> inject_Z n <= py_floor q.
Proof.
  intros H. unfold py_floor. rewrite <- Zle_Qle.
  rewrite <- (Qfloor_Z n). apply Qfloor_resp_le. exact H.
Qed.

(** Six sliders in two columns of three rows. *)
Lemma two_columns_disjoint (o1 o2 o3 e1 e2 e3 : Slider)
    (xo xe y0 y1 y2 w : Q) :
  5 <= xo -> 0 <= w + 10 -> xo + w + 10 <= xe ->
  10 <= y0 -> y0 + 20 <= y1 -> y1 + 20 <= y2 ->
  hit_areas_disjoint
    [set_geometry o1 (xo, y0) w; set_geometry o2 (xo, y1) w;
     set_geometry o3 (xo, y2) w; set_geometry e1 (xe, y0) w;
     set_geometry e2 (xe, y1) w; set_geometry e3 (xe, y2) w].
Proof.
  intros X1 X2 X3 Y0 Y1 Y2.
  assert (B : forall a b ya yb,
             (rx (slider_rect (set_geometry a (xo, ya) w))
              + rw (slider_rect (set_geometry a (xo, ya) w))
              <= rx (slider_rect (set_geometry b (xe, yb) w)))%Z).
  { intros a b ya yb. apply slider_rect_beside; cbn [pos width fst snd set_geometry]; lra. }
  assert (O : forall a b xa xb ya yb,
             10 <= ya -> ya + 20 <= yb ->
             (ry (slider_rect (set_geometry a (xa, ya) w))
              + rh (slider_rect (set_geometry a (xa, ya) w))
              <= ry (slider_rect (set_geometry b (xb, yb) w)))%Z).
  { intros a b xa xb ya yb Ha Hb.
    apply slider_rect_over; cbn [pos width fst snd set_geometry]; lra. }
  assert (Y02 : y0 + 20 <= y2) by lra.
  assert (Y1' : 10 <= y1) by lra.
  intros p i j si sj Hij Hi Hj Hc.
  destruct i as [|[|[|[|[|[|i]]]]]]; cbn in Hi;
    [| | | | | |destruct i; discriminate Hi];
    injection Hi as <-;
    (destruct j as [|[|[|[|[|[|j]]]]]]; cbn in Hj;
     [| | | | | |destruct j; discriminate Hj];
     injection Hj as <-;
     try (exfalso; apply Hij; reflexivity);
     apply (fun A => apart_disjoint _ _ p A Hc);
     first [ left; apply B
           | right; left; apply B
           | right; right; left; apply O; assumption
           | right; right; right; apply O; assumption ]).
Qed.

Lemma chi2_layout_disjoint (g : Chi2GoodnessFit.Globals) :
  Chi2GoodnessFit.state g = Chi2GoodnessFit.GOODNESS_OF_FIT ->
  length (Chi2GoodnessFit.sliders_gof_observed g) = 3%nat ->
  length (Chi2GoodnessFit.sliders_gof_expected g) = 3%nat ->
  (Chi2GoodnessFit.MIN_WIDTH <= Chi2GoodnessFit.WIDTH g)%Z ->
  (Chi2GoodnessFit.MIN_HEIGHT <= Chi2GoodnessFit.HEIGHT g)%Z ->
  hit_areas_disjoint
    (Chi2GoodnessFit.sliders (Chi2GoodnessFit.calculate_layout g)).
Proof.
  intros Es Lo Le HW HH.
  assert (QW : 1000 <= inject_Z (Chi2GoodnessFit.WIDTH g)).
  { change 1000 with (inject_Z Chi2GoodnessFit.MIN_WIDTH).
    rewrite <- Zle_Qle. exact HW. }
  assert (QH : 700 <= inject_Z (Chi2GoodnessFit.HEIGHT g)).
  { change 700 with (inject_Z Chi2GoodnessFit.MIN_HEIGHT).
    rewrite <- Zle_Qle. exact HH. }
  unfold Chi2GoodnessFit.calculate_layout. cbv zeta. rewrite Es.
  cbv iota.
  destruct (Chi2GoodnessFit.sliders_gof_observed g)
    as [|o1 [|o2 [|o3 [|]]]]; try discriminate Lo.
  destruct (Chi2GoodnessFit.sliders_gof_expected g)
    as [|e1 [|e2 [|e3 [|]]]]; try discriminate Le.
  unfold Chi2GoodnessFit.sliders, enumerate.
  cbn [Chi2GoodnessFit.sliders_gof_observed
       Chi2GoodnessFit.sliders_gof_expected
       Chi2GoodnessFit.set_sliders Chi2GoodnessFit.set_layout
       map combine seq length app fst snd Z.of_nat].
  set (W := inject_Z (Chi2GoodnessFit.WIDTH g)) in *.
  set (H := inject_Z (Chi2GoodnessFit.HEIGHT g)) in *.
  change (inject_Z Chi2GoodnessFit.PANEL_MARGIN) with 15.
  change (inject_Z Chi2GoodnessFit.HEADER_HEIGHT) with 60.
  change (inject_Z Chi2GoodnessFit.RESULT_MARGIN) with 20.
  change (inject_Z Chi2GoodnessFit.SLIDER_MIN_WIDTH) with 200.
  change (inject_Z 0) with 0.
  change (inject_Z (Z.pos (Pos.of_succ_nat 0))) with 1.
  change (inject_Z (Z.pos (Pos.of_succ_nat 1))) with 2.
  change (inject_Z (Chi2GoodnessFit.LABEL_COLUMN_WIDTH +
                    Chi2GoodnessFit.SLIDER_MIN_WIDTH +
                    Chi2GoodnessFit.VALUE_COLUMN_WIDTH +
                    Chi2GoodnessFit.LABEL_SLIDER_GAP +
                    Chi2GoodnessFit.SLIDER_VALUE_GAP +
                    Chi2GoodnessFit.H_MARGIN * 2))
    with 486.
  set (pw := py_max (py_min (W * (8 # 10)) 800) 486).
  set (pl := py_floor ((W - pw) / 2)).
  set (half := py_floor (pw / 2)).
  set (ch := py_min ((H - 60 - 15 - 40 - 20) * (4 # 10)) 450).
  assert (Hpw : 486 <= pw /\ pw <= W).
  { split; [apply py_max_ge_r|].
    apply py_max_upper; [|lra].
    eapply Qle_trans; [apply py_min_upper|]. lra. }
  assert (Hpl : 0 <= pl).
  { apply py_floor_nonneg. apply Qle_shift_div_l; lra. }
  assert (Hhalf : 243 <= half).
  { apply (py_floor_lower 243). change (inject_Z 243) with 243.
    apply Qle_shift_div_l; lra. }
  assert (Hch : 0 <= ch).
  { unfold ch. apply py_min_lower; lra. }
  clearbody pl half ch.
  apply two_columns_disjoint; lra.
Qed.

Lemma mapM_geometry (f : Slider -> exc (Slider * bool))
    (xs : list Slider) :
  (forall s r, f s = ok r -> geometry (fst r) = geometry s) ->
  forall ys, mapM f xs = ok ys ->
             map geometry (map fst ys) = map geometry xs.
Proof.
  intros Hf. induction xs as [|x xs IH]; intros ys H.
  - apply Chi2LoopFacts.ok_inj in H. subst ys. reflexivity.
  - cbn [mapM] in H.
    apply Chi2LoopFacts.bind_ok in H. destruct H as (y & Ey & H).
    apply Chi2LoopFacts.bind_ok in H. destruct H as (ys' & Eys & H).
    apply Chi2LoopFacts.ok_inj in H. subst ys. cbn [map].
    rewrite (Hf _ _ Ey), (IH _ Eys). reflexivity.
Qed.

Lemma chi2_press_slider_geometry (mp : Z * Z) (s : Slider)
    (r : Slider * bool) :
  Chi2GoodnessFit.press_slider mp s = ok r -> geometry (fst r) = geometry s.
Proof.
  unfold Chi2GoodnessFit.press_slider.
  destruct (collidepoint _ _); intros H.
  - apply Chi2LoopFacts.bind_ok in H. destruct H as (s' & E & H).
    apply Chi2LoopFacts.ok_inj in H. subst r.
    apply drag_to_geometry in E. apply E.
  - apply Chi2LoopFacts.ok_inj in H. subst r. reflexivity.
Qed.

Lemma chi2_move_slider_geometry (mp : Z * Z) (s : Slider)
    (r : Slider * bool) :
  Chi2GoodnessFit.move_slider mp s = ok r -> geometry (fst r) = geometry s.
Proof.
  unfold Chi2GoodnessFit.move_slider. destruct (dragging s); intros H.
  - apply Chi2LoopFacts.bind_ok in H. destruct H as (s' & E & H).
    apply Chi2LoopFacts.ok_inj in H. subst r.
    apply drag_to_geometry in E. apply E.
  - apply Chi2LoopFacts.ok_inj in H. subst r. reflexivity.
Qed.

Lemma chi2_for_sliders_geometry (f : Slider -> exc (Slider * bool))
    (g : Chi2GoodnessFit.Globals) (r : Chi2GoodnessFit.Globals * bool) :
  (forall s r, f s = ok r -> geometry (fst r) = geometry s) ->
  Chi2GoodnessFit.for_sliders f g = ok r ->
  map geometry (Chi2GoodnessFit.sliders (fst r))
  = map geometry (Chi2GoodnessFit.sliders g).
Proof.
  intros Hf H. unfold Chi2GoodnessFit.for_sliders in H.
  apply Chi2LoopFacts.bind_ok in H. destruct H as (obs & Eo & H).
  apply Chi2LoopFacts.bind_ok in H. destruct H as (exp & Ee & H).
  apply Chi2LoopFacts.ok_inj in H. subst r.
  unfold Chi2GoodnessFit.sliders.
  cbn [fst Chi2GoodnessFit.sliders_gof_observed
       Chi2GoodnessFit.sliders_gof_expected Chi2GoodnessFit.set_sliders].
  rewrite !map_app.
  rewrite (mapM_geometry f _ Hf _ Eo), (mapM_geometry f _ Hf _ Ee).
  reflexivity.
Qed.

(** A loop that only assigns values leaves the rest of every slider as
    it was. *)
Lemma mapM_set_value_proj {V P : Type} (proj : Slider -> P)
    (l : list V) (h : V -> Q) (xs : list Slider) :
  (forall s v, proj (set_value s v) = proj s) ->
  forall (ns : list nat) (ys : list Slider),
    mapM (fun ix : nat * Slider =>
            v <- py_index l (fst ix) ;; ok (set_value (snd ix) (h v)))
         (combine ns xs) = ok ys ->
    length ns = length xs ->
    map proj ys = map proj xs.
Proof.
  intros Hp. induction xs as [|x xs IH]; intros ns ys H L.
  - destruct ns; [|discriminate L]. cbn in H.
    apply Chi2LoopFacts.ok_inj in H. subst ys. reflexivity.
  - destruct ns as [|n ns]; [discriminate L|].
    cbn [combine mapM] in H.
    apply Chi2LoopFacts.bind_ok in H. destruct H as (y & Ey & H).
    apply Chi2LoopFacts.bind_ok in H. destruct H as (ys' & Eys & H).
    apply Chi2LoopFacts.ok_inj in H. subst ys.
    apply Chi2LoopFacts.bind_ok in Ey. destruct Ey as (v & _ & Ey).
    apply Chi2LoopFacts.ok_inj in Ey. subst y. cbn [map snd].
    rewrite Hp. rewrite (IH ns ys' Eys) by (injection L; auto).
    reflexivity.
Qed.

Lemma reset_goodness_of_fit_proj {P : Type} (proj : Slider -> P)
    (g g' : Chi2GoodnessFit.Globals) :
  (forall s v, proj (set_value s v) = proj s) ->
  Chi2GoodnessFit.reset_goodness_of_fit g = ok g' ->
  map proj (Chi2GoodnessFit.sliders g')
  = map proj (Chi2GoodnessFit.sliders g).
Proof.
  unfold Chi2GoodnessFit.reset_goodness_of_fit. intros Hp H.
  apply Chi2LoopFacts.bind_ok in H. destruct H as (obs & Eo & H).
  apply Chi2LoopFacts.bind_ok in H. destruct H as (exp & Ee & H).
  apply Chi2LoopFacts.ok_inj in H. subst g'.
  unfold Chi2GoodnessFit.sliders.
  cbn [Chi2GoodnessFit.sliders_gof_observed
       Chi2GoodnessFit.sliders_gof_expected Chi2GoodnessFit.set_sliders
       Chi2GoodnessFit.set_has_calculated].
  rewrite !map_app.
  unfold enumerate in Eo, Ee.
  rewrite (mapM_set_value_proj proj _ inject_Z _ Hp _ _ Eo)
    by apply length_seq.
  rewrite (mapM_set_value_proj proj _ (fun v => v) _ Hp _ _ Ee)
    by apply length_seq.
  reflexivity.
Qed.

Lemma reset_goodness_of_fit_geometry (g g' : Chi2GoodnessFit.Globals) :
  Chi2GoodnessFit.reset_goodness_of_fit g = ok g' ->
  map geometry (Chi2GoodnessFit.sliders g')
  = map geometry (Chi2GoodnessFit.sliders g).
Proof. apply reset_goodness_of_fit_proj. reflexivity. Qed.

Lemma reset_independence_sliders (g g' : Chi2GoodnessFit.Globals) :
  Chi2GoodnessFit.reset_independence g = ok g' ->
  Chi2GoodnessFit.sliders g' = Chi2GoodnessFit.sliders g.
Proof.
  unfold Chi2GoodnessFit.reset_independence. intros H.
  apply Chi2LoopFacts.bind_ok in H. destruct H as (cells & _ & H).
  apply Chi2LoopFacts.ok_inj in H. subst g'. reflexivity.
Qed.

Lemma on_keydown_sliders (g g' : Chi2GoodnessFit.Globals) (key : Z) :
  Chi2GoodnessFit.on_keydown g key = ok g' ->
  Chi2GoodnessFit.sliders g' = Chi2GoodnessFit.sliders g.
Proof.
  unfold Chi2GoodnessFit.on_keydown. cbv zeta.
  set (g1 := if (key =? K_ESCAPE)%Z then _ else g).
  assert (E1 : Chi2GoodnessFit.sliders g1 = Chi2GoodnessFit.sliders g).
  { unfold g1. repeat break_if; reflexivity. }
  clearbody g1. intros H. rewrite <- E1.
  destruct (Chi2GoodnessFit.active_cell g1) as [ij|];
    [|apply Chi2LoopFacts.ok_inj in H; subst g'; reflexivity].
  destruct (Chi2GoodnessFit.Page_eqb _ _);
    [|apply Chi2LoopFacts.ok_inj in H; subst g'; reflexivity].
  destruct (Chi2GoodnessFit.lookup_cell _ ij) as [cell|];
    [|apply Chi2LoopFacts.ok_inj in H; subst g'; reflexivity].
  destruct (key =? K_BACKSPACE)%Z.
  - apply Chi2LoopFacts.bind_ok in H. destruct H as (v & _ & H).
    apply Chi2LoopFacts.ok_inj in H. subst g'. reflexivity.
  - destruct (_ && _); apply Chi2LoopFacts.ok_inj in H; subst g';
      reflexivity.
Qed.

Lemma clear_dragging_geometry (g : Chi2GoodnessFit.Globals) :
  map geometry (Chi2GoodnessFit.sliders (Chi2GoodnessFit.clear_dragging g))
  = map geometry (Chi2GoodnessFit.sliders g).
Proof.
  unfold Chi2GoodnessFit.clear_dragging, Chi2GoodnessFit.sliders.
  cbn [Chi2GoodnessFit.sliders_gof_observed
       Chi2GoodnessFit.sliders_gof_expected Chi2GoodnessFit.set_sliders].
  rewrite !map_app, !map_map. reflexivity.
Qed.

(** Away from the goodness-of-fit page [calculate_layout] moves no
    slider. *)
Lemma calculate_layout_elsewhere (g : Chi2GoodnessFit.Globals) :
  Chi2GoodnessFit.state g <> Chi2GoodnessFit.GOODNESS_OF_FIT ->
  Chi2GoodnessFit.sliders (Chi2GoodnessFit.calculate_layout g)
  = Chi2GoodnessFit.sliders g.
Proof.
  intros Hs. unfold Chi2GoodnessFit.calculate_layout. cbv zeta.
  destruct (Chi2GoodnessFit.state g); try reflexivity.
  exfalso. apply Hs. reflexivity.
Qed.

Section Chi2Loop.

Import Chi2GoodnessFit.

Variable stats_chisquare : list Z -> list Q -> exc (Q * R).
Variable stats_chi2_contingency : list (list Z) -> exc (Q * R * Z).

Lemma chi2_on_mousebuttondown_geometry (mp : Z * Z) (g g' : Globals) :
  on_mousebuttondown stats_chisquare stats_chi2_contingency mp g = ok g' ->
  map geometry (sliders g') = map geometry (sliders g).
Proof.
  unfold on_mousebuttondown. intros E.
  destruct (state g).
  - cbv beta iota zeta delta [draw_menu] in E.
    repeat break_if_in E.
    + apply reset_goodness_of_fit_geometry in E. exact E.
    + apply reset_independence_sliders in E. rewrite E. reflexivity.
    + apply Chi2LoopFacts.ok_inj in E. subst g'. reflexivity.
    + apply Chi2LoopFacts.ok_inj in E. subst g'. reflexivity.
  - cbv beta iota zeta delta [draw_test_page] in E.
    set (g1 := if collidepoint (toggle_rect (layout g)) mp
               then set_show_instructions g (negb (show_instructions g))
               else g) in E.
    assert (H1 : sliders g1 = sliders g).
    { unfold g1. destruct (collidepoint _ mp); reflexivity. }
    clearbody g1.
    apply Chi2LoopFacts.bind_ok in E. destruct E as (g2 & E2 & E).
    assert (H2 : map geometry (sliders g2) = map geometry (sliders g)).
    { rewrite <- H1. repeat break_if_in E2.
      - apply Chi2LoopFacts.ok_inj in E2. subst g2. reflexivity.
      - apply Chi2LoopFacts.ok_inj in E2. subst g2.
        destruct (Chi2LoopFacts.calculate_goodness_of_fit_frame
                    stats_chisquare g1) as (Eo & Ee & _).
        unfold sliders. rewrite Eo, Ee. reflexivity.
      - apply reset_goodness_of_fit_geometry in E2. exact E2.
      - apply Chi2LoopFacts.ok_inj in E2. subst g2. reflexivity. }
    apply Chi2LoopFacts.bind_ok in E. destruct E as (r & Er & E).
    apply Chi2LoopFacts.ok_inj in E. subst g'.
    rewrite <- H2.
    rewrite <- (chi2_for_sliders_geometry _ _ _
                  (chi2_press_slider_geometry mp) Er).
    destruct (snd r); reflexivity.
  - cbv beta iota zeta delta [draw_test_page] in E.
    set (g1 := if collidepoint (toggle_rect (layout g)) mp
               then set_show_instructions g (negb (show_instructions g))
               else g) in E.
    assert (H1 : sliders g1 = sliders g).
    { unfold g1. destruct (collidepoint _ mp); reflexivity. }
    clearbody g1.
    apply Chi2LoopFacts.bind_ok in E. destruct E as (g2 & E2 & E).
    apply Chi2LoopFacts.ok_inj in E. subst g'.
    assert (H2 : sliders g2 = sliders g).
    { rewrite <- H1. repeat break_if_in E2.
      - apply Chi2LoopFacts.ok_inj in E2. subst g2. reflexivity.
      - apply Chi2LoopFacts.ok_inj in E2. subst g2.
        destruct (Chi2LoopFacts.calculate_independence_frame
                    stats_chi2_contingency g1) as (Eo & Ee & _).
        unfold sliders. rewrite Eo, Ee. reflexivity.
      - apply reset_independence_sliders in E2. exact E2.
      - apply Chi2LoopFacts.ok_inj in E2. subst g2. reflexivity. }
    rewrite <- H2. unfold click_cells.
    destruct (hit_cells mp _); reflexivity.
  - cbv beta iota zeta delta [draw_tutorial] in E.
    repeat break_if_in E; apply Chi2LoopFacts.ok_inj in E; subst g';
      reflexivity.
Qed.

(** Only a resize on the goodness-of-fit page moves a slider. *)
Lemma chi2_handle_event_geometry (mp : Z * Z) (g g' : Globals)
    (ev : Event) :
  handle_event stats_chisquare stats_chi2_contingency mp g ev = ok g' ->
  (forall w h, ev = VIDEORESIZE w h -> state g <> GOODNESS_OF_FIT) ->
  map geometry (sliders g') = map geometry (sliders g).
Proof.
  destruct ev as [|w h|key|button| |rel_y|]; cbn [handle_event];
    intros E Hev.
  - apply Chi2LoopFacts.ok_inj in E. subst g'. reflexivity.
  - apply Chi2LoopFacts.ok_inj in E. subst g'. unfold on_videoresize.
    cbv zeta.
    change (sliders (clear_active ?x)) with (sliders x).
    rewrite clear_dragging_geometry.
    rewrite calculate_layout_elsewhere; [reflexivity|].
    exact (Hev w h eq_refl).
  - apply on_keydown_sliders in E. rewrite E. reflexivity.
  - destruct (button =? 1)%Z.
    + apply chi2_on_mousebuttondown_geometry in E. exact E.
    + apply Chi2LoopFacts.ok_inj in E. subst g'. reflexivity.
  - apply Chi2LoopFacts.ok_inj in E. subst g'.
    apply clear_dragging_geometry.
  - unfold on_mousemotion in E.
    apply Chi2LoopFacts.bind_ok in E. destruct E as (r & Er & E).
    apply Chi2LoopFacts.ok_inj in E. subst g'.
    rewrite <- (chi2_for_sliders_geometry _ _ _
                  (chi2_move_slider_geometry mp) Er).
    destruct (snd r); reflexivity.
  - apply Chi2LoopFacts.ok_inj in E. subst g'. reflexivity.
Qed.

Lemma chi2_on_videoresize_disjoint (g : Globals) (w h : Z) :
  Inv g -> state g = GOODNESS_OF_FIT ->
  hit_areas_disjoint (sliders (on_videoresize g w h)).
Proof.
  intros (_ & _ & Lo & Le & _) Es. unfold on_videoresize. cbv zeta.
  change (sliders (clear_active ?x)) with (sliders x).
  apply (hit_areas_disjoint_ext _ _ (clear_dragging_geometry _)).
  apply chi2_layout_disjoint.
  - exact Es.
  - exact Lo.
  - exact Le.
  - cbn [WIDTH set_window]. lia.
  - cbn [HEIGHT set_window]. unfold calculate_min_height, MIN_HEIGHT.
    cbv zeta. lia.
Qed.

End Chi2Loop.

(** *** One press, one slider *)

Lemma mapM_app {A B : Type} (f : A -> exc B) (xs xs' : list A)
    (ys ys' : list B) :
  mapM f xs = ok ys -> mapM f xs' = ok ys' ->
  mapM f (xs ++ xs') = ok (ys ++ ys').
Proof.
  revert ys. induction xs as [|x xs IH]; intros ys H H'.
  - apply Chi2LoopFacts.ok_inj in H. subst ys. exact H'.
  - cbn [mapM] in H.
    apply Chi2LoopFacts.bind_ok in H. destruct H as (y & Ey & H).
    apply Chi2LoopFacts.bind_ok in H. destruct H as (ys0 & Eys & H).
    apply Chi2LoopFacts.ok_inj in H. subst ys.
    cbn [app mapM]. rewrite Ey. cbn [bind].
    rewrite (IH _ Eys H'). reflexivity.
Qed.

Lemma mapM_nth {A B : Type} (f : A -> exc B) (xs : list A) :
  forall (ys : list B) (i : nat) (y : B),
    mapM f xs = ok ys -> nth_error ys i = Some y ->
    exists x, nth_error xs i = Some x /\ f x = ok y.
Proof.
  induction xs as [|x xs IH]; intros ys i y H Hi.
  - apply Chi2LoopFacts.ok_inj in H. subst ys.
    destruct i; discriminate Hi.
  - cbn [mapM] in H.
    apply Chi2LoopFacts.bind_ok in H. destruct H as (y0 & Ey & H).
    apply Chi2LoopFacts.bind_ok in H. destruct H as (ys0 & Eys & H).
    apply Chi2LoopFacts.ok_inj in H. subst ys.
    destruct i as [|i].
    + cbn in Hi. injection Hi as <-. exists x. split; [reflexivity|].
      exact Ey.
    + cbn in Hi. destruct (IH _ _ _ Eys Hi) as (x' & Hx & Hf).
      exists x'. split; assumption.
Qed.

Lemma released_one_drag (ss : list Slider) :
  Forall (fun s => dragging s = false) ss -> one_drag ss.
Proof.
  intros F i j si sj _ _ Hj _. apply nth_error_In in Hj.
  rewrite Forall_forall in F. exact (F _ Hj).
Qed.

Lemma released_ext (ss ss' : list Slider) :
  map dragging ss' = map dragging ss ->
  Forall (fun s => dragging s = false) ss ->
  Forall (fun s => dragging s = false) ss'.
Proof.
  intros E F.
  assert (F' : Forall (fun b => b = false) (map dragging ss')).
  { rewrite E. apply Forall_map. exact F. }
  apply Forall_map in F'. exact F'.
Qed.

Lemma chi2_press_slider_flag (mp : Z * Z) (s : Slider)
    (r : Slider * bool) :
  Chi2GoodnessFit.press_slider mp s = ok r -> dragging s = false ->
  dragging (fst r) = collidepoint (slider_rect s) mp.
Proof.
  unfold Chi2GoodnessFit.press_slider.
  destruct (collidepoint _ _); intros H D.
  - apply Chi2LoopFacts.bind_ok in H. destruct H as (s' & E & H).
    apply Chi2LoopFacts.ok_inj in H. subst r.
    apply drag_to_geometry in E. destruct E as [_ E]. cbn [fst].
    rewrite E. reflexivity.
  - apply Chi2LoopFacts.ok_inj in H. subst r. exact D.
Qed.

Lemma chi2_press_one_drag (mp : Z * Z) (g : Chi2GoodnessFit.Globals)
    (r : Chi2GoodnessFit.Globals * bool) :
  hit_areas_disjoint (Chi2GoodnessFit.sliders g) ->
  Forall (fun s => dragging s = false) (Chi2GoodnessFit.sliders g) ->
  Chi2GoodnessFit.for_sliders (Chi2GoodnessFit.press_slider mp) g = ok r ->
  one_drag (Chi2GoodnessFit.sliders (fst r)).
Proof.
  intros D F H. unfold Chi2GoodnessFit.for_sliders in H.
  apply Chi2LoopFacts.bind_ok in H. destruct H as (obs & Eo & H).
  apply Chi2LoopFacts.bind_ok in H. destruct H as (exp & Ee & H).
  apply Chi2LoopFacts.ok_inj in H. subst r.
  pose proof (mapM_app _ _ _ _ _ Eo Ee) as E.
  fold (Chi2GoodnessFit.sliders g) in E.
  unfold Chi2GoodnessFit.sliders at 1.
  cbn [fst Chi2GoodnessFit.sliders_gof_observed
       Chi2GoodnessFit.sliders_gof_expected Chi2GoodnessFit.set_sliders].
  rewrite <- map_app.
  intros i j si sj Hij Hi Hj Hd.
  rewrite nth_error_map in Hi, Hj.
  destruct (nth_error (obs ++ exp) i) as [yi|] eqn:Ni; [|discriminate Hi].
  destruct (nth_error (obs ++ exp) j) as [yj|] eqn:Nj; [|discriminate Hj].
  cbn in Hi, Hj. injection Hi as <-. injection Hj as <-.
  destruct (mapM_nth _ _ _ _ _ E Ni) as (xi & Xi & Pi).
  destruct (mapM_nth _ _ _ _ _ E Nj) as (xj & Xj & Pj).
  rewrite Forall_forall in F.
  rewrite (chi2_press_slider_flag _ _ _ Pi (F _ (nth_error_In _ _ Xi)))
    in Hd.
  rewrite (chi2_press_slider_flag _ _ _ Pj (F _ (nth_error_In _ _ Xj))).
  exact (D mp i j xi xj Hij Xi Xj Hd).
Qed.

Section Chi2Press.

Import Chi2GoodnessFit.

Variable stats_chisquare : list Z -> list Q -> exc (Q * R).
Variable stats_chi2_contingency : list (list Z) -> exc (Q * R * Z).

Lemma chi2_on_mousebuttondown_one_drag (mp : Z * Z) (g g' : Globals) :
  hit_areas_disjoint (sliders g) ->
  Forall (fun s => dragging s = false) (sliders g) ->
  on_mousebuttondown stats_chisquare stats_chi2_contingency mp g = ok g' ->
  one_drag (sliders g').
Proof.
  intros D F E. unfold on_mousebuttondown in E.
  destruct (state g).
  - cbv beta iota zeta delta [draw_menu] in E.
    apply released_one_drag.
    repeat break_if_in E.
    + revert F. apply released_ext.
      apply (reset_goodness_of_fit_proj dragging) in E; [exact E|].
      reflexivity.
    + apply reset_independence_sliders in E. rewrite E. exact F.
    + apply Chi2LoopFacts.ok_inj in E. subst g'. exact F.
    + apply Chi2LoopFacts.ok_inj in E. subst g'. exact F.
  - cbv beta iota zeta delta [draw_test_page] in E.
    set (g1 := if collidepoint (toggle_rect (layout g)) mp
               then set_show_instructions g (negb (show_instructions g))
               else g) in E.
    assert (H1 : sliders g1 = sliders g).
    { unfold g1. destruct (collidepoint _ mp); reflexivity. }
    clearbody g1.
    apply Chi2LoopFacts.bind_ok in E. destruct E as (g2 & E2 & E).
    assert (H2 : map geometry (sliders g2) = map geometry (sliders g) /\
                 map dragging (sliders g2) = map dragging (sliders g)).
    { rewrite <- H1. repeat break_if_in E2.
      - apply Chi2LoopFacts.ok_inj in E2. subst g2. split; reflexivity.
      - apply Chi2LoopFacts.ok_inj in E2. subst g2.
        destruct (Chi2LoopFacts.calculate_goodness_of_fit_frame
                    stats_chisquare g1) as (Eo & Ee & _).
        unfold sliders. rewrite Eo, Ee. split; reflexivity.
      - split; [apply reset_goodness_of_fit_geometry, E2|].
        apply (reset_goodness_of_fit_proj dragging); [reflexivity|].
        exact E2.
      - apply Chi2LoopFacts.ok_inj in E2. subst g2. split; reflexivity. }
    destruct H2 as [G2 D2].
    apply Chi2LoopFacts.bind_ok in E. destruct E as (r & Er & E).
    apply Chi2LoopFacts.ok_inj in E. subst g'.
    assert (O : one_drag (sliders (fst r))).
    { apply (chi2_press_one_drag mp g2 r); [| |exact Er].
      - apply (hit_areas_disjoint_ext _ _ G2). exact D.
      - revert F. apply released_ext. exact D2. }
    destruct (snd r); exact O.
  - cbv beta iota zeta delta [draw_test_page] in E.
    set (g1 := if collidepoint (toggle_rect (layout g)) mp
               then set_show_instructions g (negb (show_instructions g))
               else g) in E.
    assert (H1 : sliders g1 = sliders g).
    { unfold g1. destruct (collidepoint _ mp); reflexivity. }
    clearbody g1.
    apply Chi2LoopFacts.bind_ok in E. destruct E as (g2 & E2 & E).
    apply Chi2LoopFacts.ok_inj in E. subst g'.
    assert (H2 : sliders g2 = sliders g).
    { rewrite <- H1. repeat break_if_in E2.
      - apply Chi2LoopFacts.ok_inj in E2. subst g2. reflexivity.
      - apply Chi2LoopFacts.ok_inj in E2. subst g2.
        destruct (Chi2LoopFacts.calculate_independence_frame
                    stats_chi2_contingency g1) as (Eo & Ee & _).
        unfold sliders. rewrite Eo, Ee. reflexivity.
      - apply reset_independence_sliders in E2. exact E2.
      - apply Chi2LoopFacts.ok_inj in E2. subst g2. reflexivity. }
    apply released_one_drag. rewrite <- H2 in F.
    unfold click_cells. destruct (hit_cells mp _); exact F.
  - cbv beta iota zeta delta [draw_tutorial] in E.
    apply released_one_drag.
    repeat break_if_in E; apply Chi2LoopFacts.ok_inj in E; subst g';
      exact F.
Qed.

End Chi2Press.

(** X28: in [Chi_2_Goodness_Fit.py] a resize on the goodness-of-fit page
    separates the sliders, and they stay separate.  The resize puts the
    three and three sliders where no point lies in the hit areas of two
    of them; every other event, and a resize on another page, leaves each
    slider's position and width as they were, so that hit areas that
    share no point go on sharing none; and with such hit areas a press
    while no slider is held grabs at most one slider. *)
Theorem goodness_of_fit_resize_separates_the_sliders :
  forall (stats_chisquare : list Z -> list Q -> exc (Q * R))
         (stats_chi2_contingency : list (list Z) -> exc (Q * R * Z)),
    (forall g w h,
        Chi2GoodnessFit.Inv g ->
        Chi2GoodnessFit.state g = Chi2GoodnessFit.GOODNESS_OF_FIT ->
        hit_areas_disjoint
          (Chi2GoodnessFit.sliders (Chi2GoodnessFit.on_videoresize g w h))) /\
    (forall mouse_pos g g' ev,
        Chi2GoodnessFit.handle_event stats_chisquare stats_chi2_contingency
          mouse_pos g ev = ok g' ->
        (forall w h, ev = VIDEORESIZE w h ->
                     Chi2GoodnessFit.state g
                     <> Chi2GoodnessFit.GOODNESS_OF_FIT) ->
        map geometry (Chi2GoodnessFit.sliders g')
        = map geometry (Chi2GoodnessFit.sliders g)) /\
    (forall mouse_pos g g' ev,
        Chi2GoodnessFit.Inv g ->
        hit_areas_disjoint (Chi2GoodnessFit.sliders g) ->
        Chi2GoodnessFit.handle_event stats_chisquare stats_chi2_contingency
          mouse_pos g ev = ok g' ->
        hit_areas_disjoint (Chi2GoodnessFit.sliders g')) /\
    (forall mouse_pos g g',
        hit_areas_disjoint (Chi2GoodnessFit.sliders g) ->
        Forall (fun s => dragging s = false) (Chi2GoodnessFit.sliders g) ->
        Chi2GoodnessFit.handle_event stats_chisquare stats_chi2_contingency
          mouse_pos g (MOUSEBUTTONDOWN 1) = ok g' ->
        one_drag (Chi2GoodnessFit.sliders g')).
Proof.
  intros lib1 lib2. split; [|split; [|split]].
  - intros g w h. apply chi2_on_videoresize_disjoint.
  - intros mp g g' ev. apply chi2_handle_event_geometry.
  - intros mp g g' ev HI D E.
    assert (Hcase : (exists w h, ev = VIDEORESIZE w h /\
                                 Chi2GoodnessFit.state g
                                 = Chi2GoodnessFit.GOODNESS_OF_FIT) \/
                    (forall w h, ev = VIDEORESIZE w h ->
                                 Chi2GoodnessFit.state g
                                 <> Chi2GoodnessFit.GOODNESS_OF_FIT)).
    { destruct ev as [|w h|key|button| |rel_y|];
        try (right; intros w' h' Ev; discriminate Ev).
      destruct (Chi2GoodnessFit.state g) eqn:Es;
        try (right; intros w' h' _ Ec; discriminate Ec).
      left. exists w, h. split; reflexivity. }
    destruct Hcase as [(w & h & -> & Es)|Hev].
    + cbn [Chi2GoodnessFit.handle_event] in E.
      apply Chi2LoopFacts.ok_inj in E. subst g'.
      apply chi2_on_videoresize_disjoint; assumption.
    + apply (hit_areas_disjoint_ext _ _
               (chi2_handle_event_geometry lib1 lib2 mp g g' ev E Hev)).
      exact D.
  - intros mp g g' D F E.
    cbn [Chi2GoodnessFit.handle_event] in E.
    change (1 =? 1)%Z with true in E. cbv iota in E.
    exact (chi2_on_mousebuttondown_one_drag lib1 lib2 mp g g' D F E).
Qed.

Lemma goodness_of_fit_resize_separates_the_sliders_witness :
  hit_areas_disjoint
    (Chi2GoodnessFit.sliders
       (Chi2GoodnessFit.on_videoresize
          (Chi2GoodnessFit.set_state Chi2GoodnessFit.initial_globals
                                     Chi2GoodnessFit.GOODNESS_OF_FIT)
          1200 900)).
Proof.
  destruct (goodness_of_fit_resize_separates_the_sliders
              Chi2GoodnessFit.chisquare_3
              Chi2GoodnessFit.chi2_contingency_2x3) as (H & _).
  apply H; [|reflexivity].
  eapply Chi2LoopFacts.Inv_ext;
    [| | |exact Chi2LoopFacts.chi2_initial_globals_Inv]; reflexivity.
Defined.

(** *** Before the first resize *)

Lemma stacked_ext (g g' : Chi2GoodnessFit.Globals) :
  map geometry (Chi2GoodnessFit.sliders g')
  = map geometry (Chi2GoodnessFit.sliders g) ->
  Chi2GoodnessFit.stacked g -> Chi2GoodnessFit.stacked g'.
Proof.
  unfold Chi2GoodnessFit.stacked. intros E F.
  assert (F' : Forall (fun c => c = ((0, 0),
                                     inject_Z Chi2GoodnessFit.SLIDER_MIN_WIDTH))
                      (map geometry (Chi2GoodnessFit.sliders g'))).
  { rewrite E. apply Forall_map. exact F. }
  apply Forall_map in F'. exact F'.
Qed.

(** The hit area of a slider that sits at the origin. *)
Lemma stacked_hit (s : Slider) (x y : Z) :
  geometry s = ((0, 0), inject_Z Chi2GoodnessFit.SLIDER_MIN_WIDTH) ->
  collidepoint (slider_rect s) (x, y)
  = ((-5 <=? x) && (x <? 205) && (-10 <=? y) && (y <? 10))%Z.
Proof.
  unfold geometry, slider_rect. intros E. injection E as -> ->.
  reflexivity.
Qed.

Section Chi2Stacked.

Import Chi2GoodnessFit.

Variable stats_chisquare : list Z -> list Q -> exc (Q * R).
Variable stats_chi2_contingency : list (list Z) -> exc (Q * R * Z).

Lemma stacked_press_grabs_all (g : Globals) (x y : Z) :
  stacked g -> Inv g -> state g = GOODNESS_OF_FIT ->
  (0 <= x < 205)%Z -> (0 <= y < 10)%Z ->
  exists g',
    on_mousebuttondown stats_chisquare stats_chi2_contingency (x, y) g
    = ok g' /\
    Forall (fun s => dragging s = true) (sliders g').
Proof.
  intros S H Es Hx Hy. unfold on_mousebuttondown. rewrite Es.
  cbv beta iota zeta delta [draw_test_page].
  set (mp := (x, y)).
  set (g1 := if collidepoint (toggle_rect (layout g)) mp
             then set_show_instructions g (negb (show_instructions g))
             else g).
  assert (H1 : Inv g1 /\ stacked g1).
  { unfold g1. destruct (collidepoint _ mp); split; assumption. }
  clearbody g1. destruct H1 as [H1 S1].
  assert (Hb : collidepoint (mkRect 30 10 100 40) mp = false).
  { unfold collidepoint, mp. cbn [rx ry rw rh fst snd].
    destruct (10 <=? y)%Z eqn:E; [apply Z.leb_le in E; lia|].
    rewrite andb_false_r. reflexivity. }
  rewrite Hb.
  assert (H2 : exists g2,
             (if collidepoint (calc_button g1) mp
                 && negb (has_calculated g1)
              then ok (calculate_goodness_of_fit stats_chisquare g1)
              else if collidepoint (reset_button g1) mp
              then reset_goodness_of_fit g1 else ok g1) = ok g2
             /\ Inv g2 /\ stacked g2).
  { destruct (collidepoint (calc_button g1) mp
              && negb (has_calculated g1)).
    { eexists. split; [reflexivity|]. split.
      - apply Chi2LoopFacts.calculate_goodness_of_fit_Inv, H1.
      - revert S1. apply stacked_ext.
        destruct (Chi2LoopFacts.calculate_goodness_of_fit_frame
                    stats_chisquare g1) as (Eo & Ee & _).
        unfold sliders. rewrite Eo, Ee. reflexivity. }
    destruct (collidepoint (reset_button g1) mp).
    - destruct (Chi2LoopFacts.reset_goodness_of_fit_Inv g1 H1)
        as (g2 & E2 & I2).
      exists g2. split; [exact E2|]. split; [exact I2|].
      revert S1. apply stacked_ext.
      apply reset_goodness_of_fit_geometry, E2.
    - exists g1. split; [reflexivity|]. split; assumption. }
  destruct H2 as (g2 & E2 & I2 & S2). rewrite E2. cbn [bind ok].
  destruct (Chi2LoopFacts.chi2_for_sliders_Inv (press_slider mp)
              (fun s => (pressed mp s,
                         collidepoint (slider_rect s) mp)) g2
              (Chi2LoopFacts.chi2_press_slider_pressed mp)
              (fun lo hi s => pressed_bounded mp lo hi s) I2)
    as [E _].
  rewrite E. cbn [bind ok fst snd].
  eexists. split; [reflexivity|].
  assert (F : Forall (fun s => dragging s = true)
                     (map (fun s => pressed mp s) (sliders g2))).
  { apply Forall_map. unfold stacked in S2.
    apply (Forall_impl _ (P := fun s => geometry s
                                = ((0, 0), inject_Z SLIDER_MIN_WIDTH)));
      [|exact S2].
    intros s Hs. unfold pressed, mp.
    rewrite (stacked_hit s x y Hs).
    replace ((-5 <=? x) && (x <? 205) && (-10 <=? y) && (y <? 10))%Z
      with true; [reflexivity|].
    symmetry. repeat (apply andb_true_iff; split);
      first [apply Z.leb_le | apply Z.ltb_lt]; lia. }
  unfold sliders in F |- *. rewrite map_app in F.
  destruct (existsb snd _ || existsb snd _); exact F.
Qed.

End Chi2Stacked.

(** X29: until the window is resized on the goodness-of-fit page, the six
    sliders of [Chi_2_Goodness_Fit.py] lie on top of each other.  The
    program starts with every slider at the origin, 200 wide; every event
    other than a resize on the goodness-of-fit page leaves them there;
    and on that page one press near the origin, at [0 <= x < 205] and
    [0 <= y < 10], grabs all six sliders at once. *)
Theorem sliders_start_on_top_of_each_other :
  forall (stats_chisquare : list Z -> list Q -> exc (Q * R))
         (stats_chi2_contingency : list (list Z) -> exc (Q * R * Z)),
    Chi2GoodnessFit.stacked Chi2GoodnessFit.initial_globals /\
    (forall mouse_pos g g' ev,
        Chi2GoodnessFit.stacked g ->
        Chi2GoodnessFit.handle_event stats_chisquare stats_chi2_contingency
          mouse_pos g ev = ok g' ->
        (forall w h, ev = VIDEORESIZE w h ->
                     Chi2GoodnessFit.state g
                     <> Chi2GoodnessFit.GOODNESS_OF_FIT) ->
        Chi2GoodnessFit.stacked g') /\
    (forall g x y,
        Chi2GoodnessFit.stacked g -> Chi2GoodnessFit.Inv g ->
        Chi2GoodnessFit.state g = Chi2GoodnessFit.GOODNESS_OF_FIT ->
        (0 <= x < 205)%Z -> (0 <= y < 10)%Z ->
        exists g',
          Chi2GoodnessFit.handle_event stats_chisquare
            stats_chi2_contingency (x, y) g (MOUSEBUTTONDOWN 1) = ok g' /\
          Forall (fun s => dragging s = true)
                 (Chi2GoodnessFit.sliders g')).
Proof.
  intros lib1 lib2. split; [|split].
  - unfold Chi2GoodnessFit.stacked. repeat constructor.
  - intros mp g g' ev S E Hev. revert S. apply stacked_ext.
    exact (chi2_handle_event_geometry lib1 lib2 mp g g' ev E Hev).
  - intros g x y S H Es Hx Hy.
    cbn [Chi2GoodnessFit.handle_event].
    change (1 =? 1)%Z with true. cbv iota.
    apply stacked_press_grabs_all; assumption.
Qed.

Lemma sliders_start_on_top_of_each_other_witness :
  exists g',
    Chi2GoodnessFit.handle_event Chi2GoodnessFit.chisquare_3
      Chi2GoodnessFit.chi2_contingency_2x3 (100, 5)%Z
      (Chi2GoodnessFit.set_state Chi2GoodnessFit.initial_globals
                                 Chi2GoodnessFit.GOODNESS_OF_FIT)
      (MOUSEBUTTONDOWN 1) = ok g' /\
    Forall (fun s => dragging s = true) (Chi2GoodnessFit.sliders g').
Proof.
  destruct (sliders_start_on_top_of_each_other
              Chi2GoodnessFit.chisquare_3
              Chi2GoodnessFit.chi2_contingency_2x3) as (S0 & _ & H).
  apply H.
  - exact S0.
  - eapply Chi2LoopFacts.Inv_ext;
      [| | |exact Chi2LoopFacts.chi2_initial_globals_Inv]; reflexivity.
  - reflexivity.
  - lia.
  - lia.
Defined.

(** *** The table of the independence page *)

Lemma nth_error_combine_seq {A : Type} (xs : list A) :
  forall (s i : nat),
    nth_error (combine (seq s (length xs)) xs) i
    = option_map (pair (s + i)%nat) (nth_error xs i).
Proof.
  induction xs as [|x xs IH]; intros s i.
  - destruct i; reflexivity.
  - destruct i as [|i]; cbn [length seq combine nth_error option_map].
    + rewrite Nat.add_0_r. reflexivity.
    + rewrite IH. replace (S s + i)%nat with (s + S i)%nat by lia.
      reflexivity.
Qed.

Lemma nth_error_enumerate {A : Type} (xs : list A) (i : nat) :
  nth_error (enumerate xs) i = option_map (pair i) (nth_error xs i).
Proof. unfold enumerate. apply nth_error_combine_seq. Qed.

(** The cell at a position after [calculate_layout] has placed every
    cell. *)
Lemma lookup_cell_placed (F : nat -> nat * Chi2GoodnessFit.Cell
                              -> Chi2GoodnessFit.Cell)
    (cells : list (list Chi2GoodnessFit.Cell)) (i j : nat) :
  Chi2GoodnessFit.lookup_cell
    (map (fun ir => map (F (fst ir)) (enumerate (snd ir)))
         (enumerate cells)) (i, j)
  = option_map (fun c => F i (j, c))
               (Chi2GoodnessFit.lookup_cell cells (i, j)).
Proof.
  unfold Chi2GoodnessFit.lookup_cell. cbn [fst snd].
  rewrite nth_error_map, nth_error_enumerate.
  destruct (nth_error cells i) as [row|]; [|reflexivity].
  cbn [option_map fst snd].
  rewrite nth_error_map, nth_error_enumerate.
  destruct (nth_error row j) as [c|]; reflexivity.
Qed.

Lemma lookup_cell_map (f : Chi2GoodnessFit.Cell -> Chi2GoodnessFit.Cell)
    (cells : list (list Chi2GoodnessFit.Cell)) (ij : nat * nat) :
  Chi2GoodnessFit.lookup_cell (map (map f) cells) ij
  = option_map f (Chi2GoodnessFit.lookup_cell cells ij).
Proof.
  unfold Chi2GoodnessFit.lookup_cell. rewrite nth_error_map.
  destruct (nth_error cells (fst ij)) as [row|]; [|reflexivity].
  cbn [option_map]. apply nth_error_map.
Qed.

(** Tables with the same rectangles have them at the same positions. *)
Lemma lookup_cell_rect (cells cells' : list (list Chi2GoodnessFit.Cell))
    (ij : nat * nat) :
  map (map Chi2GoodnessFit.rect) cells'
  = map (map Chi2GoodnessFit.rect) cells ->
  option_map Chi2GoodnessFit.rect (Chi2GoodnessFit.lookup_cell cells' ij)
  = option_map Chi2GoodnessFit.rect (Chi2GoodnessFit.lookup_cell cells ij).
Proof.
  intros E.
  assert (G : forall cs,
             option_map Chi2GoodnessFit.rect
               (Chi2GoodnessFit.lookup_cell cs ij)
             = match nth_error (map (map Chi2GoodnessFit.rect) cs) (fst ij)
               with
               | Some row => nth_error row (snd ij)
               | None => None
               end).
  { intros cs. unfold Chi2GoodnessFit.lookup_cell. rewrite nth_error_map.
    destruct (nth_error cs (fst ij)) as [row|]; [|reflexivity].
    cbn [option_map]. rewrite nth_error_map. reflexivity. }
  rewrite !G, E. reflexivity.
Qed.

Lemma cells_apart_ext (g g' : Chi2GoodnessFit.Globals) :
  map (map Chi2GoodnessFit.rect) (Chi2GoodnessFit.independence_cells g')
  = map (map Chi2GoodnessFit.rect) (Chi2GoodnessFit.independence_cells g) ->
  Chi2GoodnessFit.cells_apart g -> Chi2GoodnessFit.cells_apart g'.
Proof.
  intros E H p ij ij' c c' Hne Hc Hc' Hp.
  pose proof (lookup_cell_rect _ _ ij E) as E1.
  pose proof (lookup_cell_rect _ _ ij' E) as E2.
  rewrite Hc in E1. rewrite Hc' in E2. cbn [option_map] in E1, E2.
  destruct (Chi2GoodnessFit.lookup_cell
              (Chi2GoodnessFit.independence_cells g) ij) as [d|] eqn:D;
    [|discriminate E1].
  destruct (Chi2GoodnessFit.lookup_cell
              (Chi2GoodnessFit.independence_cells g) ij') as [d'|] eqn:D';
    [|discriminate E2].
  cbn [option_map] in E1, E2. injection E1 as E1. injection E2 as E2.
  rewrite E2. rewrite E1 in Hp. exact (H p ij ij' d d' Hne D D' Hp).
Qed.

Lemma inject_Z_step (a b : Z) :
  (a + 1 <= b)%Z ->
  inject_Z ((a + 1) * 100) + 100 <= inject_Z ((b + 1) * 100) /\
  inject_Z ((a + 1) * 50) + 50 <= inject_Z ((b + 1) * 50).
Proof.
  intros H. split.
  - change 100 with (inject_Z 100). rewrite <- inject_Z_plus.
    rewrite <- Zle_Qle. lia.
  - change 50 with (inject_Z 50). rewrite <- inject_Z_plus.
    rewrite <- Zle_Qle. lia.
Qed.

(** Cells of a grid with its corner at non-negative coordinates. *)
Lemma grid_cells_apart (tl tt : Q) (i j i' j' : nat) (p : Z * Z) :
  0 <= tl -> 0 <= tt -> (i, j) <> (i', j') ->
  let r a b :=
    rect_of (tl + inject_Z ((Z.of_nat b + 1) * Chi2GoodnessFit.CELL_WIDTH))
            (tt + inject_Z ((Z.of_nat a + 1) * Chi2GoodnessFit.CELL_HEIGHT))
            (inject_Z Chi2GoodnessFit.CELL_WIDTH)
            (inject_Z Chi2GoodnessFit.CELL_HEIGHT) in
  collidepoint (r i j) p = true -> collidepoint (r i' j') p = false.
Proof.
  intros Hl Ht Hne r. apply apart_disjoint.
  unfold r, rect_of. cbn [rx ry rw rh].
  change (py_int (inject_Z Chi2GoodnessFit.CELL_WIDTH)) with 100%Z.
  change (py_int (inject_Z Chi2GoodnessFit.CELL_HEIGHT)) with 50%Z.
  unfold Chi2GoodnessFit.CELL_WIDTH, Chi2GoodnessFit.CELL_HEIGHT.
  assert (N : forall a : nat, 0 <= inject_Z ((Z.of_nat a + 1) * 100) /\
                              0 <= inject_Z ((Z.of_nat a + 1) * 50)).
  { intros a. change 0 with (inject_Z 0). rewrite <- !Zle_Qle. lia. }
  assert (C : (j < j')%nat \/ (j' < j)%nat \/ (i < i')%nat \/ (i' < i)%nat).
  { destruct (Nat.lt_trichotomy j j') as [|[Ej|]]; auto.
    destruct (Nat.lt_trichotomy i i') as [|[Ei|]]; auto.
    exfalso. apply Hne. congruence. }
  destruct C as [C|[C|[C|C]]].
  - left. apply py_int_shift_le; [destruct (N j); lra | lia |].
    destruct (inject_Z_step (Z.of_nat j) (Z.of_nat j')); [lia|].
    change (inject_Z 100) with 100. lra.
  - right. left. apply py_int_shift_le; [destruct (N j'); lra | lia |].
    destruct (inject_Z_step (Z.of_nat j') (Z.of_nat j)); [lia|].
    change (inject_Z 100) with 100. lra.
  - right. right. left.
    apply py_int_shift_le; [destruct (N i); lra | lia |].
    destruct (inject_Z_step (Z.of_nat i) (Z.of_nat i')); [lia|].
    change (inject_Z 50) with 50. lra.
  - right. right. right.
    apply py_int_shift_le; [destruct (N i'); lra | lia |].
    destruct (inject_Z_step (Z.of_nat i') (Z.of_nat i)); [lia|].
    change (inject_Z 50) with 50. lra.
Qed.

Lemma chi2_layout_cells_apart (g : Chi2GoodnessFit.Globals) :
  Chi2GoodnessFit.state g = Chi2GoodnessFit.INDEPENDENCE ->
  (Chi2GoodnessFit.MIN_WIDTH <= Chi2GoodnessFit.WIDTH g)%Z ->
  (Chi2GoodnessFit.MIN_HEIGHT <= Chi2GoodnessFit.HEIGHT g)%Z ->
  Chi2GoodnessFit.cells_apart (Chi2GoodnessFit.calculate_layout g).
Proof.
  intros Es HW HH.
  assert (QW : 1000 <= inject_Z (Chi2GoodnessFit.WIDTH g)).
  { change 1000 with (inject_Z Chi2GoodnessFit.MIN_WIDTH).
    rewrite <- Zle_Qle. exact HW. }
  assert (QH : 700 <= inject_Z (Chi2GoodnessFit.HEIGHT g)).
  { change 700 with (inject_Z Chi2GoodnessFit.MIN_HEIGHT).
    rewrite <- Zle_Qle. exact HH. }
  unfold Chi2GoodnessFit.calculate_layout. cbv zeta. rewrite Es.
  cbv iota. unfold Chi2GoodnessFit.cells_apart.
  cbn [Chi2GoodnessFit.independence_cells Chi2GoodnessFit.set_cells
       Chi2GoodnessFit.set_layout].
  set (W := inject_Z (Chi2GoodnessFit.WIDTH g)) in *.
  set (H := inject_Z (Chi2GoodnessFit.HEIGHT g)) in *.
  change (inject_Z Chi2GoodnessFit.PANEL_MARGIN) with 15.
  change (inject_Z Chi2GoodnessFit.HEADER_HEIGHT) with 60.
  change (inject_Z Chi2GoodnessFit.RESULT_MARGIN) with 20.
  change (inject_Z (Chi2GoodnessFit.LABEL_COLUMN_WIDTH +
                    Chi2GoodnessFit.SLIDER_MIN_WIDTH +
                    Chi2GoodnessFit.VALUE_COLUMN_WIDTH +
                    Chi2GoodnessFit.LABEL_SLIDER_GAP +
                    Chi2GoodnessFit.SLIDER_VALUE_GAP +
                    Chi2GoodnessFit.H_MARGIN * 2))
    with 486.
  change (inject_Z (Chi2GoodnessFit.CELL_WIDTH
                    * (Chi2GoodnessFit.independence_colnames_len + 1)))
    with 400.
  set (pw := py_max (py_min (W * (8 # 10)) 800) 486).
  set (pl := py_floor ((W - pw) / 2)).
  set (off := py_floor ((pw - 400) / 2)).
  set (ch := py_min ((H - 60 - 15 - 40 - 20) * (4 # 10)) 450).
  assert (Hpw : 486 <= pw /\ pw <= W).
  { split; [apply py_max_ge_r|].
    apply py_max_upper; [|lra].
    eapply Qle_trans; [apply py_min_upper|]. lra. }
  assert (Hpl : 0 <= pl).
  { apply py_floor_nonneg. apply Qle_shift_div_l; lra. }
  assert (Hoff : 0 <= off).
  { apply py_floor_nonneg. apply Qle_shift_div_l; lra. }
  assert (Hch : 0 <= ch).
  { unfold ch. apply py_min_lower; lra. }
  clearbody pl off ch.
  intros p [i j] [i' j'] c c' Hne Hc Hc' Hp.
  pose (F := fun (a : nat) (jc : nat * Chi2GoodnessFit.Cell) =>
               Chi2GoodnessFit.set_rect (snd jc)
                 (rect_of
                    (pl + off +
                     inject_Z ((Z.of_nat (fst jc) + 1)
                               * Chi2GoodnessFit.CELL_WIDTH))
                    (60 + 20 + 40 + 15 + ch + 15 + 40 + 15 + 80 +
                     inject_Z ((Z.of_nat a + 1)
                               * Chi2GoodnessFit.CELL_HEIGHT))
                    (inject_Z Chi2GoodnessFit.CELL_WIDTH)
                    (inject_Z Chi2GoodnessFit.CELL_HEIGHT))).
  change (Chi2GoodnessFit.lookup_cell
            (map (fun ir => map (F (fst ir)) (enumerate (snd ir)))
                 (enumerate (Chi2GoodnessFit.independence_cells g)))
            (i, j) = Some c) in Hc.
  change (Chi2GoodnessFit.lookup_cell
            (map (fun ir => map (F (fst ir)) (enumerate (snd ir)))
                 (enumerate (Chi2GoodnessFit.independence_cells g)))
            (i', j') = Some c') in Hc'.
  rewrite lookup_cell_placed in Hc, Hc'. unfold F in Hc, Hc'. clear F.
  destruct (Chi2GoodnessFit.lookup_cell _ (i, j)) as [d|];
    [|discriminate Hc].
  destruct (Chi2GoodnessFit.lookup_cell _ (i', j')) as [d'|];
    [|discriminate Hc'].
  cbn [option_map fst snd] in Hc, Hc'.
  injection Hc as <-. injection Hc' as <-.
  cbn [Chi2GoodnessFit.rect Chi2GoodnessFit.set_rect] in Hp |- *.
  revert Hp. apply grid_cells_apart; [lra | lra | exact Hne].
Qed.

(** A loop over an enumerated list whose body keeps a projection. *)
Lemma mapM_combine_proj {A B P : Type} (projA : A -> P) (projB : B -> P)
    (f : nat * A -> exc B) (xs : list A) :
  (forall ix y, f ix = ok y -> projB y = projA (snd ix)) ->
  forall (ns : list nat) (ys : list B),
    mapM f (combine ns xs) = ok ys -> length ns = length xs ->
    map projB ys = map projA xs.
Proof.
  intros Hf. induction xs as [|x xs IH]; intros ns ys H L.
  - destruct ns; [|discriminate L]. cbn in H.
    apply Chi2LoopFacts.ok_inj in H. subst ys. reflexivity.
  - destruct ns as [|n ns]; [discriminate L|].
    cbn [combine mapM] in H.
    apply Chi2LoopFacts.bind_ok in H. destruct H as (y & Ey & H).
    apply Chi2LoopFacts.bind_ok in H. destruct H as (ys' & Eys & H).
    apply Chi2LoopFacts.ok_inj in H. subst ys. cbn [map].
    rewrite (Hf _ _ Ey). cbn [snd].
    rewrite (IH ns ys' Eys) by (injection L; auto). reflexivity.
Qed.

Lemma reset_independence_rects (g g' : Chi2GoodnessFit.Globals) :
  Chi2GoodnessFit.reset_independence g = ok g' ->
  map (map Chi2GoodnessFit.rect) (Chi2GoodnessFit.independence_cells g')
  = map (map Chi2GoodnessFit.rect) (Chi2GoodnessFit.independence_cells g).
Proof.
  unfold Chi2GoodnessFit.reset_independence. intros H.
  apply Chi2LoopFacts.bind_ok in H. destruct H as (cells & Ec & H).
  apply Chi2LoopFacts.ok_inj in H. subst g'.
  cbn [Chi2GoodnessFit.independence_cells Chi2GoodnessFit.set_cells
       Chi2GoodnessFit.set_has_calculated].
  unfold enumerate in Ec at 2.
  refine (mapM_combine_proj (map Chi2GoodnessFit.rect)
            (map Chi2GoodnessFit.rect) _ _ _ _ _ Ec (length_seq _ _)).
  intros ir row Er. unfold enumerate in Er.
  refine (mapM_combine_proj Chi2GoodnessFit.rect Chi2GoodnessFit.rect
            _ _ _ _ _ Er (length_seq _ _)).
  intros jc c E.
  apply Chi2LoopFacts.bind_ok in E. destruct E as (r & _ & E).
  apply Chi2LoopFacts.bind_ok in E. destruct E as (v & _ & E).
  apply Chi2LoopFacts.ok_inj in E. subst c. reflexivity.
Qed.

Lemma reset_goodness_of_fit_cells (g g' : Chi2GoodnessFit.Globals) :
  Chi2GoodnessFit.reset_goodness_of_fit g = ok g' ->
  Chi2GoodnessFit.independence_cells g'
  = Chi2GoodnessFit.independence_cells g.
Proof.
  unfold Chi2GoodnessFit.reset_goodness_of_fit. intros H.
  apply Chi2LoopFacts.bind_ok in H. destruct H as (obs & _ & H).
  apply Chi2LoopFacts.bind_ok in H. destruct H as (exp & _ & H).
  apply Chi2LoopFacts.ok_inj in H. subst g'. reflexivity.
Qed.

Lemma for_sliders_cells (f : Slider -> exc (Slider * bool))
    (g : Chi2GoodnessFit.Globals) (r : Chi2GoodnessFit.Globals * bool) :
  Chi2GoodnessFit.for_sliders f g = ok r ->
  Chi2GoodnessFit.independence_cells (fst r)
  = Chi2GoodnessFit.independence_cells g.
Proof.
  unfold Chi2GoodnessFit.for_sliders. intros H.
  apply Chi2LoopFacts.bind_ok in H. destruct H as (obs & _ & H).
  apply Chi2LoopFacts.bind_ok in H. destruct H as (exp & _ & H).
  apply Chi2LoopFacts.ok_inj in H. subst r. reflexivity.
Qed.

Lemma on_keydown_rects (g g' : Chi2GoodnessFit.Globals) (key : Z) :
  Chi2GoodnessFit.on_keydown g key = ok g' ->
  map (map Chi2GoodnessFit.rect) (Chi2GoodnessFit.independence_cells g')
  = map (map Chi2GoodnessFit.rect) (Chi2GoodnessFit.independence_cells g).
Proof.
  unfold Chi2GoodnessFit.on_keydown. cbv zeta.
  set (g1 := if (key =? K_ESCAPE)%Z then _ else g).
  assert (E1 : Chi2GoodnessFit.independence_cells g1
               = Chi2GoodnessFit.independence_cells g).
  { unfold g1. repeat break_if; reflexivity. }
  clearbody g1. intros H. rewrite <- E1.
  destruct (Chi2GoodnessFit.active_cell g1) as [ij|];
    [|apply Chi2LoopFacts.ok_inj in H; subst g'; reflexivity].
  destruct (Chi2GoodnessFit.Page_eqb _ _);
    [|apply Chi2LoopFacts.ok_inj in H; subst g'; reflexivity].
  destruct (Chi2GoodnessFit.lookup_cell _ ij) as [cell|];
    [|apply Chi2LoopFacts.ok_inj in H; subst g'; reflexivity].
  destruct (key =? K_BACKSPACE)%Z.
  - apply Chi2LoopFacts.bind_ok in H. destruct H as (v & _ & H).
    apply Chi2LoopFacts.ok_inj in H. subst g'.
    cbn [Chi2GoodnessFit.independence_cells Chi2GoodnessFit.set_cells
         Chi2GoodnessFit.set_has_calculated].
    apply Chi2Pages.map_map_update_cell. reflexivity.
  - destruct (_ && _); apply Chi2LoopFacts.ok_inj in H; subst g';
      [|reflexivity].
    cbn [Chi2GoodnessFit.independence_cells Chi2GoodnessFit.set_cells
         Chi2GoodnessFit.set_has_calculated].
    apply Chi2Pages.map_map_update_cell. reflexivity.
Qed.

Lemma map_map_rect (f : Chi2GoodnessFit.Cell -> Chi2GoodnessFit.Cell)
    (cells : list (list Chi2GoodnessFit.Cell)) :
  (forall c, Chi2GoodnessFit.rect (f c) = Chi2GoodnessFit.rect c) ->
  map (map Chi2GoodnessFit.rect) (map (map f) cells)
  = map (map Chi2GoodnessFit.rect) cells.
Proof.
  intros Hf. rewrite map_map. apply map_ext. intros row.
  rewrite map_map. apply map_ext. exact Hf.
Qed.

Lemma clear_active_rects (g : Chi2GoodnessFit.Globals) :
  map (map Chi2GoodnessFit.rect)
      (Chi2GoodnessFit.independence_cells (Chi2GoodnessFit.clear_active g))
  = map (map Chi2GoodnessFit.rect) (Chi2GoodnessFit.independence_cells g).
Proof.
  unfold Chi2GoodnessFit.clear_active.
  cbn [Chi2GoodnessFit.independence_cells Chi2GoodnessFit.set_cells].
  apply map_map_rect. reflexivity.
Qed.

Lemma click_cells_rects (p : Z * Z) (g : Chi2GoodnessFit.Globals) :
  map (map Chi2GoodnessFit.rect)
      (Chi2GoodnessFit.independence_cells (Chi2GoodnessFit.click_cells p g))
  = map (map Chi2GoodnessFit.rect) (Chi2GoodnessFit.independence_cells g).
Proof.
  unfold Chi2GoodnessFit.click_cells. cbv zeta.
  destruct (Chi2GoodnessFit.hit_cells p _);
    cbn [Chi2GoodnessFit.independence_cells Chi2GoodnessFit.set_cells
         Chi2GoodnessFit.set_has_calculated];
    apply map_map_rect; intros c; destruct (collidepoint _ p); reflexivity.
Qed.

(** Away from the independence page [calculate_layout] moves no cell. *)
Lemma calculate_layout_cells_elsewhere (g : Chi2GoodnessFit.Globals) :
  Chi2GoodnessFit.state g <> Chi2GoodnessFit.INDEPENDENCE ->
  Chi2GoodnessFit.independence_cells (Chi2GoodnessFit.calculate_layout g)
  = Chi2GoodnessFit.independence_cells g.
Proof.
  intros Hs. unfold Chi2GoodnessFit.calculate_layout. cbv zeta.
  destruct (Chi2GoodnessFit.state g); try reflexivity.
  exfalso. apply Hs. reflexivity.
Qed.

Section Chi2Table.

Import Chi2GoodnessFit.

Variable stats_chisquare : list Z -> list Q -> exc (Q * R).
Variable stats_chi2_contingency : list (list Z) -> exc (Q * R * Z).

(** What the button chain of the independence page leaves of the
    rectangles. *)
Lemma independence_buttons_rects (mp : Z * Z) (g1 g2 : Globals) :
  (if collidepoint (mkRect 30 10 100 40) mp then ok (set_state g1 MENU)
   else if collidepoint (calc_button g1) mp && negb (has_calculated g1)
   then ok (calculate_independence stats_chi2_contingency g1)
   else if collidepoint (reset_button g1) mp
   then reset_independence g1 else ok g1) = ok g2 ->
  map (map rect) (independence_cells g2)
  = map (map rect) (independence_cells g1).
Proof.
  intros E2. repeat break_if_in E2.
  - apply Chi2LoopFacts.ok_inj in E2. subst g2. reflexivity.
  - apply Chi2LoopFacts.ok_inj in E2. subst g2.
    destruct (Chi2LoopFacts.calculate_independence_frame
                stats_chi2_contingency g1) as (_ & _ & Ec).
    rewrite Ec. reflexivity.
  - apply reset_independence_rects, E2.
  - apply Chi2LoopFacts.ok_inj in E2. subst g2. reflexivity.
Qed.

Lemma chi2_on_mousebuttondown_rects (mp : Z * Z) (g g' : Globals) :
  on_mousebuttondown stats_chisquare stats_chi2_contingency mp g = ok g' ->
  map (map rect) (independence_cells g')
  = map (map rect) (independence_cells g).
Proof.
  unfold on_mousebuttondown. intros E.
  destruct (state g).
  - cbv beta iota zeta delta [draw_menu] in E.
    repeat break_if_in E.
    + apply reset_goodness_of_fit_cells in E. rewrite E. reflexivity.
    + apply reset_independence_rects in E. exact E.
    + apply Chi2LoopFacts.ok_inj in E. subst g'. reflexivity.
    + apply Chi2LoopFacts.ok_inj in E. subst g'. reflexivity.
  - cbv beta iota zeta delta [draw_test_page] in E.
    set (g1 := if collidepoint (toggle_rect (layout g)) mp
               then set_show_instructions g (negb (show_instructions g))
               else g) in E.
    assert (H1 : independence_cells g1 = independence_cells g).
    { unfold g1. destruct (collidepoint _ mp); reflexivity. }
    clearbody g1.
    apply Chi2LoopFacts.bind_ok in E. destruct E as (g2 & E2 & E).
    assert (H2 : independence_cells g2 = independence_cells g).
    { rewrite <- H1. repeat break_if_in E2.
      - apply Chi2LoopFacts.ok_inj in E2. subst g2. reflexivity.
      - apply Chi2LoopFacts.ok_inj in E2. subst g2.
        destruct (Chi2LoopFacts.calculate_goodness_of_fit_frame
                    stats_chisquare g1) as (_ & _ & Ec).
        exact Ec.
      - apply reset_goodness_of_fit_cells, E2.
      - apply Chi2LoopFacts.ok_inj in E2. subst g2. reflexivity. }
    apply Chi2LoopFacts.bind_ok in E. destruct E as (r & Er & E).
    apply Chi2LoopFacts.ok_inj in E. subst g'.
    rewrite <- H2, <- (for_sliders_cells _ _ _ Er).
    destruct (snd r); reflexivity.
  - cbv beta iota zeta delta [draw_test_page] in E.
    set (g1 := if collidepoint (toggle_rect (layout g)) mp
               then set_show_instructions g (negb (show_instructions g))
               else g) in E.
    assert (H1 : independence_cells g1 = independence_cells g).
    { unfold g1. destruct (collidepoint _ mp); reflexivity. }
    clearbody g1.
    apply Chi2LoopFacts.bind_ok in E. destruct E as (g2 & E2 & E).
    apply Chi2LoopFacts.ok_inj in E. subst g'.
    rewrite click_cells_rects, clear_active_rects, <- H1.
    apply independence_buttons_rects with (mp := mp). exact E2.
  - cbv beta iota zeta delta [draw_tutorial] in E.
    repeat break_if_in E; apply Chi2LoopFacts.ok_inj in E; subst g';
      reflexivity.
Qed.

(** Only a resize on the independence page moves a cell. *)
Lemma chi2_handle_event_rects (mp : Z * Z) (g g' : Globals) (ev : Event) :
  handle_event stats_chisquare stats_chi2_contingency mp g ev = ok g' ->
  (forall w h, ev = VIDEORESIZE w h -> state g <> INDEPENDENCE) ->
  map (map rect) (independence_cells g')
  = map (map rect) (independence_cells g).
Proof.
  destruct ev as [|w h|key|button| |rel_y|]; cbn [handle_event];
    intros E Hev.
  - apply Chi2LoopFacts.ok_inj in E. subst g'. reflexivity.
  - apply Chi2LoopFacts.ok_inj in E. subst g'. unfold on_videoresize.
    cbv zeta. rewrite clear_active_rects.
    change (independence_cells (clear_dragging ?x))
      with (independence_cells x).
    rewrite calculate_layout_cells_elsewhere; [reflexivity|].
    exact (Hev w h eq_refl).
  - apply on_keydown_rects in E. exact E.
  - destruct (button =? 1)%Z.
    + apply chi2_on_mousebuttondown_rects in E. exact E.
    + apply Chi2LoopFacts.ok_inj in E. subst g'. reflexivity.
  - apply Chi2LoopFacts.ok_inj in E. subst g'. reflexivity.
  - unfold on_mousemotion in E.
    apply Chi2LoopFacts.bind_ok in E. destruct E as (r & Er & E).
    apply Chi2LoopFacts.ok_inj in E. subst g'.
    rewrite <- (for_sliders_cells _ _ _ Er).
    destruct (snd r); reflexivity.
  - apply Chi2LoopFacts.ok_inj in E. subst g'. reflexivity.
Qed.

Lemma chi2_on_videoresize_cells_apart (g : Globals) (w h : Z) :
  state g = INDEPENDENCE -> cells_apart (on_videoresize g w h).
Proof.
  intros Es. unfold on_videoresize. cbv zeta.
  apply (cells_apart_ext _ _ (clear_active_rects _)).
  apply (cells_apart_ext (calculate_layout
                            (set_window g (Z.max (Z.max w 800) MIN_WIDTH)
                                        (Z.max h calculate_min_height))));
    [reflexivity|].
  apply chi2_layout_cells_apart.
  - exact Es.
  - cbn [WIDTH set_window]. lia.
  - cbn [HEIGHT set_window]. unfold calculate_min_height, MIN_HEIGHT.
    cbv zeta. lia.
Qed.

End Chi2Table.

(** *** One click, one cell *)

Lemma In_hit_cells_of (p : Z * Z)
    (cells : list (list Chi2GoodnessFit.Cell)) (ij : nat * nat)
    (c : Chi2GoodnessFit.Cell) :
  Chi2GoodnessFit.lookup_cell cells ij = Some c ->
  collidepoint (Chi2GoodnessFit.rect c) p = true ->
  In ij (Chi2GoodnessFit.hit_cells p cells).
Proof.
  destruct ij as [i j]. unfold Chi2GoodnessFit.lookup_cell. cbn [fst snd].
  destruct (nth_error cells i) as [row|] eqn:Er; [|discriminate].
  intros Ec Hp. unfold Chi2GoodnessFit.hit_cells.
  apply in_flat_map. exists (i, row). split.
  - apply (nth_error_In _ i). rewrite nth_error_enumerate, Er. reflexivity.
  - apply in_flat_map. exists (j, c). split.
    + apply (nth_error_In _ j). cbn [snd].
      rewrite nth_error_enumerate, Ec. reflexivity.
    + cbn [fst snd]. rewrite Hp. left. reflexivity.
Qed.

Lemma last_all {A : Type} (l : list A) (a d : A) :
  l <> [] -> (forall x, In x l -> x = a) -> last l d = a.
Proof.
  intros Hl H. destruct (exists_last Hl) as (l' & x & ->).
  rewrite last_last. apply H. apply in_or_app. right. left. reflexivity.
Qed.

(** A click in one of a set of unmarked cells whose rectangles share no
    point marks that cell, makes it the active one, and marks no other. *)
Lemma click_cells_exact (p : Z * Z) (g : Chi2GoodnessFit.Globals)
    (ij : nat * nat) (c : Chi2GoodnessFit.Cell) :
  Chi2GoodnessFit.cells_apart g ->
  Forall (Forall (fun c => Chi2GoodnessFit.active c = false))
         (Chi2GoodnessFit.independence_cells g) ->
  Chi2GoodnessFit.lookup_cell (Chi2GoodnessFit.independence_cells g) ij
  = Some c ->
  collidepoint (Chi2GoodnessFit.rect c) p = true ->
  let g' := Chi2GoodnessFit.click_cells p g in
  Chi2GoodnessFit.active_cell g' = Some ij /\
  Chi2GoodnessFit.has_calculated g' = false /\
  (exists c', Chi2GoodnessFit.lookup_cell
                (Chi2GoodnessFit.independence_cells g') ij = Some c' /\
              Chi2GoodnessFit.active c' = true) /\
  (forall ij' c',
      Chi2GoodnessFit.lookup_cell
        (Chi2GoodnessFit.independence_cells g') ij' = Some c' ->
      Chi2GoodnessFit.active c' = true -> ij' = ij).
Proof.
  intros A F Ec Hp. cbv zeta.
  assert (Hall : forall x,
             In x (Chi2GoodnessFit.hit_cells p
                     (Chi2GoodnessFit.independence_cells g)) -> x = ij).
  { intros [a b] Hx. apply Chi2ActiveCell.In_hit_cells in Hx.
    destruct Hx as (cx & Ex & Hx). destruct ij as [i j].
    destruct (Nat.eq_dec a i) as [->|Ha];
      [destruct (Nat.eq_dec b j) as [->|Hb]; [reflexivity|]|].
    - assert (Hne : (i, j) <> (i, b)) by congruence.
      rewrite (A p _ _ _ _ Hne Ec Ex Hp) in Hx. discriminate Hx.
    - assert (Hne : (i, j) <> (a, b)) by congruence.
      rewrite (A p _ _ _ _ Hne Ec Ex Hp) in Hx. discriminate Hx. }
  pose proof (In_hit_cells_of p _ ij c Ec Hp) as Hin.
  unfold Chi2GoodnessFit.click_cells. cbv zeta.
  destruct (Chi2GoodnessFit.hit_cells p
              (Chi2GoodnessFit.independence_cells g))
    as [|h hits] eqn:Eh; [contradiction|].
  cbn [Chi2GoodnessFit.active_cell Chi2GoodnessFit.independence_cells
       Chi2GoodnessFit.has_calculated Chi2GoodnessFit.set_cells
       Chi2GoodnessFit.set_has_calculated].
  split; [|split; [reflexivity|split]].
  - f_equal. apply last_all; [discriminate | exact Hall].
  - rewrite lookup_cell_map, Ec. cbn [option_map]. rewrite Hp.
    eexists. split; reflexivity.
  - intros ij' c' E' Ha. rewrite lookup_cell_map in E'.
    destruct (Chi2GoodnessFit.lookup_cell
                (Chi2GoodnessFit.independence_cells g) ij')
      as [c0|] eqn:E0; [|discriminate E'].
    cbn [option_map] in E'. injection E' as <-.
    destruct (collidepoint (Chi2GoodnessFit.rect c0) p) eqn:H0.
    + apply Hall. rewrite <- Eh. exact (In_hit_cells_of p _ ij' c0 E0 H0).
    + rewrite (CellEditing.lookup_cell_Forall _ _ _ _ F E0) in Ha.
      discriminate Ha.
Qed.

Section Chi2Click.

Import Chi2GoodnessFit.

Variable stats_chisquare : list Z -> list Q -> exc (Q * R).
Variable stats_chi2_contingency : list (list Z) -> exc (Q * R * Z).

Lemma table_click_exact (g : Globals) (p : Z * Z) (ij : nat * nat)
    (c : Cell) :
  Inv g -> cells_apart g -> state g = INDEPENDENCE ->
  lookup_cell (independence_cells g) ij = Some c ->
  collidepoint (rect c) p = true ->
  exists g',
    on_mousebuttondown stats_chisquare stats_chi2_contingency p g = ok g' /\
    active_cell g' = Some ij /\ has_calculated g' = false /\
    (exists c', lookup_cell (independence_cells g') ij = Some c' /\
                active c' = true) /\
    (forall ij' c',
        lookup_cell (independence_cells g') ij' = Some c' ->
        active c' = true -> ij' = ij).
Proof.
  intros H A Es Ec Hp. unfold on_mousebuttondown. rewrite Es.
  cbv beta iota zeta delta [draw_test_page].
  set (g1 := if collidepoint (toggle_rect (layout g)) p
             then set_show_instructions g (negb (show_instructions g))
             else g).
  assert (H1 : Inv g1 /\ independence_cells g1 = independence_cells g).
  { unfold g1. destruct (collidepoint (toggle_rect (layout g)) p).
    - split; [exact H | reflexivity].
    - split; [exact H | reflexivity]. }
  clearbody g1. destruct H1 as [H1 C1].
  assert (H2 : exists g2,
             (if collidepoint (mkRect 30 10 100 40) p
              then ok (set_state g1 MENU)
              else if collidepoint (calc_button g1) p
                      && negb (has_calculated g1)
              then ok (calculate_independence stats_chi2_contingency g1)
              else if collidepoint (reset_button g1) p
              then reset_independence g1 else ok g1) = ok g2).
  { destruct (collidepoint (mkRect 30 10 100 40) p); [eauto|].
    destruct (collidepoint (calc_button g1) p && negb (has_calculated g1));
      [eauto|].
    destruct (collidepoint (reset_button g1) p); [|eauto].
    destruct (Chi2LoopFacts.reset_independence_Inv g1 H1) as (g2 & E & _).
    eauto. }
  destruct H2 as (g2 & E2). rewrite E2. cbn [bind ok].
  pose proof (independence_buttons_rects stats_chi2_contingency p g1 g2 E2)
    as R2.
  rewrite C1 in R2.
  assert (R3 : map (map rect) (independence_cells (clear_active g2))
               = map (map rect) (independence_cells g)).
  { rewrite clear_active_rects. exact R2. }
  pose proof (lookup_cell_rect _ _ ij R3) as L. rewrite Ec in L.
  destruct (lookup_cell (independence_cells (clear_active g2)) ij)
    as [c0|] eqn:E0; [|discriminate L].
  cbn [option_map] in L. injection L as L.
  eexists. split; [reflexivity|].
  apply (click_cells_exact p (clear_active g2) ij c0).
  - apply (cells_apart_ext _ _ R3). exact A.
  - exact (Chi2ActiveCell.clear_active_active g2).
  - exact E0.
  - rewrite L. exact Hp.
Qed.

End Chi2Click.

(** X30: in [Chi_2_Goodness_Fit.py] a resize on the independence page
    lays the table out, and from then on a click selects one cell.  The
    resize puts the cells where no point lies in the rectangles of two of
    them; every other event, and a resize on another page, leaves every
    rectangle as it was; and on the independence page of a program state
    with such rectangles a click in the rectangle of a cell never fails,
    makes that cell the active one, clears the result flag, and leaves
    that cell and no other marked active. *)
Theorem table_click_activates_one_cell :
  forall (stats_chisquare : list Z -> list Q -> exc (Q * R))
         (stats_chi2_contingency : list (list Z) -> exc (Q * R * Z)),
    (forall g w h,
        Chi2GoodnessFit.state g = Chi2GoodnessFit.INDEPENDENCE ->
        Chi2GoodnessFit.cells_apart (Chi2GoodnessFit.on_videoresize g w h)) /\
    (forall mouse_pos g g' ev,
        Chi2GoodnessFit.handle_event stats_chisquare stats_chi2_contingency
          mouse_pos g ev = ok g' ->
        (forall w h, ev = VIDEORESIZE w h ->
                     Chi2GoodnessFit.state g
                     <> Chi2GoodnessFit.INDEPENDENCE) ->
        map (map Chi2GoodnessFit.rect)
            (Chi2GoodnessFit.independence_cells g')
        = map (map Chi2GoodnessFit.rect)
              (Chi2GoodnessFit.independence_cells g)) /\
    (forall g mouse_pos ij c,
        Chi2GoodnessFit.Inv g -> Chi2GoodnessFit.cells_apart g ->
        Chi2GoodnessFit.state g = Chi2GoodnessFit.INDEPENDENCE ->
        Chi2GoodnessFit.lookup_cell
          (Chi2GoodnessFit.independence_cells g) ij = Some c ->
        collidepoint (Chi2GoodnessFit.rect c) mouse_pos = true ->
        exists g',
          Chi2GoodnessFit.handle_event stats_chisquare
            stats_chi2_contingency mouse_pos g (MOUSEBUTTONDOWN 1) = ok g' /\
          Chi2GoodnessFit.active_cell g' = Some ij /\
          Chi2GoodnessFit.has_calculated g' = false /\
          (exists c',
              Chi2GoodnessFit.lookup_cell
                (Chi2GoodnessFit.independence_cells g') ij = Some c' /\
              Chi2GoodnessFit.active c' = true) /\
          (forall ij' c',
              Chi2GoodnessFit.lookup_cell
                (Chi2GoodnessFit.independence_cells g') ij' = Some c' ->
              Chi2GoodnessFit.active c' = true -> ij' = ij)).
Proof.
  intros lib1 lib2. split; [|split].
  - intros g w h. apply chi2_on_videoresize_cells_apart.
  - intros mp g g' ev. apply chi2_handle_event_rects.
  - intros g mp ij c H A Es Ec Hp.
    cbn [Chi2GoodnessFit.handle_event].
    change (1 =? 1)%Z with true. cbv iota.
    apply (table_click_exact lib1 lib2 g mp ij c); assumption.
Qed.

Lemma table_click_activates_one_cell_witness :
  let g :=
    Chi2GoodnessFit.on_videoresize
      (Chi2GoodnessFit.set_state Chi2GoodnessFit.initial_globals
                                 Chi2GoodnessFit.INDEPENDENCE)
      1200 900 in
  exists g',
    Chi2GoodnessFit.handle_event Chi2GoodnessFit.chisquare_3
      Chi2GoodnessFit.chi2_contingency_2x3 (750, 700)%Z g
      (MOUSEBUTTONDOWN 1) = ok g' /\
    Chi2GoodnessFit.active_cell g' = Some (1%nat, 2%nat).
Proof.
  cbv zeta.
  destruct (table_click_activates_one_cell Chi2GoodnessFit.chisquare_3
              Chi2GoodnessFit.chi2_contingency_2x3) as (H1 & _ & H3).
  set (g0 := Chi2GoodnessFit.set_state Chi2GoodnessFit.initial_globals
                                       Chi2GoodnessFit.INDEPENDENCE).
  assert (I0 : Chi2GoodnessFit.Inv g0).
  { eapply Chi2LoopFacts.Inv_ext;
      [| | |exact Chi2LoopFacts.chi2_initial_globals_Inv]; reflexivity. }
  destruct (Chi2GoodnessFit.lookup_cell
              (Chi2GoodnessFit.independence_cells
                 (Chi2GoodnessFit.on_videoresize g0 1200 900))
              (1%nat, 2%nat)) as [c|] eqn:Ec.
  - destruct (H3 (Chi2GoodnessFit.on_videoresize g0 1200 900)
                 (750, 700)%Z (1%nat, 2%nat) c) as (g' & E & Ha & _).
    + unfold Chi2GoodnessFit.on_videoresize.
      apply Chi2LoopFacts.clear_active_Inv,
            Chi2LoopFacts.chi2_clear_dragging_Inv,
            Chi2LoopFacts.chi2_calculate_layout_Inv.
      exact I0.
    + apply H1. reflexivity.
    + reflexivity.
    + exact Ec.
    + vm_compute in Ec. injection Ec as <-. reflexivity.
    + exists g'. split; [exact E | exact Ha].
  - vm_compute in Ec. discriminate Ec.
Defined.

End Chi2Layout.
